(* ===== verification/_CoqProject ===== *)
-Q . S2P
Prelude.v
Unicode.v
Ctypes.v
PyValue.v
Container.v
Integers.v
Floats.v
Strings.v
Fixed.v
Network.v
Temporal.v
Dates.v
Decimal.v
Env.v
Allocator.v
Names.v
Cell.v
Repr.v
Examples.v
