(* ===== verification/Prelude.v ===== *)
(** * iitypes: a verification development of the Ingres typed-value layer

    The repository (quelgeek/iitypes) is a Python package that converts
    between Python values and the binary buffers the Ingres OpenAPI
    exchanges with the DBMS.  Everything lives in [src/src/iitypes/types.py];
    [classic.py] and [standard.py] only re-export its names.  Each Ingres type
    is a Python class derived from [IIAPI_TYPE]. A class owns an
    [IIAPI_DESCRIPTOR], an [IIAPI_DATAVALUE] and a ctypes buffer. The
    value setter of the class encodes a Python value into the buffer; its
    getter decodes the buffer.

    ** The parts of the program and where they are modelled

    - [Prelude] (this file): the Python exceptions the code raises, the
      result type and the exception-preserving state monad [PyM] used to
      model methods that mutate [self] (the state survives an exception,
      as the instance does in Python), the little-endian byte codec shared
      by every ctypes field, [splice]/[slice] on buffers, decimal printing
      of integers ([str(int)]), the shared tactics and hint databases.
    - [PyValue]: the Python host values the setters accept and the
      getters return ([int], [bool], [float], [str], [bytes], [bytearray],
      [tuple], [None], the marker classes [NULL]/[NOTNULL]/[WITHNULL]),
      and the Python operations the setters apply to them ([==] with an
      int, [in], [abs], hashing, tuple indexing).  A [str] is its list of
      code points, a [bytes] its list of byte values.
    - [Unicode]: the strict codecs behind [str.encode()], [bytes.decode()]
      and ['utf-16le'] (NCHAR, NVARCHAR).
    - [Ctypes]: the ctypes machinery the code relies on: scalar C types,
      the size, alignment and field offsets of a [ctypes.Structure] built
      by [Buffer_Factory] (lines 72-75), integer fields with C wrap-around,
      [c_bool], and CPython's [c_char] array accessors [s_get]/[s_set],
      which stop at the first NUL byte.
    - [Container]: the base class [IIAPI_TYPE] (lines 156-457): the
      descriptor, the two construction modes of [__init__] ([init]),
      [_set]/[_set_null]/[_set_value] ([set], [set_null], [set_value]),
      the [value] property ([value]), [_peek] and [_poke].  The subclass
      hooks ([_get_ds_length], [_validate_size], [_allocate_buffer],
      [_value_setter], [_get_python_value], [_clear_buffer], ...) form the
      record [family] each subclass instantiates, and the class
      [FamilyLaws] is the interface a subclass promises the base class:
      its setter writes the buffer in place, keeping its size.  The
      sizes [__init__] computes are stored in the 16-bit fields of
      pyngres's [IIAPI_DESCRIPTOR] ([ds_uint2] for [ds_length], [ds_int2]
      for [ds_precision] and [ds_scale]), which wrap modulo [2^16] as
      ctypes does.  The state
      of an instance is the record [container]; every method is a [PyM]
      computation on it.
    - [Integers] (Module [Int]): [IIAPI_TYPE_WITH_1248], [IIAPI_INT_TYPE]
      and the wrappers [Integer1] ... [Integer8] (lines 1866-2064).
    - [Floats]: [IIAPI_FLT_TYPE] and the wrappers [Float4], [Float8]
      (Module [Flt], lines 1889-2036), over the IEEE-754 interchange
      encoding of binary32 and binary64 (Module [IEEE]) built on the
      [spec_float] of the standard library, whose rounding is the C
      conversion a [c_float] store performs.
    - [Strings]: [IIAPI_TYPE_WITH_LIMITED_SIZE] (Module [Limited]) and its
      subclasses BYTE, CHAR, C, TEXT, VARBYTE, VARCHAR, NCHAR and NVARCHAR
      (lines 1346-1862).
    - [Fixed]: [IIAPI_TYPE_WITH_INTRINSIC_SIZE] (Module [Intrinsic]) and
      BOOLEAN ([Bool]), OBJECT_KEY and TABLE_KEY ([Key]), INTERVAL YEAR TO
      MONTH ([Intym], whose [format()] and [timedelta] conversions are
      parameters).
    - [Network]: IPV4 and IPV6 ([IP]), with [ipaddress.ip_address]
      modelled for [int], [bytes], address objects and dotted-quad text,
      and UUID ([Uuid]); the IPv6 text syntax and [uuid.UUID(str)] are
      parameters.
    - [Temporal]: the clock functions [CURRENT_DATE] ... [TIMESTAMP_UNIX]
      (Module [Clock], over explicit clock readings, one per call of
      [now()] or [today()]), the [datetime] operations the code calls
      (Module [Datetime]: the [timedelta] constructor, [isoformat],
      [str.lower], [str.strip]), and [IIAPI_TYPE_WITH_RESOLUTION] with
      INTERVAL DAY TO SECOND, TIME, TIME WITH TIME ZONE, TIME (naive),
      TIMESTAMP and its two variants (Module [Resolution]).  Their setters
      run on two instances, the [CHAR(64)] class attribute [_conv_source]
      every resolution type shares and [self]: a [str] is assigned to
      [_conv_source] with the CHAR setter of [Strings], then [format()]
      converts it into [self].  [format()], the rendering [format()]
      writes into [_conv_target], and [fromisoformat] are parameters
      ([Resolution.external]).
    - [Dates]: ANSIDATE (Module [Ansidate], lines 489-570), INGRESDATE
      (Module [Ingresdate], lines 630-875) and MONEY (Module [Money],
      lines 1089-1166), with the range checks of [datetime.date] and
      [datetime.datetime] (Module [Calendar]).  A [str] goes to the
      per-instance [_conv_source] and [format()] as in [Temporal]; the
      [float] roundings of the INGRESDATE getter, [date.fromisoformat] and
      [float()] of non-numeric values are parameters.
    - [Decimal]: DECIMAL (Module [Decimal], lines 2508-2645): the size
      [int(precision / 2) + 1] computed through a [float], the precision
      and scale inferred or taken from the arguments, their validation,
      and the setter's text [lod.rod[:scale]] handed to [format()];
      [str()] of a [float], [format()] and [float(str)] are parameters.
    - [Env]: the module global [_envHandle] with [publish_envHandle] (its
      version loop) and [get_envHandle], and [format()] (lines 29-98):
      the handle check, the [IIAPI_FORMATPARM] holding copies of both
      descriptors and data values, the driver call and its status.  The
      driver ([IIapi_initialize], [IIapi_formatData] and the constants of
      [iiapi.h]) is the record [Env.driver]; [Env.step] and [Env.run] are
      the calls a program makes, in order.  The class [FormatDriver] is
      what [format()] needs of the driver (it writes within the
      destination buffer), and [format_in_place] discharges the law the
      families assume of their [format] parameter.
    - [Allocator]: the locator classes (Module [Locator], lines
      2651-2716), whose construction always fails; [IIAPI_LBYTE_TYPE]
      and [allocator_for_type] (Module [Alloc]), the table from a type
      code to its class, over a record [drivers] of every parameter the
      families take; [Alloc.with_format] gives them the module's
      [format()], and the class [DriversLaws] collects what they assume
      of it.
    - [Cell]: the abstract specification of an INTEGER instance, a
      nullable signed cell of [8 * size] bits ([Cell.assign],
      [Cell.read]), and the abstraction [abs] from a container to a
      cell.
    - [Names]: the module namespaces.  The statements of types.py that
      bind names (its header, [def] and [class] statements and the alias
      block of lines 2736-2773) run in order into a [gmap string binding];
      classic.py ([from .common import *], [from .types import (...)])
      and standard.py ([from .classic import *], [from .types import
      (...)]) are built from it, the missing module [.common] being a
      parameter.  [Names.qualname] is the [__qualname__] of each class.
    - [Repr]: the [name] property (its second definition, the one Python
      keeps), [_reprfy_nullability], and [__repr__] of INTEGER and of the
      intrinsic-size types with BOOLEAN's [_reprfy_value] and
      [formatted()], with the constructor call each [__repr__] denotes.
    - [Examples]: every theorem with hypotheses applied to a concrete
      instance ([SMALLINT], [BYTE(5)], [VARBYTE(3)], [NVARCHAR(2)],
      [CHAR(5)], [BOOLEAN], an OBJECT_KEY, an INTERVAL, IPV4, IPV6, UUID,
      INTERVAL DAY TO SECOND, [TIME(4)], a clock reading, FLOAT4, ANSIDATE,
      INGRESDATE, MONEY, DECIMAL(5,4), the two modules with an empty
      [.common]), so that the
      hypotheses are shown satisfiable by evaluation.

    ** What the theorems show

    - Invariant: every instance [__init__] returns has a buffer of the
      size of its structure, with [dv_value] set exactly when it is not
      NULL ([Container.init_inv]); every family satisfies [FamilyLaws];
      a NOT NULL instance is never NULL, whatever is assigned to it
      ([Repr.notnull_never_null], through [Repr.reachable_ind], the
      induction principle of the instances [__init__] and assignments
      reach).
    - Functional behaviour and round trips: what each setter stores and
      the getter returns, on every branch: integers within their bounds,
      CHAR with its blank padding, NVARCHAR exactly, VARBYTE up to the
      first NUL, BOOLEAN, the keys, INTERVAL YEAR TO MONTH, IPV4, IPV6,
      UUID, INTERVAL DAY TO SECOND, the clock strings, FLOAT4 and FLOAT8
      (bit-exact through the IEEE encoding, rounded to single precision
      for FLOAT4), ANSIDATE, and MONEY (its [v * 100.] and [/ 100.] both
      rounded, so a [float] need not read back as itself), the text
      DECIMAL hands [format()] (cut to the scale, not rounded); the codecs
      (little-endian, UTF-8, UTF-16LE) round-trip; [name] reads back the
      [name=] keyword ([Repr.name_keyword]); [eval(repr(x))] rebuilds an
      INTEGER or a BOOLEAN with the same value, size, nullability and
      [__repr__] ([Repr.int_repr_roundtrip], [Repr.bool_repr_roundtrip]).
    - Errors and their side effects: the exception each setter raises and
      the state it leaves, in particular the partial updates the code
      makes before raising (null flag cleared, BYTE buffer zeroed, VARBYTE
      length written), the assignments INGRESDATE accepts without storing
      ([datetime]) or always refuses ([timedelta]), and the memory a [memmove] reads past a short
      source (IPV6 given an IPv4 address, [_poke]).
    - Bounds and sizes: the integer bounds, the size limits of the string
      types and how the 16-bit [ds_length] lets an oversized NCHAR through
      ([Strings.nchar_size_wraps]), the [dv_length] the ctypes layout gives each buffer, and the
      precision, scale and size of a DECIMAL.
    - Types: the class [allocator_for_type] selects carries the type
      code of the descriptor ([Allocator.allocator_class_type]), and
      every instance it builds keeps the container invariant
      ([Allocator.allocated_instance_inv]).
    - The package namespaces: importing classic.py and standard.py never
      raises [ImportError], whatever [.common] binds
      ([Names.package_imports_resolve]); the classes they export are
      exactly those [allocator_for_type] builds a family for
      ([Names.exported_classes_allocated]); the markers and functions the
      tests read through them come only from the missing [.common]
      ([Names.test_names_from_common]).
    - Refinement: after any sequence of assignments an INTEGER instance
      stands for the cell its specification reaches, with the same
      outcome for each assignment ([Cell.int_refines_cell]).
    - The environment handle: it is set at most once
      ([Env.handle_set_once], by induction on the reachable states), and
      once a version initialises [format()] no longer fails for want of
      it ([Env.publish_enables_format]).
    - Termination: the fuel of [str(int)] is enough
      ([Decimal.digits_acc_fuel]).
    - Layout safety: the fields of a structure are aligned and disjoint.
    - Equivalence: the pad-and-cut of the TIME and TIMESTAMP getters
      equals the truncation of the fraction to 0, 3 or 6 digits the spec
      describes ([Temporal.TIME_value_truncates]); [int(p / 2) + 1]
      through a [float] equals [p / 2 + 1] on every valid precision.
    Where the code and the spec disagree, the theorem states what the code
    does; PROJECT.json lists these as findings.

    ** Not modelled, and the plan for them

    The OpenAPI driver calls ([IIapi_initialize], [IIapi_formatData])
    are parameters, and so is the pyngres module, whose descriptor field
    widths are taken from the OpenAPI's [II_UINT2]/[II_INT2]; each
    family's model keeps [format()] as a parameter
    with the law [Env] proves of it.  The geospatial type codes, which [allocator_for_type]
    maps to the stub [____], are not in [datatype].  [__repr__],
    [__str__] and [formatted()] are modelled for INTEGER and BOOLEAN
    only: those of FLOAT print with the [.8g]/[.15g] format specs, the
    string types through [codecs.escape_decode], and the others through
    [format()] and its native rendering, none of which the development
    models.  The module [.common] that classic.py star-imports is not in
    the repository; its namespace is a parameter.  [ctypes.addressof]
    ([address]) returns a machine address and is left out.  The
    locator classes override [_set] to raise [RuntimeError] at once; the
    family record has no [_set] hook, so [Locator.set] models it apart,
    and no locator instance exists to call it on.

    ** Modelling choices

    - The platform is x86-64 Linux (little-endian, [c_long] of 8 bytes);
      [Ctypes.platform] makes the size of [c_long] explicit.
    - Every byte is a [Z] in [0, 256); a buffer is a [list Z]; machine
      integers keep their width through [le_encode]/[le_decode_signed].
    - The constants of the pyngres module ([IIAPI_BOOL_LEN],
      [IIAPI_LOGKEY_LEN], [IIAPI_INTYM_LEN], ...) take the values of the
      Ingres OpenAPI headers (1, 16, 3, ...), as the spec states.
    - [IIAPI_INTDS_LEN], [IIAPI_TIME_LEN] and [IIAPI_TS_LEN] are 12, 10
      and 14, the lengths of the OpenAPI's [IIAPI_INTDS_TYPE],
      [IIAPI_TIME_TYPE] and [IIAPI_TS_TYPE] values; [IIAPI_DATE_LEN],
      [IIAPI_DTE_LEN] and [IIAPI_MNY_LEN] are 4, 12 and 8.
    - Fuel: [string_of_Z] recurses on a fuel of [log2 n + 1] steps, the
      bit size of its argument, which exceeds its number of decimal
      digits; [Decimal.digits_acc_fuel] shows that more fuel changes
      nothing.  Nothing else needs fuel: the version loop of
      [publish_envHandle] recurses on the version count, and every other
      recursion is structural. *)

From stdpp Require Export base list option strings sets.
From Stdlib Require Export ZArith Lia Ascii.

Declare Scope iitypes_scope.
Delimit Scope iitypes_scope with ii.
Open Scope Z_scope.

(** ** Python exceptions *)

(** The exception classes raised by [types.py], with their messages
    (what [str(e)] returns). *)
Inductive exc : Type :=
| RuntimeError (msg : string)
| ValueError (msg : string)
| TypeError (msg : string)
| OverflowError (msg : string)
| KeyError (msg : string)
| IndexError (msg : string)
| NameError (msg : string)
| ImportError (msg : string)
| AttributeError (msg : string)
| UnicodeEncodeError
| UnicodeDecodeError
| NotImplementedError (msg : string)
(** Not an exception: the interpreter dies on a bad memory access, as
    when [ctypes.memset] is handed the [None] address. *)
| MemoryFault.

#[export] Instance exc_eq_dec : EqDecision exc.
Proof. solve_decision. Defined.

(** ** Results and the exception-preserving state monad *)

Inductive result (A : Type) : Type :=
| Ok (a : A)
| Err (e : exc).
Arguments Ok {A} a.
Arguments Err {A} e.

#[export] Instance result_eq_dec `{EqDecision A} : EqDecision (result A).
Proof. solve_decision. Defined.

#[export] Instance result_ret : MRet result := λ A a, Ok a.
#[export] Instance result_bind : MBind result :=
  λ A B f m, match m with Ok a => f a | Err e => Err e end.
#[export] Instance result_fmap : FMap result :=
  λ A B f m, match m with Ok a => Ok (f a) | Err e => Err e end.

(** A Python method on [self] runs from a state to a state and a result.
    The state survives an exception: whatever the method mutated before
    it raised stays mutated, exactly as in Python. *)
Definition PyM (S A : Type) : Type := S → S * result A.

#[export] Instance pym_ret {S} : MRet (PyM S) := λ A a s, (s, Ok a).
#[export] Instance pym_bind {S} : MBind (PyM S) :=
  λ A B f m s, match m s with
               | (s', Ok a) => f a s'
               | (s', Err e) => (s', Err e)
               end.

Definition raise {S A} (e : exc) : PyM S A := λ s, (s, Err e).
Definition getS {S} : PyM S S := λ s, (s, Ok s).
Definition putS {S} (s : S) : PyM S unit := λ _, (s, Ok ()).
Definition modifyS {S} (f : S → S) : PyM S unit := λ s, (f s, Ok ()).
Definition lift {S A} (r : result A) : PyM S A := λ s, (s, r).

Notation "'throw' e" := (Err e) (at level 10) : iitypes_scope.

(** ** Bytes and the little-endian codec of ctypes scalars *)

Definition is_byte (b : Z) : Prop := 0 ≤ b < 256.
Definition bytes_ok (bs : list Z) : Prop := Forall is_byte bs.

Definition zeros (n : nat) : list Z := replicate n 0.

(** [n] bytes of [v], least significant first, wrapping as a C store does. *)
Fixpoint le_encode (n : nat) (v : Z) : list Z :=
  match n with
  | O => []
  | S n' => Z.land v 255 :: le_encode n' (Z.shiftr v 8)
  end.

Fixpoint le_decode (bs : list Z) : Z :=
  match bs with
  | [] => 0
  | b :: bs' => b + 256 * le_decode bs'
  end.

Definition modulus (n : nat) : Z := 2 ^ (8 * Z.of_nat n).
Definition half_modulus (n : nat) : Z := 2 ^ (8 * Z.of_nat n - 1).

(** A two's-complement read of [n] bytes. *)
Definition le_decode_signed (bs : list Z) : Z :=
  let u := le_decode bs in
  if decide (half_modulus (length bs) ≤ u) then u - modulus (length bs) else u.

Definition wrap_unsigned (n : nat) (v : Z) : Z := v mod modulus n.
Definition wrap_signed (n : nat) (v : Z) : Z :=
  (v + half_modulus n) mod modulus n - half_modulus n.

(** ** Byte-range updates of a buffer ([ctypes.memmove] into [buf]) *)

Definition splice (buf : list Z) (off : nat) (data : list Z) : list Z :=
  take off buf ++ data ++ drop (off + length data) buf.

Definition slice (buf : list Z) (off n : nat) : list Z := take n (drop off buf).

(** ** [str(int)]: decimal printing *)

Fixpoint digits_acc (fuel : nat) (n : Z) (acc : string) : string :=
  match fuel with
  | O => acc
  | S f =>
      let acc' := String (ascii_of_nat (48 + Z.to_nat (n mod 10))) acc in
      if decide (n < 10) then acc' else digits_acc f (n / 10) acc'
  end.

Definition string_of_Z (z : Z) : string :=
  if decide (z < 0) then "-" +:+ digits_acc (Z.to_nat (Z.log2 (- z)) + 1) (- z) ""
  else digits_acc (Z.to_nat (Z.log2 z) + 1) z "".

(** ** Automation *)

Create HintDb iitypes discriminated.
Create Rewrite HintDb iitypes_len.

Ltac invc H := inversion H; subst; clear H.

(** Split the binds of [result] and [PyM] computations in the goal. *)
Ltac res_case :=
  match goal with
  | |- context [match ?m with Ok _ => _ | Err _ => _ end] => destruct m eqn:?
  | |- context [if decide ?P then _ else _] => destruct (decide P)
  end.

(** Split the [result] binds and decisions of hypothesis [H], dropping
    the branches where [H] is an error it cannot be. *)
Ltac res_unfold H :=
  try unfold mbind in H; try unfold result_bind in H;
  try unfold fmap in H; try unfold result_fmap in H.
Ltac res_step H :=
  res_unfold H;
  match type of H with
  | context [match ?m with Ok _ => _ | Err _ => _ end] =>
      let E := fresh "E" in destruct m eqn:E; try discriminate H
  | context [if decide ?P then _ else _] => destruct (decide P); try discriminate H
  end.
Ltac res_destr H := repeat res_step H; res_unfold H.

(** Unfold the monadic glue of a [PyM] computation in the goal. *)
Ltac pym_unfold :=
  unfold mbind, pym_bind, result_bind, modifyS, lift, getS, putS, raise.
(** Prove a decidable proposition on closed terms by evaluation. *)
Ltac decide_prop := apply (bool_decide_unpack _); vm_compute; exact I.

Ltac pym_unfold_in H :=
  unfold mbind, pym_bind, result_bind, modifyS, lift, getS, putS, raise in H.

(** ** Strings *)

Lemma string_app_assoc (s1 s2 s3 : string) : (s1 +:+ s2) +:+ s3 = s1 +:+ (s2 +:+ s3).
Proof. induction s1 as [|a s1 IH]; [reflexivity|]. exact (f_equal (String a) IH). Qed.

(** A property of the integers of a range, decided by evaluation. *)
Lemma forall_range_check (P : Z → Prop) `{∀ z, Decision (P z)} (lo : Z) (n : nat) :
  forallb (λ k, bool_decide (P (lo + Z.of_nat k))) (seq 0 n) = true →
  ∀ z, lo ≤ z < lo + Z.of_nat n → P z.
Proof.
  intros Hc z Hz. rewrite forallb_forall in Hc.
  specialize (Hc (Z.to_nat (z - lo))). rewrite in_seq in Hc.
  replace z with (lo + Z.of_nat (Z.to_nat (z - lo))) by lia.
  apply (bool_decide_eq_true_1 _), Hc. lia.
Qed.

(** ** Lemmas on the byte codec *)

Lemma length_zeros n : length (zeros n) = n.
Proof. apply length_replicate. Qed.

Lemma length_le_encode n v : length (le_encode n v) = n.
Proof. revert v; induction n; intros; simpl; auto. Qed.

Lemma modulus_pos n : 0 < modulus n.
Proof. unfold modulus. apply Z.pow_pos_nonneg; lia. Qed.

Lemma modulus_S n : modulus (S n) = 256 * modulus n.
Proof.
  unfold modulus. rewrite Nat2Z.inj_succ, Z.mul_succ_r, Z.add_comm, Z.pow_add_r by lia.
  reflexivity.
Qed.

Lemma half_modulus_spec n : (0 < n)%nat → modulus n = 2 * half_modulus n.
Proof.
  intros Hn. unfold modulus, half_modulus.
  rewrite <- Z.pow_succ_r by lia. f_equal. lia.
Qed.

Lemma mod_256_split v k : 0 < k → v mod (256 * k) = v mod 256 + 256 * ((v / 256) mod k).
Proof.
  intros Hk. rewrite Z.rem_mul_r by lia. reflexivity.
Qed.

Lemma le_decode_encode n v : le_decode (le_encode n v) = wrap_unsigned n v.
Proof.
  unfold wrap_unsigned. revert v; induction n as [|n IH]; intros v; simpl.
  - unfold modulus. simpl. rewrite Z.mod_1_r. reflexivity.
  - rewrite IH, modulus_S, mod_256_split by apply modulus_pos.
    rewrite Z.shiftr_div_pow2 by lia.
    change (Z.land v 255) with (Z.land v (Z.ones 8)).
    rewrite Z.land_ones by lia. reflexivity.
Qed.

Lemma le_encode_bytes n v : bytes_ok (le_encode n v).
Proof.
  revert v; induction n as [|n IH]; intros v; constructor; [|apply IH].
  change (Z.land v 255) with (Z.land v (Z.ones 8)).
  rewrite Z.land_ones by lia. unfold is_byte. apply Z.mod_pos_bound. lia.
Qed.

Lemma le_decode_range bs : bytes_ok bs → 0 ≤ le_decode bs < modulus (length bs).
Proof.
  induction 1 as [|b bs Hb _ IH]; simpl.
  - unfold modulus. simpl. lia.
  - rewrite modulus_S. unfold is_byte in Hb. lia.
Qed.

Lemma wrap_unsigned_small n v : 0 ≤ v < modulus n → wrap_unsigned n v = v.
Proof. apply Z.mod_small. Qed.

Lemma le_decode_signed_encode n v :
  (0 < n)%nat → le_decode_signed (le_encode n v) = wrap_signed n v.
Proof.
  intros Hn. unfold le_decode_signed, wrap_signed.
  rewrite length_le_encode, le_decode_encode. unfold wrap_unsigned.
  pose proof (half_modulus_spec n Hn) as Hm.
  assert (0 < half_modulus n) by (unfold half_modulus; apply Z.pow_pos_nonneg; lia).
  rewrite <- Z.add_mod_idemp_l by lia.
  pose proof (Z.mod_pos_bound v (modulus n) ltac:(lia)).
  destruct (decide _).
  - replace (v mod modulus n + half_modulus n)
      with ((v mod modulus n - modulus n + half_modulus n) + 1 * modulus n) by lia.
    rewrite Z.mod_add, (Z.mod_small (_ - _ + _)) by lia. lia.
  - rewrite (Z.mod_small (_ + _)) by lia. lia.
Qed.

Lemma wrap_signed_small n v :
  (0 < n)%nat → - half_modulus n ≤ v < half_modulus n → wrap_signed n v = v.
Proof.
  intros Hn Hv. unfold wrap_signed. pose proof (half_modulus_spec n Hn).
  rewrite Z.mod_small by lia. lia.
Qed.

(** Encoding the value of a list of bytes on as many bytes gives the
    list back: the little-endian codec loses nothing. *)
Lemma le_encode_decode bs : bytes_ok bs → le_encode (length bs) (le_decode bs) = bs.
Proof.
  induction 1 as [|b bs Hb Hbs IH]; simpl; [done|]. unfold is_byte in Hb.
  change (Z.land _ 255) with (Z.land (b + 256 * le_decode bs) (Z.ones 8)).
  rewrite Z.land_ones, Z.shiftr_div_pow2 by lia.
  replace ((b + 256 * le_decode bs) mod 2 ^ 8) with b by (Z.div_mod_to_equations; nia).
  replace ((b + 256 * le_decode bs) / 2 ^ 8) with (le_decode bs) by (Z.div_mod_to_equations; nia).
  by rewrite IH.
Qed.

(** ** Lemmas on [splice] and [slice] *)

Section splice.
Context (buf data : list Z) (off : nat).
Hypothesis Hfit : (off + length data ≤ length buf)%nat.

Lemma length_splice : length (splice buf off data) = length buf.
Proof. unfold splice. rewrite !length_app, length_take, length_drop. lia. Qed.

Lemma slice_splice_eq : slice (splice buf off data) off (length data) = data.
Proof.
  unfold slice, splice. rewrite drop_app_length'; [|rewrite length_take; lia].
  by rewrite take_app_length.
Qed.

Lemma take_splice : take off (splice buf off data) = take off buf.
Proof.
  unfold splice. rewrite take_app_length'; [done|]. rewrite length_take. lia.
Qed.

Lemma drop_splice :
  drop (off + length data) (splice buf off data) = drop (off + length data) buf.
Proof.
  unfold splice. rewrite app_assoc, drop_app_length'; [done|].
  rewrite length_app, length_take. lia.
Qed.

Lemma lookup_splice i :
  splice buf off data !! i =
  if decide (off ≤ i < off + length data)%nat then data !! (i - off)%nat else buf !! i.
Proof.
  unfold splice. case_decide.
  - rewrite lookup_app_r by (rewrite length_take; lia).
    rewrite length_take, Nat.min_l by lia. rewrite lookup_app_l by lia. done.
  - destruct (decide (i < off)%nat).
    + rewrite lookup_app_l by (rewrite length_take; lia).
      rewrite lookup_take, decide_True by done. done.
    + rewrite lookup_app_r by (rewrite length_take; lia).
      rewrite length_take, Nat.min_l by lia. rewrite lookup_app_r by lia.
      rewrite lookup_drop. f_equal. lia.
Qed.

(** A store leaves every slice it does not overlap alone. *)
Lemma slice_splice_disjoint o n :
  (o + n ≤ off ∨ off + length data ≤ o)%nat →
  slice (splice buf off data) o n = slice buf o n.
Proof.
  intros Hd. unfold slice. apply list_eq. intros j.
  rewrite !lookup_take, !lookup_drop. case_decide; [|done].
  rewrite lookup_splice. case_decide; [lia|done].
Qed.
End splice.

Lemma slice_splice_prefix buf off data n :
  (off ≤ length buf)%nat → (length data ≤ n)%nat →
  slice (splice buf off data) off n
  = data ++ take (n - length data) (drop (off + length data) buf).
Proof.
  intros Hoff Hn. unfold slice, splice.
  rewrite drop_app_length' by (rewrite length_take; lia).
  rewrite take_app, take_ge by lia. done.
Qed.

Lemma splice_replicate_0 n x data :
  (length data ≤ n)%nat → splice (replicate n x) 0 data = data ++ replicate (n - length data) x.
Proof.
  intros Hn. unfold splice. simpl. rewrite drop_replicate. done.
Qed.

Lemma splice_bytes buf off data :
  bytes_ok buf → bytes_ok data → bytes_ok (splice buf off data).
Proof.
  intros Hb Hd. unfold splice, bytes_ok in *.
  apply Forall_app; split; [by apply Forall_take|].
  apply Forall_app; split; [done|by apply Forall_drop].
Qed.

Lemma zeros_bytes n : bytes_ok (zeros n).
Proof. apply Forall_replicate. unfold is_byte. lia. Qed.

#[export] Hint Rewrite length_zeros length_le_encode length_splice : iitypes_len.
#[export] Hint Resolve le_encode_bytes zeros_bytes splice_bytes : iitypes.
