(* ===== verification/Unicode.v ===== *)
(** * Unicode: the codecs behind [str.encode()] and [bytes.decode()]

    A Python [str] is modelled as its list of code points.  [types.py]
    uses two codecs of CPython, both in their [strict] error mode:
    - UTF-8, for [value.encode()] in [_to_bytes] and [v.decode()] in the
      getters of CHAR, TEXT and VARCHAR;
    - UTF-16LE, for [value.encode('utf-16le')] in
      [IIAPI_UNICODE_TYPE_WITH_LIMITED_SIZE._encode] and [_decode].
    Both refuse a lone surrogate on encoding ([UnicodeEncodeError]) and
    ill-formed input on decoding ([UnicodeDecodeError]); here a refusal
    is [None].  The theorems are the round trips and the exact length of
    an encoding, which the size inference of CHAR and NVARCHAR gets
    wrong. *)

From S2P Require Import Prelude.

(** ** Code points *)

Definition is_surrogate (c : Z) : Prop := 0xD800 ≤ c ≤ 0xDFFF.
Definition is_code_point (c : Z) : Prop := 0 ≤ c ≤ 0x10FFFF.
(** A Unicode scalar value: what both codecs accept. *)
Definition is_scalar (c : Z) : Prop := is_code_point c ∧ ¬ is_surrogate c.

#[export] Instance is_scalar_dec c : Decision (is_scalar c).
Proof. unfold is_scalar, is_code_point, is_surrogate. solve_decision. Defined.

Definition is_cont (b : Z) : Prop := 0x80 ≤ b ≤ 0xBF.

(** ** UTF-8 *)

Definition utf8_encode_char (c : Z) : option (list Z) :=
  if decide (c < 0x80) then Some [c]
  else if decide (c < 0x800) then
    Some [0xC0 + Z.shiftr c 6; 0x80 + Z.land c 63]
  else if decide (c < 0x10000) then
    if decide (is_surrogate c) then None
    else Some [0xE0 + Z.shiftr c 12; 0x80 + Z.land (Z.shiftr c 6) 63;
               0x80 + Z.land c 63]
  else Some [0xF0 + Z.shiftr c 18; 0x80 + Z.land (Z.shiftr c 12) 63;
             0x80 + Z.land (Z.shiftr c 6) 63; 0x80 + Z.land c 63].

Fixpoint utf8_encode (s : list Z) : option (list Z) :=
  match s with
  | [] => Some []
  | c :: s' =>
      bs ← utf8_encode_char c;
      rest ← utf8_encode s';
      Some (bs ++ rest)
  end.

(** The strict decoder of CPython: no overlong forms, no surrogates,
    nothing above U+10FFFF. *)
Fixpoint utf8_decode (bs : list Z) : option (list Z) :=
  match bs with
  | [] => Some []
  | b0 :: r =>
      if decide (0 ≤ b0 < 0x80) then cons b0 <$> utf8_decode r
      else if decide (0xC2 ≤ b0 ≤ 0xDF) then
        match r with
        | b1 :: r' =>
            if decide (is_cont b1)
            then cons ((b0 - 0xC0) * 64 + (b1 - 0x80)) <$> utf8_decode r'
            else None
        | _ => None
        end
      else if decide (0xE0 ≤ b0 ≤ 0xEF) then
        match r with
        | b1 :: b2 :: r' =>
            let lo := if decide (b0 = 0xE0) then 0xA0 else 0x80 in
            let hi := if decide (b0 = 0xED) then 0x9F else 0xBF in
            if decide (lo ≤ b1 ≤ hi ∧ is_cont b2)
            then cons ((b0 - 0xE0) * 4096 + (b1 - 0x80) * 64 + (b2 - 0x80))
                   <$> utf8_decode r'
            else None
        | _ => None
        end
      else if decide (0xF0 ≤ b0 ≤ 0xF4) then
        match r with
        | b1 :: b2 :: b3 :: r' =>
            let lo := if decide (b0 = 0xF0) then 0x90 else 0x80 in
            let hi := if decide (b0 = 0xF4) then 0x8F else 0xBF in
            if decide (lo ≤ b1 ≤ hi ∧ is_cont b2 ∧ is_cont b3)
            then cons ((b0 - 0xF0) * 262144 + (b1 - 0x80) * 4096
                       + (b2 - 0x80) * 64 + (b3 - 0x80)) <$> utf8_decode r'
            else None
        | _ => None
        end
      else None
  end.

(** Number of UTF-8 bytes of a scalar value. *)
Definition utf8_width (c : Z) : nat :=
  if decide (c < 0x80) then 1 else if decide (c < 0x800) then 2
  else if decide (c < 0x10000) then 3 else 4.

(** ** UTF-16LE *)

Definition u16le (u : Z) : list Z := [Z.land u 255; Z.shiftr u 8].

Definition utf16_encode_char (c : Z) : option (list Z) :=
  if decide (c < 0x10000) then
    if decide (is_surrogate c) then None else Some (u16le c)
  else
    let c' := c - 0x10000 in
    Some (u16le (0xD800 + Z.shiftr c' 10) ++ u16le (0xDC00 + Z.land c' 1023)).

Fixpoint utf16_encode (s : list Z) : option (list Z) :=
  match s with
  | [] => Some []
  | c :: s' =>
      bs ← utf16_encode_char c;
      rest ← utf16_encode s';
      Some (bs ++ rest)
  end.

Fixpoint utf16_decode (bs : list Z) : option (list Z) :=
  match bs with
  | [] => Some []
  | b0 :: b1 :: r =>
      let u := b0 + 256 * b1 in
      if decide (0xD800 ≤ u ≤ 0xDBFF) then
        match r with
        | b2 :: b3 :: r' =>
            let u2 := b2 + 256 * b3 in
            if decide (0xDC00 ≤ u2 ≤ 0xDFFF)
            then cons (0x10000 + (u - 0xD800) * 1024 + (u2 - 0xDC00))
                   <$> utf16_decode r'
            else None
        | _ => None
        end
      else if decide (0xDC00 ≤ u ≤ 0xDFFF) then None
      else cons u <$> utf16_decode r
  | [_] => None
  end.

Definition utf16_width (c : Z) : nat := if decide (c < 0x10000) then 2 else 4.

(** ** Lemmas *)

(** The encoders of this file, as the per-character encoder they fold. *)
Fixpoint encode_with (enc_char : Z → option (list Z)) (s : list Z) : option (list Z) :=
  match s with
  | [] => Some []
  | c :: s' => bs ← enc_char c; rest ← encode_with enc_char s'; Some (bs ++ rest)
  end.

(** The bit operations of the encoders, as arithmetic. *)
Lemma land63 c : Z.land c 63 = c mod 64.
Proof. change 63 with (Z.ones 6). by rewrite Z.land_ones by lia. Qed.
Lemma land255 c : Z.land c 255 = c mod 256.
Proof. change 255 with (Z.ones 8). by rewrite Z.land_ones by lia. Qed.
Lemma land1023 c : Z.land c 1023 = c mod 1024.
Proof. change 1023 with (Z.ones 10). by rewrite Z.land_ones by lia. Qed.
Lemma shiftr_div c k : 0 ≤ k → Z.shiftr c k = c / 2 ^ k.
Proof. apply Z.shiftr_div_pow2. Qed.

Ltac bits_to_arith :=
  rewrite ?land63, ?land255, ?land1023, ?shiftr_div by lia;
  change (2 ^ 6) with 64 in *; change (2 ^ 8) with 256 in *;
  change (2 ^ 10) with 1024 in *; change (2 ^ 12) with 4096 in *;
  change (2 ^ 18) with 262144 in *.

Ltac decide_all :=
  repeat match goal with
  | |- context [decide ?P] => destruct (decide P)
  | H : context [decide ?P] |- _ => destruct (decide P)
  end.

Lemma utf8_encode_char_decode c bs rest :
  is_code_point c → utf8_encode_char c = Some bs →
  utf8_decode (bs ++ rest) = cons c <$> utf8_decode rest.
Proof.
  unfold is_code_point, utf8_encode_char, is_surrogate, is_cont. intros Hc Henc.
  decide_all; simplify_eq; bits_to_arith; simpl;
    decide_all; unfold is_cont in *; try (exfalso; Z.div_mod_to_equations; lia);
    f_equal; f_equal; Z.div_mod_to_equations; lia.
Qed.

Lemma utf8_encode_char_None c :
  is_code_point c → utf8_encode_char c = None ↔ is_surrogate c.
Proof.
  unfold is_code_point, utf8_encode_char, is_surrogate. intros Hc.
  decide_all; split; intros; simplify_eq; try done; lia.
Qed.

(** The UTF-8 encoder refuses exactly the strings with a surrogate. *)
Lemma utf8_encode_Some s :
  Forall is_code_point s → is_Some (utf8_encode s) ↔ Forall is_scalar s.
Proof.
  induction 1 as [|c s Hc Hs IH]; simpl; [split; by auto|].
  destruct (utf8_encode_char c) as [bs|] eqn:E.
  - assert (¬ is_surrogate c) by (intros Hsur; apply utf8_encode_char_None in Hsur; congruence).
    rewrite Forall_cons. destruct (utf8_encode s); simpl.
    + split; [intros _; split; [split|apply IH]|]; eauto.
    + split; [intros [? ?]; discriminate|intros [_ H']; apply IH in H' as [? ?]; discriminate].
  - apply utf8_encode_char_None in E; [|done].
    split; [intros [? ?]; discriminate|]. rewrite Forall_cons. intros [[_ ?] _]. done.
Qed.

Lemma length_utf8_encode_char c bs :
  utf8_encode_char c = Some bs → length bs = utf8_width c.
Proof. unfold utf8_encode_char, utf8_width. intros H. decide_all; by simplify_eq. Qed.

Lemma length_utf16_encode_char c bs :
  utf16_encode_char c = Some bs → length bs = utf16_width c.
Proof. unfold utf16_encode_char, utf16_width. intros H. decide_all; by simplify_eq. Qed.

Lemma utf16_encode_char_decode c bs rest :
  is_code_point c → utf16_encode_char c = Some bs →
  utf16_decode (bs ++ rest) = cons c <$> utf16_decode rest.
Proof.
  unfold is_code_point, utf16_encode_char, is_surrogate, u16le. intros Hc Henc.
  decide_all; simplify_eq; bits_to_arith; simpl;
    decide_all; unfold is_cont in *; try (exfalso; Z.div_mod_to_equations; lia);
    f_equal; f_equal; Z.div_mod_to_equations; lia.
Qed.

Section codec_laws.
(** The laws every codec of this file satisfies, stated once over its
    per-character encoder. *)
Context (enc_char : Z → option (list Z)) (dec : list Z → option (list Z)).
Hypothesis enc_char_dec : ∀ c bs rest,
  is_code_point c → enc_char c = Some bs → dec (bs ++ rest) = cons c <$> dec rest.
Hypothesis dec_nil : dec [] = Some [].

Lemma encode_with_decode s bs :
  Forall is_code_point s → encode_with enc_char s = Some bs → dec bs = Some s.
Proof.
  intros Hs. revert bs. induction Hs as [|c s Hc Hs IH]; simpl; intros bs Henc.
  - by simplify_eq.
  - destruct (enc_char c) as [b|] eqn:E1; [|done]. simpl in Henc.
    destruct (encode_with enc_char s) as [r|] eqn:E2; [|done]. simpl in Henc. simplify_eq.
    rewrite (enc_char_dec c b r Hc E1), (IH r eq_refl). done.
Qed.
End codec_laws.

Lemma utf8_encode_with s : utf8_encode s = encode_with utf8_encode_char s.
Proof. induction s; simpl; [done|]. by rewrite IHs. Qed.

Lemma utf16_encode_with s : utf16_encode s = encode_with utf16_encode_char s.
Proof. induction s; simpl; [done|]. by rewrite IHs. Qed.

Section lengths.
Context (enc_char : Z → option (list Z)) (width : Z → nat).
Hypothesis enc_width : ∀ c bs, enc_char c = Some bs → length bs = width c.

Lemma length_encode_with s bs :
  encode_with enc_char s = Some bs → length bs = sum_list (map width s).
Proof.
  revert bs. induction s as [|c s IH]; simpl; intros bs H; [by simplify_eq|].
  destruct (enc_char c) as [b|] eqn:E1; [|done]. simpl in H.
  destruct (encode_with enc_char s) as [r|] eqn:E2; [|done]. simpl in H. simplify_eq.
  rewrite length_app, (enc_width c b E1), (IH r eq_refl). done.
Qed.
End lengths.

(** ** The codecs of [types.py] *)

Lemma utf8_decode_encode s bs :
  Forall is_code_point s → utf8_encode s = Some bs → utf8_decode bs = Some s.
Proof.
  rewrite utf8_encode_with. apply encode_with_decode; [|done].
  intros. by apply utf8_encode_char_decode.
Qed.

Lemma utf16_decode_encode s bs :
  Forall is_code_point s → utf16_encode s = Some bs → utf16_decode bs = Some s.
Proof.
  rewrite utf16_encode_with. apply encode_with_decode; [|done].
  intros. by apply utf16_encode_char_decode.
Qed.

Lemma length_utf8_encode s bs :
  utf8_encode s = Some bs → length bs = sum_list (map utf8_width s).
Proof. rewrite utf8_encode_with. apply length_encode_with, length_utf8_encode_char. Qed.

Lemma length_utf16_encode s bs :
  utf16_encode s = Some bs → length bs = sum_list (map utf16_width s).
Proof. rewrite utf16_encode_with. apply length_encode_with, length_utf16_encode_char. Qed.

Lemma utf16_encode_char_None c :
  is_code_point c → utf16_encode_char c = None ↔ is_surrogate c.
Proof.
  unfold is_code_point, utf16_encode_char, is_surrogate. intros Hc.
  decide_all; split; intros; simplify_eq; try done; lia.
Qed.

(** Widths: one UTF-8 byte per character exactly for ASCII text, two
    UTF-16 bytes per character exactly for text of the Basic Multilingual
    Plane. *)
Lemma sum_widths_ge (w : Z → nat) (k : nat) (P : Z → Prop) `{∀ c, Decision (P c)} s :
  (∀ c, k ≤ w c)%nat → (∀ c, w c = k ↔ P c) →
  (k * length s ≤ sum_list (map w s))%nat ∧
  (sum_list (map w s) = k * length s ↔ Forall P s)%nat.
Proof.
  intros Hge Heq. induction s as [|c s [IH1 IH2]]; simpl; [split; [lia|split; auto]|].
  rewrite Forall_cons, <- IH2, <- Heq. specialize (Hge c). split; [lia|]. split.
  - intros E. split; lia.
  - intros [-> ->]. lia.
Qed.

Lemma utf8_width_ascii s :
  (length s ≤ sum_list (map utf8_width s))%nat ∧
  (sum_list (map utf8_width s) = length s ↔ Forall (λ c, c < 0x80) s).
Proof.
  pose proof (sum_widths_ge utf8_width 1 (λ c, c < 0x80) s) as [H1 H2].
  - intros c. unfold utf8_width. decide_all; lia.
  - intros c. unfold utf8_width. decide_all; split; intros; lia.
  - rewrite Nat.mul_1_l in H1, H2. done.
Qed.

Lemma utf16_width_bmp s :
  (2 * length s ≤ sum_list (map utf16_width s))%nat ∧
  ((sum_list (map utf16_width s) = 2 * length s)%nat ↔ Forall (λ c, c < 0x10000) s).
Proof.
  apply (sum_widths_ge utf16_width 2 (λ c, c < 0x10000)).
  - intros c. unfold utf16_width. decide_all; lia.
  - intros c. unfold utf16_width. decide_all; split; intros; lia.
Qed.

#[export] Hint Resolve utf8_encode_char_decode utf16_encode_char_decode : iitypes.

(** UTF-8 maps only U+0000 to a NUL byte. *)
Lemma utf8_encode_char_nonzero c bs :
  c ≠ 0 → utf8_encode_char c = Some bs → 0 ∉ bs.
Proof.
  unfold utf8_encode_char. intros Hc Henc.
  decide_all; simplify_eq; bits_to_arith;
    rewrite ?elem_of_cons, ?elem_of_nil; Z.div_mod_to_equations; lia.
Qed.

Lemma utf8_encode_no_nul s bs : 0 ∉ s → utf8_encode s = Some bs → 0 ∉ bs.
Proof.
  revert bs. induction s as [|c s IH]; simpl; intros bs Hs H; [by simplify_eq|].
  rewrite elem_of_cons in Hs.
  destruct (utf8_encode_char c) as [b|] eqn:E1; [|done]. simpl in H.
  destruct (utf8_encode s) as [r|] eqn:E2; [|done]. simpl in H. simplify_eq.
  rewrite elem_of_app. intros [Hb|Hr].
  - eapply utf8_encode_char_nonzero; [|exact E1|exact Hb]. intros ->. auto.
  - eapply IH; [|done|exact Hr]. auto.
Qed.

Lemma utf8_encode_app s1 s2 e1 e2 :
  utf8_encode s1 = Some e1 → utf8_encode s2 = Some e2 → utf8_encode (s1 ++ s2) = Some (e1 ++ e2).
Proof.
  revert e1. induction s1 as [|c s1 IH]; simpl; intros e1 H1 H2; [by simplify_eq|].
  destruct (utf8_encode_char c) as [b|]; [|done]. simpl in *.
  destruct (utf8_encode s1) as [r|]; [|done]. simpl in H1. simplify_eq.
  rewrite (IH r eq_refl H2). simpl. by rewrite app_assoc.
Qed.

(** ASCII text is its own UTF-8 encoding. *)
Lemma utf8_encode_ascii s : Forall (λ c, 0 ≤ c < 0x80) s → utf8_encode s = Some s.
Proof.
  induction 1 as [|c s Hc _ IH]; [done|]. simpl. unfold utf8_encode_char.
  rewrite decide_True by lia. simpl. by rewrite IH.
Qed.

(** Outside ASCII, UTF-8 takes more bytes than characters; outside the
    Basic Multilingual Plane, UTF-16 takes more than two bytes per
    character. *)
Lemma length_utf8_encode_non_ascii s e :
  utf8_encode s = Some e → ¬ Forall (λ c, c < 0x80) s → (length s < length e)%nat.
Proof.
  intros He Ha. rewrite (length_utf8_encode s e He).
  destruct (utf8_width_ascii s) as [Hle Heq]. rewrite <- Heq in Ha. lia.
Qed.

Lemma length_utf16_encode_non_bmp s e :
  utf16_encode s = Some e → ¬ Forall (λ c, c < 0x10000) s → (2 * length s < length e)%nat.
Proof.
  intros He Ha. rewrite (length_utf16_encode s e He).
  destruct (utf16_width_bmp s) as [Hle Heq]. rewrite <- Heq in Ha. lia.
Qed.
