(* ===== verification/Ctypes.v ===== *)
(** * Ctypes: the buffers of [types.py] as ctypes lays them out

    Every Ingres type of [types.py] allocates its buffer with
    [Buffer_Factory(_fields_)] (a [ctypes.Structure]) or with an explicit
    [ctypes.Union]. It then reads and writes the buffer through the fields.
    This file models:
    - the C types used in the [_fields_] lists, with their size and
      alignment on a [platform] (the size of [c_long] differs between
      LP64 and LLP64);
    - the layout rules of [ctypes.Structure] and [ctypes.Union]: each field
      at the next offset aligned for it, the whole rounded up to the
      largest alignment;
    - integer fields: a store wraps the Python [int] to the field width
      (ctypes does no range check); a load is little-endian, signed or
      unsigned;
    - [c_char * n] fields: the setter copies up to the first NUL of the
      [bytes] value and appends a NUL when there is room. It raises
      [ValueError] when that prefix is longer than [n]. The getter returns
      the bytes up to the first NUL.
    The theorems: the layout places fields in order, aligned, disjoint and
    inside the structure; a load after a store returns the wrapped value;
    a store leaves every other byte alone. *)

From S2P Require Import Prelude.

(** ** C types and the platform *)

Record platform := { sizeof_long : nat }.
(** x86-64 Linux, the platform the development fixes. *)
Definition lp64 : platform := {| sizeof_long := 8 |}.
(** 64-bit Windows, where [c_long] has 4 bytes. *)
Definition llp64 : platform := {| sizeof_long := 4 |}.

#[local] Set Warnings "-register-all".
Inductive ctype : Type :=
| c_bool | c_char | c_byte | c_ubyte | c_short | c_ushort | c_int
| c_long | c_longlong | c_float | c_double
| c_array (t : ctype) (n : nat)
| c_struct (fields : list (string * ctype))
| c_union (fields : list (string * ctype)).

(** [Buffer_Factory(fields)]: a [ctypes.Structure] with those fields. *)
Definition Buffer_Factory (fields : list (string * ctype)) : ctype := c_struct fields.

Section layout.
Context (P : platform).

Definition align_up (n a : nat) : nat :=
  if decide (a = 0%nat) then n else ((n + a - 1) `div` a * a)%nat.

(** Offsets of a sequence of (size, alignment) fields placed from [cur],
    and the end of the last one. *)
Fixpoint place (cur : nat) (sa : list (nat * nat)) : list nat * nat :=
  match sa with
  | [] => ([], cur)
  | (s, a) :: r =>
      let o := align_up cur a in
      let '(os, e) := place (o + s) r in (o :: os, e)
  end.

Definition max_align (sa : list (nat * nat)) : nat :=
  foldr (λ p m, Nat.max p.2 m) 1%nat sa.

Definition struct_size (sa : list (nat * nat)) : nat :=
  align_up (place 0 sa).2 (max_align sa).

Definition union_size (sa : list (nat * nat)) : nat :=
  align_up (foldr (λ p m, Nat.max p.1 m) 0%nat sa) (max_align sa).

(** Size and alignment of a C type. *)
Fixpoint size_align (t : ctype) : nat * nat :=
  match t with
  | c_bool | c_char | c_byte | c_ubyte => (1, 1)
  | c_short | c_ushort => (2, 2)
  | c_int | c_float => (4, 4)
  | c_long => (sizeof_long P, sizeof_long P)
  | c_longlong | c_double => (8, 8)
  | c_array t n => let '(s, a) := size_align t in (n * s, a)
  | c_struct fs =>
      let sa := List.map (λ f, size_align f.2) fs in (struct_size sa, max_align sa)
  | c_union fs =>
      let sa := List.map (λ f, size_align f.2) fs in (union_size sa, max_align sa)
  end%nat.

(** [ctypes.sizeof]. *)
Definition sizeof (t : ctype) : nat := (size_align t).1.

(** Offset and type of a field of a structure or union. *)
Definition field_offsets (t : ctype) : list (string * (nat * ctype)) :=
  match t with
  | c_struct fs =>
      zip (map fst fs) (zip (place 0 (List.map (λ f, size_align f.2) fs)).1 (map snd fs))
  | c_union fs => map (λ f, (f.1, (0%nat, f.2))) fs
  | _ => []
  end.

Fixpoint assoc {A} (k : string) (l : list (string * A)) : option A :=
  match l with
  | [] => None
  | (k', v) :: r => if decide (k = k') then Some v else assoc k r
  end.

(** [buf.f1.f2...]: the offset and type of a path of field names. *)
Fixpoint field_at (t : ctype) (path : list string) : option (nat * ctype) :=
  match path with
  | [] => Some (0%nat, t)
  | f :: rest =>
      '(o, t') ← assoc f (field_offsets t);
      '(o', t'') ← field_at t' rest;
      Some ((o + o')%nat, t'')
  end.
End layout.

(** ** Loads and stores of integer fields *)

(** Width and signedness of the integer C types ([None]: not an integer). *)
Definition int_kind (P : platform) (t : ctype) : option (nat * bool) :=
  match t with
  | c_byte => Some (1%nat, true)
  | c_ubyte => Some (1%nat, false)
  | c_short => Some (2%nat, true)
  | c_ushort => Some (2%nat, false)
  | c_int => Some (4%nat, true)
  | c_long => Some (sizeof_long P, true)
  | c_longlong => Some (8%nat, true)
  | _ => None
  end.

Definition load_int (w : nat) (signed : bool) (buf : list Z) (off : nat) : Z :=
  let bs := slice buf off w in if signed then le_decode_signed bs else le_decode bs.

Definition store_int (w : nat) (v : Z) (buf : list Z) (off : nat) : list Z :=
  splice buf off (le_encode w v).

Definition wrap (w : nat) (signed : bool) (v : Z) : Z :=
  if signed then wrap_signed w v else wrap_unsigned w v.

(** A [c_bool] store keeps the truth of the value as 0 or 1; a load
    answers [True] for any non-zero byte. *)
Definition store_bool (b : bool) (buf : list Z) (off : nat) : list Z :=
  splice buf off [if b then 1 else 0].
Definition load_bool (buf : list Z) (off : nat) : bool :=
  bool_decide (slice buf off 1 ≠ [0]).

(** ** [c_char * n] fields *)

Fixpoint until_nul (bs : list Z) : list Z :=
  match bs with
  | [] => []
  | b :: r => if decide (b = 0) then [] else b :: until_nul r
  end.

(** CPython [s_get]: the bytes up to the first NUL. *)
Definition s_get (buf : list Z) (off n : nat) : list Z := until_nul (slice buf off n).

(** CPython [s_set]: copy up to the first NUL, plus a NUL when it fits. *)
Definition s_set (buf : list Z) (off n : nat) (data : list Z) : result (list Z) :=
  let d := until_nul data in
  if decide (length d < n)%nat then Ok (splice buf off (d ++ [0]))
  else if decide (length d = n) then Ok (splice buf off d)
  else Err (ValueError ("bytes too long (" +:+ string_of_Z (Z.of_nat (length d))
                         +:+ ", maximum length " +:+ string_of_Z (Z.of_nat n) +:+ ")")).

(** [ctypes.memset(address, b, n)] at offset [off]. *)
Definition memset (buf : list Z) (off : nat) (b : Z) (n : nat) : list Z :=
  splice buf off (replicate n b).

(** [well_placed cur sa os e]: the fields of sizes and alignments [sa]
    sit at offsets [os], in order from [cur], each aligned, not
    overlapping the previous one, with no more padding than its
    alignment requires, and the last one ends at [e]. *)
Inductive well_placed : nat → list (nat * nat) → list nat → nat → Prop :=
| wp_nil cur : well_placed cur [] [] cur
| wp_cons cur s a o r os e :
    (cur ≤ o)%nat → (0 < a → o `mod` a = 0)%nat → (0 < a → o < cur + a)%nat →
    well_placed (o + s) r os e →
    well_placed cur ((s, a) :: r) (o :: os) e.

(** ** Lemmas *)

Section stores.
Context (buf : list Z) (off w : nat).
Hypothesis Hfit : (off + w ≤ length buf)%nat.

Lemma load_store_int signed v :
  (0 < w)%nat → load_int w signed (store_int w v buf off) off = wrap w signed v.
Proof.
  intros Hw. unfold load_int, store_int, wrap.
  assert (slice (splice buf off (le_encode w v)) off w = le_encode w v) as ->.
  { rewrite <- (length_le_encode w v) at 2.
    apply slice_splice_eq. rewrite length_le_encode. lia. }
  destruct signed; [by apply le_decode_signed_encode|apply le_decode_encode].
Qed.

Lemma store_int_frame v :
  take off (store_int w v buf off) = take off buf ∧
  drop (off + w) (store_int w v buf off) = drop (off + w) buf.
Proof.
  unfold store_int. pose proof (length_le_encode w v) as Hl.
  split; [apply take_splice; lia|].
  rewrite <- Hl at 1 3. apply drop_splice. lia.
Qed.

Lemma length_store_int v : length (store_int w v buf off) = length buf.
Proof. unfold store_int. apply length_splice. rewrite length_le_encode. lia. Qed.

(** A load that does not overlap a store is not affected by it. *)
Lemma load_store_int_disjoint w' signed v o :
  (o + w' ≤ off ∨ off + w ≤ o)%nat →
  load_int w' signed (store_int w v buf off) o = load_int w' signed buf o.
Proof.
  intros Hd. unfold load_int, store_int.
  rewrite slice_splice_disjoint; [done|rewrite length_le_encode; lia|rewrite length_le_encode; lia].
Qed.
End stores.

(** Lengths of buffers after integer stores, side conditions included. *)
Ltac store_len :=
  repeat match goal with
  | |- context [length (store_int ?w ?v ?b ?o)] => rewrite (length_store_int b o w) by store_len
  end; lia.

Lemma wrap_small (w : nat) (signed : bool) (v : Z) :
  (0 < w)%nat →
  (if signed then - half_modulus w ≤ v < half_modulus w else 0 ≤ v < modulus w) →
  wrap w signed v = v.
Proof.
  intros Hw Hv. unfold wrap. destruct signed.
  - by apply wrap_signed_small.
  - by apply wrap_unsigned_small.
Qed.

Lemma until_nul_no_nul bs : 0 ∉ bs → until_nul bs = bs.
Proof.
  induction bs as [|b bs IH]; simpl; [done|]. intros Hn.
  destruct (decide (b = 0)); [subst; set_solver|]. rewrite IH; [done|set_solver].
Qed.

Lemma until_nul_app_nul d r : 0 ∉ d → until_nul (d ++ 0 :: r) = d.
Proof.
  induction d as [|b d IH]; simpl; intros Hn; [by rewrite ?decide_True|].
  rewrite decide_False by set_solver. rewrite IH; [done|set_solver].
Qed.

Lemma not_in_until_nul bs : 0 ∉ until_nul bs.
Proof.
  induction bs as [|b bs IH]; simpl; [apply not_elem_of_nil|].
  destruct (decide (b = 0)); [apply not_elem_of_nil|].
  rewrite elem_of_cons. intros [<-|H]; [done|by apply IH].
Qed.

(** The [c_char] array getter reads back what the setter wrote: the
    value up to its first NUL. *)
Lemma s_get_s_set buf off n data buf' :
  (off + n ≤ length buf)%nat → s_set buf off n data = Ok buf' →
  s_get buf' off n = until_nul data.
Proof.
  intros Hfit. unfold s_set, s_get. pose proof (not_in_until_nul data) as Hn.
  destruct (decide _) as [Hlt|]; [|destruct (decide _) as [Heq|]]; intros H; simplify_eq.
  - rewrite slice_splice_prefix by (rewrite ?length_app; simpl; lia).
    rewrite <- app_assoc. by apply until_nul_app_nul.
  - rewrite slice_splice_eq by lia. by apply until_nul_no_nul.
Qed.

(** ** The layout of a structure *)


Lemma align_up_spec n a :
  (n ≤ align_up n a)%nat ∧ (0 < a → align_up n a `mod` a = 0 ∧ align_up n a < n + a)%nat.
Proof.
  unfold align_up. destruct (decide (a = 0%nat)) as [->|Ha]; [split; [lia|intros; lia]|].
  pose proof (Nat.div_mod (n + a - 1) a Ha) as Hd.
  pose proof (Nat.mod_upper_bound (n + a - 1) a Ha) as Hm.
  split; [nia|]. intros _. split; [apply Nat.Div0.mod_mul|nia].
Qed.

(** The offsets ctypes gives the fields of a structure are aligned, in
    order, and no field overlaps the one before it. *)
Lemma place_well_placed cur sa : well_placed cur sa (place cur sa).1 (place cur sa).2.
Proof.
  revert cur. induction sa as [|[s a] r IH]; intros cur; simpl; [constructor|].
  destruct (place (align_up cur a + s) r) as [os e] eqn:E. simpl.
  pose proof (align_up_spec cur a) as [H1 H2].
  constructor; [done|intros Ha; by apply H2|intros Ha; by apply H2|].
  specialize (IH (align_up cur a + s)%nat). by rewrite E in IH.
Qed.

Lemma well_placed_end cur sa os e : well_placed cur sa os e → (cur ≤ e)%nat.
Proof. induction 1; lia. Qed.

(** Every field lies after [cur] and before the end. *)
Lemma well_placed_inside cur sa os e :
  well_placed cur sa os e →
  Forall2 (λ o sa, cur ≤ o ∧ o + sa.1 ≤ e)%nat os sa.
Proof.
  induction 1 as [|cur s a o r os e Hc _ _ Hw IH]; constructor.
  - apply well_placed_end in Hw. simpl. lia.
  - eapply Forall2_impl; [exact IH|]. simpl. lia.
Qed.

(** Fields do not overlap: each one ends before the next one starts. *)
Lemma well_placed_disjoint cur sa os e i j oi oj si ai :
  well_placed cur sa os e → (i < j)%nat →
  os !! i = Some oi → sa !! i = Some (si, ai) → os !! j = Some oj →
  (oi + si ≤ oj)%nat.
Proof.
  intros Hw. revert i j. induction Hw as [|cur s a o r os e Hc _ _ Hw IH];
    intros i j Hij Hi Hs Hj; [done|].
  destruct i as [|i], j as [|j]; simpl in *; try lia; simplify_eq.
  - apply well_placed_inside in Hw. eapply Forall2_lookup_l in Hw as [[s' a'] [_ Hb]]; [|done].
    simpl in Hb. lia.
  - eapply IH; [|done..]. lia.
Qed.

(** [s_set] writes inside the field: the buffer keeps its length. *)
Lemma length_s_set buf off n data buf' :
  (off + n ≤ length buf)%nat → s_set buf off n data = Ok buf' → length buf' = length buf.
Proof.
  unfold s_set. intros Hfit. repeat case_decide; intros Hs; simplify_eq; apply length_splice;
    rewrite ?length_app; simpl; lia.
Qed.

Lemma align_up_1 n : align_up n 1 = n.
Proof. unfold align_up. rewrite decide_False by lia. rewrite Nat.add_sub, Nat.div_1_r. lia. Qed.

(** A structure with one [c_char * n] field has [n] bytes. *)
Lemma sizeof_char_array P n :
  sizeof P (Buffer_Factory [("value", c_array c_char n)]) = n.
Proof.
  unfold sizeof, Buffer_Factory. simpl. unfold struct_size, max_align. simpl.
  rewrite align_up_1. lia.
Qed.

(** A [c_short] length followed by [c_char * k]: [2 + k] bytes rounded up
    to the alignment of the [c_short]. *)
Lemma sizeof_length_prefixed P k :
  sizeof P (Buffer_Factory [("length", c_short); ("value", c_array c_char k)])
  = align_up (2 + k) 2.
Proof.
  unfold sizeof, Buffer_Factory. simpl. unfold struct_size, max_align. simpl.
  rewrite Nat.mul_1_r. replace (align_up 0 2) with 0%nat by reflexivity.
  reflexivity.
Qed.

Lemma s_set_ok buf off n data :
  (length (until_nul data) ≤ n)%nat → ∃ buf', s_set buf off n data = Ok buf'.
Proof. unfold s_set. intros Hl. repeat case_decide; eauto; lia. Qed.

Lemma s_set_too_long buf off n data :
  (n < length (until_nul data))%nat → ∃ e, s_set buf off n data = Err e.
Proof. unfold s_set. intros Hl. repeat case_decide; eauto; lia. Qed.

Lemma length_until_nul_le bs : (length (until_nul bs) ≤ length bs)%nat.
Proof. induction bs as [|b bs IH]; simpl; [lia|]. case_decide; simpl; lia. Qed.

(** A store at [off] leaves a load of the first [w ≤ off] bytes alone. *)
Lemma load_int_splice_before w signed buf off data :
  (w ≤ off)%nat → (off ≤ length buf)%nat →
  load_int w signed (splice buf off data) 0 = load_int w signed buf 0.
Proof.
  intros Hw Ho. unfold load_int, slice, splice. rewrite !drop_0.
  rewrite take_app_le by (rewrite length_take; lia).
  rewrite take_take, Nat.min_l by lia. done.
Qed.

(** A store of [w] bytes at 0 leaves the bytes from [w] on alone. *)
Lemma slice_store_int_after w v buf off n :
  (w ≤ off)%nat → (w ≤ length buf)%nat →
  slice (store_int w v buf 0) off n = slice buf off n.
Proof.
  intros Hw Hl. unfold slice, store_int, splice. rewrite take_0, app_nil_l.
  rewrite length_le_encode, Nat.add_0_l.
  replace off with (w + (off - w))%nat by lia.
  rewrite <- !drop_drop, drop_app_length' by (rewrite length_le_encode; lia).
  done.
Qed.

(** A [c_char] store at [off] leaves the bytes before [off] alone. *)
Lemma load_int_s_set w signed buf off n data buf' :
  (w ≤ off)%nat → (off ≤ length buf)%nat → s_set buf off n data = Ok buf' →
  load_int w signed buf' 0 = load_int w signed buf 0.
Proof.
  unfold s_set. intros Hw Ho. repeat case_decide; intros Hs; simplify_eq;
    by apply load_int_splice_before.
Qed.

(** A value without NUL that fills the whole field replaces the buffer. *)
Lemma s_set_exact buf n data :
  length buf = n → 0 ∉ data → length data = n → s_set buf 0 n data = Ok data.
Proof.
  intros Hb Hn Hd. unfold s_set. rewrite until_nul_no_nul by done.
  rewrite decide_False, decide_True by lia. f_equal. unfold splice.
  rewrite take_0, drop_ge by lia. by rewrite app_nil_r.
Qed.
