(* ===== verification/PyValue.v ===== *)
(** * PyValue: the Python values that cross the [types.py] interface

    The setters of [types.py] dispatch on [type(v)]. The getters return
    Python objects. [pyval] is the closed set of host values the modelled
    families handle. A [str] is its list of code points and a [bytes] or
    [bytearray] its list of byte values; an [IPv4Address],
    [IPv6Address] or [uuid.UUID] is its packed bytes, and a [timedelta],
    [date], [time] or [datetime] of [datetime] its attributes. Any other object is
    [PObject] with its class name.
    The marker classes [NULL], [NOTNULL] and [WITHNULL] of [types.py]
    (lines 18-27) are values of their own. *)

From S2P Require Import Prelude.

#[local] Set Warnings "-register-all".
Inductive pyval : Type :=
| PNone
| PNULL | PNOTNULL | PWITHNULL
| PBool (b : bool)
| PInt (z : Z)
| PFloat (mantissa : Z) (exponent : Z)
    (** a finite [float], [mantissa * 2 ^ exponent]; [-0.0] is [0.0] *)
| PInf (negative : bool)           (** [float('inf')], [float('-inf')] *)
| PNaN                             (** [float('nan')] *)
| PStr (s : list Z)
| PBytes (b : list Z)
| PByteArray (b : list Z)
| PTuple (vs : list pyval)
| PIPv4Address (packed : list Z)   (** [ipaddress.IPv4Address], by its packed bytes *)
| PIPv6Address (packed : list Z)   (** [ipaddress.IPv6Address] *)
| PUUID (b : list Z)               (** [uuid.UUID], by its 16 bytes *)
| PTimedelta (days seconds microseconds : Z)
    (** [datetime.timedelta], by its normalised attributes *)
| PDate (year month day : Z)        (** [datetime.date] *)
| PTime (hour minute second microsecond : Z) (utcoffset : option Z)
    (** [datetime.time]; [utcoffset] in minutes when [tzinfo] is set *)
| PDatetime (year month day hour minute second microsecond : Z) (utcoffset : option Z)
    (** [datetime.datetime] *)
| PFunction (name : string)       (** a function of [types.py], by its name *)
| PObject (cls : string).

(** [v is NULL or v is None], the test of [IIAPI_TYPE._set]. *)
Definition is_null_marker (v : pyval) : bool :=
  match v with PNone | PNULL => true | _ => false end.

(** [v == n] for an integer [n], as Python compares numbers: [True == 1]
    and [4.0 == 4]. A float is [mantissa * 2^exponent]. *)
Definition py_eq_int (v : pyval) (n : Z) : bool :=
  match v with
  | PInt z => bool_decide (z = n)
  | PBool b => bool_decide ((if b then 1 else 0) = n)
  | PFloat m e =>
      if decide (0 ≤ e) then bool_decide (m * 2 ^ e = n)
      else bool_decide (m = n * 2 ^ (- e))
  | _ => false
  end.

(** [v in {n1, n2, ...}] for a set of integers. *)
Definition py_in_ints (v : pyval) (ns : list Z) : bool :=
  existsb (py_eq_int v) ns.

(** [type(v).__name__] *)
Definition py_type_name (v : pyval) : string :=
  match v with
  | PNone => "NoneType"
  | PNULL | PNOTNULL | PWITHNULL => "type"
  | PBool _ => "bool"
  | PInt _ => "int"
  | PFloat _ _ | PInf _ | PNaN => "float"
  | PStr _ => "str"
  | PBytes _ => "bytes"
  | PByteArray _ => "bytearray"
  | PTuple _ => "tuple"
  | PIPv4Address _ => "IPv4Address"
  | PIPv6Address _ => "IPv6Address"
  | PUUID _ => "UUID"
  | PTimedelta _ _ _ => "timedelta"
  | PDate _ _ _ => "date"
  | PTime _ _ _ _ _ => "time"
  | PDatetime _ _ _ _ _ _ _ _ => "datetime"
  | PFunction _ => "function"
  | PObject cls => cls
  end.

(** The code points of an ASCII literal, to write Python [str] and
    [bytes] constants. *)
Fixpoint codes (s : string) : list Z :=
  match s with
  | EmptyString => []
  | String a r => Z.of_nat (nat_of_ascii a) :: codes r
  end.

(** Whether [hash(v)] succeeds: a [bytearray] is unhashable, and so is a
    tuple holding one. *)
Fixpoint py_hashable (v : pyval) : bool :=
  match v with
  | PByteArray _ => false
  | PTuple vs => forallb py_hashable vs
  | _ => true
  end.

(** [abs(v)] *)
Definition py_abs (v : pyval) : result pyval :=
  match v with
  | PInt z => Ok (PInt (Z.abs z))
  | PBool b => Ok (PInt (if b then 1 else 0))
  | PFloat m e => Ok (PFloat (Z.abs m) e)
  | PInf _ => Ok (PInf false)
  | PNaN => Ok PNaN
  | _ => Err (TypeError ("bad operand type for abs(): '" +:+ py_type_name v +:+ "'"))
  end.

(** [lo <= v <= hi] for a number [v]; a float is compared exactly. *)
Definition py_num_in_range (v : pyval) (lo hi : Z) : bool :=
  match v with
  | PInt z => bool_decide (lo ≤ z ≤ hi)
  | PBool b => bool_decide (lo ≤ (if b then 1 else 0) ≤ hi)
  | PFloat m e =>
      if decide (0 ≤ e) then bool_decide (lo ≤ m * 2 ^ e ≤ hi)
      else bool_decide (lo * 2 ^ (- e) ≤ m ≤ hi * 2 ^ (- e))
  | _ => false
  end.

(** [t[i]] on a tuple. *)
Definition py_index (vs : list pyval) (i : nat) : result pyval :=
  match vs !! i with Some v => Ok v | None => Err (IndexError "tuple index out of range") end.
