(* ===== verification/Container.v ===== *)
(** * Container: the base class [IIAPI_TYPE]

    [IIAPI_TYPE] ([types.py] lines 156-457) is the base of every Ingres
    value container. An instance owns:
    - a descriptor ([IIAPI_DESCRIPTOR]), built from the positional
      arguments or passed in with [descriptor=];
    - a null semantics ([NOTNULL] or [WITHNULL], from [nullable=]);
    - the SQL declaration computed from the descriptor;
    - a ctypes buffer, and an [IIAPI_DATAVALUE] with the null flag
      [dv_null], the buffer address [dv_value] (or [None] while the value
      is NULL) and [dv_length].
    [container] is that state. A subclass customises the base class
    through the hooks it overrides ([_get_ds_length], [_SQL_declaration],
    [_validate_size], [_allocate_buffer], [_value_setter],
    [_get_python_value], ...). [family] is the record of those hooks, so
    [init], [set], [value], [peek] and [poke] below are the methods of
    the base class, written once for every family.

    Methods that mutate [self] run in [PyM container]. The state survives
    an exception, so a theorem can say what a failed assignment leaves
    behind. The class [FamilyLaws] is what a subclass promises the base
    class (its setter writes the buffer in place); the invariant [ct_inv]
    and the theorems on [init], [set] and [poke] are proved against it. *)

From S2P Require Import Prelude Unicode Ctypes PyValue.

(** ** Descriptors *)

(** The type codes of the OpenAPI that [allocator_for_type] knows,
    geometry types apart. *)
Inductive datatype : Type :=
| IIAPI_BOOL_TYPE | IIAPI_BYTE_TYPE | IIAPI_CHA_TYPE | IIAPI_CHR_TYPE
| IIAPI_DATE_TYPE | IIAPI_DEC_TYPE | IIAPI_DTE_TYPE | IIAPI_FLT_TYPE
| IIAPI_INT_TYPE | IIAPI_INTDS_TYPE | IIAPI_INTYM_TYPE | IIAPI_IPV4_TYPE
| IIAPI_IPV6_TYPE | IIAPI_LBLOC_TYPE | IIAPI_LBYTE_TYPE | IIAPI_LCLOC_TYPE
| IIAPI_LNLOC_TYPE | IIAPI_LNVCH_TYPE | IIAPI_LOGKEY_TYPE | IIAPI_LVCH_TYPE
| IIAPI_MNY_TYPE | IIAPI_NCHA_TYPE | IIAPI_NVCH_TYPE | IIAPI_TABKEY_TYPE
| IIAPI_TIME_TYPE | IIAPI_TMTZ_TYPE | IIAPI_TMWO_TYPE | IIAPI_TS_TYPE
| IIAPI_TSTZ_TYPE | IIAPI_TSWO_TYPE | IIAPI_TXT_TYPE | IIAPI_UUID_TYPE
| IIAPI_VBYTE_TYPE | IIAPI_VCH_TYPE.

#[export] Instance datatype_eq_dec : EqDecision datatype.
Proof. solve_decision. Defined.

Record descriptor : Type := mk_descriptor {
  ds_dataType : datatype;
  ds_nullable : bool;
  ds_length : Z;
  ds_precision : Z;
  ds_scale : Z;
  ds_columnType : Z;
  ds_columnName : option (list Z);
}.

(** The fields of pyngres's [IIAPI_DESCRIPTOR] that [__init__] assigns
    computed sizes to: [ds_length] is an [II_UINT2] ([c_ushort]),
    [ds_precision] and [ds_scale] are [II_INT2] ([c_short]); ctypes
    stores an [int] assigned to them modulo [2^16]. *)
Definition ds_uint2 (v : Z) : Z := wrap_unsigned 2 v.
Definition ds_int2 (v : Z) : Z := wrap_signed 2 v.

(** ** The state of an instance *)

Record container : Type := mk_container {
  ct_withnull : bool;            (** [_null_semantics is WITHNULL] *)
  ct_descriptor : descriptor;
  ct_SQL_declaration : string;
  ct_buffer : list Z;            (** the bytes of [_buffer] *)
  ct_dv_null : bool;
  ct_dv_value : bool;            (** [dv_value] is the buffer address, not [None] *)
  ct_dv_length : Z;
}.

Definition with_buffer (b : list Z) (c : container) : container :=
  {| ct_withnull := ct_withnull c; ct_descriptor := ct_descriptor c;
     ct_SQL_declaration := ct_SQL_declaration c; ct_buffer := b;
     ct_dv_null := ct_dv_null c; ct_dv_value := ct_dv_value c;
     ct_dv_length := ct_dv_length c |}.

Definition with_null (null value : bool) (c : container) : container :=
  {| ct_withnull := ct_withnull c; ct_descriptor := ct_descriptor c;
     ct_SQL_declaration := ct_SQL_declaration c; ct_buffer := ct_buffer c;
     ct_dv_null := null; ct_dv_value := value; ct_dv_length := ct_dv_length c |}.

(** ** The hooks a subclass provides *)

Record family : Type := mk_family {
  fam_dataType : datatype;
  (** [_expected_positionals] *)
  fam_expected_positionals : nat;
  (** [_get_ds_length], [_get_ds_precision], [_get_ds_scale] *)
  fam_ds_length : list pyval → result Z;
  fam_ds_precision : list pyval → result Z;
  fam_ds_scale : list pyval → result Z;
  (** [_SQL_declaration] *)
  fam_SQL_declaration : descriptor → result string;
  (** [_validate_size] *)
  fam_validate_size : descriptor → result unit;
  (** [_allocate_buffer]: the ctypes type of the buffer *)
  fam_buffer : descriptor → ctype;
  (** [_get_dv_length], given [sizeof(self._buffer)] *)
  fam_dv_length : descriptor → nat → Z;
  (** [_get_initial_value] *)
  fam_initial_value : list pyval → result pyval;
  (** [_value_setter] *)
  fam_value_setter : pyval → PyM container unit;
  (** [_get_python_value] *)
  fam_get_python_value : container → result pyval;
  (** [_clear_buffer] *)
  fam_clear_buffer : container → list Z;
}.

(** The defaults of [IIAPI_TYPE]. *)
Definition default_initial_value (args : list pyval) : result pyval :=
  match args with
  | v :: _ => Ok v
  | [] => Err (RuntimeError "no initial value")
  end.

Definition default_dv_length (_ : descriptor) (size : nat) : Z := Z.of_nat size.

(** [_clear_buffer]: zero the whole buffer. *)
Definition default_clear_buffer (c : container) : list Z := zeros (length (ct_buffer c)).

(** [_validate_size] of the base class: nothing to check. *)
Definition default_validate_size (_ : descriptor) : result unit := Ok ().

Definition zero_precision (_ : list pyval) : result Z := Ok 0.

(** Assigning a Python value to an integer field of a ctypes structure,
    such as [descriptor.ds_length]: [bool] is an [int]. *)
Definition ctypes_int (v : pyval) : result Z :=
  match v with
  | PInt z => Ok z
  | PBool b => Ok (if b then 1 else 0)
  | _ => Err (TypeError ("int expected instead of " +:+ py_type_name v))
  end.

(** ** [__init__] *)

Record kwargs : Type := mk_kwargs {
  kw_descriptor : option descriptor;
  kw_nullable : option pyval;
  kw_name : option pyval;
}.

Definition no_kwargs : kwargs := mk_kwargs None None None.

Section methods.
Context (F : family).

(** [_validate_positionals] *)
Definition validate_positionals (args : list pyval) : result unit :=
  if decide (fam_expected_positionals F < length args)%nat
  then Err (RuntimeError "too many arguments") else Ok ().

(** [_set_null] *)
Definition set_null : PyM container unit :=
  λ c, if ct_withnull c then (with_null true false c, Ok ())
       else (c, Err (ValueError "not nullable")).

(** [_set_value] *)
Definition set_value (v : pyval) : PyM container unit :=
  modifyS (with_null false true) ≫= λ _, fam_value_setter F v.

(** [_set], the [value] setter. *)
Definition set (v : pyval) : PyM container unit :=
  if is_null_marker v then set_null else set_value v.

(** The [value] property. *)
Definition value (c : container) : result pyval :=
  if ct_dv_null c then Ok PNone else fam_get_python_value F c.

Definition null_semantics (kw : kwargs) : result bool :=
  match kw_nullable kw with
  | None | Some PNOTNULL => Ok false
  | Some PWITHNULL => Ok true
  | Some _ => Err (ValueError "must be NOTNULL or WITHNULL")
  end.

(** [kwargs['name'].encode()] *)
Definition column_name (kw : kwargs) : result (option (list Z)) :=
  match kw_name kw with
  | None => Ok None
  | Some (PStr s) =>
      match utf8_encode s with Some b => Ok (Some b) | None => Err UnicodeEncodeError end
  | Some _ => Err (AttributeError "'encode'")
  end.

Definition build_descriptor (withnull : bool) (name : option (list Z))
    (args : list pyval) : result descriptor :=
  len ← fam_ds_length F args;
  prec ← fam_ds_precision F args;
  scale ← fam_ds_scale F args;
  Ok {| ds_dataType := fam_dataType F; ds_nullable := withnull;
        ds_length := ds_uint2 len; ds_precision := ds_int2 prec; ds_scale := ds_int2 scale;
        ds_columnType := 0; ds_columnName := name |}.

(** [IIAPI_TYPE.__init__]: the new instance or the
    exception that aborts construction. *)
Definition init (args : list pyval) (kw : kwargs) : result container :=
  withnull ← null_semantics kw;
  name ← column_name kw;
  let positionals := bool_decide (0 < length args)%nat in
  match kw_descriptor kw, positionals with
  | Some _, true => Err (RuntimeError "positional argument(s) with descriptor=")
  | None, false => Err (RuntimeError "no initial value")
  | _, _ =>
      d ← match kw_descriptor kw with
          | Some d => Ok d
          | None => build_descriptor withnull name args
          end;
      decl ← fam_SQL_declaration F d;
      fam_validate_size F d;;
      let bt := fam_buffer F d in
      let size := sizeof lp64 bt in
      let c := {| ct_withnull := withnull; ct_descriptor := d;
                  ct_SQL_declaration := decl; ct_buffer := zeros size;
                  ct_dv_null := false; ct_dv_value := true;
                  ct_dv_length := fam_dv_length F d size |} in
      if positionals then
        validate_positionals args;;
        v ← fam_initial_value F args;
        match set v c with
        | (c', Ok _) => Ok c'
        | (_, Err e) => Err e
        end
      else Ok c
  end.
End methods.

(** The descriptor [__init__] builds from the positional arguments alone
    (no keyword argument): not nullable, no column name. *)
Definition inferred_descriptor (dt : datatype) (len : Z) : descriptor :=
  {| ds_dataType := dt; ds_nullable := false; ds_length := len; ds_precision := 0;
     ds_scale := 0; ds_columnType := 0; ds_columnName := None |}.

(** The instance [__init__] builds before it assigns the initial value. *)
Definition fresh_container (F : family) (withnull : bool) (d : descriptor) (decl : string)
    : container :=
  let size := sizeof lp64 (fam_buffer F d) in
  {| ct_withnull := withnull; ct_descriptor := d; ct_SQL_declaration := decl;
     ct_buffer := zeros size; ct_dv_null := false; ct_dv_value := true;
     ct_dv_length := fam_dv_length F d size |}.

(** [__init__] in value mode: build the descriptor, check it, allocate,
    and assign the first positional argument. *)
Definition init_value_mode (F : family) (withnull : bool) (name : option (list Z))
    (args : list pyval) : result container :=
  d ← build_descriptor F withnull name args;
  decl ← fam_SQL_declaration F d;
  fam_validate_size F d;;
  validate_positionals F args;;
  v ← fam_initial_value F args;
  match set F v (fresh_container F withnull d decl) with
  | (c', Ok _) => Ok c'
  | (_, Err e) => Err e
  end.

(** ** [_peek] and [_poke] *)

(** The code point of the hex digit of [n] (lower case). *)
Definition hex_digit (n : Z) : Z := if decide (n < 10) then 48 + n else 87 + n.

(** [bytes.hex()], as the code points of the [str] it returns. *)
Fixpoint hex (bs : list Z) : list Z :=
  match bs with
  | [] => []
  | b :: r => hex_digit (b / 16) :: hex_digit (b mod 16) :: hex r
  end.

(** [_peek]: the hex dump of the buffer, empty while the value is NULL. *)
Definition peek (c : container) : list Z :=
  if ct_dv_null c then [] else hex (ct_buffer c).

Definition hex_value (c : Z) : option Z :=
  if decide (48 ≤ c ≤ 57) then Some (c - 48)
  else if decide (97 ≤ c ≤ 102) then Some (c - 87)
  else if decide (65 ≤ c ≤ 70) then Some (c - 55)
  else None.

(** [Py_ISSPACE]: the ASCII whitespace [bytes.fromhex] skips. *)
Definition is_space (c : Z) : bool := bool_decide (c = 32 ∨ 9 ≤ c ≤ 13).

Definition fromhex_error (pos : Z) : exc :=
  ValueError ("non-hexadecimal number found in fromhex() arg at position " +:+ string_of_Z pos).

(** [bytes.fromhex(s)], [pos] being the index of [s] in the argument. *)
Fixpoint fromhex_at (s : list Z) (pos : Z) : result (list Z) :=
  match s with
  | [] => Ok []
  | c :: r =>
      if is_space c then fromhex_at r (pos + 1)
      else match hex_value c with
           | None => Err (fromhex_error pos)
           | Some hi =>
               match r with
               | [] => Err (fromhex_error (pos + 1))
               | c2 :: r' =>
                   match hex_value c2 with
                   | None => Err (fromhex_error (pos + 1))
                   | Some lo => cons (16 * hi + lo) <$> fromhex_at r' (pos + 2)
                   end
               end
           end
  end.

Definition fromhex (s : list Z) : result (list Z) := fromhex_at s 0.

(** [s.lower().startswith('0x')] then [s[2:]]. *)
Definition strip_0x (s : list Z) : list Z :=
  match s with
  | c0 :: x :: r => if decide (c0 = 48 ∧ (x = 120 ∨ x = 88)) then r else s
  | _ => s
  end.

Section poke.
Context (F : family).
(** The memory that follows the source [bytes] object: [memmove] reads
    [length] bytes from it whatever the length of the argument, so a
    short argument is followed by its NUL terminator and then by this
    memory. *)
Context (beyond : nat → Z).

(** [_poke(s)] *)
Definition poke (arg : pyval) : PyM container unit :=
  λ c,
    let parsed :=
      match arg with
      | PStr s => fromhex (strip_0x s)
      | PBytes b => Ok b
      | _ => Err (ValueError "must be bytes or str")
      end in
    match parsed with
    | Err e => (c, Err e)
    | Ok b =>
        if negb (ct_dv_value c) then (c, Err MemoryFault)
        else
          let n := length (ct_buffer c) in
          let cleared := fam_clear_buffer F c in
          (with_buffer (take n (b ++ 0 :: map beyond (seq 0 n)) ++ drop n cleared) c, Ok ())
    end.
End poke.

(** ** The contract between the base class and a family *)

(** What [IIAPI_TYPE] needs from a subclass: on a buffer of the size its
    [_allocate_buffer] calls for, [_value_setter] writes the buffer in
    place (same length) and touches neither the descriptor nor the null
    flag; [_clear_buffer] keeps the buffer length. *)
Class FamilyLaws (F : family) : Prop := {
  setter_frame : ∀ v c c' r,
    length (ct_buffer c) = sizeof lp64 (fam_buffer F (ct_descriptor c)) →
    fam_value_setter F v c = (c', r) →
    ∃ b, c' = with_buffer b c ∧ length b = length (ct_buffer c);
  clear_length : ∀ c,
    length (ct_buffer c) = sizeof lp64 (fam_buffer F (ct_descriptor c)) →
    length (fam_clear_buffer F c) = length (ct_buffer c);
}.

(** The invariant of an instance: the buffer has the size of the ctypes
    type the descriptor calls for, and [dv_value] is [None] exactly
    while [dv_null] is set. *)
Definition ct_inv (F : family) (c : container) : Prop :=
  length (ct_buffer c) = sizeof lp64 (fam_buffer F (ct_descriptor c)) ∧
  ct_dv_value c = negb (ct_dv_null c).

(** ** Lemmas *)

Lemma ds_uint2_small v : 0 ≤ v < 65536 → ds_uint2 v = v.
Proof. intros Hv. apply wrap_unsigned_small. cbv [modulus]. simpl. lia. Qed.

Lemma ds_int2_small v : -32768 ≤ v < 32768 → ds_int2 v = v.
Proof. intros Hv. apply wrap_signed_small; [lia|]. cbv [half_modulus]. simpl. lia. Qed.

#[export] Hint Rewrite ds_uint2_small ds_int2_small using lia : iitypes_len.

Lemma with_buffer_id c : with_buffer (ct_buffer c) c = c.
Proof. by destruct c. Qed.

Lemma frame_refl c : ∃ b, c = with_buffer b c ∧ length b = length (ct_buffer c).
Proof. exists (ct_buffer c). by rewrite with_buffer_id. Qed.

Lemma with_buffer_twice b b' c : with_buffer b' (with_buffer b c) = with_buffer b' c.
Proof. done. Qed.

Section laws.
Context (F : family) `{!FamilyLaws F}.

Lemma set_value_unfold v c :
  set_value F v c = fam_value_setter F v (with_null false true c).
Proof. reflexivity. Qed.

Lemma set_preserves_inv v c c' r :
  ct_inv F c → set F v c = (c', r) → ct_inv F c'.
Proof.
  unfold set, ct_inv. intros [Hl Hv] H. destruct (is_null_marker v).
  - unfold set_null in H. destruct (ct_withnull c); simplify_eq; done.
  - rewrite set_value_unfold in H. apply setter_frame in H as (b & -> & Hl'); [|done].
    simpl in *. rewrite Hl'. done.
Qed.

(** Every instance [__init__] returns satisfies [ct_inv]: the buffer has
    the size of its ctypes structure and [dv_value] is set exactly when
    the instance is not NULL. *)
Lemma init_inv args kw c : init F args kw = Ok c → ct_inv F c.
Proof.
  unfold init. intros H.
  destruct (kw_descriptor kw), (bool_decide _); res_destr H.
  all: unfold ct_inv in *; first
    [ injection H as <-; simpl; split; [apply length_zeros|done]
    | destruct (set F _ _) as [c' [?|?]] eqn:Hs; cbn in H; [injection H as <-|discriminate H];
      eapply set_preserves_inv; [|exact Hs]; unfold ct_inv; simpl; split; [apply length_zeros|done] ].
Qed.

Lemma set_keeps_layout v c c' r :
  length (ct_buffer c) = sizeof lp64 (fam_buffer F (ct_descriptor c)) → set F v c = (c', r) →
  ct_descriptor c' = ct_descriptor c ∧ ct_dv_length c' = ct_dv_length c.
Proof.
  unfold set. intros Hl H. destruct (is_null_marker v).
  - unfold set_null in H. destruct (ct_withnull c); simplify_eq; done.
  - rewrite set_value_unfold in H. apply setter_frame in H as (b & -> & _); done.
Qed.

(** [dv_length] is what [_get_dv_length] computes from the descriptor
    and the size of the allocated buffer. *)
Lemma init_dv_length args kw c :
  init F args kw = Ok c →
  ct_dv_length c = fam_dv_length F (ct_descriptor c) (sizeof lp64 (fam_buffer F (ct_descriptor c))).
Proof.
  unfold init. intros H.
  destruct (kw_descriptor kw), (bool_decide _); res_destr H.
  all: first
    [ injection H as <-; done
    | destruct (set F _ _) as [c' [?|?]] eqn:Hs; cbn in H; [injection H as <-|discriminate H];
      apply set_keeps_layout in Hs as [-> ->]; [done|apply length_zeros] ].
Qed.

(** Sizes within the ranges of the descriptor fields are stored as
    computed. *)
Lemma build_descriptor_small wn nm args len prec scale :
  fam_ds_length F args = Ok len → fam_ds_precision F args = Ok prec → fam_ds_scale F args = Ok scale →
  0 ≤ len < 65536 → -32768 ≤ prec < 32768 → -32768 ≤ scale < 32768 →
  build_descriptor F wn nm args =
  Ok {| ds_dataType := fam_dataType F; ds_nullable := wn; ds_length := len; ds_precision := prec;
        ds_scale := scale; ds_columnType := 0; ds_columnName := nm |}.
Proof.
  intros Hl Hp Hs ? ? ?. unfold build_descriptor. rewrite Hl, Hp, Hs. cbn.
  by rewrite ds_uint2_small, !ds_int2_small by lia.
Qed.

(** An instance [__init__] returns has passed [_validate_size], and in
    value mode its descriptor is the one built from the arguments. *)
Lemma init_checked args kw c :
  init F args kw = Ok c →
  fam_validate_size F (ct_descriptor c) = Ok () ∧
  (kw_descriptor kw = None → ∃ wn name, build_descriptor F wn name args = Ok (ct_descriptor c)).
Proof.
  unfold init. intros H.
  destruct (kw_descriptor kw) eqn:Hk, (bool_decide _); res_destr H.
  all: first
    [ injection H as <-
    | destruct (set F _ _) as [c' [?|?]] eqn:Hs; cbn in H; [injection H as <-|discriminate H];
      apply set_keeps_layout in Hs as [-> _]; [|apply length_zeros] ].
  all: repeat match goal with u : unit |- _ => destruct u end; cbn [ct_descriptor].
  all: split; [done|intros ?]; simplify_eq; eauto.
Qed.

(** C1: A failed [_value_setter] does not roll back [_set_value]: the
    instance is no longer NULL, whatever it was before. *)
Lemma set_value_error_clears_null v c c' e :
  ct_inv F c → is_null_marker v = false → set F v c = (c', Err e) →
  ct_dv_null c' = false ∧ ct_dv_value c' = true.
Proof.
  unfold set. intros [Hl _] -> H. rewrite set_value_unfold in H.
  apply setter_frame in H as (b & -> & _); done.
Qed.

Lemma poke_preserves_inv beyond arg c c' r :
  ct_inv F c → poke F beyond arg c = (c', r) → ct_inv F c'.
Proof.
  unfold poke, ct_inv. intros [Hl Hv] H.
  destruct (match arg with PStr s => _ | PBytes b => _ | _ => _ end);
    [|by simplify_eq].
  destruct (negb (ct_dv_value c)); simplify_eq; [done|]. simpl.
  rewrite length_app, length_take, length_drop, clear_length, length_app by done. simpl.
  rewrite length_map, length_seq. split; [lia|done].
Qed.
End laws.

(** ** Null handling of the base class *)

(** Assigning [NULL] or [None] to a [WITHNULL] instance makes it NULL and
    its [value] is [None]. *)
Lemma set_null_withnull F v c :
  is_null_marker v = true → ct_withnull c = true →
  set F v c = (with_null true false c, Ok ()) ∧ value F (with_null true false c) = Ok PNone.
Proof. unfold set, set_null. intros -> ->. done. Qed.

(** Assigning [NULL] or [None] to a [NOTNULL] instance raises
    [ValueError('not nullable')] and changes nothing. *)
Lemma set_null_notnull F v c :
  is_null_marker v = true → ct_withnull c = false →
  set F v c = (c, Err (ValueError "not nullable")).
Proof. unfold set, set_null. intros -> ->. done. Qed.

(** ** The two construction modes *)

Lemma init_descriptor_and_positionals F args kw d :
  kw_descriptor kw = Some d → args ≠ [] →
  is_Some (kw_nullable kw) → kw_nullable kw ≠ Some PNOTNULL → kw_nullable kw ≠ Some PWITHNULL →
  init F args kw = Err (ValueError "must be NOTNULL or WITHNULL").
Proof.
  intros _ _ [n Hn] H1 H2. unfold init, null_semantics. rewrite Hn.
  destruct n; try done; congruence.
Qed.

(** [descriptor=] together with a positional argument is refused with
    [RuntimeError]. *)
Lemma init_conflicting_modes F args kw d wn name :
  null_semantics kw = Ok wn → column_name kw = Ok name →
  kw_descriptor kw = Some d → args ≠ [] →
  init F args kw = Err (RuntimeError "positional argument(s) with descriptor=").
Proof.
  intros Hn Hc Hd Ha. unfold init. rewrite Hn, Hc, Hd. simpl.
  rewrite bool_decide_eq_true_2; [done|]. destruct args; [done|simpl; lia].
Qed.

Lemma init_no_initial_value F kw wn name :
  null_semantics kw = Ok wn → column_name kw = Ok name → kw_descriptor kw = None →
  init F [] kw = Err (RuntimeError "no initial value").
Proof. intros Hn Hc Hd. unfold init. rewrite Hn, Hc, Hd. done. Qed.

Lemma init_value_mode_eq F a args kw wn name :
  null_semantics kw = Ok wn → column_name kw = Ok name → kw_descriptor kw = None →
  init F (a :: args) kw = init_value_mode F wn name (a :: args).
Proof. intros Hn Hc Hd. unfold init. rewrite Hn, Hc, Hd. reflexivity. Qed.

(** When every step before the assignment succeeds, value-mode
    construction is the assignment of the initial value to the fresh
    instance. *)
Lemma init_value_mode_unfold F wn name args d decl v :
  build_descriptor F wn name args = Ok d → fam_SQL_declaration F d = Ok decl →
  fam_validate_size F d = Ok () → validate_positionals F args = Ok () →
  fam_initial_value F args = Ok v →
  init_value_mode F wn name args =
  match set F v (fresh_container F wn d decl) with
  | (c', Ok _) => Ok c'
  | (_, Err e) => Err e
  end.
Proof.
  intros Hd Hs Hv Hp Hi. unfold init_value_mode, mbind, result_bind.
  rewrite Hd; cbv beta iota; rewrite Hs; cbv beta iota; rewrite Hv; cbv beta iota.
  rewrite Hp; cbv beta iota. by rewrite Hi.
Qed.

Lemma fresh_container_inv F wn d decl : ct_inv F (fresh_container F wn d decl).
Proof. split; [apply length_zeros|done]. Qed.

(** ** [_peek] and [_poke] *)

Lemma hex_digit_value n :
  0 ≤ n < 16 → hex_value (hex_digit n) = Some n ∧ is_space (hex_digit n) = false.
Proof.
  intros Hn. unfold hex_value, hex_digit, is_space.
  repeat (case_decide || case_bool_decide); split; try f_equal; lia.
Qed.

(** [bytes.fromhex(b.hex()) == b]. *)
Lemma fromhex_hex bs pos : bytes_ok bs → fromhex_at (hex bs) pos = Ok bs.
Proof.
  intros Hb. revert pos. induction Hb as [|b bs Hb _ IH]; intros pos; [done|].
  unfold is_byte in Hb. simpl.
  destruct (hex_digit_value (b / 16)) as [H1 H1'];
    [split; [apply Z.div_pos|apply Z.div_lt_upper_bound]; lia|].
  destruct (hex_digit_value (b mod 16)) as [H2 _]; [apply Z.mod_pos_bound; lia|].
  rewrite H1', H1, H2, IH. simpl. f_equal. f_equal. pose proof (Z.div_mod b 16). lia.
Qed.

Lemma strip_0x_hex bs : bytes_ok bs → strip_0x (hex bs) = hex bs.
Proof.
  intros Hb. destruct Hb as [|b bs Hb _]; [done|]. unfold is_byte in Hb. simpl.
  assert (0 ≤ b mod 16 < 16) as Hm by (apply Z.mod_pos_bound; lia).
  rewrite decide_False; [done|]. unfold hex_digit. repeat case_decide; lia.
Qed.

Section peek_poke.
Context (F : family) `{!FamilyLaws F} (beyond : nat → Z).

(** Poking back the hex dump of a non-NULL instance leaves it as it was. *)
Lemma poke_peek c :
  ct_inv F c → ct_dv_null c = false → ct_dv_value c = true → bytes_ok (ct_buffer c) →
  poke F beyond (PStr (peek c)) c = (c, Ok ()).
Proof.
  intros [Hi _] Hn Hv Hb. unfold poke, peek, fromhex. rewrite Hn, Hv, strip_0x_hex, fromhex_hex by done.
  simpl. rewrite take_app_length', drop_ge by (rewrite ?clear_length by done; lia).
  rewrite app_nil_r. by destruct c.
Qed.

(** [_poke] never changes the buffer size; an argument of at least the
    buffer's length is cut to it. *)
Lemma poke_long c b :
  ct_inv F c → ct_dv_value c = true → (length (ct_buffer c) ≤ length b)%nat →
  poke F beyond (PBytes b) c = (with_buffer (take (length (ct_buffer c)) b) c, Ok ()).
Proof.
  intros [Hi _] Hv Hl. unfold poke. rewrite Hv. simpl.
  rewrite take_app_le, drop_ge by (rewrite ?clear_length by done; lia). by rewrite app_nil_r.
Qed.

(** C13: A shorter argument is not completed from the cleared buffer:
    [memmove] copies [length] bytes from the argument, so its NUL
    terminator and the memory after it land in the buffer. *)
Lemma poke_short c b :
  ct_inv F c → ct_dv_value c = true → (length b < length (ct_buffer c))%nat →
  poke F beyond (PBytes b) c
  = (with_buffer (b ++ 0 :: map beyond (seq 0 (length (ct_buffer c) - length b - 1))) c, Ok ()).
Proof.
  intros [Hi _] Hv Hl. unfold poke. rewrite Hv. simpl.
  rewrite drop_ge by (rewrite clear_length by done; lia). rewrite app_nil_r.
  rewrite take_app, (take_ge b) by lia. do 3 f_equal.
  replace (length (ct_buffer c) - length b)%nat with (S (length (ct_buffer c) - length b - 1)) by lia.
  simpl. rewrite <- fmap_take. f_equal. rewrite take_seq, Nat.min_l, Nat.sub_0_r by lia. done.
Qed.

(** C14: A [_poke] on a NULL instance dereferences the [None] address. *)
Lemma poke_null c arg b :
  ct_dv_value c = false → (arg = PBytes b ∨ ∃ s, arg = PStr s ∧ fromhex (strip_0x s) = Ok b) →
  poke F beyond arg c = (c, Err MemoryFault).
Proof. intros Hv [->|[s [-> Hs]]]; unfold poke; rewrite ?Hs, Hv; done. Qed.
End peek_poke.
