(* ===== verification/Integers.v ===== *)
(** * Integers: [IIAPI_INT_TYPE] and the wrappers [Integer1] ... [Integer8]

    [IIAPI_TYPE_WITH_1248] ([types.py] lines 1866-1886) requires the byte
    width as the second positional argument. [IIAPI_INT_TYPE] (lines
    1955-2020) checks the width, stores the two's-complement bounds of
    that width, allocates a structure with one [c_byte], [c_short],
    [c_int] or [c_longlong] field, and refuses a value outside the bounds
    with [OverflowError]. The wrappers [Integer1] ... [Integer8] (lines
    2038-2064) append the width to the positional arguments unless a
    descriptor is passed.

    Theorems: an in-range [int] reads back exactly after an assignment,
    the two bounds are accepted and the values one past them refused, a
    non-[int] is refused with [TypeError], and the construction errors
    the tests rely on. *)

From S2P Require Import Prelude Ctypes PyValue Container.

Module Int.

(** [IIAPI_TYPE_WITH_1248._get_ds_length]: [ds_length not in {1,2,4,8}]
    hashes the size first. *)
Definition WITH_1248_ds_length (args : list pyval) : result Z :=
  match args with
  | _ :: size :: _ =>
      if negb (py_hashable size)
      then Err (TypeError ("unhashable type: '" +:+ py_type_name size +:+ "'"))
      else if py_in_ints size [1; 2; 4; 8] then ctypes_int size
      else Err (ValueError "invalid size")
  | _ => Err (RuntimeError "no size specified")
  end.

(** [_SQL_declaration]: a dictionary lookup on the size. *)
Definition SQL_declaration (d : descriptor) : result string :=
  match ds_length d with
  | 1 => Ok "TINYINT"
  | 2 => Ok "SMALLINT"
  | 4 => Ok "INTEGER"
  | 8 => Ok "BIGINT"
  | n => Err (KeyError (string_of_Z n))
  end.

(** [_validate_size] *)
Definition validate_size (d : descriptor) : result unit :=
  if decide (ds_length d ∈ [1; 2; 4; 8]) then Ok ()
  else Err (ValueError "size not 1, 2, 4, or 8").

(** The bounds [_validate_size] saves. *)
Definition upper_bound (size : Z) : Z := 2 ^ (8 * size - 1) - 1.
Definition lower_bound (size : Z) : Z := 2 ^ (8 * size - 1) * -1.

(** The ctypes type of the [value] field chosen by [_allocate_buffer]. *)
Definition value_field (d : descriptor) : ctype :=
  if decide (ds_length d = 1) then c_byte
  else if decide (ds_length d = 2) then c_short
  else if decide (ds_length d = 4) then c_int
  else c_longlong.

Definition allocate_buffer (d : descriptor) : ctype :=
  Buffer_Factory [("value", value_field d)].

Definition field_width (d : descriptor) : nat := sizeof lp64 (value_field d).

(** [_get_python_value]: [self._buffer.value]. *)
Definition get_python_value (c : container) : result pyval :=
  Ok (PInt (load_int (field_width (ct_descriptor c)) true (ct_buffer c) 0)).

(** [_value_setter] *)
Definition value_setter (v : pyval) : PyM container unit :=
  λ c,
    match v with
    | PInt z =>
        let size := ds_length (ct_descriptor c) in
        if decide (lower_bound size ≤ z ≤ upper_bound size)
        then (with_buffer (store_int (field_width (ct_descriptor c)) z (ct_buffer c) 0) c, Ok ())
        else (c, Err (OverflowError ""))
    | _ => (c, Err (TypeError "not int"))
    end.

Definition IIAPI_INT_TYPE : family := {|
  fam_dataType := IIAPI_INT_TYPE;
  fam_expected_positionals := 2;
  fam_ds_length := WITH_1248_ds_length;
  fam_ds_precision := zero_precision;
  fam_ds_scale := zero_precision;
  fam_SQL_declaration := SQL_declaration;
  fam_validate_size := validate_size;
  fam_buffer := allocate_buffer;
  fam_dv_length := default_dv_length;
  fam_initial_value := default_initial_value;
  fam_value_setter := value_setter;
  fam_get_python_value := get_python_value;
  fam_clear_buffer := default_clear_buffer;
|}.

(** [Integer1] ... [Integer8]: the width [w] appended to the positionals
    unless [descriptor=] is given.  The [except KeyError] also catches a
    [KeyError] the constructor raises in descriptor mode (the
    [_SQL_declaration] of a size not in the table) and calls the
    constructor again, with the width appended. *)
Definition IntegerN (w : Z) (args : list pyval) (kw : kwargs) : result container :=
  match kw_descriptor kw with
  | Some _ =>
      match init IIAPI_INT_TYPE args kw with
      | Err (KeyError _) => init IIAPI_INT_TYPE (args ++ [PInt w]) kw
      | r => r
      end
  | None => init IIAPI_INT_TYPE (args ++ [PInt w]) kw
  end.

Definition Integer1 := IntegerN 1.
Definition Integer2 := IntegerN 2.
Definition Integer4 := IntegerN 4.
Definition Integer8 := IntegerN 8.

(** The range [_value_setter] accepts. *)
Definition in_bounds (d : descriptor) (z : Z) : Prop :=
  lower_bound (ds_length d) ≤ z ≤ upper_bound (ds_length d).

(** ** Lemmas *)

Lemma sizeof_allocate_buffer d : sizeof lp64 (allocate_buffer d) = field_width d.
Proof. unfold allocate_buffer, field_width, value_field. by repeat case_decide. Qed.

Lemma field_width_pos d : (0 < field_width d)%nat.
Proof. unfold field_width, value_field. repeat case_decide; cbv; lia. Qed.

#[export] Instance int_laws : FamilyLaws IIAPI_INT_TYPE.
Proof.
  split; [|intros c _; apply length_zeros]. intros v c c' r Hl H. simpl in *.
  rewrite sizeof_allocate_buffer in Hl. unfold value_setter in H.
  destruct v; simplify_eq; try apply frame_refl.
  revert H; case_decide; intros Hs; simplify_eq; [|apply frame_refl].
  eexists; split; [done|]. unfold store_int. rewrite length_splice; [done|].
  rewrite length_le_encode. lia.
Qed.

(** The bounds are those of the signed field the buffer holds. *)
Lemma bounds_half_modulus d :
  ds_length d ∈ [1; 2; 4; 8] →
  upper_bound (ds_length d) = half_modulus (field_width d) - 1 ∧
  lower_bound (ds_length d) = - half_modulus (field_width d).
Proof.
  unfold upper_bound, lower_bound, field_width, value_field.
  intros Hd. rewrite !elem_of_cons, elem_of_nil in Hd.
  destruct Hd as [H|[H|[H|[H|[]]]]]; rewrite H;
    repeat case_decide; try lia; split; reflexivity.
Qed.

Lemma set_int_unfold c z :
  set IIAPI_INT_TYPE (PInt z) c =
  let c1 := with_null false true c in
  if decide (in_bounds (ct_descriptor c) z)
  then (with_buffer (store_int (field_width (ct_descriptor c)) z (ct_buffer c) 0) c1, Ok ())
  else (c1, Err (OverflowError "")).
Proof. reflexivity. Qed.

Lemma set_int_success c z c' :
  set IIAPI_INT_TYPE (PInt z) c = (c', Ok ()) → in_bounds (ct_descriptor c) z.
Proof. rewrite set_int_unfold. cbv zeta. by case_decide. Qed.

Lemma get_after_set_int c z :
  ct_inv IIAPI_INT_TYPE c → ds_length (ct_descriptor c) ∈ [1; 2; 4; 8] →
  in_bounds (ct_descriptor c) z →
  value IIAPI_INT_TYPE (with_buffer (store_int (field_width (ct_descriptor c)) z (ct_buffer c) 0)
                          (with_null false true c)) = Ok (PInt z).
Proof.
  intros [Hl _] Hd Hz. simpl in Hl. rewrite sizeof_allocate_buffer in Hl.
  unfold value, with_buffer, with_null. cbn [ct_dv_null fam_get_python_value IIAPI_INT_TYPE].
  unfold get_python_value. cbn [ct_buffer ct_descriptor]. do 2 f_equal.
  rewrite load_store_int by (pose proof (field_width_pos (ct_descriptor c)); lia).
  apply wrap_small; [apply field_width_pos|].
  destruct (bounds_half_modulus _ Hd) as [Hu Hlo]. unfold in_bounds in Hz. lia.
Qed.

(** An [int] within the bounds of the declared width reads back
    unchanged after an assignment, whatever the instance held. *)
Theorem set_get_int c z :
  ct_inv IIAPI_INT_TYPE c → ds_length (ct_descriptor c) ∈ [1; 2; 4; 8] →
  in_bounds (ct_descriptor c) z →
  ∃ c', set IIAPI_INT_TYPE (PInt z) c = (c', Ok ()) ∧
        value IIAPI_INT_TYPE c' = Ok (PInt z).
Proof.
  intros Hi Hd Hz. rewrite set_int_unfold, decide_True by done.
  eexists; split; [reflexivity|]. by apply get_after_set_int.
Qed.

(** An assignment of an [int] succeeds exactly when it is within the
    bounds: both bounds are accepted, anything beyond raises
    [OverflowError] and leaves the buffer as it was. *)
Theorem set_int_overflow c z :
  (∃ c', set IIAPI_INT_TYPE (PInt z) c = (c', Ok ())) ↔ in_bounds (ct_descriptor c) z.
Proof.
  split; [intros [c' H]; exact (set_int_success _ _ _ H)|].
  intros Hb. rewrite set_int_unfold, decide_True by done. eauto.
Qed.

Lemma set_int_out_of_bounds c z :
  ¬ in_bounds (ct_descriptor c) z →
  set IIAPI_INT_TYPE (PInt z) c = (with_null false true c, Err (OverflowError "")).
Proof. intros H. rewrite set_int_unfold, decide_False by done. reflexivity. Qed.

(** Only an [int] is accepted: a [bool], a [float] or a [str] raises
    [TypeError('not int')]. *)
Theorem set_int_type_error c v :
  is_null_marker v = false → (∀ z, v ≠ PInt z) →
  set IIAPI_INT_TYPE v c = (with_null false true c, Err (TypeError "not int")).
Proof.
  intros Hn Hi. unfold set. rewrite Hn. rewrite set_value_unfold. simpl.
  unfold value_setter. destruct v; try done. by destruct (Hi z).
Qed.

(** [IntegerN w (z)] with [w] one of the four widths and [z] within
    its bounds builds an instance whose value is [z]. *)
Theorem IntegerN_value w z :
  w ∈ [1; 2; 4; 8] → lower_bound w ≤ z ≤ upper_bound w →
  ∃ c, IntegerN w [PInt z] no_kwargs = Ok c ∧ value IIAPI_INT_TYPE c = Ok (PInt z).
Proof.
  intros Hw Hz. unfold IntegerN. simpl.
  rewrite (init_value_mode_eq _ _ _ _ false None) by done.
  rewrite !elem_of_cons, elem_of_nil in Hw.
  destruct Hw as [->|[->|[->|[->|[]]]]]; unfold init_value_mode; simpl;
    lazymatch goal with |- context [set IIAPI_INT_TYPE (PInt z) ?c0] =>
      rewrite (set_int_unfold c0 z), decide_True by exact Hz;
      eexists; split; [reflexivity|];
      apply get_after_set_int; [apply fresh_container_inv|decide_prop|exact Hz]
    end.
Qed.

(** C15: [Integer1()] ... [Integer8()] with no value, in value mode:
    whatever the width and the valid [nullable=] and [name=] keywords,
    the width appended by the wrapper becomes the initial value and
    construction fails for want of a size, not for want of a value. *)
Theorem IntegerN_no_value w kw wn nm :
  null_semantics kw = Ok wn → column_name kw = Ok nm → kw_descriptor kw = None →
  IntegerN w [] kw = Err (RuntimeError "no size specified").
Proof.
  intros Hn Hc Hd. unfold IntegerN. rewrite Hd. cbn [app].
  rewrite (init_value_mode_eq _ _ _ _ wn nm) by done. reflexivity.
Qed.
End Int.

#[export] Existing Instance Int.int_laws.
