(* ===== verification/Floats.v ===== *)
(** * Floats: [IIAPI_FLT_TYPE] and the wrappers [Float4], [Float8]

    [IIAPI_FLT_TYPE] (types.py lines 1889-1941) stores a Python [float]
    in a [c_float] or [c_double] field; [Float4] and [Float8] (lines
    2024-2036) append the width.  A Python [float] is an IEEE-754 binary64
    value; a [c_float] store rounds it to binary32.  [IEEE] models the
    interchange encoding of both formats over the [spec_float] of Rocq's
    standard library ([SpecFloat]), whose [binary_normalize] rounds to
    nearest, ties to even, as the C conversions do; [Flt] models the
    class. *)

From Stdlib Require Import Floats.SpecFloat.
From S2P Require Import Prelude Ctypes PyValue Container Integers.

Module IEEE.

(** An interchange format: precision (with the hidden bit), largest
    exponent, width of the exponent field. *)
Record format : Type := mk_format { prec : Z; emax : Z; ebits : Z }.

Definition binary32 : format := mk_format 24 128 8.
Definition binary64 : format := mk_format 53 1024 11.

Section codec.
Context (fm : format).

Definition frac_mod : Z := 2 ^ (prec fm - 1).
Definition exp_mod : Z := 2 ^ ebits fm.
Definition sign_mod : Z := exp_mod * frac_mod.
Definition min_exp : Z := emin (prec fm) (emax fm).

Definition sign_bit (s : bool) : Z := if s then sign_mod else 0.

(** The bits of a value: sign, biased exponent, fraction; a NaN is
    the quiet NaN with an empty payload. *)
Definition encode (f : spec_float) : Z :=
  match f with
  | S754_zero s => sign_bit s
  | S754_infinity s => sign_bit s + (exp_mod - 1) * frac_mod
  | S754_nan => (exp_mod - 1) * frac_mod + frac_mod / 2
  | S754_finite s m e =>
      if decide (Z.pos m < frac_mod) then sign_bit s + Z.pos m
      else sign_bit s + (e - min_exp + 1) * frac_mod + (Z.pos m - frac_mod)
  end.

Definition decode (b : Z) : spec_float :=
  let s := Z.odd (b / sign_mod) in
  let E := (b / frac_mod) mod exp_mod in
  let F := b mod frac_mod in
  if decide (E = 0) then
    (if decide (F = 0) then S754_zero s else S754_finite s (Z.to_pos F) min_exp)
  else if decide (E = exp_mod - 1) then
    (if decide (F = 0) then S754_infinity s else S754_nan)
  else S754_finite s (Z.to_pos (F + frac_mod)) (E + min_exp - 1).

(** Rounding of [m * 2 ^ e] to the format. *)
Definition round (m e : Z) : spec_float := binary_normalize (prec fm) (emax fm) m e false.
End codec.

(** A [float] of Python as a value of [spec_float] and back; the sign
    of a zero is not kept by [pyval]. *)
Definition of_pyfloat (v : pyval) : option spec_float :=
  match v with
  | PFloat m e => Some (round binary64 m e)
  | PInf s => Some (S754_infinity s)
  | PNaN => Some S754_nan
  | _ => None
  end.

Definition to_pyfloat (f : spec_float) : pyval :=
  match f with
  | S754_zero _ => PFloat 0 0
  | S754_infinity s => PInf s
  | S754_nan => PNaN
  | S754_finite s m e => PFloat (if s then Z.neg m else Z.pos m) e
  end.

(** The C conversion of a [double] to a [float]. *)
Definition to_single (f : spec_float) : spec_float :=
  match f with
  | S754_finite s m e => round binary32 (if s then Z.neg m else Z.pos m) e
  | _ => f
  end.

End IEEE.

Module Flt.
Import IEEE.

(** [_SQL_declaration] *)
Definition SQL_declaration (d : descriptor) : result string :=
  match ds_length d with
  | 4 => Ok "FLOAT4"
  | 8 => Ok "FLOAT"
  | n => Err (KeyError (string_of_Z n))
  end.

(** [_validate_size] *)
Definition validate_size (d : descriptor) : result unit :=
  if decide (ds_length d ∈ [4; 8]) then Ok () else Err (ValueError "size not 4 or 8").

(** [_allocate_buffer] *)
Definition allocate_buffer (d : descriptor) : ctype :=
  Buffer_Factory [("value", if decide (ds_length d = 4) then c_float else c_double)].

(** [_get_python_value]: the field widened to a Python [float]. *)
Definition get_python_value (c : container) : result pyval :=
  if decide (ds_length (ct_descriptor c) = 4)
  then Ok (to_pyfloat (decode binary32 (load_int 4 false (ct_buffer c) 0)))
  else Ok (to_pyfloat (decode binary64 (load_int 8 false (ct_buffer c) 0))).

(** [float(v)] of an [int]: rounded, [OverflowError] beyond the largest
    [float]. *)
Definition float_of_int (z : Z) : result spec_float :=
  match round binary64 z 0 with
  | S754_infinity _ => Err (OverflowError "int too large to convert to float")
  | f => Ok f
  end.

(** The top of [_value_setter]: an [int] converted by [float(v)],
    anything but a [float] refused ([bool] included: [type(True)] is
    [bool]). *)
Definition to_float (v : pyval) : result spec_float :=
  match v with
  | PInt z => float_of_int z
  | _ => match of_pyfloat v with
         | Some f => Ok f
         | None => Err (TypeError "not float or int")
         end
  end.

(** [_value_setter] *)
Definition value_setter (v : pyval) : PyM container unit :=
  f ← lift (to_float v);
  modifyS (λ c,
    if decide (ds_length (ct_descriptor c) = 4)
    then with_buffer (store_int 4 (encode binary32 (to_single f)) (ct_buffer c) 0) c
    else with_buffer (store_int 8 (encode binary64 f) (ct_buffer c) 0) c).

Definition IIAPI_FLT_TYPE : family := {|
  fam_dataType := IIAPI_FLT_TYPE;
  fam_expected_positionals := 2;
  fam_ds_length := Int.WITH_1248_ds_length;
  fam_ds_precision := zero_precision;
  fam_ds_scale := zero_precision;
  fam_SQL_declaration := SQL_declaration;
  fam_validate_size := validate_size;
  fam_buffer := allocate_buffer;
  fam_dv_length := default_dv_length;
  fam_initial_value := default_initial_value;
  fam_value_setter := value_setter;
  fam_get_python_value := get_python_value;
  fam_clear_buffer := default_clear_buffer;
|}.

(** [Float4] and [Float8]: as [Integer1] ... [Integer8], a [KeyError]
    of the constructor in descriptor mode is caught and the constructor
    called again with the width appended. *)
Definition FloatN (w : Z) (args : list pyval) (kw : kwargs) : result container :=
  match kw_descriptor kw with
  | Some _ =>
      match init IIAPI_FLT_TYPE args kw with
      | Err (KeyError _) => init IIAPI_FLT_TYPE (args ++ [PInt w]) kw
      | r => r
      end
  | None => init IIAPI_FLT_TYPE (args ++ [PInt w]) kw
  end.

Definition Float4 := FloatN 4.
Definition Float8 := FloatN 8.
End Flt.

(** ** Lemmas on the interchange encoding *)

Lemma digits2_pos_size m : digits2_pos m = Pos.size m.
Proof. induction m; simpl; congruence. Qed.

Lemma digits2_pos_bounds m :
  2 ^ (Z.pos (digits2_pos m) - 1) ≤ Z.pos m < 2 ^ Z.pos (digits2_pos m).
Proof.
  rewrite digits2_pos_size. pose proof (Pos.size_gt m) as H1. pose proof (Pos.size_le m) as H2.
  change (Z.pos m < Z.pos (2 ^ Pos.size m)) in H1.
  change (Z.pos (2 ^ Pos.size m) ≤ 2 * Z.pos m) in H2.
  rewrite Pos2Z.inj_pow in H1, H2. split; [|exact H1].
  assert (2 ^ Z.pos (Pos.size m) = 2 * 2 ^ (Z.pos (Pos.size m) - 1)) as E.
  { rewrite <- Z.pow_succ_r by lia. f_equal. lia. }
  lia.
Qed.

Section codec_lemmas.
Context (fm : IEEE.format).
Hypothesis Hprec : 2 ≤ IEEE.prec fm.
Hypothesis Hebits : 2 ≤ IEEE.ebits fm.
Hypothesis Hemax : IEEE.emax fm = 2 ^ (IEEE.ebits fm - 1).

Let F := IEEE.frac_mod fm.
Let EM := IEEE.exp_mod fm.

Lemma frac_mod_double : 2 * F = 2 ^ IEEE.prec fm.
Proof.
  subst F. unfold IEEE.frac_mod. rewrite <- Z.pow_succ_r by lia. f_equal. lia.
Qed.

Lemma exp_mod_emax : EM = 2 * IEEE.emax fm.
Proof.
  subst EM. unfold IEEE.exp_mod. rewrite Hemax, <- Z.pow_succ_r by lia. f_equal. lia.
Qed.

Lemma frac_mod_pos : 2 ≤ F.
Proof.
  subst F. unfold IEEE.frac_mod. replace 2 with (2 ^ 1) at 1 by done.
  apply Z.pow_le_mono_r; lia.
Qed.

(** A finite value the format can hold is subnormal (hidden bit clear,
    least exponent) or normal (hidden bit set, exponent in range). *)
Lemma bounded_shape m e :
  bounded (IEEE.prec fm) (IEEE.emax fm) m e = true →
  (Z.pos m < F ∧ e = IEEE.min_exp fm) ∨
  (F ≤ Z.pos m < 2 * F ∧ IEEE.min_exp fm ≤ e ≤ IEEE.emax fm - IEEE.prec fm).
Proof.
  unfold bounded, canonical_mantissa, fexp. rewrite andb_true_iff, Z.eqb_eq, Z.leb_le.
  fold (IEEE.min_exp fm). intros [Hc He].
  pose proof (digits2_pos_bounds m) as [Hlo Hhi]. rewrite frac_mod_double.
  set (d := Z.pos (digits2_pos m)) in *.
  destruct (Z.max_spec (d + e - IEEE.prec fm) (IEEE.min_exp fm)) as [[Hm Hmax]|[Hm Hmax]];
    rewrite Hmax in Hc.
  - (* the least exponent *)
    destruct (decide (d < IEEE.prec fm)).
    + left. split; [|lia]. subst F. unfold IEEE.frac_mod.
      eapply Z.lt_le_trans; [exact Hhi|]. apply Z.pow_le_mono_r; lia.
    + right. assert (d = IEEE.prec fm) as Hd by lia. rewrite Hd in Hlo, Hhi.
      subst F. unfold IEEE.frac_mod. lia.
  - right. assert (d = IEEE.prec fm) as Hd by lia. rewrite Hd in Hlo, Hhi.
    subst F. unfold IEEE.frac_mod. lia.
Qed.

(** The fields of a word built from sign, biased exponent and fraction. *)
Lemma fields_of_word s E Fr :
  0 ≤ E < EM → 0 ≤ Fr < F →
  let b := IEEE.sign_bit fm s + E * F + Fr in
  Z.odd (b / IEEE.sign_mod fm) = s ∧ (b / F) mod EM = E ∧ b mod F = Fr.
Proof.
  intros HE HF b. pose proof frac_mod_pos.
  assert (0 < EM) by (subst EM; unfold IEEE.exp_mod; apply Z.pow_pos_nonneg; lia).
  set (k := if s then 1 else 0).
  assert (b = (k * EM + E) * F + Fr) as Hb
    by (subst b k; unfold IEEE.sign_bit, IEEE.sign_mod; fold EM F; destruct s; lia).
  unfold IEEE.sign_mod. fold EM F. rewrite Hb. split_and!.
  - replace ((k * EM + E) * F + Fr) with (k * (EM * F) + (E * F + Fr)) by lia.
    rewrite Z.div_add_l by nia. rewrite Z.div_small by nia. subst k; by destruct s.
  - rewrite Z.div_add_l, Z.div_small, Z.add_0_r by lia.
    rewrite Z.add_comm, Z.mod_add, Z.mod_small by lia. done.
  - rewrite Z.add_comm, Z.mod_add, Z.mod_small by lia. done.
Qed.
Lemma decode_word s E Fr :
  0 ≤ E < EM → 0 ≤ Fr < F →
  IEEE.decode fm (IEEE.sign_bit fm s + E * F + Fr) =
  if decide (E = 0) then
    (if decide (Fr = 0) then S754_zero s else S754_finite s (Z.to_pos Fr) (IEEE.min_exp fm))
  else if decide (E = EM - 1) then
    (if decide (Fr = 0) then S754_infinity s else S754_nan)
  else S754_finite s (Z.to_pos (Fr + F)) (E + IEEE.min_exp fm - 1).
Proof.
  intros HE HF. destruct (fields_of_word s E Fr HE HF) as (Hs & HE' & HF').
  unfold IEEE.decode. fold F EM. rewrite Hs, HE', HF'. done.
Qed.

(** Decoding the bits of a value the format holds gives the value back. *)
Theorem decode_encode f :
  valid_binary (IEEE.prec fm) (IEEE.emax fm) f = true → IEEE.decode fm (IEEE.encode fm f) = f.
Proof.
  intros Hv. pose proof frac_mod_pos. pose proof exp_mod_emax.
  assert (4 ≤ EM).
  { subst EM. unfold IEEE.exp_mod. replace 4 with (2 ^ 2) by done. apply Z.pow_le_mono_r; lia. }
  destruct f as [s|s| |s m e]; unfold IEEE.encode; fold F EM.
  - replace (IEEE.sign_bit fm s) with (IEEE.sign_bit fm s + 0 * F + 0) by lia.
    rewrite decode_word by lia. done.
  - rewrite <- (Z.add_0_r (_ + _)), decode_word by lia.
    rewrite decide_False, decide_True, decide_True by lia. done.
  - replace ((EM - 1) * F + F / 2) with (IEEE.sign_bit fm false + (EM - 1) * F + F / 2)
      by (unfold IEEE.sign_bit; lia).
    assert (0 < F / 2 < F) by (split; [apply Z.div_str_pos|apply Z.div_lt]; lia).
    rewrite decode_word by lia. rewrite decide_False, decide_True, decide_False by lia. done.
  - simpl in Hv. destruct (bounded_shape m e Hv) as [[Hm ->]|[Hm He]].
    + rewrite decide_True by done.
      replace (IEEE.sign_bit fm s + Z.pos m) with (IEEE.sign_bit fm s + 0 * F + Z.pos m) by lia.
      rewrite decode_word by lia. rewrite decide_True, decide_False by lia. done.
    + rewrite decide_False by lia. unfold IEEE.min_exp, emin in *.
      rewrite decode_word by lia. rewrite decide_False, decide_False by lia.
      unfold IEEE.min_exp, emin. f_equal; [|lia]. replace (Z.pos m - F + F) with (Z.pos m) by lia. done.
Qed.
Lemma encode_range f :
  valid_binary (IEEE.prec fm) (IEEE.emax fm) f = true →
  0 ≤ IEEE.encode fm f < 2 * IEEE.sign_mod fm.
Proof.
  intros Hv. pose proof frac_mod_pos. pose proof exp_mod_emax.
  assert (4 ≤ EM).
  { subst EM. unfold IEEE.exp_mod. replace 4 with (2 ^ 2) by done. apply Z.pow_le_mono_r; lia. }
  assert (0 < F / 2 < F) by (split; [apply Z.div_str_pos|apply Z.div_lt]; lia).
  unfold IEEE.sign_mod. fold EM F.
  assert (∀ s, 0 ≤ IEEE.sign_bit fm s ≤ EM * F)
    by (intros []; unfold IEEE.sign_bit, IEEE.sign_mod; fold EM F; nia).
  destruct f as [s|s| |s m e]; unfold IEEE.encode; fold F EM.
  - specialize (H3 s). nia.
  - specialize (H3 s). nia.
  - nia.
  - simpl in Hv. specialize (H3 s). destruct (bounded_shape m e Hv) as [[Hm ->]|[Hm He]].
    + rewrite decide_True by done. nia.
    + rewrite decide_False by lia. unfold IEEE.min_exp, emin in *.
      assert (e - (3 - IEEE.emax fm - IEEE.prec fm) + 1 ≤ EM - 2) by lia. nia.
Qed.
End codec_lemmas.

Lemma binary32_ok : 2 ≤ IEEE.prec IEEE.binary32 ∧ 2 ≤ IEEE.ebits IEEE.binary32 ∧
  IEEE.emax IEEE.binary32 = 2 ^ (IEEE.ebits IEEE.binary32 - 1).
Proof. vm_compute. repeat split; discriminate. Qed.
Lemma binary64_ok : 2 ≤ IEEE.prec IEEE.binary64 ∧ 2 ≤ IEEE.ebits IEEE.binary64 ∧
  IEEE.emax IEEE.binary64 = 2 ^ (IEEE.ebits IEEE.binary64 - 1).
Proof. vm_compute. repeat split; discriminate. Qed.

(** The bits of a [c_float] or [c_double] store read back as the value. *)
Lemma load_store_float (fm : IEEE.format) (w : nat) buf f :
  2 ≤ IEEE.prec fm → 2 ≤ IEEE.ebits fm → IEEE.emax fm = 2 ^ (IEEE.ebits fm - 1) →
  2 * IEEE.sign_mod fm = modulus w → (0 < w)%nat → (w ≤ length buf)%nat →
  valid_binary (IEEE.prec fm) (IEEE.emax fm) f = true →
  IEEE.decode fm (load_int w false (store_int w (IEEE.encode fm f) buf 0) 0) = f.
Proof.
  intros H1 H2 H3 Hm Hw Hl Hv. rewrite load_store_int by lia.
  rewrite wrap_small by (try done; pose proof (encode_range fm H1 H2 H3 f Hv); lia).
  by apply decode_encode.
Qed.

Lemma sizeof_flt_buffer d :
  sizeof lp64 (Flt.allocate_buffer d) = if decide (ds_length d = 4) then 4%nat else 8%nat.
Proof. unfold Flt.allocate_buffer. by case_decide. Qed.

#[export] Instance flt_laws : FamilyLaws Flt.IIAPI_FLT_TYPE.
Proof.
  split; [|intros c _; apply length_zeros]. intros v c c' r Hl H. simpl in Hl.
  rewrite sizeof_flt_buffer in Hl. change (Flt.value_setter v c = (c', r)) in H.
  unfold Flt.value_setter in H. pym_unfold_in H. destruct (Flt.to_float v); simpl in H; simplify_eq;
    [|apply frame_refl].
  revert Hl. case_decide; intros Hl; (eexists; split; [done|]); store_len.
Qed.

Lemma set_float_unfold c v f :
  Flt.to_float v = Ok f →
  set Flt.IIAPI_FLT_TYPE v c =
  let c1 := with_null false true c in
  if decide (ds_length (ct_descriptor c) = 4)
  then (with_buffer (store_int 4 (IEEE.encode IEEE.binary32 (IEEE.to_single f)) (ct_buffer c) 0) c1, Ok ())
  else (with_buffer (store_int 8 (IEEE.encode IEEE.binary64 f) (ct_buffer c) 0) c1, Ok ()).
Proof.
  intros Hf. assert (is_null_marker v = false) by (destruct v; done).
  unfold set. rewrite H. unfold set_value. cbn. unfold Flt.value_setter. pym_unfold. rewrite Hf.
  cbn. by case_decide.
Qed.

Lemma value_float_unfold c :
  ct_dv_null c = false →
  value Flt.IIAPI_FLT_TYPE c =
  if decide (ds_length (ct_descriptor c) = 4)
  then Ok (IEEE.to_pyfloat (IEEE.decode IEEE.binary32 (load_int 4 false (ct_buffer c) 0)))
  else Ok (IEEE.to_pyfloat (IEEE.decode IEEE.binary64 (load_int 8 false (ct_buffer c) 0))).
Proof. intros Hn. unfold value. by rewrite Hn. Qed.

(** FLOAT8 keeps a Python [float] bit for bit: the [c_double] read back
    is the value the setter converted. *)
Theorem set_get_float8 c v f :
  ct_inv Flt.IIAPI_FLT_TYPE c → ds_length (ct_descriptor c) = 8 →
  Flt.to_float v = Ok f → valid_binary 53 1024 f = true →
  ∃ c', set Flt.IIAPI_FLT_TYPE v c = (c', Ok ()) ∧ value Flt.IIAPI_FLT_TYPE c' = Ok (IEEE.to_pyfloat f).
Proof.
  intros [Hl _] Hd Hf Hv. simpl in Hl. rewrite sizeof_flt_buffer, decide_False in Hl by lia.
  rewrite (set_float_unfold c v f Hf), decide_False by lia. eexists; split; [reflexivity|].
  rewrite value_float_unfold by done. cbn [ct_descriptor ct_buffer with_buffer with_null].
  rewrite decide_False by lia. do 2 f_equal. destruct binary64_ok as (H1 & H2 & H3).
  apply load_store_float; try done; lia.
Qed.

(** FLOAT4 stores a Python [float] in a [c_float]: the value read
    back is the [float] rounded to single precision (to nearest, ties to
    even), not the value assigned. *)
Theorem set_get_float4 c v f :
  ct_inv Flt.IIAPI_FLT_TYPE c → ds_length (ct_descriptor c) = 4 →
  Flt.to_float v = Ok f → valid_binary 24 128 (IEEE.to_single f) = true →
  ∃ c', set Flt.IIAPI_FLT_TYPE v c = (c', Ok ()) ∧
        value Flt.IIAPI_FLT_TYPE c' = Ok (IEEE.to_pyfloat (IEEE.to_single f)).
Proof.
  intros [Hl _] Hd Hf Hv. simpl in Hl. rewrite sizeof_flt_buffer, decide_True in Hl by done.
  rewrite (set_float_unfold c v f Hf), decide_True by done. eexists; split; [reflexivity|].
  rewrite value_float_unfold by done. cbn [ct_descriptor ct_buffer with_buffer with_null].
  rewrite decide_True by done. do 2 f_equal. destruct binary32_ok as (H1 & H2 & H3).
  apply load_store_float; try done; lia.
Qed.

(** The [ValueError('size not 4 or 8')] of [_validate_size] is dead
    code: [__init__] calls [_SQL_declaration] first, whose table has no
    other size and raises [KeyError]. *)
Lemma flt_validate_after_declaration d s :
  Flt.SQL_declaration d = Ok s → Flt.validate_size d = Ok ().
Proof.
  unfold Flt.SQL_declaration, Flt.validate_size. intros H.
  destruct (decide (ds_length d ∈ [4; 8])) as [|Hn]; [done|]. exfalso.
  assert (ds_length d ≠ 4 ∧ ds_length d ≠ 8) as [H4 H8] by set_solver.
  revert H H4 H8. generalize (ds_length d). intros [|p|p]; try discriminate.
  do 4 (try destruct p as [p|p|]); intros; congruence.
Qed.

(** FLOAT with a size the integer types accept but FLOAT does not (1 or
    2) fails with [KeyError], not with the [ValueError] of
    [_validate_size]. *)
Lemma flt_size_2 v : init Flt.IIAPI_FLT_TYPE [v; PInt 2] no_kwargs = Err (KeyError "2").
Proof. reflexivity. Qed.
