(* ===== verification/Strings.v ===== *)
(** * Strings: [IIAPI_TYPE_WITH_LIMITED_SIZE] and its eight subclasses

    [types.py] lines 1345-1862. Every class takes a value and an
    optional size. The size is inferred from [len(value)] when it is
    left out: characters for a [str], bytes for a [bytes].
    - BYTE, CHAR, C and TEXT keep the value in one [c_char * n] field.
      BYTE and TEXT clear the buffer before the store. CHAR and C pad
      the value with blanks. TEXT turns NUL bytes into blanks and strips
      trailing NULs on read. A [str] is encoded as UTF-8.
    - VARBYTE and VARCHAR put a [c_short] length before a [c_char] field
      of [ds_length - 2] bytes.
    - NCHAR and NVARCHAR encode as UTF-16LE and count two bytes per
      character. NCHAR is blank-padded with UTF-16 blanks; NVARCHAR has
      a [c_short] length and copies the value with [memmove].
    The [c_char] field stores go through CPython's [s_set] ([Ctypes]).
    That setter stops at the first NUL, so the overflow check and the
    stored value see only the bytes before it. *)

From S2P Require Import Prelude Unicode Ctypes PyValue Container.

Module Limited.

(** [MAX_SIZE] *)
Definition MAX_SIZE : Z := 32000.
Definition MAX_SIZE_UNICODE : Z := 16000.

(** [_validate_size] *)
Definition validate_size (max : Z) (d : descriptor) : result unit :=
  if decide (0 < ds_length d ≤ max) then Ok ()
  else Err (OverflowError ("size exceeds " +:+ string_of_Z max)).

Definition not_bytes_error : exc := TypeError "not bytes, bytearray, or str".

(** [_to_bytes] *)
Definition to_bytes (v : pyval) : result (list Z) :=
  match v with
  | PBytes b | PByteArray b => Ok b
  | PStr s => match utf8_encode s with Some b => Ok b | None => Err UnicodeEncodeError end
  | _ => Err not_bytes_error
  end.

(** [_get_ds_length]: [args[1]], or [len(value)]. *)
Definition get_ds_length (args : list pyval) : result Z :=
  match args with
  | _ :: size :: _ => ctypes_int size
  | _ =>
      v ← default_initial_value args;
      match v with
      | PBytes b | PByteArray b => Ok (Z.of_nat (length b))
      | PStr s => Ok (Z.of_nat (length s))
      | _ => Err not_bytes_error
      end
  end.

(** The [OverflowError] the setters raise when [s_set] refuses. *)
Definition capacity_error (c : container) : exc :=
  OverflowError (ct_SQL_declaration c +:+ " capacity exceeded").

(** [self._buffer.value = value] on a [c_char * n] field at [off]. *)
Definition store_chars (off n : nat) (data : list Z) : PyM container unit :=
  λ c, match s_set (ct_buffer c) off n data with
       | Ok b => (with_buffer b c, Ok ())
       | Err _ => (c, Err (capacity_error c))
       end.

Definition size (c : container) : nat := Z.to_nat (ds_length (ct_descriptor c)).

(** [_clear_buffer] of the base class: zero the whole buffer. *)
Definition clear_zero : PyM container unit :=
  modifyS (λ c, with_buffer (default_clear_buffer c) c).

(** [IIAPI_TYPE_WITH_LIMITED_SIZE._value_setter] (BYTE, C, CHAR's
    parent, and TEXT after its NUL replacement). *)
Definition value_setter (v : pyval) : PyM container unit :=
  b ← lift (to_bytes v);
  clear_zero;;
  c ← getS;
  store_chars 0 (size c) b.

(** The buffer of BYTE, CHAR, C, TEXT and NCHAR. *)
Definition char_buffer (d : descriptor) : ctype :=
  Buffer_Factory [("value", c_array c_char (Z.to_nat (ds_length d)))].

(** [bytes(self._buffer)] decoded as UTF-8. *)
Definition decode_utf8 (b : list Z) : result pyval :=
  match utf8_decode b with Some s => Ok (PStr s) | None => Err UnicodeDecodeError end.

Definition decl (prefix : string) (n : Z) : result string :=
  Ok (prefix +:+ "(" +:+ string_of_Z n +:+ ")").

(** The family record of a subclass of [IIAPI_TYPE_WITH_LIMITED_SIZE]. *)
Definition limited_family (dt : datatype) (ds_length : list pyval → result Z)
    (sql : descriptor → result string) (max : Z) (buffer : descriptor → ctype)
    (setter : pyval → PyM container unit) (getter : container → result pyval)
    (clear : container → list Z) : family := {|
  fam_dataType := dt;
  fam_expected_positionals := 2;
  fam_ds_length := ds_length;
  fam_ds_precision := zero_precision;
  fam_ds_scale := zero_precision;
  fam_SQL_declaration := sql;
  fam_validate_size := validate_size max;
  fam_buffer := buffer;
  fam_dv_length := default_dv_length;
  fam_initial_value := default_initial_value;
  fam_value_setter := setter;
  fam_get_python_value := getter;
  fam_clear_buffer := clear;
|}.
End Limited.

Import Limited.

(** ** BYTE *)

Definition IIAPI_BYTE_TYPE : family :=
  limited_family Container.IIAPI_BYTE_TYPE get_ds_length
    (λ d, decl "BYTE" (ds_length d)) MAX_SIZE char_buffer value_setter
    (λ c, Ok (PBytes (ct_buffer c))) default_clear_buffer.

(** ** CHAR and C *)

(** [IIAPI_CHA_TYPE._clear_buffer]: blanks over [ds_length] bytes. *)
Definition CHA_clear_buffer (c : container) : list Z :=
  memset (ct_buffer c) 0 32 (size c).

(** [IIAPI_CHA_TYPE._value_setter]: pad to the declared length, then
    store. *)
Definition CHA_value_setter (v : pyval) : PyM container unit :=
  b ← lift (to_bytes v);
  c ← getS;
  let n := size c in
  let b' := if decide (length b < n)%nat then take n (b ++ replicate n 32) else b in
  store_chars 0 n b'.

Definition CHA_get_python_value (c : container) : result pyval := decode_utf8 (ct_buffer c).

Definition IIAPI_CHA_TYPE : family :=
  limited_family Container.IIAPI_CHA_TYPE get_ds_length
    (λ d, decl "CHAR" (ds_length d)) MAX_SIZE char_buffer CHA_value_setter
    CHA_get_python_value CHA_clear_buffer.

Definition IIAPI_CHR_TYPE : family :=
  limited_family Container.IIAPI_CHR_TYPE get_ds_length
    (λ d, Ok ("C" +:+ string_of_Z (ds_length d))) MAX_SIZE char_buffer CHA_value_setter
    CHA_get_python_value CHA_clear_buffer.

(** ** TEXT *)

Fixpoint rstrip_nul_rev (rb : list Z) : list Z :=
  match rb with
  | 0 :: r => rstrip_nul_rev r
  | _ => rb
  end.

(** [v.rstrip(b'\x00')] *)
Definition rstrip_nul (b : list Z) : list Z := reverse (rstrip_nul_rev (reverse b)).

Definition TXT_get_python_value (c : container) : result pyval :=
  decode_utf8 (rstrip_nul (ct_buffer c)).

(** [IIAPI_TXT_TYPE._value_setter]: NULs become blanks. *)
Definition TXT_value_setter (v : pyval) : PyM container unit :=
  b ← lift (to_bytes v);
  let b' := map (λ x, if decide (x = 0) then 32 else x) b in
  clear_zero;;
  c ← getS;
  store_chars 0 (size c) b'.

Definition IIAPI_TXT_TYPE : family :=
  limited_family Container.IIAPI_TXT_TYPE get_ds_length
    (λ d, decl "TEXT" (ds_length d)) MAX_SIZE char_buffer TXT_value_setter
    TXT_get_python_value default_clear_buffer.

(** ** VARBYTE and VARCHAR *)

(** [IIAPI_VBYTE_TYPE._get_ds_length]: two more bytes for the length. *)
Definition VBYTE_ds_length (args : list pyval) : result Z :=
  n ← get_ds_length args; Ok (n + 2).

Definition VBYTE_buffer (d : descriptor) : ctype :=
  Buffer_Factory [("length", c_short); ("value", c_array c_char (Z.to_nat (ds_length d - 2)))].

(** [l[:k]] *)
Definition py_take (k : Z) (l : list Z) : list Z :=
  if decide (0 ≤ k) then take (Z.to_nat k) l
  else take (Z.to_nat (Z.of_nat (length l) + k)) l.

(** [bytes(self._buffer.value[:length])]: the field read stops at the
    first NUL before the slice. *)
Definition VBYTE_payload (c : container) : list Z :=
  let len := load_int 2 true (ct_buffer c) 0 in
  py_take len (s_get (ct_buffer c) 2 (Z.to_nat (ds_length (ct_descriptor c) - 2))).

(** [IIAPI_VBYTE_TYPE._value_setter]: the length is stored first. *)
Definition VBYTE_value_setter (v : pyval) : PyM container unit :=
  b ← lift (to_bytes v);
  modifyS (λ c, with_buffer (store_int 2 (Z.of_nat (length b)) (ct_buffer c) 0) c);;
  c ← getS;
  store_chars 2 (Z.to_nat (ds_length (ct_descriptor c) - 2)) b.

Definition IIAPI_VBYTE_TYPE : family :=
  limited_family Container.IIAPI_VBYTE_TYPE VBYTE_ds_length
    (λ d, decl "VARBYTE" (ds_length d - 2)) MAX_SIZE VBYTE_buffer VBYTE_value_setter
    (λ c, Ok (PBytes (VBYTE_payload c))) default_clear_buffer.

Definition IIAPI_VCH_TYPE : family :=
  limited_family Container.IIAPI_VCH_TYPE VBYTE_ds_length
    (λ d, decl "VARCHAR" (ds_length d - 2)) MAX_SIZE VBYTE_buffer VBYTE_value_setter
    (λ c, decode_utf8 (VBYTE_payload c)) default_clear_buffer.

(** ** NCHAR and NVARCHAR *)

(** [IIAPI_UNICODE_TYPE_WITH_LIMITED_SIZE._get_ds_length] *)
Definition UNICODE_ds_length (args : list pyval) : result Z :=
  match args with
  | _ :: size :: _ => n ← ctypes_int size; Ok (n * 2)
  | _ =>
      v ← default_initial_value args;
      match v with
      | PBytes b | PByteArray b => Ok (Z.of_nat (length b))
      | PStr s => Ok (Z.of_nat (length s) * 2)
      | _ => Err not_bytes_error
      end
  end.

(** [_encode] *)
Definition UNICODE_encode (v : pyval) : result (list Z) :=
  match v with
  | PBytes b | PByteArray b => Ok b
  | PStr s => match utf16_encode s with Some b => Ok b | None => Err UnicodeEncodeError end
  | _ => Err not_bytes_error
  end.

Definition decode_utf16 (b : list Z) : result pyval :=
  match utf16_decode b with Some s => Ok (PStr s) | None => Err UnicodeDecodeError end.

(** [IIAPI_NCHA_TYPE._clear_buffer]: [ds_length // 2] UTF-16 blanks. *)
Definition NCHA_clear_buffer (c : container) : list Z :=
  splice (ct_buffer c) 0 (mjoin (replicate (size c `div` 2) [32; 0])).

(** [IIAPI_NCHA_TYPE._value_setter]: length check, blanks, [memmove]. *)
Definition NCHA_value_setter (v : pyval) : PyM container unit :=
  b ← lift (UNICODE_encode v);
  c ← getS;
  if decide (ds_length (ct_descriptor c) < Z.of_nat (length b))
  then raise (capacity_error c)
  else putS (with_buffer (splice (NCHA_clear_buffer c) 0 b) c).

Definition IIAPI_NCHA_TYPE : family :=
  limited_family Container.IIAPI_NCHA_TYPE UNICODE_ds_length
    (λ d, decl "NCHAR" (ds_length d `div` 2)) MAX_SIZE_UNICODE char_buffer NCHA_value_setter
    (λ c, decode_utf16 (ct_buffer c)) NCHA_clear_buffer.

Definition NVCH_ds_length (args : list pyval) : result Z :=
  n ← UNICODE_ds_length args; Ok (n + 2).

(** [IIAPI_NVCH_TYPE._allocate_buffer]: the [c_char] field has
    [ds_length] bytes, the length prefix included. *)
Definition NVCH_buffer (d : descriptor) : ctype :=
  Buffer_Factory [("length", c_short); ("value", c_array c_char (Z.to_nat (ds_length d)))].

Definition NVCH_value_setter (v : pyval) : PyM container unit :=
  b ← lift (UNICODE_encode v);
  c ← getS;
  if decide (ds_length (ct_descriptor c) - 2 < Z.of_nat (length b))
  then raise (capacity_error c)
  else
    let cleared := default_clear_buffer c in
    putS (with_buffer (store_int 2 (Z.of_nat (length b)) (splice cleared 2 b) 0) c).

(** [ctypes.string_at(dv_value + 2, length)] decoded as UTF-16LE. *)
Definition NVCH_get_python_value (c : container) : result pyval :=
  let len := load_int 2 true (ct_buffer c) 0 in
  decode_utf16 (slice (ct_buffer c) 2 (Z.to_nat len)).

Definition IIAPI_NVCH_TYPE : family :=
  limited_family Container.IIAPI_NVCH_TYPE NVCH_ds_length
    (λ d, decl "NVARCHAR" ((ds_length d - 2) `div` 2)) MAX_SIZE_UNICODE NVCH_buffer
    NVCH_value_setter NVCH_get_python_value default_clear_buffer.

(** ** Lemmas *)

Lemma s_set_zeros n data :
  s_set (zeros n) 0 n data =
  let d := until_nul data in
  if decide (length d ≤ n)%nat then Ok (d ++ zeros (n - length d))
  else Err (ValueError ("bytes too long (" +:+ string_of_Z (Z.of_nat (length d))
                         +:+ ", maximum length " +:+ string_of_Z (Z.of_nat n) +:+ ")")).
Proof.
  unfold s_set, zeros. cbv zeta. repeat case_decide; try lia; f_equal.
  - rewrite splice_replicate_0 by (rewrite length_app; simpl; lia).
    rewrite length_app, <- app_assoc. simpl.
    replace (n - length (until_nul data))%nat with (S (n - (length (until_nul data) + 1))) by lia.
    done.
  - rewrite splice_replicate_0 by lia. subst. by rewrite Nat.sub_diag.
Qed.

(** ** The frame law of every family *)

Lemma store_chars_frame off n data c c' r :
  (off + n ≤ length (ct_buffer c))%nat → store_chars off n data c = (c', r) →
  ∃ b, c' = with_buffer b c ∧ length b = length (ct_buffer c).
Proof.
  unfold store_chars. intros Hfit H.
  destruct (s_set _ _ _ _) as [b|] eqn:E; simplify_eq; [|apply frame_refl].
  exists b. split; [done|]. by eapply length_s_set.
Qed.

Lemma sizeof_char_buffer d : sizeof lp64 (char_buffer d) = Z.to_nat (ds_length d).
Proof. apply sizeof_char_array. Qed.

Lemma sizeof_VBYTE_buffer d :
  (2 + Z.to_nat (ds_length d - 2) ≤ sizeof lp64 (VBYTE_buffer d))%nat.
Proof. unfold VBYTE_buffer. rewrite sizeof_length_prefixed. apply align_up_spec. Qed.

Lemma sizeof_NVCH_buffer d :
  (2 + Z.to_nat (ds_length d) ≤ sizeof lp64 (NVCH_buffer d))%nat.
Proof. unfold NVCH_buffer. rewrite sizeof_length_prefixed. apply align_up_spec. Qed.

#[export] Instance byte_laws : FamilyLaws IIAPI_BYTE_TYPE.
Proof.
  split; [|intros c _; apply length_zeros]. intros v c c' r Hl H. simpl in *.
  unfold value_setter, clear_zero in H. pym_unfold_in H. cbn in H.
  destruct (to_bytes v); simplify_eq; [|apply frame_refl].
  rewrite sizeof_char_buffer in Hl.
  eapply store_chars_frame in H as (b & -> & Hb);
    [|unfold default_clear_buffer, size; cbn; rewrite length_zeros; lia].
  eexists; split; [done|]. rewrite Hb. cbn. apply length_zeros.
Qed.

Lemma length_blanks16 k : length (mjoin (replicate k [32; 0])) = (2 * k)%nat.
Proof. induction k as [|k IH]; simpl; [done|]. rewrite IH. lia. Qed.

Lemma length_NCHA_clear_buffer c :
  length (ct_buffer c) = size c → length (NCHA_clear_buffer c) = length (ct_buffer c).
Proof.
  intros Hl. unfold NCHA_clear_buffer. apply length_splice.
  rewrite length_blanks16. pose proof (Nat.Div0.mul_div_le (size c) 2). lia.
Qed.

#[export] Instance cha_laws : FamilyLaws IIAPI_CHA_TYPE.
Proof.
  split.
  - intros v c c' r Hl H. simpl in *. rewrite sizeof_char_buffer in Hl.
    unfold CHA_value_setter in H. pym_unfold_in H. cbn in H.
    destruct (to_bytes v); simplify_eq; [|apply frame_refl].
    eapply store_chars_frame; [|exact H]. unfold size. lia.
  - intros c Hl. simpl in *. rewrite sizeof_char_buffer in Hl.
    unfold CHA_clear_buffer, memset. apply length_splice.
    rewrite length_replicate. unfold size. lia.
Qed.

#[export] Instance chr_laws : FamilyLaws IIAPI_CHR_TYPE.
Proof. split; [apply (@setter_frame _ cha_laws)|apply (@clear_length _ cha_laws)]. Qed.

#[export] Instance txt_laws : FamilyLaws IIAPI_TXT_TYPE.
Proof.
  split; [|intros c _; apply length_zeros]. intros v c c' r Hl H. simpl in *.
  unfold TXT_value_setter, clear_zero in H. pym_unfold_in H. cbn in H.
  destruct (to_bytes v); simplify_eq; [|apply frame_refl].
  rewrite sizeof_char_buffer in Hl.
  eapply store_chars_frame in H as (b & -> & Hb);
    [|unfold default_clear_buffer, size; cbn; rewrite length_zeros; lia].
  eexists; split; [done|]. rewrite Hb. cbn. apply length_zeros.
Qed.

#[export] Instance vbyte_laws : FamilyLaws IIAPI_VBYTE_TYPE.
Proof.
  split; [|intros c _; apply length_zeros]. intros v c c' r Hl H. simpl in *.
  pose proof (sizeof_VBYTE_buffer (ct_descriptor c)) as Hs.
  unfold VBYTE_value_setter in H. pym_unfold_in H. cbn in H.
  destruct (to_bytes v); simplify_eq; [|apply frame_refl].
  eapply store_chars_frame in H as (b & -> & Hb);
    [|cbn; rewrite length_store_int; lia].
  eexists; split; [done|]. rewrite Hb. cbn. apply length_store_int. lia.
Qed.

#[export] Instance vch_laws : FamilyLaws IIAPI_VCH_TYPE.
Proof. split; [apply (@setter_frame _ vbyte_laws)|apply (@clear_length _ vbyte_laws)]. Qed.

#[export] Instance ncha_laws : FamilyLaws IIAPI_NCHA_TYPE.
Proof.
  split.
  - intros v c c' r Hl H. simpl in *. rewrite sizeof_char_buffer in Hl.
    unfold NCHA_value_setter in H. pym_unfold_in H. cbn in H.
    destruct (UNICODE_encode v); simplify_eq; [|apply frame_refl].
    revert H; case_decide as Hc; intros H; simplify_eq; [apply frame_refl|].
    eexists; split; [done|]. rewrite length_splice; rewrite length_NCHA_clear_buffer; unfold size; lia.
  - intros c Hl. simpl in *. rewrite sizeof_char_buffer in Hl. by apply length_NCHA_clear_buffer.
Qed.

#[export] Instance nvch_laws : FamilyLaws IIAPI_NVCH_TYPE.
Proof.
  split; [|intros c _; apply length_zeros]. intros v c c' r Hl H. simpl in *.
  pose proof (sizeof_NVCH_buffer (ct_descriptor c)) as Hs.
  unfold NVCH_value_setter in H. pym_unfold_in H. cbn in H.
  destruct (UNICODE_encode v); simplify_eq; [|apply frame_refl].
  revert H; case_decide as Hc; intros H; simplify_eq; [apply frame_refl|].
  eexists; split; [done|]. unfold default_clear_buffer.
  rewrite length_store_int; rewrite length_splice; rewrite ?length_zeros; lia.
Qed.

Section byte.
Context (c : container) (Hinv : ct_inv IIAPI_BYTE_TYPE c).
Let n := size c.

Lemma byte_buffer_length : length (ct_buffer c) = n.
Proof. destruct Hinv as [Hl _]. rewrite Hl. apply sizeof_char_array. Qed.

Lemma set_byte_unfold b :
  set IIAPI_BYTE_TYPE (PBytes b) c =
  let c1 := with_buffer (zeros n) (with_null false true c) in
  match s_set (zeros n) 0 n b with
  | Ok b' => (with_buffer b' c1, Ok ())
  | Err _ => (c1, Err (capacity_error c1))
  end.
Proof.
  unfold set, set_value. simpl. unfold value_setter, clear_zero, default_clear_buffer, store_chars.
  pym_unfold. cbn. rewrite byte_buffer_length. reflexivity.
Qed.

(** C2: BYTE keeps a value only up to its first NUL byte: the rest is lost
    and replaced by zeros, and the overflow check sees only the prefix,
    so an over-long value with an early NUL is accepted. *)
Theorem set_byte_truncates_at_nul b1 b2 :
  0 ∉ b1 → (length b1 ≤ n)%nat →
  ∃ c', set IIAPI_BYTE_TYPE (PBytes (b1 ++ 0 :: b2)) c = (c', Ok ()) ∧
        value IIAPI_BYTE_TYPE c' = Ok (PBytes (b1 ++ zeros (n - length b1))).
Proof.
  intros Hn Hl. rewrite set_byte_unfold, s_set_zeros. cbv zeta.
  rewrite until_nul_app_nul by done. rewrite decide_True by done.
  eexists; split; reflexivity.
Qed.

(** C3: A value too long for BYTE(n) raises [OverflowError] after the buffer
    has been cleared: the previous value is lost. *)
Theorem set_byte_overflow_clears b :
  0 ∉ b → (n < length b)%nat →
  ∃ c', set IIAPI_BYTE_TYPE (PBytes b) c = (c', Err (OverflowError
          (ct_SQL_declaration c +:+ " capacity exceeded"))) ∧
        ct_buffer c' = zeros n ∧ ct_dv_null c' = false.
Proof.
  intros Hn Hl. rewrite set_byte_unfold, s_set_zeros. cbv zeta.
  rewrite until_nul_no_nul by done. rewrite decide_False by lia.
  eexists; split; [reflexivity|done].
Qed.
End byte.

Section vbyte.
Context (c : container) (Hinv : ct_inv IIAPI_VBYTE_TYPE c).
Let k := Z.to_nat (ds_length (ct_descriptor c) - 2).

Lemma vbyte_buffer_length : (2 + k ≤ length (ct_buffer c))%nat.
Proof. destruct Hinv as [-> _]. apply sizeof_VBYTE_buffer. Qed.

Lemma set_vbyte_unfold b :
  set IIAPI_VBYTE_TYPE (PBytes b) c =
  let c1 := with_buffer (store_int 2 (Z.of_nat (length b)) (ct_buffer c) 0)
              (with_null false true c) in
  match s_set (ct_buffer c1) 2 k b with
  | Ok b' => (with_buffer b' c1, Ok ())
  | Err _ => (c1, Err (capacity_error c1))
  end.
Proof. reflexivity. Qed.

Lemma load_length_prefix (b : list Z) :
  Z.of_nat (length b) < 2 ^ 15 →
  load_int 2 true (store_int 2 (Z.of_nat (length b)) (ct_buffer c) 0) 0 = Z.of_nat (length b).
Proof.
  intros Hb. pose proof vbyte_buffer_length.
  rewrite load_store_int by lia. apply wrap_small; [lia|]. change (half_modulus 2) with (2 ^ 15). lia.
Qed.

(** C4: VARBYTE keeps its value up to the first NUL: the stored length
    counts the whole value, but the field read stops at the NUL, so a
    value with a NUL byte does not read back, and one without reads
    back exactly. The check is on the bytes before the first NUL. *)
Theorem set_get_varbyte b :
  (length (until_nul b) ≤ k)%nat → Z.of_nat (length b) < 2 ^ 15 →
  ∃ c', set IIAPI_VBYTE_TYPE (PBytes b) c = (c', Ok ()) ∧
        value IIAPI_VBYTE_TYPE c' = Ok (PBytes (until_nul b)).
Proof.
  intros Hk Hb. pose proof vbyte_buffer_length as Hl.
  rewrite set_vbyte_unfold. cbv zeta. cbn [ct_buffer with_buffer].
  destruct (s_set_ok (store_int 2 (Z.of_nat (length b)) (ct_buffer c) 0) 2 k b Hk)
    as [b' Hb']. rewrite Hb'. eexists; split; [reflexivity|].
  unfold value. cbn [ct_dv_null with_buffer with_null fam_get_python_value
    IIAPI_VBYTE_TYPE limited_family]. unfold VBYTE_payload.
  cbn [ct_buffer ct_descriptor with_buffer with_null]. fold k.
  assert (length (store_int 2 (Z.of_nat (length b)) (ct_buffer c) 0) = length (ct_buffer c))
    as Hst by (apply length_store_int; lia).
  rewrite (load_int_s_set 2 true _ 2 k b b') by (done || rewrite Hst; lia).
  rewrite load_length_prefix by done.
  rewrite (s_get_s_set (store_int 2 (Z.of_nat (length b)) (ct_buffer c) 0) 2 k b b') by (done || rewrite Hst; lia).
  unfold py_take. rewrite decide_True by lia. rewrite Nat2Z.id.
  f_equal. f_equal. apply take_ge, length_until_nul_le.
Qed.

(** C5: A VARBYTE value too long for the field raises [OverflowError] after
    the new length has been written: the instance keeps the old bytes
    under the new length. *)
Theorem set_varbyte_overflow_writes_length b :
  (k < length (until_nul b))%nat → Z.of_nat (length b) < 2 ^ 15 →
  ∃ c', set IIAPI_VBYTE_TYPE (PBytes b) c =
          (c', Err (OverflowError (ct_SQL_declaration c +:+ " capacity exceeded"))) ∧
        load_int 2 true (ct_buffer c') 0 = Z.of_nat (length b) ∧
        slice (ct_buffer c') 2 k = slice (ct_buffer c) 2 k.
Proof.
  intros Hk Hb. pose proof vbyte_buffer_length as Hl.
  rewrite set_vbyte_unfold. cbv zeta. cbn [ct_buffer with_buffer].
  destruct (s_set_too_long (store_int 2 (Z.of_nat (length b)) (ct_buffer c) 0) 2 k b Hk)
    as [e He]. rewrite He. eexists; split; [reflexivity|]. cbn.
  split; [by apply load_length_prefix|]. apply slice_store_int_after; lia.
Qed.
End vbyte.

Section nvch.
Context (c : container) (Hinv : ct_inv IIAPI_NVCH_TYPE c).
Let n := ds_length (ct_descriptor c).

Lemma nvch_buffer_length : (2 + Z.to_nat n ≤ length (ct_buffer c))%nat.
Proof. destruct Hinv as [-> _]. apply sizeof_NVCH_buffer. Qed.

Lemma set_nvch_unfold s e :
  utf16_encode s = Some e →
  set IIAPI_NVCH_TYPE (PStr s) c =
  let c1 := with_null false true c in
  if decide (n - 2 < Z.of_nat (length e)) then (c1, Err (capacity_error c1))
  else (with_buffer (store_int 2 (Z.of_nat (length e))
          (splice (zeros (length (ct_buffer c))) 2 e) 0) c1, Ok ()).
Proof. intros He. unfold set, set_value. cbn. unfold NVCH_value_setter, UNICODE_encode.
  rewrite He. pym_unfold.
  cbn [ct_descriptor with_null]. unfold n. destruct (decide _); reflexivity.
Qed.

(** NVARCHAR keeps a [str] exactly: the length prefix counts the
    UTF-16 bytes and the read decodes exactly that many. *)
Theorem set_get_nvarchar s e :
  Forall is_code_point s → utf16_encode s = Some e →
  Z.of_nat (length e) ≤ n - 2 → Z.of_nat (length e) < 2 ^ 15 →
  ∃ c', set IIAPI_NVCH_TYPE (PStr s) c = (c', Ok ()) ∧
        value IIAPI_NVCH_TYPE c' = Ok (PStr s).
Proof.
  intros Hs He Hn Hb. pose proof nvch_buffer_length as Hl.
  rewrite (set_nvch_unfold s e He), decide_False by lia.
  eexists; split; [reflexivity|].
  unfold value. cbn [ct_dv_null with_buffer with_null fam_get_python_value
    IIAPI_NVCH_TYPE limited_family]. unfold NVCH_get_python_value.
  cbn [ct_buffer with_buffer with_null].
  assert (length (splice (zeros (length (ct_buffer c))) 2 e) = length (ct_buffer c)) as Hsp
    by (rewrite length_splice, length_zeros; [done|rewrite length_zeros; lia]).
  set (buf := splice (zeros (length (ct_buffer c))) 2 e) in *.
  rewrite (load_store_int buf 0 2), wrap_small by (rewrite ?Hsp; change (half_modulus 2) with (2 ^ 15); lia).
  rewrite slice_store_int_after, Nat2Z.id by lia. subst buf.
  rewrite slice_splice_eq by (rewrite length_zeros; lia).
  unfold decode_utf16. by rewrite (utf16_decode_encode s e).
Qed.
End nvch.

(** ** Size inference *)

Lemma decl_eq prefix n m :
  n = m → decl prefix n = Ok (prefix +:+ "(" +:+ string_of_Z m +:+ ")").
Proof. by intros ->. Qed.

Ltac build_small :=
  apply build_descriptor_small; [reflexivity|reflexivity|reflexivity|lia|lia|lia].

Ltac validate_limited :=
  cbv [fam_validate_size limited_family IIAPI_BYTE_TYPE IIAPI_CHA_TYPE IIAPI_CHR_TYPE
       IIAPI_TXT_TYPE IIAPI_VBYTE_TYPE IIAPI_VCH_TYPE IIAPI_NCHA_TYPE IIAPI_NVCH_TYPE
       validate_size ds_length inferred_descriptor MAX_SIZE MAX_SIZE_UNICODE];
  rewrite decide_True by lia; reflexivity.

(** C8: NVARCHAR infers its size as two bytes per character, but a
    character outside the Basic Multilingual Plane takes four bytes in
    UTF-16: [NVARCHAR(s)] without a size refuses its own initial value. *)
Theorem nvarchar_inferred_size_overflow s e :
  utf16_encode s = Some e → ¬ Forall (λ c, c < 0x10000) s → 0 < Z.of_nat (length s) ≤ 7999 →
  init IIAPI_NVCH_TYPE [PStr s] no_kwargs =
  Err (OverflowError ("NVARCHAR(" +:+ string_of_Z (Z.of_nat (length s)) +:+ ") capacity exceeded")).
Proof.
  intros He Hbmp Hn. pose proof (length_utf16_encode_non_bmp s e He Hbmp) as Hl.
  rewrite (init_value_mode_eq _ _ _ _ false None) by done.
  rewrite (init_value_mode_unfold _ _ _ _
    (inferred_descriptor Container.IIAPI_NVCH_TYPE (Z.of_nat (length s) * 2 + 2))
    ("NVARCHAR" +:+ "(" +:+ string_of_Z (Z.of_nat (length s)) +:+ ")") (PStr s));
    [|build_small|apply decl_eq; cbn; Z.div_mod_to_equations; lia|validate_limited
     |reflexivity|reflexivity].
  rewrite (set_nvch_unfold _ s e He), decide_True by (cbn; lia).
  unfold capacity_error. cbn [ct_SQL_declaration with_null fresh_container].
  by rewrite !string_app_assoc.
Qed.

(** ** CHAR *)

Lemma set_cha_unfold c s e :
  utf8_encode s = Some e →
  set IIAPI_CHA_TYPE (PStr s) c =
  let c1 := with_null false true c in
  let n := size c in
  let b' := if decide (length e < n)%nat then take n (e ++ replicate n 32) else e in
  match s_set (ct_buffer c) 0 n b' with
  | Ok b => (with_buffer b c1, Ok ())
  | Err _ => (c1, Err (capacity_error c1))
  end.
Proof.
  intros He. unfold set, set_value. cbn. unfold CHA_value_setter, to_bytes.
  rewrite He. pym_unfold. reflexivity.
Qed.

(** The blank padding of CHAR: a value of [k ≤ n] bytes is stored as
    itself followed by [n - k] blanks. *)
Lemma cha_pad_eq (e : list Z) n :
  (length e ≤ n)%nat →
  (if decide (length e < n)%nat then take n (e ++ replicate n 32) else e)
  = e ++ replicate (n - length e) 32.
Proof.
  intros Hl. case_decide.
  - rewrite take_app, take_ge, take_replicate, Nat.min_l by lia. done.
  - replace (n - length e)%nat with 0%nat by lia. by rewrite app_nil_r.
Qed.

(** C6: CHAR(n) keeps a [str] without NUL whose UTF-8 encoding fits, and
    reads it back padded with blanks to [n] bytes. *)
Theorem set_get_char c s e :
  ct_inv IIAPI_CHA_TYPE c → Forall is_code_point s → 0 ∉ s → utf8_encode s = Some e →
  (length e ≤ size c)%nat →
  ∃ c', set IIAPI_CHA_TYPE (PStr s) c = (c', Ok ()) ∧
        value IIAPI_CHA_TYPE c' = Ok (PStr (s ++ replicate (size c - length e) 32)).
Proof.
  intros [Hl _] Hs Hz He Hn. simpl in Hl. rewrite sizeof_char_buffer in Hl.
  rewrite (set_cha_unfold c s e He). cbv zeta. rewrite cha_pad_eq by done.
  rewrite s_set_exact; [|unfold size; lia| |rewrite length_app, length_replicate; lia].
  2:{ rewrite elem_of_app, elem_of_replicate. intros [H|[? _]]; [|lia].
      exact (utf8_encode_no_nul s e Hz He H). }
  eexists; split; [reflexivity|]. unfold value.
  cbn [ct_dv_null with_buffer with_null fam_get_python_value IIAPI_CHA_TYPE limited_family].
  unfold CHA_get_python_value, decode_utf8. cbn [ct_buffer with_buffer].
  rewrite (utf8_decode_encode (s ++ replicate (size c - length e) 32) (e ++ replicate (size c - length e) 32)); [done| |].
  - apply Forall_app; split; [done|]. apply Forall_replicate. unfold is_code_point. lia.
  - apply utf8_encode_app; [done|]. apply utf8_encode_ascii, Forall_replicate. lia.
Qed.

(** C7: CHAR infers its size as [len(value)] in characters, but stores the
    UTF-8 bytes: [CHAR(s)] without a size refuses its own initial value
    as soon as [s] has a character outside ASCII. *)
Theorem char_inferred_size_overflow s e :
  utf8_encode s = Some e → 0 ∉ s → ¬ Forall (λ c, c < 0x80) s →
  0 < Z.of_nat (length s) ≤ 32000 →
  init IIAPI_CHA_TYPE [PStr s] no_kwargs =
  Err (OverflowError ("CHAR(" +:+ string_of_Z (Z.of_nat (length s)) +:+ ") capacity exceeded")).
Proof.
  intros He Hz Ha Hn. pose proof (length_utf8_encode_non_ascii s e He Ha) as Hl.
  rewrite (init_value_mode_eq _ _ _ _ false None) by done.
  rewrite (init_value_mode_unfold _ _ _ _
    (inferred_descriptor Container.IIAPI_CHA_TYPE (Z.of_nat (length s)))
    ("CHAR" +:+ "(" +:+ string_of_Z (Z.of_nat (length s)) +:+ ")") (PStr s));
    [|build_small|reflexivity|validate_limited|reflexivity|reflexivity].
  set (c0 := fresh_container IIAPI_CHA_TYPE false _ _).
  assert (size c0 = length s) as Hsz by (unfold size; cbn; lia).
  assert (ct_buffer c0 = zeros (length s)) as Hbuf.
  { unfold c0, fresh_container. cbn [ct_buffer fam_buffer IIAPI_CHA_TYPE limited_family].
    rewrite sizeof_char_buffer. cbn. by rewrite Nat2Z.id. }
  rewrite (set_cha_unfold c0 s e He). cbv zeta. rewrite Hsz, Hbuf, decide_False by lia.
  rewrite s_set_zeros. cbv zeta. rewrite until_nul_no_nul by exact (utf8_encode_no_nul s e Hz He).
  rewrite decide_False by lia. unfold capacity_error. cbn [ct_SQL_declaration with_null c0 fresh_container].
  by rewrite !string_app_assoc.
Qed.

(** ** The size of the length-prefixed buffers *)

Lemma length_prefixed_size k :
  0 ≤ k → Z.of_nat (align_up (2 + Z.to_nat k) 2) = 2 + k + k mod 2.
Proof.
  intros Hk. unfold align_up. rewrite decide_False by lia.
  replace (2 + Z.to_nat k + 2 - 1)%nat with (Z.to_nat (k + 3)) by lia.
  rewrite Nat2Z.inj_mul, Nat2Z.inj_div, Z2Nat.id by lia.
  Z.div_mod_to_equations. lia.
Qed.

(** C10: VARBYTE(n) and VARCHAR(n) declare [n + 2] bytes, but the ctypes
    structure pads a [c_short] followed by an odd number of bytes to an
    even size: the buffer handed to the driver is one byte longer than
    the declared length when [n] is odd. *)
Theorem varbyte_dv_length args kw c :
  init IIAPI_VBYTE_TYPE args kw = Ok c → 2 ≤ ds_length (ct_descriptor c) →
  ct_dv_length c = ds_length (ct_descriptor c) + ds_length (ct_descriptor c) mod 2.
Proof.
  intros H Hd. rewrite (init_dv_length _ _ _ _ H). cbn [fam_dv_length fam_buffer
    IIAPI_VBYTE_TYPE limited_family]. unfold default_dv_length, VBYTE_buffer.
  rewrite sizeof_length_prefixed, length_prefixed_size by lia.
  rewrite Zminus_mod, Z_mod_same_full, Z.sub_0_r, Zmod_mod. lia.
Qed.

(** C11: NVARCHAR's [c_char] field has [ds_length] bytes after the
    [c_short] length, although [ds_length] already counts those two
    bytes: the buffer is two bytes longer than the declared length
    (three when it is odd). *)
Theorem nvarchar_dv_length args kw c :
  init IIAPI_NVCH_TYPE args kw = Ok c → 0 ≤ ds_length (ct_descriptor c) →
  ct_dv_length c = ds_length (ct_descriptor c) + 2 + ds_length (ct_descriptor c) mod 2.
Proof.
  intros H Hd. rewrite (init_dv_length _ _ _ _ H). cbn [fam_dv_length fam_buffer
    IIAPI_NVCH_TYPE limited_family]. unfold default_dv_length, NVCH_buffer.
  rewrite sizeof_length_prefixed, length_prefixed_size by lia. lia.
Qed.

(** ** The limit of the wide types *)

(** C9: [MAX_SIZE_UNICODE] is compared with [ds_length], which counts two
    bytes per character: NCHAR refuses every declared size from 8001 to
    32767 characters, the sizes whose byte length fits the [c_ushort]
    field [ds_length]. *)
Theorem nchar_size_limit v n :
  8000 < n ≤ 32767 → init IIAPI_NCHA_TYPE [v; PInt n] no_kwargs = Err (OverflowError "size exceeds 16000").
Proof.
  intros Hn. rewrite (init_value_mode_eq _ _ _ _ false None) by done.
  unfold init_value_mode.
  rewrite (build_descriptor_small _ false None [v; PInt n] (n * 2) 0 0) by (reflexivity || lia).
  cbn [mbind result_bind fam_SQL_declaration fam_validate_size IIAPI_NCHA_TYPE limited_family decl].
  unfold validate_size, MAX_SIZE_UNICODE. cbn [ds_length]. rewrite decide_False by lia. reflexivity.
Qed.

(** The byte length of [NCHAR(v, 32768 + k)] wraps to [2 * k] in the
    [c_ushort] field. *)
Lemma nchar_length_wraps k : 0 ≤ k < 32768 → ds_uint2 ((32768 + k) * 2) = 2 * k.
Proof.
  intros Hk. unfold ds_uint2, wrap_unsigned. change (modulus 2) with 65536.
  replace ((32768 + k) * 2) with (2 * k + 1 * 65536) by lia.
  rewrite Z_mod_plus_full. apply Z.mod_small. lia.
Qed.

(** C31: [ds_length] is a [c_ushort]: a size of [32768 + k] characters
    gives [65536 + 2 * k] bytes, stored as [2 * k], so [NCHAR(v, 32768 + k)]
    passes the 16000 check whenever [0 < k ≤ 8000], is declared
    [NCHAR(k)] and assigns [v] to an instance of [k] characters. *)
Theorem nchar_size_wraps v k :
  0 < k ≤ 8000 →
  init IIAPI_NCHA_TYPE [v; PInt (32768 + k)] no_kwargs =
  match set IIAPI_NCHA_TYPE v (fresh_container IIAPI_NCHA_TYPE false
          (inferred_descriptor Container.IIAPI_NCHA_TYPE (2 * k)) ("NCHAR(" +:+ string_of_Z k +:+ ")")) with
  | (c', Ok _) => Ok c'
  | (_, Err e) => Err e
  end.
Proof.
  intros Hk. rewrite (init_value_mode_eq _ _ _ _ false None) by done.
  rewrite (init_value_mode_unfold _ _ _ _ (inferred_descriptor Container.IIAPI_NCHA_TYPE (2 * k))
             ("NCHAR" +:+ "(" +:+ string_of_Z k +:+ ")") v).
  - reflexivity.
  - unfold build_descriptor. cbn. by rewrite nchar_length_wraps by lia.
  - apply decl_eq. cbn [ds_length inferred_descriptor]. rewrite Z.mul_comm, Z.div_mul; lia.
  - validate_limited.
  - reflexivity.
  - reflexivity.
Qed.
