(* ===== verification/Fixed.v ===== *)
(** * Fixed: the intrinsic-size types BOOLEAN, OBJECT_KEY and TABLE_KEY

    [IIAPI_TYPE_WITH_INTRINSIC_SIZE] ([types.py] lines 459-487) takes a
    single positional argument and a length fixed by the type. This file
    models it and three of its subclasses:
    - [IIAPI_BOOL_TYPE] (lines 573-628): one [c_bool]; the setter accepts
      a value equal to [True] or [False] ([1], [0], [1.0], ...);
    - [IIAPI_LOGKEY_TYPE] and [IIAPI_TABKEY_TYPE] (lines 1169-1272):
      16 and 8 opaque bytes, given as [bytes], [bytearray] or a hex
      [str]; any other length raises [ValueError].
    Theorems: each setter keeps the buffer size; the value reads back;
    the errors of each setter. *)

From S2P Require Import Prelude Ctypes PyValue Container.

Module Intrinsic.

(** [_get_ds_length]: the length the subclass fixes. *)
Definition get_ds_length (len : Z) (_ : list pyval) : result Z := Ok len.

(** The family record of a subclass of [IIAPI_TYPE_WITH_INTRINSIC_SIZE]. *)
Definition intrinsic_family (dt : datatype) (len : Z) (sql : string) (buffer : ctype)
    (setter : pyval → PyM container unit) (getter : container → result pyval) : family := {|
  fam_dataType := dt;
  fam_expected_positionals := 1;
  fam_ds_length := get_ds_length len;
  fam_ds_precision := zero_precision;
  fam_ds_scale := zero_precision;
  fam_SQL_declaration := λ _, Ok sql;
  fam_validate_size := default_validate_size;
  fam_buffer := λ _, buffer;
  fam_dv_length := default_dv_length;
  fam_initial_value := default_initial_value;
  fam_value_setter := setter;
  fam_get_python_value := getter;
  fam_clear_buffer := default_clear_buffer;
|}.
End Intrinsic.

Import Intrinsic.

Module Bool.

(** [IIAPI_BOOL_LEN] *)
Definition IIAPI_BOOL_LEN : Z := 1.

Definition allocate_buffer : ctype := Buffer_Factory [("value", c_bool)].

(** [_get_python_value]: [True if self._buffer.value else False]. *)
Definition get_python_value (c : container) : result pyval :=
  Ok (PBool (load_bool (ct_buffer c) 0)).

(** [_value_setter]: [v not in {True, False, 1, 0}] hashes [v] and
    compares it with [True] and [False]; then [1 if v else 0]. *)
Definition value_setter (v : pyval) : PyM container unit :=
  λ c,
    if negb (py_hashable v)
    then (c, Err (TypeError ("unhashable type: '" +:+ py_type_name v +:+ "'")))
    else if negb (py_in_ints v [1; 0])
    then (c, Err (ValueError "must be True or False"))
    else (with_buffer (store_bool (py_eq_int v 1) (ct_buffer c) 0) c, Ok ()).

Definition IIAPI_BOOL_TYPE : family :=
  intrinsic_family Container.IIAPI_BOOL_TYPE IIAPI_BOOL_LEN "BOOLEAN" allocate_buffer
    value_setter get_python_value.
End Bool.

Module Key.

(** [IIAPI_LOGKEY_LEN] and [IIAPI_TABKEY_LEN] *)
Definition IIAPI_LOGKEY_LEN : nat := 16.
Definition IIAPI_TABKEY_LEN : nat := 8.

Definition allocate_buffer (len : nat) : ctype :=
  Buffer_Factory [("value", c_array c_ubyte len)].

(** The conversion at the top of [_value_setter]. *)
Definition to_key_bytes (v : pyval) : result (list Z) :=
  match v with
  | PBytes b | PByteArray b => Ok b
  | PStr s => fromhex s
  | _ => Err (TypeError "not bytes, bytearray, or str")
  end.

(** [_value_setter]: exactly [len] bytes, copied by [memmove]. *)
Definition value_setter (name : string) (len : nat) (v : pyval) : PyM container unit :=
  value ← lift (to_key_bytes v);
  if decide (length value ≠ len)
  then raise (ValueError (name +:+ " value must be " +:+ string_of_Z (Z.of_nat len) +:+ " bytes"))
  else modifyS (λ c, with_buffer (splice (ct_buffer c) 0 (take len value)) c).

(** [_get_python_value]: [bytes(self._buffer)]. *)
Definition get_python_value (c : container) : result pyval := Ok (PBytes (ct_buffer c)).

Definition IIAPI_LOGKEY_TYPE : family :=
  intrinsic_family Container.IIAPI_LOGKEY_TYPE (Z.of_nat IIAPI_LOGKEY_LEN) "LOGICAL_KEY"
    (allocate_buffer IIAPI_LOGKEY_LEN) (value_setter "OBJECT_KEY" IIAPI_LOGKEY_LEN)
    get_python_value.

Definition IIAPI_TABKEY_TYPE : family :=
  intrinsic_family Container.IIAPI_TABKEY_TYPE (Z.of_nat IIAPI_TABKEY_LEN) "TABLE_KEY"
    (allocate_buffer IIAPI_TABKEY_LEN) (value_setter "TABLE_KEY" IIAPI_TABKEY_LEN)
    get_python_value.
End Key.

Module Intym.

(** [IIAPI_INTYM_LEN] *)
Definition IIAPI_INTYM_LEN : Z := 3.

(** The conversions [IIAPI_INTYM_TYPE] leaves to other code: [format()]
    (the OpenAPI's [IIapi_formatdata]) for a [str] or an [Ingresdate],
    and the floating-point estimate [int(days / 30.436878)] of the
    months in a number of days. *)
Record external : Type := {
  ext_format : pyval → PyM container unit;
  ext_months_of_days : Z → Z;
}.

(** [_allocate_buffer]: [years] a [c_short], [months] a [c_byte]. *)
Definition allocate_buffer : ctype :=
  Buffer_Factory [("years", c_short); ("months", c_byte)].

(** [_get_python_value]: [(self._buffer.years, self._buffer.months)]. *)
Definition get_python_value (c : container) : result pyval :=
  Ok (PTuple [PInt (load_int 2 true (ct_buffer c) 0); PInt (load_int 1 true (ct_buffer c) 2)]).

(** The end of [_value_setter]: the years are checked; the months check
    sits after the [raise] and never runs; both fields are stored. *)
Definition store_ym (years months : pyval) : PyM container unit :=
  a ← lift (py_abs years);
  if negb (py_num_in_range a 0 9999) then raise (OverflowError "years not in -9999 to 9999")
  else (
    y ← lift (ctypes_int years);
    modifyS (λ c, with_buffer (store_int 2 y (ct_buffer c) 0) c);;
    m ← lift (ctypes_int months);
    modifyS (λ c, with_buffer (store_int 1 m (ct_buffer c) 2) c)).

Definition type_error : exc := TypeError "must be tuple, str, Ingresdate, or datetime.timedelta".

(** [_value_setter] *)
Definition value_setter (X : external) (v : pyval) : PyM container unit :=
  match v with
  | PStr _ => ext_format X v
  | PTuple vs =>
      years ← lift (py_index vs 0);
      months ← lift (py_index vs 1);
      store_ym years months
  | PTimedelta days _ _ =>
      let sign := if decide (days < 0) then -1 else 1 in
      let months := ext_months_of_days X (Z.abs days) in
      store_ym (PInt (sign * Z.quot months 12)) (PInt (sign * (months mod 12)))
  | PObject cls =>
      if decide (cls = "IIAPI_DTE_TYPE") then ext_format X v
      else raise type_error
  | _ => raise type_error
  end.

Definition IIAPI_INTYM_TYPE (X : external) : family :=
  intrinsic_family Container.IIAPI_INTYM_TYPE IIAPI_INTYM_LEN "INTERVAL YEAR TO MONTH"
    allocate_buffer (value_setter X) get_python_value.
End Intym.

(** ** Lemmas *)

Lemma sizeof_bool_buffer : sizeof lp64 Bool.allocate_buffer = 1%nat.
Proof. reflexivity. Qed.

Lemma sizeof_key_buffer len : sizeof lp64 (Key.allocate_buffer len) = len.
Proof.
  unfold sizeof, Key.allocate_buffer, Buffer_Factory. simpl. unfold struct_size, max_align. simpl.
  rewrite align_up_1. lia.
Qed.

#[export] Instance bool_laws : FamilyLaws Bool.IIAPI_BOOL_TYPE.
Proof.
  split; [|intros c _; apply length_zeros]. intros v c c' r Hl H. simpl in *.
  unfold Bool.value_setter in H.
  destruct (negb (py_hashable v)); [simplify_eq; apply frame_refl|].
  destruct (negb (py_in_ints v [1; 0])); simplify_eq; [apply frame_refl|].
  eexists; split; [done|]. rewrite sizeof_bool_buffer in Hl. unfold store_bool. apply length_splice. simpl. lia.
Qed.

Section key.
Context (dt : datatype) (sql name : string) (len : nat).
Let F := intrinsic_family dt (Z.of_nat len) sql (Key.allocate_buffer len)
           (Key.value_setter name len) Key.get_python_value.

Lemma set_key_unfold v c :
  is_null_marker v = false →
  set F v c =
  let c1 := with_null false true c in
  match Key.to_key_bytes v with
  | Err e => (c1, Err e)
  | Ok b =>
      if decide (length b ≠ len)
      then (c1, Err (ValueError (name +:+ " value must be " +:+ string_of_Z (Z.of_nat len) +:+ " bytes")))
      else (with_buffer (splice (ct_buffer c1) 0 (take len b)) c1, Ok ())
  end.
Proof.
  intros Hn. unfold set. rewrite Hn. unfold set_value, F. cbn.
  unfold Key.value_setter. pym_unfold. destruct (Key.to_key_bytes v); [|done].
  by destruct (decide _).
Qed.

Lemma key_laws : FamilyLaws F.
Proof.
  split; [|intros c _; apply length_zeros]. intros v c c' r Hl H. simpl in *.
  rewrite sizeof_key_buffer in Hl. unfold Key.value_setter in H. pym_unfold_in H.
  destruct (Key.to_key_bytes v) as [b|]; simpl in H; [|simplify_eq; apply frame_refl].
  destruct (decide _) as [Hb|Hb]; simplify_eq; [apply frame_refl|].
  eexists; split; [done|]. apply length_splice. rewrite length_take. lia.
Qed.
(** A key given as [bytes], [bytearray] or hex [str] of exactly [len]
    bytes is stored as is and read back as [bytes]. *)
Theorem set_get_key c v b :
  ct_inv F c → Key.to_key_bytes v = Ok b → length b = len →
  ∃ c', set F v c = (c', Ok ()) ∧ value F c' = Ok (PBytes b).
Proof.
  intros [Hl _] Hv Hb. simpl in Hl. rewrite sizeof_key_buffer in Hl.
  assert (is_null_marker v = false) as Hn by (destruct v; done).
  rewrite (set_key_unfold v c Hn), Hv, decide_False by lia. cbv zeta.
  eexists; split; [reflexivity|]. unfold value. cbn. unfold Key.get_python_value.
  cbn [ct_buffer with_buffer with_null]. rewrite (take_ge b), take_0, drop_ge by lia.
  by rewrite app_nil_r.
Qed.

(** Any other length raises [ValueError] and leaves the buffer alone,
    but the instance is no longer NULL. *)
Theorem set_key_wrong_length c v b :
  Key.to_key_bytes v = Ok b → length b ≠ len →
  set F v c = (with_null false true c,
    Err (ValueError (name +:+ " value must be " +:+ string_of_Z (Z.of_nat len) +:+ " bytes"))).
Proof.
  intros Hv Hb. assert (is_null_marker v = false) as Hn by (destruct v; done).
  rewrite (set_key_unfold v c Hn), Hv, decide_True by done. reflexivity.
Qed.
End key.

#[export] Instance logkey_laws : FamilyLaws Key.IIAPI_LOGKEY_TYPE.
Proof. apply key_laws. Qed.
#[export] Instance tabkey_laws : FamilyLaws Key.IIAPI_TABKEY_TYPE.
Proof. apply key_laws. Qed.

Section bool.
Context (c : container) (Hinv : ct_inv Bool.IIAPI_BOOL_TYPE c).

Lemma load_store_bool b : load_bool (store_bool b (ct_buffer c) 0) 0 = b.
Proof.
  unfold load_bool, store_bool, slice, splice. rewrite take_0, drop_0.
  destruct b; reflexivity.
Qed.

(** C12: A value equal to [True] or [False] ([1], [0], [1.0], ...) is stored
    as its truth and read back as a [bool]. *)
Theorem set_get_bool v :
  py_hashable v = true → py_in_ints v [1; 0] = true →
  ∃ c', set Bool.IIAPI_BOOL_TYPE v c = (c', Ok ()) ∧
        value Bool.IIAPI_BOOL_TYPE c' = Ok (PBool (py_eq_int v 1)).
Proof.
  intros Hh Hin. assert (is_null_marker v = false) as Hn by (destruct v; done).
  unfold set. rewrite Hn. unfold set_value. pym_unfold.
  cbn [fam_value_setter Bool.IIAPI_BOOL_TYPE intrinsic_family]. unfold Bool.value_setter.
  rewrite Hh, Hin. cbn [negb].
  eexists; split; [reflexivity|]. unfold value. cbn [ct_dv_null with_buffer with_null].
  cbn [fam_get_python_value Bool.IIAPI_BOOL_TYPE intrinsic_family]. unfold Bool.get_python_value.
  cbn [ct_buffer with_buffer with_null]. by rewrite load_store_bool.
Qed.
End bool.

(** Any other hashable value raises [ValueError('must be True or False')]
    and leaves the buffer alone. *)
Theorem set_bool_invalid c v :
  py_hashable v = true → is_null_marker v = false → py_in_ints v [1; 0] = false →
  set Bool.IIAPI_BOOL_TYPE v c = (with_null false true c, Err (ValueError "must be True or False")).
Proof.
  intros Hh Hn Hin. unfold set. rewrite Hn. unfold set_value. pym_unfold.
  cbn [fam_value_setter Bool.IIAPI_BOOL_TYPE intrinsic_family]. unfold Bool.value_setter.
  by rewrite Hh, Hin.
Qed.

(** ** INTERVAL YEAR TO MONTH *)

Lemma sizeof_intym_buffer : sizeof lp64 Intym.allocate_buffer = 4%nat.
Proof. reflexivity. Qed.

Section intym.
Context (X : Intym.external).
(** [format()] writes into the instance's buffer in place. *)
Hypothesis format_frame : ∀ v c c' r,
  length (ct_buffer c) = 4%nat → Intym.ext_format X v c = (c', r) →
  ∃ b, c' = with_buffer b c ∧ length b = length (ct_buffer c).
Let F := Intym.IIAPI_INTYM_TYPE X.

Lemma store_ym_frame years months c c' r :
  length (ct_buffer c) = 4%nat → Intym.store_ym years months c = (c', r) →
  ∃ b, c' = with_buffer b c ∧ length b = length (ct_buffer c).
Proof.
  intros Hl H. unfold Intym.store_ym in H. pym_unfold_in H.
  destruct (py_abs years); simpl in H; [|simplify_eq; apply frame_refl].
  destruct (negb _); simpl in H; [simplify_eq; apply frame_refl|].
  destruct (ctypes_int years) as [y|]; simpl in H; [|simplify_eq; apply frame_refl].
  assert (length (store_int 2 y (ct_buffer c) 0) = 4%nat) by (rewrite length_store_int; lia).
  destruct (ctypes_int months); simplify_eq; simpl; eexists; (split; [done|]);
    rewrite ?length_store_int; lia.
Qed.

Lemma intym_laws : FamilyLaws F.
Proof.
  split; [|intros c _; apply length_zeros]. intros v c c' r Hl H. simpl in Hl.
  rewrite sizeof_intym_buffer in Hl.
  change (Intym.value_setter X v c = (c', r)) in H. unfold Intym.value_setter in H.
  destruct v; cbv beta iota in H; try (unfold raise in H; simplify_eq; apply frame_refl);
    [by eapply format_frame| | |].
  - pym_unfold_in H. destruct (py_index vs 0); simpl in H; [|simplify_eq; apply frame_refl].
    destruct (py_index vs 1); simpl in H; [|simplify_eq; apply frame_refl].
    by eapply store_ym_frame.
  - by eapply store_ym_frame.
  - revert H. case_decide as Hd; intros H; [by eapply format_frame|].
    unfold raise in H; simplify_eq; apply frame_refl.
Qed.

Lemma set_intym_tuple c y m :
  set F (PTuple [PInt y; PInt m]) c =
  let c1 := with_null false true c in
  if decide (Z.abs y ≤ 9999)
  then (with_buffer (store_int 1 m (store_int 2 y (ct_buffer c) 0) 2) c1, Ok ())
  else (c1, Err (OverflowError "years not in -9999 to 9999")).
Proof.
  unfold set. cbn [is_null_marker]. unfold set_value, F. pym_unfold. cbn.
  unfold Intym.store_ym. pym_unfold. cbn.
  destruct (decide (Z.abs y ≤ 9999)); rewrite ?bool_decide_true, ?bool_decide_false by lia;
    reflexivity.
Qed.

(** C16: A tuple [(years, months)] with [|years| ≤ 9999] is stored
    whatever [months] is: the months check of [_value_setter] sits after
    a [raise] and never runs, and [months] wraps to a [c_byte]. *)
Theorem set_get_intym c y m :
  ct_inv F c → Z.abs y ≤ 9999 →
  ∃ c', set F (PTuple [PInt y; PInt m]) c = (c', Ok ()) ∧
        value F c' = Ok (PTuple [PInt y; PInt (wrap_signed 1 m)]).
Proof.
  intros [Hl _] Hy. simpl in Hl. rewrite sizeof_intym_buffer in Hl.
  rewrite set_intym_tuple, decide_True by done. eexists; split; [reflexivity|].
  unfold value. cbn. unfold Intym.get_python_value. cbn [ct_buffer with_buffer with_null].
  unfold store_int at 1. rewrite load_int_splice_before by (rewrite ?length_store_int; lia).
  rewrite !load_store_int by (rewrite ?length_store_int; lia).
  rewrite (wrap_small 2 true y) by (try change (half_modulus 2) with 32768; lia). done.
Qed.

(** More than 9999 years raises [OverflowError] before anything is
    stored; the instance is no longer NULL. *)
Theorem set_intym_years_overflow c y months :
  9999 < Z.abs y →
  set F (PTuple [PInt y; months]) c =
  (with_null false true c, Err (OverflowError "years not in -9999 to 9999")).
Proof.
  intros Hy. unfold set. cbn [is_null_marker]. unfold set_value, F. pym_unfold. cbn.
  unfold Intym.store_ym. pym_unfold. cbn. rewrite bool_decide_false by lia. reflexivity.
Qed.

(** [IIAPI_INTYM_LEN] is 3, but the structure of a [c_short] and a
    [c_byte] is padded to 4 bytes, and [dv_length] is 4. *)
Theorem intym_dv_length args kw c :
  init F args kw = Ok c → ct_dv_length c = Intym.IIAPI_INTYM_LEN + 1.
Proof.
  intros H. rewrite (@init_dv_length F intym_laws _ _ _ H). reflexivity.
Qed.
End intym.
