(* ===== verification/Network.v ===== *)
(** * Network: IPV4, IPV6 and UUID

    Three more subclasses of [IIAPI_TYPE_WITH_INTRINSIC_SIZE]:
    - [IIAPI_IPV4_TYPE] and [IIAPI_IPV6_TYPE] ([types.py] lines 977-1087)
      convert their value with [ipaddress.ip_address] and [memmove] the
      packed address into a [c_ubyte * 4] or [c_ubyte * 16] buffer;
    - [IIAPI_UUID_TYPE] (lines 1275-1344) takes a [uuid.UUID], [bytes],
      [bytearray] or [str] and copies its 16 bytes.
    [ip_address] is modelled for [int], [bool], [bytes], address objects
    and dotted-quad [str] exactly; the IPv6 text syntax is the parameter
    [parse_v6], and [uuid.UUID(str)] the parameter [uuid_of_str], each
    with the only property the theorems use.  What [memmove] reads past
    the end of a shorter source is the parameter [beyond], as in
    [Container.poke].
    Theorems: what each setter stores and its getter returns, and two
    defects: IPV4 accepts an IPv6 address and keeps its first four bytes,
    IPV6 reads twelve bytes past an IPv4 address; UUID reports a value of
    the wrong length with [NameError]. *)

From S2P Require Import Prelude Ctypes PyValue Container Fixed.

Module IP.

(** [IIAPI_IPV4_LEN] and [IIAPI_IPV6_LEN] *)
Definition IIAPI_IPV4_LEN : nat := 4.
Definition IIAPI_IPV6_LEN : nat := 16.

(** An address as [ipaddress] holds it: its version and packed bytes. *)
Inductive ipaddr : Type :=
| V4 (packed : list Z)
| V6 (packed : list Z).

Definition packed (a : ipaddr) : list Z := match a with V4 b | V6 b => b end.

(** [str.split(sep)] *)
Fixpoint split_on (sep : Z) (s : list Z) : list (list Z) :=
  match s with
  | [] => [[]]
  | c :: r =>
      let parts := split_on sep r in
      if decide (c = sep) then [] :: parts
      else match parts with p :: ps => (c :: p) :: ps | [] => [[c]] end
  end.

Definition is_ascii_digit (c : Z) : bool := bool_decide (48 ≤ c ≤ 57).

(** [int(s, 10)] of ASCII digits. *)
Definition decimal_value (s : list Z) : Z := fold_left (λ acc c, acc * 10 + (c - 48)) s 0.

(** [IPv4Address._parse_octet]; [None] stands for the [ValueError]. *)
Definition parse_octet (o : list Z) : option Z :=
  if decide (o = []) then None
  else if negb (forallb is_ascii_digit o) then None
  else if decide (3 < length o)%nat then None
  else if decide (o ≠ [48] ∧ head o = Some 48) then None
  else if decide (255 < decimal_value o) then None
  else Some (decimal_value o).

(** [IPv4Address._ip_int_from_string], as packed bytes. *)
Definition parse_v4 (s : list Z) : option (list Z) :=
  if decide (s = []) then None
  else
    let parts := split_on 46 s in
    if decide (length parts = 4%nat) then mapM parse_octet parts else None.

(** [n] bytes of [z], most significant first ([int.to_bytes(n, 'big')]). *)
Definition be_encode (n : nat) (z : Z) : list Z := reverse (le_encode n z).

Section ip_address.
Context (parse_v6 : list Z → option (list Z)).

(** [ipaddress.ip_address(v)]: [IPv4Address(v)], else [IPv6Address(v)];
    [None] stands for the [ValueError] it raises.  Another object is
    converted through [str(v)]; it is refused here, as any object whose
    [str] is not an address is. *)
Definition ip_address (v : pyval) : option ipaddr :=
  match v with
  | PInt z =>
      if decide (0 ≤ z < 2 ^ 32) then Some (V4 (be_encode 4 z))
      else if decide (0 ≤ z < 2 ^ 128) then Some (V6 (be_encode 16 z))
      else None
  | PBool b => Some (V4 [0; 0; 0; if b then 1 else 0])
  | PBytes b =>
      if decide (length b = 4%nat) then Some (V4 b)
      else if decide (length b = 16%nat) then Some (V6 b)
      else None
  | PStr s =>
      match parse_v4 s with
      | Some b => Some (V4 b)
      | None => V6 <$> parse_v6 s
      end
  | PIPv4Address b => Some (V4 b)
  | PIPv6Address b => Some (V6 b)
  | _ => None
  end.
End ip_address.

Section setter.
Context (parse_v6 : list Z → option (list Z)) (beyond : nat → Z).

(** [ctypes.memmove(dst, src, n)] from a [bytes] object: its bytes, its
    terminating NUL, then whatever memory follows. *)
Definition memmove_from (src : list Z) (n : nat) : list Z :=
  take n (src ++ 0 :: map beyond (seq 0 n)).

(** [_value_setter] of IPV4 ([len = 4]) and IPV6 ([len = 16]). *)
Definition value_setter (len : nat) (err : string) (v : pyval) : PyM container unit :=
  match ip_address parse_v6 v with
  | None => raise (ValueError err)
  | Some a => modifyS (λ c, with_buffer (splice (ct_buffer c) 0 (memmove_from (packed a) len)) c)
  end.

Definition IIAPI_IPV4_TYPE : family :=
  Intrinsic.intrinsic_family Container.IIAPI_IPV4_TYPE (Z.of_nat IIAPI_IPV4_LEN) "IPV4"
    (Key.allocate_buffer IIAPI_IPV4_LEN) (value_setter IIAPI_IPV4_LEN "could not convert to IPV4")
    (λ c, Ok (PIPv4Address (ct_buffer c))).

Definition IIAPI_IPV6_TYPE : family :=
  Intrinsic.intrinsic_family Container.IIAPI_IPV6_TYPE (Z.of_nat IIAPI_IPV6_LEN) "IPV6"
    (Key.allocate_buffer IIAPI_IPV6_LEN) (value_setter IIAPI_IPV6_LEN "could not convert to IPV6")
    (λ c, Ok (PIPv6Address (ct_buffer c))).
End setter.
End IP.

Module Uuid.

(** [IIAPI_UUID_LEN] *)
Definition IIAPI_UUID_LEN : nat := 16.

Section uuid.
(** [uuid.UUID(v).bytes] for a [str]; its exceptions escape. *)
Context (uuid_of_str : list Z → result (list Z)).

Definition to_uuid_bytes (v : pyval) : result (list Z) :=
  match v with
  | PUUID b | PByteArray b | PBytes b => Ok b
  | PStr s => uuid_of_str s
  | _ => Err (TypeError "not uuid.UUID, bytes, bytearray, or str")
  end.

(** [_value_setter]: the length check formats its message with the bare
    name [_ds_length], which is not in scope. *)
Definition value_setter (v : pyval) : PyM container unit :=
  value ← lift (to_uuid_bytes v);
  if decide (length value ≠ IIAPI_UUID_LEN)
  then raise (NameError "name '_ds_length' is not defined")
  else modifyS (λ c, with_buffer (splice (ct_buffer c) 0 value) c).

Definition IIAPI_UUID_TYPE : family :=
  Intrinsic.intrinsic_family Container.IIAPI_UUID_TYPE (Z.of_nat IIAPI_UUID_LEN) "UUID"
    (Key.allocate_buffer IIAPI_UUID_LEN) value_setter (λ c, Ok (PUUID (ct_buffer c))).
End uuid.
End Uuid.

(** ** Lemmas *)

Section memmove.
Context (beyond : nat → Z).

Lemma length_memmove_from src n : length (IP.memmove_from beyond src n) = n.
Proof.
  unfold IP.memmove_from. rewrite length_take, length_app. simpl.
  rewrite length_map, length_seq. lia.
Qed.

Lemma memmove_from_long src n : (n ≤ length src)%nat → IP.memmove_from beyond src n = take n src.
Proof. intros H. unfold IP.memmove_from. by rewrite take_app_le. Qed.

(** A source shorter than [n]: its bytes, its NUL, then [beyond]. *)
Lemma memmove_from_short src n :
  (length src < n)%nat →
  IP.memmove_from beyond src n = src ++ 0 :: map beyond (seq 0 (n - length src - 1)).
Proof.
  intros H. unfold IP.memmove_from. rewrite take_app, (take_ge src) by lia. f_equal.
  replace (n - length src)%nat with (S (n - length src - 1)) by lia. simpl. f_equal.
  rewrite firstn_map, Nat.sub_0_r. f_equal. rewrite take_seq, Nat.min_l by lia. done.
Qed.
End memmove.

Lemma splice_whole buf data : length data = length buf → splice buf 0 data = data.
Proof. intros H. unfold splice. rewrite take_0, drop_ge by lia. by rewrite app_nil_r. Qed.

Section ip.
Context (parse_v6 : list Z → option (list Z)) (beyond : nat → Z).
Context (dt : datatype) (len : nat) (sql err : string) (getter : container → result pyval).
Let F := Intrinsic.intrinsic_family dt (Z.of_nat len) sql (Key.allocate_buffer len)
           (IP.value_setter parse_v6 beyond len err) getter.

Lemma ip_laws : FamilyLaws F.
Proof.
  split; [|intros c _; apply length_zeros]. intros v c c' r Hl H. simpl in Hl.
  rewrite sizeof_key_buffer in Hl. change (IP.value_setter parse_v6 beyond len err v c = (c', r)) in H.
  unfold IP.value_setter in H. destruct (IP.ip_address parse_v6 v); unfold raise, modifyS in H;
    simplify_eq; [|apply frame_refl].
  eexists; split; [done|]. apply length_splice. rewrite length_memmove_from. lia.
Qed.

Lemma set_ip_unfold v c :
  is_null_marker v = false →
  set F v c =
  let c1 := with_null false true c in
  match IP.ip_address parse_v6 v with
  | None => (c1, Err (ValueError err))
  | Some a => (with_buffer (splice (ct_buffer c) 0 (IP.memmove_from beyond (IP.packed a) len)) c1, Ok ())
  end.
Proof.
  intros Hn. unfold set. rewrite Hn. unfold set_value, F. pym_unfold. cbn.
  unfold IP.value_setter. by destruct (IP.ip_address parse_v6 v).
Qed.

(** What the setter leaves in the buffer for an address it accepts. *)
Lemma set_ip_stores v c a :
  ct_inv F c → IP.ip_address parse_v6 v = Some a →
  ∃ c', set F v c = (c', Ok ()) ∧ ct_buffer c' = IP.memmove_from beyond (IP.packed a) len ∧
        ct_dv_null c' = false.
Proof.
  intros [Hl _] Ha. simpl in Hl. rewrite sizeof_key_buffer in Hl.
  assert (is_null_marker v = false) as Hn by (destruct v; done).
  rewrite (set_ip_unfold v c Hn), Ha. eexists; split; [reflexivity|]. split; [|done].
  apply splice_whole. rewrite length_memmove_from. lia.
Qed.
End ip.

(** ** IPV4 and IPV6 *)

Section ipv.
Context (parse_v6 : list Z → option (list Z)) (beyond : nat → Z).

(** IPV4 keeps an IPv4 address given as [int], [bytes], dotted [str]
    or [IPv4Address], and reads it back as an [IPv4Address]. *)
Theorem set_get_ipv4 c v b :
  ct_inv (IP.IIAPI_IPV4_TYPE parse_v6 beyond) c →
  IP.ip_address parse_v6 v = Some (IP.V4 b) → length b = 4%nat →
  ∃ c', set (IP.IIAPI_IPV4_TYPE parse_v6 beyond) v c = (c', Ok ()) ∧
        value (IP.IIAPI_IPV4_TYPE parse_v6 beyond) c' = Ok (PIPv4Address b).
Proof.
  intros Hi Ha Hb. destruct (set_ip_stores parse_v6 beyond _ _ _ _ _ v c _ Hi Ha) as (c' & Hs & Hbuf & Hnull).
  exists c'. split; [done|]. unfold value. rewrite Hnull. cbn. rewrite Hbuf. simpl.
  unfold IP.IIAPI_IPV4_LEN, IP.IIAPI_IPV6_LEN.
  rewrite memmove_from_long by lia. by rewrite take_ge by lia.
Qed.

(** C17: IPV4 accepts an IPv6 address as well ([ip_address] returns
    either version) and keeps only its first four bytes. *)
Theorem ipv4_truncates_ipv6 c v b :
  ct_inv (IP.IIAPI_IPV4_TYPE parse_v6 beyond) c →
  IP.ip_address parse_v6 v = Some (IP.V6 b) → length b = 16%nat →
  ∃ c', set (IP.IIAPI_IPV4_TYPE parse_v6 beyond) v c = (c', Ok ()) ∧
        value (IP.IIAPI_IPV4_TYPE parse_v6 beyond) c' = Ok (PIPv4Address (take 4 b)).
Proof.
  intros Hi Ha Hb. destruct (set_ip_stores parse_v6 beyond _ _ _ _ _ v c _ Hi Ha) as (c' & Hs & Hbuf & Hnull).
  exists c'. split; [done|]. unfold value. rewrite Hnull. cbn. rewrite Hbuf. simpl.
  unfold IP.IIAPI_IPV4_LEN, IP.IIAPI_IPV6_LEN.
  by rewrite memmove_from_long by lia.
Qed.

(** C18: IPV6 accepts an IPv4 address too, and [memmove] copies sixteen
    bytes from its four: the buffer gets the address, the NUL after the
    [bytes] object and eleven bytes of whatever memory follows. *)
Theorem ipv6_overreads_ipv4 c v b :
  ct_inv (IP.IIAPI_IPV6_TYPE parse_v6 beyond) c →
  IP.ip_address parse_v6 v = Some (IP.V4 b) → length b = 4%nat →
  ∃ c', set (IP.IIAPI_IPV6_TYPE parse_v6 beyond) v c = (c', Ok ()) ∧
        value (IP.IIAPI_IPV6_TYPE parse_v6 beyond) c' =
        Ok (PIPv6Address (b ++ 0 :: map beyond (seq 0 11))).
Proof.
  intros Hi Ha Hb. destruct (set_ip_stores parse_v6 beyond _ _ _ _ _ v c _ Hi Ha) as (c' & Hs & Hbuf & Hnull).
  exists c'. split; [done|]. unfold value. rewrite Hnull. cbn. rewrite Hbuf. simpl.
  unfold IP.IIAPI_IPV4_LEN, IP.IIAPI_IPV6_LEN.
  rewrite memmove_from_short by lia. by rewrite Hb.
Qed.
End ipv.

(** ** UUID *)

Section uuid.
Context (uuid_of_str : list Z → result (list Z)).
Let F := Uuid.IIAPI_UUID_TYPE uuid_of_str.

Lemma set_uuid_unfold v c :
  is_null_marker v = false →
  set F v c =
  let c1 := with_null false true c in
  match Uuid.to_uuid_bytes uuid_of_str v with
  | Err e => (c1, Err e)
  | Ok b =>
      if decide (length b ≠ Uuid.IIAPI_UUID_LEN)
      then (c1, Err (NameError "name '_ds_length' is not defined"))
      else (with_buffer (splice (ct_buffer c1) 0 b) c1, Ok ())
  end.
Proof.
  intros Hn. unfold set. rewrite Hn. unfold set_value, F. cbn.
  unfold Uuid.value_setter. pym_unfold. destruct (Uuid.to_uuid_bytes uuid_of_str v); [|done].
  by destruct (decide _).
Qed.

Lemma uuid_laws : FamilyLaws F.
Proof.
  split; [|intros c _; apply length_zeros]. intros v c c' r Hl H. simpl in Hl.
  rewrite sizeof_key_buffer in Hl. change (Uuid.value_setter uuid_of_str v c = (c', r)) in H.
  unfold Uuid.value_setter in H. pym_unfold_in H.
  destruct (Uuid.to_uuid_bytes uuid_of_str v) as [b|]; simpl in H; [|simplify_eq; apply frame_refl].
  destruct (decide _) as [Hb|Hb]; simplify_eq; [apply frame_refl|].
  eexists; split; [done|]. apply length_splice. unfold Uuid.IIAPI_UUID_LEN in *. lia.
Qed.

(** A [uuid.UUID], or 16 bytes given as [bytes], [bytearray] or a
    [str] that [uuid.UUID] parses, is stored and read back as that UUID. *)
Theorem set_get_uuid c v b :
  ct_inv F c → Uuid.to_uuid_bytes uuid_of_str v = Ok b → length b = Uuid.IIAPI_UUID_LEN →
  ∃ c', set F v c = (c', Ok ()) ∧ value F c' = Ok (PUUID b).
Proof.
  intros [Hl _] Hv Hb. simpl in Hl. rewrite sizeof_key_buffer in Hl.
  assert (is_null_marker v = false) as Hn by (destruct v; done).
  rewrite (set_uuid_unfold v c Hn), Hv, decide_False by lia. cbv zeta.
  eexists; split; [reflexivity|]. unfold value, F.
  cbn [ct_dv_null with_buffer with_null fam_get_python_value Uuid.IIAPI_UUID_TYPE
    Intrinsic.intrinsic_family ct_buffer]. rewrite splice_whole by (cbn; lia). done.
Qed.

(** C19: A value of any other length raises [NameError]: the message of
    the intended [ValueError] names [_ds_length], which is not in scope in
    the method.  The instance is no longer NULL. *)
Theorem set_uuid_wrong_length c v b :
  Uuid.to_uuid_bytes uuid_of_str v = Ok b → length b ≠ Uuid.IIAPI_UUID_LEN →
  set F v c = (with_null false true c, Err (NameError "name '_ds_length' is not defined")).
Proof.
  intros Hv Hb. assert (is_null_marker v = false) as Hn by (destruct v; done).
  rewrite (set_uuid_unfold v c Hn), Hv, decide_True by done. reflexivity.
Qed.
End uuid.
