(* ===== verification/Temporal.v ===== *)
(** * Temporal: the clock functions and the types with a resolution

    [Clock] models the functions of [types.py] that read the clock
    (lines 101-150): [CURRENT_DATE], [CURRENT_TIME], [CURRENT_TIMESTAMP],
    [LOCAL_TIME], [LOCAL_TIMESTAMP] and [TIMESTAMP_UNIX]. A reading of the
    clock is a parameter of each function, one reading per call of
    [dt.datetime.now()] or [dt.date.today()]; [strftime] is interpreted on
    the directives the code uses.

    [Resolution] models [IIAPI_TYPE_WITH_RESOLUTION] (lines 2070-2151) and
    its subclasses [IIAPI_INTDS_TYPE], [IIAPI_TIME_TYPE],
    [IIAPI_TMWO_TYPE], [IIAPI_TMTZ_TYPE], [IIAPI_TS_TYPE],
    [IIAPI_TSWO_TYPE] and [IIAPI_TSTZ_TYPE] (lines 2154-2505).  A setter
    runs on the pair of the shared [_conv_source] ([CHAR(64)], class
    attribute, line 2112) and [self]; [Resolution.run] starts it from the
    state [_conv_source] is in.  [format()], the OpenAPI's rendering
    into [_conv_target], the clock and [fromisoformat] are the
    parameters of [Resolution.external].

    The theorems: [LOCAL_TIME()] puts the month in the minutes field;
    INTERVAL DAY TO SECOND round-trips a [timedelta]; the getters' pad
    and cut equal the spec's truncation to 0, 3 or 6 digits; the
    resolution is never validated; every resolution type writes in
    place ([FamilyLaws]), given that [format()] does. *)

From S2P Require Import Prelude Unicode PyValue Ctypes Container Strings Fixed Network.

Module Clock.

(** A reading of the clock: the local date and time [dt.datetime.now()]
    returns, and the offset from UTC, in minutes, that [astimezone()]
    attaches to it. *)
Record reading : Type := mk_reading {
  year : Z; month : Z; day : Z;
  hour : Z; minute : Z; second : Z; microsecond : Z;
  utcoffset : Z;
}.

(** The decimal digits of [n ≥ 0], padded on the left with ['0'] to
    [w] digits, as [strftime] prints its numeric fields. *)
Definition zpad (w : nat) (n : Z) : list Z :=
  let d := codes (string_of_Z n) in
  replicate (w - length d) 48 ++ d.

(** [%:z]: [+HH:MM] or [-HH:MM]. *)
Definition offset_text (o : Z) : list Z :=
  (if decide (o < 0) then 45 else 43) :: zpad 2 (Z.abs o / 60) ++ 58 :: zpad 2 (Z.abs o mod 60).

(** The field a one-letter directive prints; [%Y] is printed without
    padding, as glibc does. *)
Definition directive (t : reading) (c : Z) : list Z :=
  if decide (c = 89) then codes (string_of_Z (year t))          (* %Y *)
  else if decide (c = 109) then zpad 2 (month t)                (* %m *)
  else if decide (c = 100) then zpad 2 (day t)                  (* %d *)
  else if decide (c = 72) then zpad 2 (hour t)                  (* %H *)
  else if decide (c = 77) then zpad 2 (minute t)                (* %M *)
  else if decide (c = 83) then zpad 2 (second t)                (* %S *)
  else if decide (c = 102) then zpad 6 (microsecond t)          (* %f *)
  else [37; c].

(** [datetime.strftime] *)
Fixpoint strftime (t : reading) (fmt : list Z) : list Z :=
  match fmt with
  | 37 :: 58 :: 122 :: r => offset_text (utcoffset t) ++ strftime t r
  | 37 :: c :: r => directive t c ++ strftime t r
  | c :: r => c :: strftime t r
  | [] => []
  end.

(** [CURRENT_DATE()]: [dt.date.today().strftime('%Y-%m-%d')]. *)
Definition CURRENT_DATE (t : reading) : list Z := strftime t (codes "%Y-%m-%d").

(** [CURRENT_TIME()]: [now.strftime('%H:%m:%S.%f%:z')]. *)
Definition CURRENT_TIME (t : reading) : list Z := strftime t (codes "%H:%m:%S.%f%:z").

(** [CURRENT_TIMESTAMP()]: the date and the time come from two readings
    of the clock, [today] by [CURRENT_DATE] and [now] by [CURRENT_TIME]. *)
Definition CURRENT_TIMESTAMP (today now : reading) : list Z :=
  CURRENT_DATE today ++ [32] ++ CURRENT_TIME now.

(** [LOCAL_TIME()]: [now.strftime('%H:%m:%S.%f')]. *)
Definition LOCAL_TIME (t : reading) : list Z := strftime t (codes "%H:%m:%S.%f").

(** [LOCAL_TIMESTAMP()] *)
Definition LOCAL_TIMESTAMP (today now : reading) : list Z :=
  CURRENT_DATE today ++ [32] ++ LOCAL_TIME now.

(** The days from 1970-01-01 to a date of the proleptic Gregorian
    calendar. *)
Definition days_from_civil (y m d : Z) : Z :=
  let y' := if decide (m ≤ 2) then y - 1 else y in
  let era := y' / 400 in
  let yoe := y' - era * 400 in
  let doy := (153 * (if decide (2 < m) then m - 3 else m + 9) + 2) / 5 + d - 1 in
  let doe := yoe * 365 + yoe / 4 - yoe / 100 + doy in
  era * 146097 + doe - 719468.

(** [TIMESTAMP_UNIX()]: [int(dt.datetime.now(dt.UTC).timestamp())], the
    seconds since the epoch truncated toward zero. [t] is the UTC reading;
    the [float] of [timestamp()] is exact enough for its truncation to be
    the integer quotient for every date of years 1 to 9999. *)
Definition TIMESTAMP_UNIX (t : reading) : Z :=
  let secs := days_from_civil (year t) (month t) (day t) * 86400
              + hour t * 3600 + minute t * 60 + second t in
  Z.quot (secs * 1000000 + microsecond t) 1000000.

(** The clock reading is a real time: every field within its range. *)
Definition valid (t : reading) : Prop :=
  1 ≤ month t ≤ 12 ∧ 0 ≤ hour t < 24 ∧ 0 ≤ minute t < 60 ∧ 0 ≤ second t < 60 ∧
  0 ≤ microsecond t < 1000000.

End Clock.

Import Clock.

(** ** The [datetime] library: the constructors and conversions the code calls *)

Module Datetime.

Definition US_PER_DAY : Z := 86400 * 1000000.

(** [datetime.timedelta(days=, seconds=, microseconds=)] with [int]
    arguments: normalised to [0 <= seconds < 86400] and
    [0 <= microseconds < 10^6], with [OverflowError] beyond
    999999999 days. *)
Definition timedelta (days seconds microseconds : Z) : result pyval :=
  let total := (days * 86400 + seconds) * 1000000 + microseconds in
  let d := total / US_PER_DAY in
  let r := total mod US_PER_DAY in
  if decide (Z.abs d ≤ 999999999) then Ok (PTimedelta d (r / 1000000) (r mod 1000000))
  else Err (OverflowError ("days=" +:+ string_of_Z d +:+ "; must have magnitude <= 999999999")).

Definition offset_iso (o : option Z) : list Z :=
  match o with None => [] | Some m => offset_text m end.

(** [time.isoformat()]: the microseconds only when they are not 0. *)
Definition time_isoformat (h m s us : Z) (tz : option Z) : list Z :=
  zpad 2 h ++ 58 :: zpad 2 m ++ 58 :: zpad 2 s ++
  (if decide (us = 0) then [] else 46 :: zpad 6 us) ++ offset_iso tz.

(** [datetime.isoformat()], with the separator ['T']. *)
Definition datetime_isoformat (y mo d h mi s us : Z) (tz : option Z) : list Z :=
  zpad 4 y ++ 45 :: zpad 2 mo ++ 45 :: zpad 2 d ++ 84 :: time_isoformat h mi s us tz.

(** [str.lower()] on the letters of the words the code compares with
    (['now'], ['today']): no character outside ASCII lowers to one of
    them. *)
Definition ascii_lower (c : Z) : Z := if decide (65 ≤ c ≤ 90) then c + 32 else c.

(** [v.lower() == w] for a lower-case ASCII word [w]. *)
Definition lower_is (w : string) (s : list Z) : bool := bool_decide (map ascii_lower s = codes w).

(** [v.lower() == 'now'] *)
Definition is_now (s : list Z) : bool := lower_is "now" s.

(** [str.isspace()] of a code point. *)
Definition is_py_space (c : Z) : bool :=
  bool_decide (9 ≤ c ≤ 13 ∨ 28 ≤ c ≤ 32 ∨ c = 133 ∨ c = 160 ∨ c = 5760 ∨
               8192 ≤ c ≤ 8202 ∨ c = 8232 ∨ c = 8233 ∨ c = 8239 ∨ c = 8287 ∨ c = 12288).

Fixpoint lstrip (s : list Z) : list Z :=
  match s with c :: r => if is_py_space c then lstrip r else s | [] => [] end.

(** [str.strip()] *)
Definition py_strip (s : list Z) : list Z := reverse (lstrip (reverse (lstrip s))).

End Datetime.

Import Datetime.

(** ** State of two instances: the shared [_conv_source] and [self] *)

Definition on_fst {A B R} (m : PyM A R) : PyM (A * B) R :=
  λ '(a, b), let '(a', r) := m a in ((a', b), r).
Definition on_snd {A B R} (m : PyM B R) : PyM (A * B) R :=
  λ '(a, b), let '(b', r) := m b in ((a, b'), r).

(** A method that changes nothing of [self] but the bytes of a buffer of
    [n] bytes, and keeps its length. *)
Definition in_place {R} (n : nat) (m : PyM container R) : Prop :=
  ∀ c c' r, length (ct_buffer c) = n → m c = (c', r) →
  ∃ b, c' = with_buffer b c ∧ length b = length (ct_buffer c).

(** [conv.value = s], the [CHAR] setter on a conversion buffer, then
    [format(conv, self)] if it succeeded. *)
Definition convert_via (fmt : container → PyM container unit) (s : list Z)
    : PyM (container * container) unit :=
  on_fst (set IIAPI_CHA_TYPE (PStr s));;
  src ← on_fst getS;
  on_snd (fmt src).

(** A setter on a conversion buffer and [self], started from the state
    [conv] the buffer is in. *)
Definition run_from (conv : container) (m : PyM (container * container) unit)
    : PyM container unit :=
  λ c, let '((_, c'), r) := m (conv, c) in (c', r).

(** [self._buffer.<field> = v] for an integer field of [w] bytes. *)
Definition store_field (w off : nat) (v : Z) : PyM container unit :=
  modifyS (λ c, with_buffer (store_int w v (ct_buffer c) off) c).

(** ** [IIAPI_TYPE_WITH_RESOLUTION] and its subclasses *)

Module Resolution.

(** [py.IIAPI_INTDS_LEN], [py.IIAPI_TIME_LEN], [py.IIAPI_TS_LEN] *)
Definition IIAPI_INTDS_LEN : Z := 12.
Definition IIAPI_TIME_LEN : Z := 10.
Definition IIAPI_TS_LEN : Z := 14.

(** What the resolution types leave to other code: the state of the
    class attribute [_conv_source] (a [CHAR(64)] every instance shares)
    when a setter runs; [format()] ([IIapi_formatdata]) from a
    container or an [Ingresdate] into [self]; the 64 bytes [format()]
    leaves in [_conv_target] when it renders [self]; the clock; and the
    [fromisoformat] parsers of [datetime]. *)
Record external : Type := {
  ext_conv_source : container;
  ext_format : container → PyM container unit;
  ext_format_value : pyval → PyM container unit;
  ext_render : container → result (list Z);
  ext_clock : reading;
  ext_today : reading;
  ext_time_fromisoformat : list Z → result pyval;
  ext_datetime_fromisoformat : list Z → result pyval;
}.

(** [_get_ds_precision]: the second positional argument, else the
    default ([_default_precision]: 0, and 6 for TIMESTAMP). *)
Definition get_ds_precision (default : Z) (args : list pyval) : result Z :=
  match args with _ :: p :: _ => ctypes_int p | _ => Ok default end.

(** [_validate_size]: checks [ds_scale], which these types leave 0; the
    resolution is in [ds_precision]. *)
Definition validate_size (d : descriptor) : result unit :=
  if decide (0 ≤ ds_scale d ≤ 9) then Ok () else Err (OverflowError "resolution not in 0 to 9").

(** The [templates] of [_SQL_declaration], around the resolution. *)
Definition template (dt : datatype) : option (string * string) :=
  match dt with
  | IIAPI_INTDS_TYPE => Some ("INTERVAL DAY TO SECOND(", ")")
  | IIAPI_TIME_TYPE => Some ("TIME(", ") WITH LOCAL TIME ZONE")
  | IIAPI_TMTZ_TYPE => Some ("TIME(", ") WITH TIME ZONE")
  | IIAPI_TMWO_TYPE => Some ("TIME(", ")")
  | IIAPI_TS_TYPE => Some ("TIMESTAMP(", ") WITH LOCAL TIME ZONE")
  | IIAPI_TSTZ_TYPE => Some ("TIMESTAMP(", ") WITH TIME ZONE")
  | IIAPI_TSWO_TYPE => Some ("TIMESTAMP(", ")")
  | _ => None
  end.

(** [_SQL_declaration] *)
Definition SQL_declaration (d : descriptor) : result string :=
  match template (ds_dataType d) with
  | Some (pre, post) => Ok (pre +:+ string_of_Z (ds_precision d) +:+ post)
  | None => Err (KeyError "ds_dataType")
  end.

(** [_get_dv_length]: [self._get_ds_length()], the intrinsic length,
    not the size of the buffer. *)
Definition get_dv_length (len : Z) (_ : descriptor) (_ : nat) : Z := len.

(** The buffers of [_allocate_buffer]. *)
Definition INTDS_buffer : ctype :=
  Buffer_Factory [("days", c_int); ("seconds", c_int); ("nseconds", c_int)].
Definition TIME_buffer : ctype :=
  Buffer_Factory [("seconds", c_int); ("nsecond", c_int); ("tzhour", c_ubyte); ("tzminute", c_ubyte)].
Definition TS_buffer : ctype :=
  Buffer_Factory [("year", c_short); ("month", c_ubyte); ("day", c_ubyte); ("seconds", c_int);
                  ("nseconds", c_int); ("tzhour", c_ubyte); ("tzminute", c_ubyte)].

(** The pad-and-cut of the getters: [s + '00'], then the first [base]
    characters and 4 or 7 more for a resolution of 1 to 3 or above 3. *)
Definition cut (resolution : Z) (base : nat) (s : list Z) : list Z :=
  let s := s ++ [48; 48] in
  if decide (3 < resolution) then take (base + 7) s
  else if decide (0 < resolution) then take (base + 4) s
  else take base s.

(** [adjuster = s[-6]] and [hms, adjustment = s.split(adjuster)]. *)
Definition split_zone (what : string) (s : list Z) : result (list Z * Z * list Z) :=
  match reverse s !! 5%nat with
  | None => Err (IndexError "string index out of range")
  | Some adj =>
      if decide (adj = 43 ∨ adj = 45) then
        match IP.split_on adj s with
        | [hms; adjustment] => Ok (hms, adj, adjustment)
        | [_] => Err (ValueError "not enough values to unpack (expected 2, got 1)")
        | _ => Err (ValueError "too many values to unpack (expected 2)")
        end
      else Err (RuntimeError ("internal error; non-compliant " +:+ what +:+ " format"))
  end.

Section ext.
Context (X : external).

(** [self._conv_source.value = v] then [format(self._conv_source, self)]. *)
Definition convert (s : list Z) : PyM (container * container) unit :=
  convert_via (ext_format X) s.

(** [formatted()]: [format(self, self._conv_target)], then
    [self._conv_target.value.strip()]. *)
Definition formatted (c : container) : result (list Z) :=
  b ← ext_render X c;
  match utf8_decode b with Some s => Ok (py_strip s) | None => Err UnicodeDecodeError end.

(** A setter runs on [_conv_source] and [self]; [_conv_source] is
    whatever the last conversion of any instance left in it. *)
Definition run (m : PyM (container * container) unit) : PyM container unit :=
  run_from (ext_conv_source X) m.

(** *** INTERVAL DAY TO SECOND *)

(** [IIAPI_INTDS_TYPE._get_python_value]: [int(nseconds / 1000)] is the
    quotient truncated toward zero (the [float] division of a 32-bit
    [int] by 1000 is never rounded across an integer). *)
Definition INTDS_get_python_value (c : container) : result pyval :=
  let b := ct_buffer c in
  timedelta (load_int 4 true b 0) (load_int 4 true b 4) (Z.quot (load_int 4 true b 8) 1000).

Definition INTDS_type_error : exc := TypeError "must be str, Ingresdate, or datetime.timedelta".

(** [IIAPI_INTDS_TYPE._value_setter] *)
Definition INTDS_value_setter (v : pyval) : PyM (container * container) unit :=
  match v with
  | PTimedelta days seconds microseconds =>
      on_snd (store_field 4 0 days;; store_field 4 4 seconds;; store_field 4 8 (microseconds * 1000))
  | PStr s => convert s
  | PObject cls => if decide (cls = "IIAPI_DTE_TYPE") then on_snd (ext_format_value X v)
                   else raise INTDS_type_error
  | _ => raise INTDS_type_error
  end.

(** *** TIME WITH LOCAL TIME ZONE and TIME *)

(** [IIAPI_TIME_TYPE._get_python_value] *)
Definition TIME_get_python_value (c : container) : result pyval :=
  s ← formatted c;
  ext_time_fromisoformat X (cut (ds_precision (ct_descriptor c)) 8 s).

(** [IIAPI_TIME_TYPE._value_setter] *)
Definition TIME_value_setter (v : pyval) : PyM (container * container) unit :=
  s ← lift (match v with
            | PFunction f =>
                if decide (f = "LOCAL_TIME") then Ok (LOCAL_TIME (ext_clock X))
                else Err (TypeError "must be LOCAL_TIME, or a str or datetime.time")
            | PTime h m sec us tz =>
                match tz with
                | Some _ => Err (ValueError "tzinfo not allowed")
                | None => Ok (time_isoformat h m sec us None)
                end
            | PStr s => Ok s
            | _ => Err (TypeError "must be LOCAL_TIME, or a str or datetime.time")
            end);
  convert (if is_now s then LOCAL_TIME (ext_clock X) else s).

(** *** TIME WITH TIME ZONE *)

(** [IIAPI_TMTZ_TYPE._value_setter]: no ['now'], no [LOCAL_TIME]. *)
Definition TMTZ_value_setter (v : pyval) : PyM (container * container) unit :=
  s ← lift (match v with
            | PFunction f =>
                if decide (f = "CURRENT_TIME") then Ok (CURRENT_TIME (ext_clock X))
                else Err (TypeError "must be str or datetime.time")
            | PTime h m sec us tz => Ok (time_isoformat h m sec us tz)
            | PStr s => Ok s
            | _ => Err (TypeError "must be str or datetime.time")
            end);
  convert s.

(** [IIAPI_TMTZ_TYPE._get_python_value] *)
Definition TMTZ_get_python_value (c : container) : result pyval :=
  s ← formatted c;
  '(hms, adj, adjustment) ← split_zone "TIME" s;
  ext_time_fromisoformat X (cut (ds_precision (ct_descriptor c)) 8 hms ++ adj :: adjustment).

(** *** TIMESTAMP WITH LOCAL TIME ZONE and TIMESTAMP *)

(** [IIAPI_TS_TYPE._get_python_value] *)
Definition TS_get_python_value (c : container) : result pyval :=
  s ← formatted c;
  ext_datetime_fromisoformat X (cut (ds_precision (ct_descriptor c)) 19 s).

(** [IIAPI_TS_TYPE._value_setter] *)
Definition TS_value_setter (v : pyval) : PyM (container * container) unit :=
  s ← lift (match v with
            | PFunction f =>
                if decide (f = "LOCAL_TIMESTAMP") then Ok (LOCAL_TIMESTAMP (ext_today X) (ext_clock X))
                else Err (TypeError "must be LOCAL_TIMESTAMP, or a str or datetime.datetime")
            | PDatetime y mo d h mi sec us tz =>
                match tz with
                | Some _ => Err (ValueError "tzinfo not allowed")
                | None => Ok (datetime_isoformat y mo d h mi sec us None)
                end
            | PStr s => Ok s
            | _ => Err (TypeError "must be LOCAL_TIMESTAMP, or a str or datetime.datetime")
            end);
  convert (if is_now s then LOCAL_TIMESTAMP (ext_today X) (ext_clock X) else s).

(** *** TIMESTAMP WITH TIME ZONE *)

(** [IIAPI_TSTZ_TYPE._value_setter] *)
Definition TSTZ_value_setter (v : pyval) : PyM (container * container) unit :=
  s ← lift (match v with
            | PFunction f =>
                if decide (f = "CURRENT_TIMESTAMP") then Ok (CURRENT_TIMESTAMP (ext_today X) (ext_clock X))
                else Err (TypeError "must be str or datetime.datetime")
            | PDatetime y mo d h mi sec us tz => Ok (datetime_isoformat y mo d h mi sec us tz)
            | PStr s => Ok s
            | _ => Err (TypeError "must be str or datetime.datetime")
            end);
  convert s.

(** [IIAPI_TSTZ_TYPE._get_python_value] *)
Definition TSTZ_get_python_value (c : container) : result pyval :=
  s ← formatted c;
  match IP.split_on 32 s with
  | [date; time] =>
      '(hms, adj, adjustment) ← split_zone "TIMESTAMP" time;
      ext_datetime_fromisoformat X
        (date ++ 32 :: cut (ds_precision (ct_descriptor c)) 8 hms ++ adj :: adjustment)
  | [_] => Err (ValueError "not enough values to unpack (expected 2, got 1)")
  | _ => Err (ValueError "too many values to unpack (expected 2)")
  end.

(** The family record of a subclass of [IIAPI_TYPE_WITH_RESOLUTION]. *)
Definition resolution_family (dt : datatype) (len default : Z) (buffer : ctype)
    (setter : pyval → PyM (container * container) unit)
    (getter : container → result pyval) : family := {|
  fam_dataType := dt;
  fam_expected_positionals := 2;
  fam_ds_length := Intrinsic.get_ds_length len;
  fam_ds_precision := get_ds_precision default;
  fam_ds_scale := zero_precision;
  fam_SQL_declaration := SQL_declaration;
  fam_validate_size := validate_size;
  fam_buffer := λ _, buffer;
  fam_dv_length := get_dv_length len;
  fam_initial_value := default_initial_value;
  fam_value_setter := λ v, run (setter v);
  fam_get_python_value := getter;
  fam_clear_buffer := default_clear_buffer;
|}.

Definition IIAPI_INTDS_TYPE : family :=
  resolution_family Container.IIAPI_INTDS_TYPE IIAPI_INTDS_LEN 0 INTDS_buffer
    INTDS_value_setter INTDS_get_python_value.
Definition IIAPI_TIME_TYPE : family :=
  resolution_family Container.IIAPI_TIME_TYPE IIAPI_TIME_LEN 0 TIME_buffer
    TIME_value_setter TIME_get_python_value.
Definition IIAPI_TMWO_TYPE : family :=
  resolution_family Container.IIAPI_TMWO_TYPE IIAPI_TIME_LEN 0 TIME_buffer
    TIME_value_setter TIME_get_python_value.
Definition IIAPI_TMTZ_TYPE : family :=
  resolution_family Container.IIAPI_TMTZ_TYPE IIAPI_TIME_LEN 0 TIME_buffer
    TMTZ_value_setter TMTZ_get_python_value.
Definition IIAPI_TS_TYPE : family :=
  resolution_family Container.IIAPI_TS_TYPE IIAPI_TS_LEN 6 TS_buffer
    TS_value_setter TS_get_python_value.
Definition IIAPI_TSWO_TYPE : family :=
  resolution_family Container.IIAPI_TSWO_TYPE IIAPI_TS_LEN 6 TS_buffer
    TS_value_setter TS_get_python_value.
Definition IIAPI_TSTZ_TYPE : family :=
  resolution_family Container.IIAPI_TSTZ_TYPE IIAPI_TS_LEN 6 TS_buffer
    TSTZ_value_setter TSTZ_get_python_value.
End ext.

End Resolution.

(** ** The truncation the specification asks of the getters *)

(** The fractional digits kept: 0, 3 or 6. *)
Definition tier (r : Z) : nat := if decide (3 < r) then 6%nat else if decide (0 < r) then 3%nat else 0%nat.

(** What the OpenAPI renders at resolution [r]: the whole seconds, and
    [r] fractional digits after a point when [r > 0]. *)
Definition rendered (r : Z) (hms frac : list Z) : list Z :=
  hms ++ (if decide (0 < r) then 46 :: frac else []).

(** The reference: the fraction cut or padded with zeros to exactly
    [tier r] digits. *)
Definition truncate_fraction (r : Z) (hms frac : list Z) : list Z :=
  hms ++ (if decide (tier r = 0%nat) then [] else 46 :: take (tier r) (frac ++ replicate 6 48)).


(** ** Lemmas on the clock functions *)

Lemma zpad2_digits n : 0 ≤ n < 100 → zpad 2 n = [48 + n / 10; 48 + n mod 10].
Proof.
  revert n. apply (forall_range_check (λ n, zpad 2 n = [48 + n / 10; 48 + n mod 10]) 0 100).
  vm_compute. reflexivity.
Qed.

Lemma zpad2_inj n m : 0 ≤ n < 100 → 0 ≤ m < 100 → zpad 2 n = zpad 2 m → n = m.
Proof.
  intros Hn Hm. rewrite !zpad2_digits by done. intros H. simplify_eq.
  rewrite (Z.div_mod n 10), (Z.div_mod m 10) by lia. lia.
Qed.

Lemma length_zpad2 n : 0 ≤ n < 100 → length (zpad 2 n) = 2%nat.
Proof. intros Hn. by rewrite zpad2_digits. Qed.

Lemma directive_H t : directive t 72 = zpad 2 (hour t).
Proof. reflexivity. Qed.
Lemma directive_m t : directive t 109 = zpad 2 (month t).
Proof. reflexivity. Qed.
Lemma directive_M t : directive t 77 = zpad 2 (minute t).
Proof. reflexivity. Qed.
Lemma directive_S t : directive t 83 = zpad 2 (second t).
Proof. reflexivity. Qed.
Lemma directive_f t : directive t 102 = zpad 6 (microsecond t).
Proof. reflexivity. Qed.

(** [LOCAL_TIME] and the intended ['%H:%M:%S.%f'] differ only in their
    middle field. *)
Lemma local_time_fields t :
  LOCAL_TIME t =
  zpad 2 (hour t) ++ 58 :: zpad 2 (month t) ++ 58 :: zpad 2 (second t) ++ 46 :: zpad 6 (microsecond t).
Proof.
  unfold LOCAL_TIME. change (codes "%H:%m:%S.%f") with [37; 72; 58; 37; 109; 58; 37; 83; 46; 37; 102].
  cbn [strftime]. rewrite directive_H, directive_m, directive_S, directive_f.
  rewrite ?app_nil_r. by rewrite <- ?app_assoc.
Qed.

Lemma intended_time_fields t :
  strftime t (codes "%H:%M:%S.%f") =
  zpad 2 (hour t) ++ 58 :: zpad 2 (minute t) ++ 58 :: zpad 2 (second t) ++ 46 :: zpad 6 (microsecond t).
Proof.
  change (codes "%H:%M:%S.%f") with [37; 72; 58; 37; 77; 58; 37; 83; 46; 37; 102].
  cbn [strftime]. rewrite directive_H, directive_M, directive_S, directive_f.
  rewrite ?app_nil_r. by rewrite <- ?app_assoc.
Qed.

(** C21: [LOCAL_TIME()] formats with ['%H:%m:%S.%f']: [%m] is the month,
    so the string it returns shows the month where the minutes belong,
    and it names the time of the clock only when the minute happens to
    equal the month. *)
Theorem LOCAL_TIME_minutes_are_month t :
  valid t →
  LOCAL_TIME t = strftime t (codes "%H:%M:%S.%f") ↔ minute t = month t.
Proof.
  intros (Hmo & Hh & Hmi & _). rewrite local_time_fields, intended_time_fields.
  split; [|by intros ->]. intros H.
  apply app_inv_head in H. injection H as H.
  apply app_inj_1 in H as [H _]; [|rewrite !length_zpad2 by lia; done].
  symmetry. apply zpad2_inj; [lia|lia|done].
Qed.

(** ** Lemmas on methods that write in place *)

Lemma in_place_ret {R} n (x : R) : in_place n (mret x).
Proof. intros c c' r _ H. unfold mret, pym_ret in H. simplify_eq. apply frame_refl. Qed.

Lemma in_place_raise {R} n e : in_place (R:=R) n (raise e).
Proof. intros c c' r _ H. unfold raise in H. simplify_eq. apply frame_refl. Qed.

Lemma in_place_bind {R S} n (m : PyM container R) (k : R → PyM container S) :
  in_place n m → (∀ x, in_place n (k x)) → in_place n (m ≫= k).
Proof.
  intros Hm Hk c c' r Hl H. unfold mbind, pym_bind in H.
  destruct (m c) as [c1 [x|e]] eqn:E; destruct (Hm _ _ _ Hl E) as (b1 & -> & Hb1).
  - destruct (Hk x (with_buffer b1 c) c' r) as (b2 & -> & Hb2); [simpl; lia|exact H|].
    exists b2. simpl in *. split; [done|lia].
  - simplify_eq. by exists b1.
Qed.

Lemma in_place_store_field n w off v : (off + w ≤ n)%nat → in_place n (store_field w off v).
Proof.
  intros Hw c c' r Hl H. unfold store_field, modifyS in H. simplify_eq.
  eexists; split; [done|]. apply length_store_int. lia.
Qed.

#[export] Hint Resolve in_place_ret in_place_raise in_place_store_field : iitypes.

Lemma run_from_on_snd conv (m : PyM container unit) c : run_from conv (on_snd m) c = m c.
Proof. unfold run_from, on_snd. by destruct (m c). Qed.

Lemma run_from_lift_bind conv {A} (r : result A) (k : A → PyM (container * container) unit) c :
  run_from conv (lift r ≫= k) c =
  match r with Ok a => run_from conv (k a) c | Err e => (c, Err e) end.
Proof. unfold run_from. pym_unfold. by destruct r. Qed.

(** [convert_via fmt s]: the [CHAR] assignment to the conversion
    buffer, then [format()] into [self] if it succeeded. *)
Lemma run_from_convert conv fmt s c :
  run_from conv (convert_via fmt s) c =
  match set IIAPI_CHA_TYPE (PStr s) conv with
  | (a', Ok _) => fmt a' c
  | (_, Err e) => (c, Err e)
  end.
Proof.
  unfold run_from, convert_via, on_fst, on_snd, getS. pym_unfold.
  destruct (set _ _ _) as [a' [[]|e]]; [|done]. by destruct (fmt a' c).
Qed.

Lemma run_from_in_place n conv (m : PyM (container * container) unit) :
  (∀ a c a' c' r, length (ct_buffer c) = n → m (a, c) = ((a', c'), r) →
     ∃ b, c' = with_buffer b c ∧ length b = length (ct_buffer c)) →
  in_place n (run_from conv m).
Proof.
  intros Hm c c' r Hl H. unfold run_from in H.
  destruct (m (conv, c)) as [[a' c''] r'] eqn:E. simplify_eq. by eapply Hm.
Qed.

Lemma on_snd_in_place n (m : PyM container unit) (a a' : container) c c' r :
  in_place n m → length (ct_buffer c) = n → on_snd m (a, c) = ((a', c'), r) →
  ∃ b, c' = with_buffer b c ∧ length b = length (ct_buffer c).
Proof.
  intros Hm Hl H. unfold on_snd in H. destruct (m c) as [c'' r'] eqn:E. simplify_eq. by eapply Hm.
Qed.

Lemma convert_via_in_place n fmt s a c a' c' r :
  (∀ src, in_place n (fmt src)) → length (ct_buffer c) = n → convert_via fmt s (a, c) = ((a', c'), r) →
  ∃ b, c' = with_buffer b c ∧ length b = length (ct_buffer c).
Proof.
  intros Hf Hl H. unfold convert_via, on_fst, on_snd, getS in H. pym_unfold_in H.
  destruct (set _ _ a) as [a1 [[]|e]]; [|simplify_eq; apply frame_refl].
  destruct (fmt a1 c) as [c1 r1] eqn:E. simplify_eq. by eapply Hf.
Qed.

Lemma run_on_snd X (m : PyM container unit) c : Resolution.run X (on_snd m) c = m c.
Proof. apply run_from_on_snd. Qed.

Lemma run_lift_bind X {A} (r : result A) (k : A → PyM (container * container) unit) c :
  Resolution.run X (lift r ≫= k) c =
  match r with Ok a => Resolution.run X (k a) c | Err e => (c, Err e) end.
Proof. apply run_from_lift_bind. Qed.

Lemma run_convert X s c :
  Resolution.run X (Resolution.convert X s) c =
  match set IIAPI_CHA_TYPE (PStr s) (Resolution.ext_conv_source X) with
  | (a', Ok _) => Resolution.ext_format X a' c
  | (_, Err e) => (c, Err e)
  end.
Proof. apply run_from_convert. Qed.

Lemma run_raise X e c : Resolution.run X (raise e) c = (c, Err e).
Proof. done. Qed.

Lemma sizeof_INTDS_buffer : sizeof lp64 Resolution.INTDS_buffer = 12%nat.
Proof. reflexivity. Qed.
Lemma sizeof_TIME_buffer : sizeof lp64 Resolution.TIME_buffer = 12%nat.
Proof. reflexivity. Qed.
Lemma sizeof_TS_buffer : sizeof lp64 Resolution.TS_buffer = 16%nat.
Proof. reflexivity. Qed.

(** A normalised [timedelta] is rebuilt unchanged by the constructor. *)
Lemma timedelta_normalised d s us :
  Z.abs d ≤ 999999999 → 0 ≤ s < 86400 → 0 ≤ us < 1000000 →
  timedelta d s us = Ok (PTimedelta d s us).
Proof.
  intros Hd Hs Hus. unfold timedelta, US_PER_DAY.
  replace ((d * 86400 + s) * 1000000 + us) with ((s * 1000000 + us) + d * (86400 * 1000000)) by lia.
  rewrite Z.div_add, Z.mod_add, (Z.div_small (s * 1000000 + us)), (Z.mod_small (s * 1000000 + us))
    by lia.
  rewrite Z.add_0_l, decide_True by lia. do 2 f_equal.
  - symmetry. apply Z.div_unique with us; lia.
  - symmetry. apply Z.mod_unique with s; lia.
Qed.

(** The three [c_int] fields of INTERVAL DAY TO SECOND read back what
    was stored in them. *)
Lemma load_intds_fields b d s n :
  length b = 12%nat →
  load_int 4 true (store_int 4 n (store_int 4 s (store_int 4 d b 0) 4) 8) 0 = wrap 4 true d ∧
  load_int 4 true (store_int 4 n (store_int 4 s (store_int 4 d b 0) 4) 8) 4 = wrap 4 true s ∧
  load_int 4 true (store_int 4 n (store_int 4 s (store_int 4 d b 0) 4) 8) 8 = wrap 4 true n.
Proof.
  intros Hl. split_and!.
  - do 2 rewrite load_store_int_disjoint by store_len.
    apply load_store_int; lia.
  - rewrite load_store_int_disjoint by store_len.
    apply load_store_int; store_len.
  - apply load_store_int; store_len.
Qed.

Section resolution.
Context (X : Resolution.external).
(** [format()] writes into the buffer of its destination in place. *)
Hypothesis format_in_place : ∀ n src, in_place n (Resolution.ext_format X src).
Hypothesis format_value_in_place : ∀ n v, in_place n (Resolution.ext_format_value X v).

Lemma run_convert_in_place n s : in_place n (Resolution.run X (Resolution.convert X s)).
Proof.
  intros c c' r Hl H. rewrite run_convert in H.
  destruct (set _ _ _) as [a' [|e]]; [by eapply format_in_place|simplify_eq; apply frame_refl].
Qed.

(** The setters of TIME and TIMESTAMP: a [str] computed from [v], then
    [convert]. *)
Lemma run_lift_convert_in_place n (r : result (list Z)) (f : list Z → list Z) :
  in_place n (Resolution.run X (lift r ≫= λ s, Resolution.convert X (f s))).
Proof.
  intros c c' r' Hl H. rewrite run_lift_bind in H.
  destruct r; [by eapply run_convert_in_place|simplify_eq; apply frame_refl].
Qed.

Lemma resolution_laws dt len default buffer setter getter :
  (∀ v, in_place (sizeof lp64 buffer) (Resolution.run X (setter v))) →
  FamilyLaws (Resolution.resolution_family X dt len default buffer setter getter).
Proof. intros Hs. split; [|intros c _; apply length_zeros]. intros v c c' r Hl H. exact (Hs v c c' r Hl H). Qed.

Lemma intds_laws : FamilyLaws (Resolution.IIAPI_INTDS_TYPE X).
Proof.
  apply resolution_laws. rewrite sizeof_INTDS_buffer. intros v c c' r Hl H.
  destruct v; cbn [Resolution.INTDS_value_setter] in H;
    try (rewrite run_raise in H; simplify_eq; apply frame_refl).
  - by eapply run_convert_in_place.
  - rewrite run_on_snd in H. refine (_ c c' r Hl H).
    apply in_place_bind; [|intros _; apply in_place_bind; [|intros _]];
      apply in_place_store_field; lia.
  - revert H; case_decide; intros H'; [rewrite run_on_snd in H'; by eapply format_value_in_place|].
    rewrite run_raise in H'. simplify_eq. apply frame_refl.
Qed.

Lemma time_laws : FamilyLaws (Resolution.IIAPI_TIME_TYPE X).
Proof. apply resolution_laws. intros v. apply run_lift_convert_in_place. Qed.
Lemma tmwo_laws : FamilyLaws (Resolution.IIAPI_TMWO_TYPE X).
Proof. apply resolution_laws. intros v. apply run_lift_convert_in_place. Qed.
Lemma tmtz_laws : FamilyLaws (Resolution.IIAPI_TMTZ_TYPE X).
Proof. apply resolution_laws. intros v. apply (run_lift_convert_in_place _ _ id). Qed.
Lemma ts_laws : FamilyLaws (Resolution.IIAPI_TS_TYPE X).
Proof. apply resolution_laws. intros v. apply run_lift_convert_in_place. Qed.
Lemma tswo_laws : FamilyLaws (Resolution.IIAPI_TSWO_TYPE X).
Proof. apply resolution_laws. intros v. apply run_lift_convert_in_place. Qed.
Lemma tstz_laws : FamilyLaws (Resolution.IIAPI_TSTZ_TYPE X).
Proof. apply resolution_laws. intros v. apply (run_lift_convert_in_place _ _ id). Qed.

Lemma set_intds_timedelta c d s us :
  set (Resolution.IIAPI_INTDS_TYPE X) (PTimedelta d s us) c =
  (with_buffer (store_int 4 (us * 1000) (store_int 4 s (store_int 4 d (ct_buffer c) 0) 4) 8)
     (with_null false true c), Ok ()).
Proof. reflexivity. Qed.

(** INTERVAL DAY TO SECOND stores a [timedelta] in its three
    [c_int] fields (the microseconds as nanoseconds) and reads the same
    [timedelta] back. *)
Theorem set_get_intds c d s us :
  ct_inv (Resolution.IIAPI_INTDS_TYPE X) c →
  Z.abs d ≤ 999999999 → 0 ≤ s < 86400 → 0 ≤ us < 1000000 →
  ∃ c', set (Resolution.IIAPI_INTDS_TYPE X) (PTimedelta d s us) c = (c', Ok ()) ∧
        value (Resolution.IIAPI_INTDS_TYPE X) c' = Ok (PTimedelta d s us).
Proof.
  intros [Hl _] Hd Hs Hus. change (length (ct_buffer c) = 12%nat) in Hl.
  rewrite set_intds_timedelta. eexists; split; [reflexivity|].
  unfold value. cbn [ct_dv_null with_buffer with_null]. cbn [fam_get_python_value Resolution.IIAPI_INTDS_TYPE Resolution.resolution_family].
  unfold Resolution.INTDS_get_python_value. cbn [ct_buffer with_buffer with_null].
  destruct (load_intds_fields (ct_buffer c) d s (us * 1000) Hl) as (-> & -> & ->).
  rewrite !wrap_small by (try change (half_modulus 4) with 2147483648; lia).
  rewrite Z.quot_mul by lia. by apply timedelta_normalised.
Qed.
End resolution.

(** ** The pad-and-cut of the getters *)

Lemma take_app_replicate {A} n (l : list A) x a b :
  (n ≤ length l + a)%nat → (n ≤ length l + b)%nat →
  take n (l ++ replicate a x) = take n (l ++ replicate b x).
Proof.
  intros Ha Hb. rewrite !take_app, !take_replicate. do 2 f_equal. lia.
Qed.

(** [s + '00'] cut to the tier is the fraction padded or cut to it. *)
Lemma cut_rendered base r hms frac :
  length hms = base → length frac = Z.to_nat r →
  Resolution.cut r base (rendered r hms frac) = truncate_fraction r hms frac.
Proof.
  intros Hh Hf. unfold Resolution.cut, rendered, truncate_fraction, tier.
  change [48; 48] with (replicate 2 48). subst base.
  repeat case_decide; try lia; rewrite <- app_assoc.
  - rewrite take_app_add. cbn [app take]. do 2 f_equal. apply take_app_replicate; lia.
  - rewrite take_app_add. cbn [app take]. do 2 f_equal. apply take_app_replicate; lia.
  - by rewrite take_app_length, app_nil_r.
Qed.

(** The string [s] a [str] assignment to TIME converts: ['now'] in any
    case becomes [LOCAL_TIME()], whose middle field is the month. *)
Lemma set_time_str X s c :
  set (Resolution.IIAPI_TIME_TYPE X) (PStr s) c =
  Resolution.run X (Resolution.convert X (if is_now s then LOCAL_TIME (Resolution.ext_clock X) else s))
    (with_null false true c).
Proof. reflexivity. Qed.

(** C22: TIME reads its value back through the OpenAPI's rendering: the
    getter's [s + '00'] cut to 8, 12 or 15 characters hands
    [time.fromisoformat] the seconds with the fraction cut or padded to
    exactly 0, 3 or 6 digits, as the specification asks: resolutions 1
    to 3 are read at milliseconds, 4 and above at microseconds, and
    digits beyond the sixth are lost. *)
Theorem TIME_value_truncates X c hms frac :
  ct_dv_null c = false → length hms = 8%nat →
  length frac = Z.to_nat (ds_precision (ct_descriptor c)) →
  Resolution.formatted X c = Ok (rendered (ds_precision (ct_descriptor c)) hms frac) →
  value (Resolution.IIAPI_TIME_TYPE X) c =
  Resolution.ext_time_fromisoformat X (truncate_fraction (ds_precision (ct_descriptor c)) hms frac).
Proof.
  intros Hn Hh Hf Hs. unfold value. rewrite Hn. cbn [fam_get_python_value Resolution.IIAPI_TIME_TYPE Resolution.resolution_family].
  unfold Resolution.TIME_get_python_value. rewrite Hs. cbn [mbind result_bind].
  by rewrite (cut_rendered 8).
Qed.

(** TIMESTAMP reads its value the same way, after the 19 characters of
    the date and the seconds. *)
Lemma TS_value_truncates X c ymdhms frac :
  ct_dv_null c = false → length ymdhms = 19%nat →
  length frac = Z.to_nat (ds_precision (ct_descriptor c)) →
  Resolution.formatted X c = Ok (rendered (ds_precision (ct_descriptor c)) ymdhms frac) →
  value (Resolution.IIAPI_TS_TYPE X) c =
  Resolution.ext_datetime_fromisoformat X (truncate_fraction (ds_precision (ct_descriptor c)) ymdhms frac).
Proof.
  intros Hn Hh Hf Hs. unfold value. rewrite Hn. cbn [fam_get_python_value Resolution.IIAPI_TS_TYPE Resolution.resolution_family].
  unfold Resolution.TS_get_python_value. rewrite Hs. cbn [mbind result_bind].
  by rewrite (cut_rendered 19).
Qed.

(** C23: [_validate_size] checks [ds_scale], which the resolution types
    leave at 0, while the resolution is stored in [ds_precision]: TIME
    accepts any resolution [r], 42 or -1 alike, stores it in the
    [c_short] field [ds_precision] (so [65578] becomes [42]), declares
    [TIME(p) WITH LOCAL TIME ZONE] with the stored [p] and goes on to
    assign the value; the [OverflowError('resolution not in 0 to 9')] is
    never raised. *)
Theorem resolution_unchecked X v r :
  let F := Resolution.IIAPI_TIME_TYPE X in
  let d := {| ds_dataType := Container.IIAPI_TIME_TYPE; ds_nullable := false;
              ds_length := Resolution.IIAPI_TIME_LEN; ds_precision := ds_int2 r; ds_scale := 0;
              ds_columnType := 0; ds_columnName := None |} in
  init F [v; PInt r] no_kwargs =
  match set F v (fresh_container F false d ("TIME(" +:+ string_of_Z (ds_int2 r) +:+ ") WITH LOCAL TIME ZONE")) with
  | (c', Ok _) => Ok c'
  | (_, Err e) => Err e
  end.
Proof.
  intros F d. rewrite (init_value_mode_eq _ _ _ _ false None) by done.
  by rewrite (init_value_mode_unfold _ _ _ _ d ("TIME(" +:+ string_of_Z (ds_int2 r) +:+ ") WITH LOCAL TIME ZONE") v).
Qed.
