(* ===== verification/Dates.v ===== *)
(** * Dates: ANSIDATE, INGRESDATE and MONEY

    Three intrinsic-size types whose conversions go partly through
    [format()] (types.py lines 489-570, 630-875 and 1089-1166):
    - [Ansidate] ([IIAPI_DATE_TYPE]): a union of a structure
      [year]/[month]/[day] and four bytes; a [datetime.date], an ISO
      [str] (through [date.fromisoformat]) or [CURRENT_DATE] is stored
      field by field.
    - [Ingresdate] ([IIAPI_DTE_TYPE]): a union of a structure led by a
      discriminator byte (sixteen bytes on LP64, its [time] a [c_long])
      and twelve bytes; the getter decodes an empty date, a date, a date
      and time, or a duration; the setter clears the buffer for [''],
      converts a [str] through [format()], stores a [date] field by
      field, ignores a [datetime] and refuses every [timedelta].
    - [Money] ([IIAPI_MNY_TYPE]): a [c_double] holding cents; a [str]
      goes through [format()], any other value through [float(v)] and a
      multiplication by 100.
    [Calendar] holds the range checks of the [datetime] constructors.
    The conversion buffers ([_conv_source]) are per instance; as in
    [Temporal], a setter runs on the pair of the conversion buffer and
    [self], from the state the buffer is in. *)

From Stdlib Require Import Floats.SpecFloat.
From S2P Require Import Prelude PyValue Ctypes Container Strings Fixed Floats Temporal.

Module Calendar.

Definition is_leap (y : Z) : bool :=
  (bool_decide (y mod 4 = 0) && negb (bool_decide (y mod 100 = 0))) || bool_decide (y mod 400 = 0).

Definition days_in_month (y m : Z) : Z :=
  if decide (m = 2) then (if is_leap y then 29 else 28)
  else if decide (m ∈ [4; 6; 9; 11]) then 30 else 31.

(** [datetime.date(year, month, day)] *)
Definition date (y m d : Z) : result pyval :=
  if decide (1 ≤ y ≤ 9999) then
    if decide (1 ≤ m ≤ 12) then
      if decide (1 ≤ d ≤ days_in_month y m) then Ok (PDate y m d)
      else Err (ValueError "day is out of range for month")
    else Err (ValueError "month must be in 1..12")
  else Err (ValueError ("year " +:+ string_of_Z y +:+ " is out of range")).

(** [datetime.datetime(year, month, day, hour=, minute=, second=,
    tzinfo=datetime.timezone.utc)] *)
Definition datetime_utc (y m d h mi s : Z) : result pyval :=
  _ ← date y m d;
  if decide (0 ≤ h ≤ 23) then
    if decide (0 ≤ mi ≤ 59) then
      if decide (0 ≤ s ≤ 59) then Ok (PDatetime y m d h mi s 0 (Some 0))
      else Err (ValueError "second must be in 0..59")
    else Err (ValueError "minute must be in 0..59")
  else Err (ValueError "hour must be in 0..23").

End Calendar.

Module Ansidate.

(** [py.IIAPI_DATE_LEN] *)
Definition IIAPI_DATE_LEN : nat := 4.

(** The structure [ANSIdate] and the union [_allocate_buffer] builds. *)
Definition ANSIdate : ctype := c_struct [("year", c_short); ("month", c_ubyte); ("day", c_ubyte)].
Definition allocate_buffer : ctype :=
  c_union [("fields", ANSIdate); ("value", c_array c_ubyte IIAPI_DATE_LEN)].

(** The clock [CURRENT_DATE()] reads and [datetime.date.fromisoformat]. *)
Record external : Type := {
  ext_today : Clock.reading;
  ext_date_fromisoformat : list Z → result (Z * Z * Z);
}.

Definition type_error : exc := TypeError "must be CURRENT_DATE, a str, or a datetime.date".

Section ext.
Context (X : external).

(** [_get_python_value]: [dt.date(year, month, day)]. *)
Definition get_python_value (c : container) : result pyval :=
  let b := ct_buffer c in
  Calendar.date (load_int 2 true b 0) (load_int 1 false b 2) (load_int 1 false b 3).

(** The conversions at the top of [_value_setter]: [CURRENT_DATE] is
    called, then a [str] is ['today'] or parsed. *)
Definition to_ymd (v : pyval) : result (Z * Z * Z) :=
  v' ← match v with
       | PFunction f =>
           if decide (f = "CURRENT_DATE") then Ok (PStr (Clock.CURRENT_DATE (ext_today X)))
           else Err type_error
       | PDate _ _ _ | PStr _ => Ok v
       | _ => Err type_error
       end;
  match v' with
  | PDate y m d => Ok (y, m, d)
  | PStr s =>
      ext_date_fromisoformat X
        (if Datetime.lower_is "today" s then Clock.CURRENT_DATE (ext_today X) else s)
  | _ => Err type_error
  end.

(** [_value_setter] *)
Definition value_setter (v : pyval) : PyM container unit :=
  ymd ← lift (to_ymd v);
  let '(y, m, d) := ymd in
  store_field 2 0 y;; store_field 1 2 m;; store_field 1 3 d.

Definition IIAPI_DATE_TYPE : family :=
  Intrinsic.intrinsic_family Container.IIAPI_DATE_TYPE (Z.of_nat IIAPI_DATE_LEN) "ANSIDATE" allocate_buffer
    value_setter get_python_value.
End ext.
End Ansidate.

Module Ingresdate.

(** [py.IIAPI_DTE_LEN] *)
Definition IIAPI_DTE_LEN : nat := 12.

(** The discriminator bits. *)
Definition AD_DN_NULL : Z := 0.
Definition AD_DN_ABSOLUTE : Z := 1.
Definition AD_DN_DURATION : Z := 2.
Definition AD_DN_YEARSPEC : Z := 4.
Definition AD_DN_MONTHSPEC : Z := 8.
Definition AD_DN_DAYSPEC : Z := 16.
Definition AD_DN_TIMESPEC : Z := 32.

(** The structure [IngresDate]: [time] is a [c_long], eight bytes on
    LP64, where the OpenAPI's [dn_time] is an [i4]. *)
Definition IngresDate : ctype :=
  c_struct [("discriminator", c_ubyte); ("highday", c_ubyte); ("year", c_short);
            ("month", c_short); ("lowday", c_ushort); ("time", c_long)].
Definition allocate_buffer : ctype :=
  c_union [("fields", IngresDate); ("value", c_array c_ubyte IIAPI_DTE_LEN)].

(** What INGRESDATE leaves to other code: the per-instance
    [_conv_source] ([CHAR(35)]) when the setter runs, [format()], and the
    [float] roundings [round(year * 365.2425)] and
    [round(month * 30.4369)]. *)
Record external : Type := {
  ext_conv_source : container;
  ext_format : container → PyM container unit;
  ext_yeardays : Z → Z;
  ext_monthdays : Z → Z;
}.

(** The time of day of [time] milliseconds: [int(time / 1000)] and
    the [int(secs / 3600)], [int(secs / 60)] that follow truncate toward
    zero (the [float] quotients are exact enough for [|time| < 2^53]). *)
Definition hms (time : Z) : Z * Z * Z :=
  let secs := Z.quot time 1000 in
  let hours := Z.quot secs 3600 in
  let secs := secs - hours * 3600 in
  let mins := Z.quot secs 60 in
  (hours, mins, secs - mins * 60).

Section ext.
Context (X : external).

(** [_get_python_value] *)
Definition get_python_value (c : container) : result pyval :=
  let b := ct_buffer c in
  let discriminator := load_int 1 false b 0 in
  let highday := load_int 1 false b 1 in
  let year := load_int 2 true b 2 in
  let month := load_int 2 true b 4 in
  let lowday := load_int 2 false b 6 in
  let time := load_int (sizeof_long lp64) true b 8 in
  let day := Z.lor (Z.shiftl highday 16) lowday in
  let '(hours, mins, secs) := hms time in
  if decide (discriminator = AD_DN_NULL) then Ok PNone
  else if decide (Z.land discriminator AD_DN_ABSOLUTE ≠ 0) then
    (if decide (Z.land discriminator AD_DN_TIMESPEC ≠ 0)
     then Calendar.datetime_utc year month day hours mins secs
     else Calendar.date year month day)
  else if decide (Z.land discriminator AD_DN_DURATION ≠ 0) then
    Datetime.timedelta (ext_yeardays X year + ext_monthdays X month + day) (hours * 3600 + mins * 60 + secs) 0
  else Err (RuntimeError ("unhandled INGRESDATE discriminator=" +:+ string_of_Z discriminator)).

(** The discriminator of a [datetime.date]. *)
Definition date_discriminator : Z :=
  Z.lor (Z.lor (Z.lor AD_DN_ABSOLUTE AD_DN_DAYSPEC) AD_DN_MONTHSPEC) AD_DN_YEARSPEC.

(** [_value_setter].  [v.lower == 'today'] compares the method with a
    [str] and is never true, so every non-empty [str] goes to
    [format()]; the [datetime] branch computes its fields and stores
    none; the [timedelta] branch checks the range, then calls
    [struct.pack_into(self.format, ...)] on an attribute that does not
    exist. *)
Definition value_setter (v : pyval) : PyM (container * container) unit :=
  match v with
  | PStr [] => on_snd (modifyS (λ c, with_buffer (default_clear_buffer c) c))
  | PStr s => convert_via (ext_format X) s
  | PDate y m d =>
      on_snd (store_field 1 0 date_discriminator;; store_field 1 1 0;; store_field 2 2 y;;
              store_field 2 4 m;; store_field 2 6 d;; store_field (sizeof_long lp64) 8 0)
  | PDatetime _ _ _ _ _ _ _ _ => mret ()
  | PTimedelta days secs us =>
      let msecs := secs * 1000 + us / 1000 in
      if decide (3652047 < days ∨ days = 3652047 ∧ (0 < secs ∨ 0 < msecs))
      then raise (OverflowError "cannot exceed 3652047 days")
      else if decide (days < -3652047 ∨ days = -3652047 ∧ (secs < 0 ∨ msecs < 0))
      then raise (OverflowError "cannot exceed -3652047 days")
      else raise (AttributeError "'IIAPI_DTE_TYPE' object has no attribute 'format'")
  | _ => raise (TypeError "{v} is not a datetime type")
  end.

Definition IIAPI_DTE_TYPE : family :=
  Intrinsic.intrinsic_family Container.IIAPI_DTE_TYPE (Z.of_nat IIAPI_DTE_LEN) "INGRESDATE"
    allocate_buffer (λ v, run_from (ext_conv_source X) (value_setter v)) get_python_value.
End ext.
End Ingresdate.

Module Money.
Import IEEE.

(** [py.IIAPI_MNY_LEN] *)
Definition IIAPI_MNY_LEN : Z := 8.

Definition allocate_buffer : ctype := Buffer_Factory [("value", c_double)].

(** What MONEY leaves to other code: its [_conv_source] ([CHAR(25)])
    when the setter runs, [format()], and [float(v)] of the values that
    are not numbers ([decimal.Decimal], [bytes], ...), [None] where it
    raises. *)
Record external : Type := {
  ext_conv_source : container;
  ext_format : container → PyM container unit;
  ext_float : pyval → option spec_float;
}.

(** [100.] *)
Definition hundred : spec_float := round binary64 100 0.

(** [_get_python_value]: [float(value) / 100.], rounded. *)
Definition get_python_value (c : container) : result pyval :=
  Ok (to_pyfloat (SFdiv 53 1024 (decode binary64 (load_int 8 false (ct_buffer c) 0)) hundred)).

Section ext.
Context (X : external).

(** [float(v)], [None] where it raises (an [int] too large included). *)
Definition py_float (v : pyval) : option spec_float :=
  match v with
  | PInt z => match Flt.float_of_int z with Ok f => Some f | Err _ => None end
  | PBool b => Some (round binary64 (if b then 1 else 0) 0)
  | PFloat _ _ | PInf _ | PNaN => of_pyfloat v
  | _ => ext_float X v
  end.

(** [_value_setter]: a [str] through [format()]; otherwise [v * 100.]
    stored in the [c_double]. *)
Definition value_setter (v : pyval) : PyM (container * container) unit :=
  match v with
  | PStr s => convert_via (ext_format X) s
  | _ =>
      match py_float v with
      | None => raise (ValueError "must be float, decimal.Decimal, or str")
      | Some f => on_snd (store_field 8 0 (encode binary64 (SFmul 53 1024 f hundred)))
      end
  end.

Definition IIAPI_MNY_TYPE : family :=
  Intrinsic.intrinsic_family Container.IIAPI_MNY_TYPE IIAPI_MNY_LEN "MONEY" allocate_buffer
    (λ v, run_from (ext_conv_source X) (value_setter v)) get_python_value.
End ext.
End Money.

(** ** Lemmas *)

Lemma sizeof_ansidate_buffer : sizeof lp64 Ansidate.allocate_buffer = 4%nat.
Proof. reflexivity. Qed.
Lemma sizeof_ingresdate_buffer : sizeof lp64 Ingresdate.allocate_buffer = 16%nat.
Proof. reflexivity. Qed.
Lemma sizeof_money_buffer : sizeof lp64 Money.allocate_buffer = 8%nat.
Proof. reflexivity. Qed.

(** Three stores in place, as the setters chain them. *)
Lemma in_place_seq3 n (m1 m2 m3 : PyM container unit) :
  in_place n m1 → in_place n m2 → in_place n m3 → in_place n (m1;; m2;; m3).
Proof. intros H1 H2 H3. apply in_place_bind; [done|intros _]. by apply in_place_bind. Qed.

Lemma load_ansidate_fields b y m d :
  length b = 4%nat →
  load_int 2 true (store_int 1 d (store_int 1 m (store_int 2 y b 0) 2) 3) 0 = wrap 2 true y ∧
  load_int 1 false (store_int 1 d (store_int 1 m (store_int 2 y b 0) 2) 3) 2 = wrap 1 false m ∧
  load_int 1 false (store_int 1 d (store_int 1 m (store_int 2 y b 0) 2) 3) 3 = wrap 1 false d.
Proof.
  intros Hl. split_and!.
  - do 2 rewrite load_store_int_disjoint by store_len. apply load_store_int; store_len.
  - rewrite load_store_int_disjoint by store_len. apply load_store_int; store_len.
  - apply load_store_int; store_len.
Qed.

Section ansidate.
Context (X : Ansidate.external).
Let F := Ansidate.IIAPI_DATE_TYPE X.

#[local] Instance ansidate_laws : FamilyLaws F.
Proof.
  split; [|intros c _; apply length_zeros]. intros v c c' r Hl H. simpl in Hl.
  rewrite sizeof_ansidate_buffer in Hl. change (Ansidate.value_setter X v c = (c', r)) in H.
  revert c c' r Hl H. unfold Ansidate.value_setter. apply in_place_bind; [|intros [[y m] d]].
  - intros c c' r _ H. unfold lift in H. simplify_eq. apply frame_refl.
  - apply in_place_seq3; apply in_place_store_field; lia.
Qed.

Lemma set_ansidate_date c y m d :
  set F (PDate y m d) c =
  (with_buffer (store_int 1 d (store_int 1 m (store_int 2 y (ct_buffer c) 0) 2) 3) (with_null false true c), Ok ()).
Proof. reflexivity. Qed.

(** ANSIDATE stores a valid [datetime.date] in its three fields and
    reads the same date back. *)
Theorem set_get_ansidate c y m d :
  ct_inv F c → Calendar.date y m d = Ok (PDate y m d) →
  ∃ c', set F (PDate y m d) c = (c', Ok ()) ∧ value F c' = Ok (PDate y m d).
Proof.
  intros [Hl _] Hd. change (length (ct_buffer c) = 4%nat) in Hl.
  assert (1 ≤ y ≤ 9999 ∧ 1 ≤ m ≤ 12 ∧ 1 ≤ d ≤ 31) as (Hy & Hm & Hd').
  { unfold Calendar.date in Hd. repeat case_decide; try discriminate.
    unfold Calendar.days_in_month in *. repeat case_decide; destruct (Calendar.is_leap y); lia. }
  rewrite set_ansidate_date. eexists; split; [reflexivity|].
  unfold value. cbn [ct_dv_null with_buffer with_null fam_get_python_value F
    Ansidate.IIAPI_DATE_TYPE Intrinsic.intrinsic_family].
  unfold Ansidate.get_python_value. cbn [ct_buffer with_buffer].
  destruct (load_ansidate_fields (ct_buffer c) y m d Hl) as (-> & -> & ->).
  rewrite !wrap_small by (try change (half_modulus 2) with 32768; try change (modulus 1) with 256; lia).
  exact Hd.
Qed.
End ansidate.

Section ingresdate.
Context (X : Ingresdate.external).
Let F := Ingresdate.IIAPI_DTE_TYPE X.

Lemma set_ingresdate c v :
  is_null_marker v = false →
  set F v c = run_from (Ingresdate.ext_conv_source X) (Ingresdate.value_setter X v) (with_null false true c).
Proof. intros Hn. unfold set. rewrite Hn. reflexivity. Qed.

Lemma ingresdate_laws :
  (∀ src, in_place 16 (Ingresdate.ext_format X src)) → FamilyLaws F.
Proof.
  intros Hf. split; [|intros c _; apply length_zeros]. intros v c c' r Hl H. simpl in Hl.
  rewrite sizeof_ingresdate_buffer in Hl. revert c c' r Hl H. apply run_from_in_place.
  intros a c a' c' r Hl H. destruct v as [| | | | | | | | |s| | | | | | | | | | | |];
    cbn [Ingresdate.value_setter] in H;
    try (unfold raise in H; simplify_eq; apply frame_refl).
  - destruct s; [|by eapply convert_via_in_place].
    unfold on_snd, modifyS in H. simplify_eq. eexists; split; [done|]. apply length_zeros.
  - revert H. repeat case_decide; intros H'; unfold raise in H'; simplify_eq; apply frame_refl.
  - eapply on_snd_in_place; [|exact Hl|exact H].
    apply in_place_bind; [apply in_place_store_field; lia|intros _].
    apply in_place_bind; [apply in_place_store_field; lia|intros _].
    apply in_place_bind; [apply in_place_store_field; lia|intros _].
    apply in_place_seq3; apply in_place_store_field; simpl; lia.
  - unfold mret, pym_ret in H. simplify_eq. apply frame_refl.
Qed.

(** C26: INGRESDATE accepts a [datetime.datetime] and stores nothing: the
    setter computes the fields and never assigns them, so the instance
    keeps its previous buffer, now marked not NULL. *)
Theorem ingresdate_datetime_ignored c y mo d h mi s us tz :
  set F (PDatetime y mo d h mi s us tz) c = (with_null false true c, Ok ()).
Proof. reflexivity. Qed.

(** C27: INGRESDATE refuses every [datetime.timedelta]: beyond 3652047 days
    with [OverflowError], and otherwise with [AttributeError] from
    [self.format], which does not exist; nothing is stored. *)
Theorem ingresdate_timedelta_refused c days secs us :
  ∃ e, set F (PTimedelta days secs us) c = (with_null false true c, Err e).
Proof.
  rewrite set_ingresdate by done. cbn [Ingresdate.value_setter].
  repeat case_decide; unfold run_from, raise; eauto.
Qed.

(** C29: The INGRESDATE structure ends with a [c_long], eight bytes on LP64,
    so the buffer and [dv_length] are 16 bytes where [IIAPI_DTE_LEN] is
    12. *)
Theorem ingresdate_dv_length args kw c :
  (∀ src, in_place 16 (Ingresdate.ext_format X src)) →
  init F args kw = Ok c → ct_dv_length c = Z.of_nat Ingresdate.IIAPI_DTE_LEN + 4.
Proof.
  intros Hf H. rewrite (@init_dv_length F (ingresdate_laws Hf) _ _ _ H). reflexivity.
Qed.
End ingresdate.

Section money.
Context (X : Money.external).
Let F := Money.IIAPI_MNY_TYPE X.

Lemma money_laws :
  (∀ src, in_place 8 (Money.ext_format X src)) → FamilyLaws F.
Proof.
  intros Hf. split; [|intros c _; apply length_zeros]. intros v c c' r Hl H. simpl in Hl.
  rewrite sizeof_money_buffer in Hl. revert c c' r Hl H. apply run_from_in_place.
  intros a c a' c' r Hl H. unfold Money.value_setter in H. destruct v;
    try (by eapply convert_via_in_place);
    destruct (Money.py_float X _); try (unfold raise in H; simplify_eq; apply frame_refl);
    (eapply on_snd_in_place; [|exact Hl|exact H]; apply in_place_store_field; lia).
Qed.

(** C28: MONEY reads back [(f * 100.) / 100.] of the [float] [f] assigned,
    both operations rounded to binary64. *)
Theorem set_get_money c v f :
  ct_inv F c → is_null_marker v = false → (∀ s, v ≠ PStr s) → Money.py_float X v = Some f →
  valid_binary 53 1024 (SFmul 53 1024 f Money.hundred) = true →
  ∃ c', set F v c = (c', Ok ()) ∧
        value F c' = Ok (IEEE.to_pyfloat (SFdiv 53 1024 (SFmul 53 1024 f Money.hundred) Money.hundred)).
Proof.
  intros [Hl _] Hn Hs Hf Hv. change (length (ct_buffer c) = 8%nat) in Hl.
  assert (Money.value_setter X v =
          on_snd (store_field 8 0 (IEEE.encode IEEE.binary64 (SFmul 53 1024 f Money.hundred)))) as Hset.
  { unfold Money.value_setter. destruct v; try (by destruct (Hs s)); by rewrite Hf. }
  unfold set. rewrite Hn. unfold set_value. cbn [fam_value_setter F Money.IIAPI_MNY_TYPE
    Intrinsic.intrinsic_family]. pym_unfold. rewrite Hset, run_from_on_snd.
  eexists; split; [reflexivity|]. unfold value. cbn [ct_dv_null with_buffer with_null].
  cbn [fam_get_python_value F Money.IIAPI_MNY_TYPE Intrinsic.intrinsic_family].
  unfold Money.get_python_value. cbn [ct_buffer with_buffer with_null]. do 3 f_equal. destruct binary64_ok as (H1 & H2 & H3).
  apply load_store_float; try done; lia.
Qed.
End money.
