(* ===== verification/Decimal.v ===== *)
(** * Decimal: [IIAPI_DEC_TYPE]

    DECIMAL (types.py lines 2508-2645) is the one subclass of
    [IIAPI_TYPE] with three positional arguments (value, precision,
    scale).  Its buffer is [int(precision / 2) + 1] bytes of packed
    decimal the code never touches: the setter renders the value with
    [str()], cuts the digits after the point to the scale, and hands the
    text to [format()] through the per-instance [CHAR(40)] conversion
    buffer; the getter renders the buffer through [format()] and parses
    the text with [float()].  [str()] of a [float] or a [decimal.Decimal],
    [format()], its rendering and [float(str)] are parameters
    ([Decimal.external]); [str()] of an [int] is [string_of_Z].  A
    [decimal.Decimal] is the value [PObject "Decimal"]. *)

From Stdlib Require Import Floats.SpecFloat.
From S2P Require Import Prelude PyValue Ctypes Container Strings Floats Fixed Network Temporal.

Module Decimal.
Import IEEE.

(** [int(f)] of a [float]: the value truncated toward zero. *)
Definition py_int_of_float (f : spec_float) : result Z :=
  match f with
  | S754_zero _ => Ok 0
  | S754_infinity _ => Err (OverflowError "cannot convert float infinity to integer")
  | S754_nan => Err (ValueError "cannot convert float NaN to integer")
  | S754_finite s m e =>
      let a := if decide (0 ≤ e) then Z.pos m * 2 ^ e else Z.pos m / 2 ^ (- e) in
      Ok (if s then - a else a)
  end.

(** [v / 2], Python's true division, correctly rounded to binary64. *)
Definition true_div2 (v : pyval) : result spec_float :=
  match v with
  | PInt p =>
      match round binary64 p (-1) with
      | S754_infinity _ => Err (OverflowError "integer division result too large for a float")
      | f => Ok f
      end
  | PBool b => Ok (round binary64 (if b then 1 else 0) (-1))
  | PFloat m e => Ok (SFdiv 53 1024 (round binary64 m e) (round binary64 2 0))
  | PInf s => Ok (S754_infinity s)
  | PNaN => Ok S754_nan
  | _ => Err (TypeError ("unsupported operand type(s) for /: '" +:+ py_type_name v +:+ "' and 'int'"))
  end.

(** [int(precision / 2) + 1] *)
Definition length_of_precision (p : pyval) : result Z :=
  f ← true_div2 p; n ← py_int_of_float f; Ok (n + 1).

Definition type_error : exc := TypeError "not int, float, or decimal.Decimal".

Record external : Type := {
  ext_conv_source : container;
  ext_format : container → PyM container unit;
  ext_str : pyval → list Z;
  ext_render : container → result (list Z);
  ext_parse_float : list Z → result pyval;
}.

(** The precision [_get_ds_precision] returns, before it is stored in
    the descriptor: [args[1]], else inferred from the initial value. *)
Definition precision_arg (args : list pyval) : result pyval :=
  match args with
  | _ :: p :: _ => Ok p
  | _ =>
      v ← default_initial_value args;
      match v with
      | PObject cls =>
          (* [dec.getcontext().prec]: no [dec] is bound in types.py *)
          if decide (cls = "Decimal") then Err (NameError "name 'dec' is not defined") else Err type_error
      | PFloat _ _ | PInf _ | PNaN => Ok (PInt 15)
      | PInt _ => Ok (PInt 19)
      | _ => Err type_error
      end
  end.

(** [_get_ds_length]: [int(precision / 2) + 1]. *)
Definition get_ds_length (args : list pyval) : result Z :=
  p ← precision_arg args; length_of_precision p.

Definition get_ds_precision (args : list pyval) : result Z :=
  p ← precision_arg args; ctypes_int p.

(** [_get_ds_scale]: [args[2]], else 0. *)
Definition get_ds_scale (args : list pyval) : result Z :=
  match args with _ :: _ :: s :: _ => ctypes_int s | _ => Ok 0 end.

(** [_SQL_declaration] *)
Definition SQL_declaration (d : descriptor) : result string :=
  Ok ("DECIMAL(" +:+ string_of_Z (ds_precision d) +:+ "," +:+ string_of_Z (ds_scale d) +:+ ")").

(** [_validate_size] *)
Definition validate_size (d : descriptor) : result unit :=
  if decide (0 < ds_precision d ≤ 39) then
    if decide (0 ≤ ds_scale d ≤ ds_precision d) then Ok ()
    else Err (OverflowError "scale cannot exceed precision")
  else Err (OverflowError "precision cannot exceed 39").

(** [_allocate_buffer]: [ds_length] unsigned bytes. *)
Definition allocate_buffer (d : descriptor) : ctype :=
  Buffer_Factory [("value", c_array c_ubyte (Z.to_nat (ds_length d)))].

(** [s[:n]] *)
Definition py_slice_to (s : list Z) (n : Z) : list Z :=
  if decide (0 ≤ n) then take (Z.to_nat n) s else take (Z.to_nat (Z.of_nat (length s) + n)) s.

(** The text the setter hands to [format()]: [lod + '.' + rod[:scale]]
    of [s.split('.')]. *)
Definition decimal_text (s : list Z) (scale : Z) : list Z :=
  let parts := IP.split_on 46 s in
  let lod := default [] (head parts) in
  let rod := match parts with [_; r] => r | _ => [] end in
  lod ++ [46] ++ py_slice_to rod scale.

Section setter.
Context (X : external).

(** [str(v)] *)
Definition py_str (v : pyval) : list Z :=
  match v with PInt z => codes (string_of_Z z) | _ => ext_str X v end.

(** [type(v) in {float, int, decimal.Decimal}] *)
Definition is_number (v : pyval) : bool :=
  match v with
  | PInt _ | PFloat _ _ | PInf _ | PNaN => true
  | PObject cls => bool_decide (cls = "Decimal")
  | _ => false
  end.

(** [_value_setter], given [self.descriptor.ds_scale]. *)
Definition value_setter (scale : Z) (v : pyval) : PyM (container * container) unit :=
  if is_number v then convert_via (ext_format X) (decimal_text (py_str v) scale)
  else raise type_error.

(** [_get_python_value]: [float(self.formatted())]. *)
Definition get_python_value (c : container) : result pyval :=
  s ← ext_render X c; ext_parse_float X (Datetime.py_strip s).

Definition IIAPI_DEC_TYPE : family := {|
  fam_dataType := Container.IIAPI_DEC_TYPE;
  fam_expected_positionals := 3;
  fam_ds_length := get_ds_length;
  fam_ds_precision := get_ds_precision;
  fam_ds_scale := get_ds_scale;
  fam_SQL_declaration := SQL_declaration;
  fam_validate_size := validate_size;
  fam_buffer := allocate_buffer;
  fam_dv_length := default_dv_length;
  fam_initial_value := default_initial_value;
  fam_value_setter := λ v, c ← getS;
    run_from (ext_conv_source X) (value_setter (ds_scale (ct_descriptor c)) v);
  fam_get_python_value := get_python_value;
  fam_clear_buffer := default_clear_buffer;
|}.
End setter.
End Decimal.

(** ** Lemmas *)

Lemma sizeof_decimal_buffer d : sizeof lp64 (Decimal.allocate_buffer d) = Z.to_nat (ds_length d).
Proof. exact (sizeof_key_buffer _). Qed.

(** [int(p / 2) + 1], computed through a [float], is [p / 2 + 1] for
    every precision [_validate_size] accepts. *)
Lemma length_of_precision_valid p :
  0 ≤ p < 40 → Decimal.length_of_precision (PInt p) = Ok (p / 2 + 1).
Proof.
  intros Hp. revert p Hp.
  apply (forall_range_check (λ p, Decimal.length_of_precision (PInt p) = Ok (p / 2 + 1)) 0 40).
  vm_compute. reflexivity.
Qed.

Lemma length_of_ctypes_precision pv p :
  ctypes_int pv = Ok p → 0 < p ≤ 39 → Decimal.length_of_precision pv = Ok (p / 2 + 1).
Proof.
  destruct pv; try discriminate; intros [= <-] Hp.
  - destruct b; [reflexivity|lia].
  - apply length_of_precision_valid. lia.
Qed.

(** [str.split('.')] of a text with exactly one point. *)
Lemma split_on_one sep lod rod :
  sep ∉ lod → sep ∉ rod → IP.split_on sep (lod ++ sep :: rod) = [lod; rod].
Proof.
  intros Hl Hr. induction lod as [|c lod IH]; simpl.
  - rewrite decide_True by done. f_equal. clear Hl. induction rod as [|c rod IH]; [done|].
    simpl. rewrite decide_False by set_solver. rewrite IH by set_solver. done.
  - rewrite decide_False by set_solver. rewrite IH by set_solver. done.
Qed.

Lemma split_on_none sep s : sep ∉ s → IP.split_on sep s = [s].
Proof.
  induction s as [|c s IH]; intros H; [done|]. simpl.
  rewrite decide_False by set_solver. rewrite IH by set_solver. done.
Qed.

(** The setter's text of [lod.rod]: the digits after the point cut to
    [scale], not rounded. *)
Lemma decimal_text_point lod rod scale :
  46 ∉ lod → 46 ∉ rod → 0 ≤ scale →
  Decimal.decimal_text (lod ++ 46 :: rod) scale = lod ++ 46 :: take (Z.to_nat scale) rod.
Proof.
  intros Hl Hr Hs. unfold Decimal.decimal_text. rewrite split_on_one by done.
  unfold Decimal.py_slice_to. by rewrite decide_True.
Qed.

(** A text without a point gets one, with nothing after it. *)
Lemma decimal_text_no_point s scale :
  46 ∉ s → Decimal.decimal_text s scale = s ++ [46].
Proof.
  intros H. unfold Decimal.decimal_text. rewrite split_on_none by done.
  unfold Decimal.py_slice_to. cbn [head default]. by case_decide; rewrite take_nil.
Qed.

Lemma codes_digits_acc_no_point f n acc :
  46 ∉ codes acc → 46 ∉ codes (digits_acc f n acc).
Proof.
  revert n acc. induction f as [|f IH]; intros n acc Hacc; [done|]. simpl.
  assert (46 ∉ codes (String (ascii_of_nat (48 + Z.to_nat (n mod 10))) acc)) as Hd.
  { cbn [codes]. rewrite nat_ascii_embedding by (pose proof (Z.mod_pos_bound n 10); lia).
    apply not_elem_of_cons. split; [pose proof (Z.mod_pos_bound n 10); lia|done]. }
  case_decide; [done|]. by apply IH.
Qed.

(** [str(int)] has no point. *)
Lemma codes_string_of_Z_no_point z : 46 ∉ codes (string_of_Z z).
Proof.
  assert (46 ∉ codes "") as H0 by apply not_elem_of_nil.
  unfold string_of_Z. case_decide; [|by apply codes_digits_acc_no_point].
  cbn [codes String.append]. apply not_elem_of_cons. split; [vm_compute; intros Hc; discriminate Hc|].
  by apply codes_digits_acc_no_point.
Qed.

(** One decimal digit less halves the value at least three times. *)
Lemma log2_div10_lt n : 10 ≤ n → Z.log2 (n / 10) + 1 ≤ Z.log2 n.
Proof.
  intros Hn. assert (1 ≤ n / 10) by (apply Z.div_le_lower_bound; lia).
  replace (Z.log2 (n / 10) + 1) with (Z.log2 (2 * (n / 10))) by (rewrite Z.log2_double; lia).
  apply Z.log2_le_mono.
  pose proof (Z.mul_div_le n 10). lia.
Qed.

(** The digit loop of [str(int)] ends within its fuel: for
    [n >= 0], any two fuels of at least [log2 n + 1] steps give the same
    digits, so the fuel [string_of_Z] gives never cuts the text short. *)
Theorem digits_acc_fuel k m n acc :
  0 ≤ n → (Z.to_nat (Z.log2 n) + 1 ≤ k)%nat → (Z.to_nat (Z.log2 n) + 1 ≤ m)%nat →
  digits_acc k n acc = digits_acc m n acc.
Proof.
  revert m n acc. induction k as [|k IH]; intros m n acc Hn Hk Hm; [lia|].
  destruct m as [|m]; [lia|]. cbn [digits_acc]. case_decide; [done|].
  pose proof (log2_div10_lt n ltac:(lia)). pose proof (Z.log2_nonneg (n / 10)).
  assert (0 ≤ n / 10) by (apply Z.div_pos; lia).
  apply IH; lia.
Qed.


Section decimal.
Context (X : Decimal.external).
Context (format_in_place : ∀ n src, in_place n (Decimal.ext_format X src)).
Let F := Decimal.IIAPI_DEC_TYPE X.

#[local] Instance decimal_laws : FamilyLaws F.
Proof.
  split; [|intros c _; apply length_zeros]. intros v c c' r _ H.
  change ((c0 ← getS; run_from (Decimal.ext_conv_source X)
            (Decimal.value_setter X (ds_scale (ct_descriptor c0)) v)) c = (c', r)) in H.
  unfold mbind, pym_bind, getS in H. revert c c' r H.
  intros c c' r H. eapply (run_from_in_place (length (ct_buffer c))); [|done|exact H].
  intros a c1 a' c1' r' Hl H1. unfold Decimal.value_setter in H1. destruct (Decimal.is_number v).
  - by eapply convert_via_in_place.
  - unfold raise in H1. simplify_eq. apply frame_refl.
Qed.

Lemma set_decimal_unfold v c :
  is_null_marker v = false →
  set F v c = run_from (Decimal.ext_conv_source X)
                (Decimal.value_setter X (ds_scale (ct_descriptor c)) v) (with_null false true c).
Proof. intros Hn. unfold set. rewrite Hn. reflexivity. Qed.

Lemma is_number_not_null v : Decimal.is_number v = true → is_null_marker v = false.
Proof. by destruct v. Qed.

(** An [int] is handed to [format()] as its digits and a point. *)
Lemma set_decimal_int c z :
  set F (PInt z) c =
  match set IIAPI_CHA_TYPE (PStr (codes (string_of_Z z) ++ [46])) (Decimal.ext_conv_source X) with
  | (a', Ok _) => Decimal.ext_format X a' (with_null false true c)
  | (_, Err e) => (with_null false true c, Err e)
  end.
Proof.
  rewrite set_decimal_unfold by done. unfold Decimal.value_setter. cbn [Decimal.is_number Decimal.py_str].
  rewrite decimal_text_no_point by apply codes_string_of_Z_no_point. apply run_from_convert.
Qed.

(** Anything but an [int], a [float] or a [decimal.Decimal] (a [bool]
    included) raises [TypeError]; the instance is left not NULL. *)
Lemma set_decimal_type_error c v :
  Decimal.is_number v = false → is_null_marker v = false →
  set F v c = (with_null false true c, Err Decimal.type_error).
Proof.
  intros Hv Hn. rewrite set_decimal_unfold by done. unfold Decimal.value_setter. by rewrite Hv.
Qed.

(** C30: DECIMAL hands [format()] the [str] of the value with the
    digits after the point cut to the declared scale, not rounded: the
    instance ends as [format()] leaves it from [lod.rod[:scale]]. *)
Theorem set_decimal_text c v lod rod :
  Decimal.is_number v = true → Decimal.py_str X v = lod ++ 46 :: rod → 46 ∉ lod → 46 ∉ rod →
  0 ≤ ds_scale (ct_descriptor c) →
  set F v c =
  match set IIAPI_CHA_TYPE (PStr (lod ++ 46 :: take (Z.to_nat (ds_scale (ct_descriptor c))) rod))
          (Decimal.ext_conv_source X) with
  | (a', Ok _) => Decimal.ext_format X a' (with_null false true c)
  | (_, Err e) => (with_null false true c, Err e)
  end.
Proof.
  intros Hv Hs Hl Hr Hsc. rewrite set_decimal_unfold by (by apply is_number_not_null).
  unfold Decimal.value_setter. rewrite Hv, Hs, decimal_text_point by done.
  apply run_from_convert.
Qed.
(** A DECIMAL built from its arguments has a precision in 1..39, a
    scale in 0..precision, and a buffer and [dv_length] of
    [precision / 2 + 1] bytes, the size the spec gives, when the
    precision fits the [c_short] field [ds_precision]. *)
Theorem decimal_init_sizes args kw c :
  init F args kw = Ok c → kw_descriptor kw = None →
  (∀ p, fam_ds_precision F args = Ok p → -32768 ≤ p < 32768) →
  0 < ds_precision (ct_descriptor c) ≤ 39 ∧
  0 ≤ ds_scale (ct_descriptor c) ≤ ds_precision (ct_descriptor c) ∧
  ds_length (ct_descriptor c) = ds_precision (ct_descriptor c) / 2 + 1 ∧
  ct_dv_length c = ds_length (ct_descriptor c).
Proof.
  intros H Hk Hsm. pose proof (init_dv_length F args kw c H) as Hdv.
  destruct (init_checked F args kw c H) as [Hv Hb]. destruct (Hb Hk) as (wn & name & Hd).
  revert Hv Hdv. unfold build_descriptor, mbind, result_bind in Hd.
  destruct (fam_ds_length F args) as [len|] eqn:Hlen; [|discriminate].
  destruct (fam_ds_precision F args) as [prec|] eqn:Hprec; [|discriminate].
  destruct (fam_ds_scale F args) as [scale|]; [|discriminate]. injection Hd as <-.
  pose proof (Hsm prec eq_refl) as Hp16. rewrite (ds_int2_small prec) by lia.
  cbn [fam_validate_size fam_dv_length fam_buffer F Decimal.IIAPI_DEC_TYPE ct_descriptor].
  unfold Decimal.validate_size. cbn [ds_precision ds_scale ds_length].
  repeat case_decide; try discriminate. intros _ ->.
  cbn [F Decimal.IIAPI_DEC_TYPE fam_ds_length fam_ds_precision] in Hlen, Hprec.
  unfold Decimal.get_ds_length, Decimal.get_ds_precision, mbind, result_bind in Hlen, Hprec.
  destruct (Decimal.precision_arg args) as [pv|]; [|discriminate].
  cbn [ds_precision ds_scale ds_length] in *.
  rewrite (length_of_ctypes_precision _ _ Hprec) in Hlen by lia. injection Hlen as <-.
  assert (0 ≤ prec / 2 + 1 < 65536) by (split; [apply Z.add_nonneg_nonneg; [apply Z.div_pos|]|]; Z.div_mod_to_equations; lia).
  rewrite ds_uint2_small by lia. unfold default_dv_length. rewrite sizeof_decimal_buffer. cbn [ds_length ds_precision ds_scale].
  assert (0 ≤ prec / 2) by (apply Z.div_pos; lia).
  rewrite Z2Nat.id by lia. split_and!; lia.
Qed.
End decimal.
