(* ===== verification/Env.v ===== *)
(** * Env: the OpenAPI environment handle and [format()]

    types.py lines 29-98 keep the OpenAPI environment handle in the
    module global [_envHandle]:
    - [publish_envHandle] sets it once: a handle passed in, or the first
      handle [IIapi_initialize] returns, trying the versions
      [IIAPI_VERSION], [IIAPI_VERSION - 1], ..., [1]; later calls are
      ignored;
    - [get_envHandle] reads it;
    - [format(src, dst)] refuses to run without it, otherwise fills an
      [IIAPI_FORMATPARM] with copies of both descriptors (their
      [ds_columnType] set to [IIAPI_COL_QPARM]) and of both data values,
      and calls [IIapi_formatData], which writes the destination buffer
      through [dv_value]; a status at or above [IIAPI_ST_ERROR] raises
      [ValueError].
    The driver (its constants and its two calls) is the record [driver];
    a handle is a [Z], [0] standing for [None] and every falsy value.
    [call] and [run] are the sequences of calls a program makes; the
    theorems show that the handle is set at most once, that publishing
    succeeds when a version initialises, and that [format()] writes in
    place, the law the families of [Fixed], [Temporal], [Dates] and
    [Decimal] assume of it. *)

From S2P Require Import Prelude PyValue Ctypes Container Temporal.

Module Env.

(** [IIAPI_DATAVALUE]: [dv_value] is the address of the buffer, here
    the bytes it points to. *)
Record datavalue : Type := {
  dv_null : bool;
  dv_length : Z;
  dv_value : option (list Z);
}.

(** [IIAPI_FORMATPARM] as [format()] fills it. *)
Record formatparm : Type := {
  fd_envHandle : Z;
  fd_srcDesc : descriptor;
  fd_srcValue : datavalue;
  fd_dstDesc : descriptor;
  fd_dstValue : datavalue;
}.

(** The pyngres module: the constants of [iiapi.h] the code reads and
    the two driver calls.  [IIapi_initialize] maps [in_version] to
    [in_status] and [in_envHandle]; [IIapi_formatData] returns
    [fd_status] and the bytes of the destination buffer after the call. *)
Record driver : Type := {
  IIAPI_VERSION : Z;
  IIAPI_ST_SUCCESS : Z;
  IIAPI_ST_ERROR : Z;
  IIAPI_COL_QPARM : Z;
  IIapi_initialize : Z → Z * Z;
  IIapi_formatData : formatparm → Z * list Z;
}.

Section driver.
Context (D : driver).

(** [for in_version in range(py.IIAPI_VERSION, 0, -1)]: the handle of
    the first version that initialises, from [n] down to 1, else [0]. *)
Fixpoint initialize_versions (n : nat) : Z :=
  match n with
  | O => 0
  | S k =>
      let '(status, handle) := IIapi_initialize D (Z.of_nat n) in
      if decide (status = IIAPI_ST_SUCCESS D) then handle else initialize_versions k
  end.

(** [publish_envHandle(in_envHandle)] on the global [_envHandle]. *)
Definition publish_envHandle (in_envHandle : Z) : PyM Z unit :=
  λ envHandle,
    if decide (envHandle ≠ 0) then (envHandle, Ok ())
    else
      let handle := if decide (in_envHandle ≠ 0) then in_envHandle
                    else initialize_versions (Z.to_nat (IIAPI_VERSION D)) in
      if decide (handle = 0) then (envHandle, Err (RuntimeError "can't initialize OpenAPI"))
      else (handle, Ok ()).

(** [get_envHandle()] *)
Definition get_envHandle : PyM Z Z := getS.

Definition datavalue_of (c : container) : datavalue := {|
  dv_null := ct_dv_null c;
  dv_length := ct_dv_length c;
  dv_value := if ct_dv_value c then Some (ct_buffer c) else None;
|}.

(** [fdp.fd_srcDesc = src.descriptor] copies the structure, so setting
    [ds_columnType] changes the copy only. *)
Definition qparm (d : descriptor) : descriptor :=
  {| ds_dataType := ds_dataType d; ds_nullable := ds_nullable d; ds_length := ds_length d;
     ds_precision := ds_precision d; ds_scale := ds_scale d;
     ds_columnType := IIAPI_COL_QPARM D; ds_columnName := ds_columnName d |}.

(** [format(src, dst)] with the handle [envHandle], on [dst]. *)
Definition format (envHandle : Z) (src : container) : PyM container unit :=
  λ dst,
    if decide (envHandle = 0)
    then (dst, Err (RuntimeError "_envHandle not set; call publish_envHandle()"))
    else
      let fdp := {| fd_envHandle := envHandle;
                    fd_srcDesc := qparm (ct_descriptor src); fd_srcValue := datavalue_of src;
                    fd_dstDesc := qparm (ct_descriptor dst); fd_dstValue := datavalue_of dst |} in
      let '(status, out) := IIapi_formatData D fdp in
      let dst' := if ct_dv_value dst then with_buffer out dst else dst in
      if decide (IIAPI_ST_ERROR D ≤ status) then (dst', Err (ValueError "type conversion failed"))
      else (dst', Ok ()).

(** The calls a program makes on the module, in order. *)
Inductive call : Type :=
| Publish (in_envHandle : Z)
| Get
| Format (src dst : container).

(** One call on [_envHandle]: its new value and what the call returns. *)
Definition step (c : call) (envHandle : Z) : Z * result unit :=
  match c with
  | Publish h => publish_envHandle h envHandle
  | Get => (envHandle, Ok ())
  | Format src dst => (envHandle, snd (format envHandle src dst))
  end.

(** A sequence of calls; an exception does not stop the program. *)
Fixpoint run (cs : list call) (envHandle : Z) : Z :=
  match cs with
  | [] => envHandle
  | c :: cs => run cs (fst (step c envHandle))
  end.
End driver.
End Env.

(** ** Lemmas *)

Section env.
Context (D : Env.driver).

(** The handles the module can hold after calls from [h0]. *)
Inductive reachable (h0 : Z) : Z → Prop :=
| reachable_init : reachable h0 h0
| reachable_step c h : reachable h0 h → reachable h0 (fst (Env.step D c h)).

(** The version loop returns the handle of the highest version that
    initialises, or [0] when none does. *)
Lemma initialize_versions_spec n :
  (∃ v, 1 ≤ v ≤ Z.of_nat n ∧ (Env.IIapi_initialize D v).1 = Env.IIAPI_ST_SUCCESS D ∧
        (∀ w, v < w ≤ Z.of_nat n → (Env.IIapi_initialize D w).1 ≠ Env.IIAPI_ST_SUCCESS D) ∧
        Env.initialize_versions D n = (Env.IIapi_initialize D v).2) ∨
  ((∀ w, 1 ≤ w ≤ Z.of_nat n → (Env.IIapi_initialize D w).1 ≠ Env.IIAPI_ST_SUCCESS D) ∧
   Env.initialize_versions D n = 0).
Proof.
  induction n as [|n IH]; [right; split; [lia|done]|]. cbn [Env.initialize_versions].
  destruct (Env.IIapi_initialize D (Z.of_nat (S n))) as [st hd] eqn:E. case_decide as Hs.
  - left. exists (Z.of_nat (S n)). rewrite E. split_and!; [lia|lia|done| |done]. intros w Hw. lia.
  - destruct IH as [(v & Hv & Hok & Hhi & ->)|[Hnone ->]].
    + left. exists v. split_and!; [lia|lia|done| |done].
      intros w Hw. destruct (decide (w = Z.of_nat (S n))) as [->|]; [by rewrite E|]. apply Hhi. lia.
    + right. split; [|done]. intros w Hw.
      destruct (decide (w = Z.of_nat (S n))) as [->|]; [by rewrite E|]. apply Hnone. lia.
Qed.

Lemma step_keeps_handle c h : h ≠ 0 → fst (Env.step D c h) = h.
Proof.
  intros Hh. destruct c; cbn [Env.step]; [|done|done].
  unfold Env.publish_envHandle. by rewrite decide_True.
Qed.

Lemma run_keeps_handle cs h : h ≠ 0 → Env.run D cs h = h.
Proof.
  intros Hh. induction cs as [|c cs IH]; [done|]. cbn [Env.run]. by rewrite step_keeps_handle.
Qed.

(** C32: Once set, the environment handle never changes: every call
    [publish_envHandle] makes on a set handle is ignored, whatever handle
    it is given. *)
Theorem handle_set_once h0 h : h0 ≠ 0 → reachable h0 h → h = h0.
Proof.
  intros H0 Hr. induction Hr as [|c h Hr IH]; [done|]. subst. by apply step_keeps_handle.
Qed.

(** C33: When [IIapi_initialize] succeeds for some version with a
    handle, [publish_envHandle()] on the unset module publishes the
    handle of the highest such version, and from then on [format()]
    never raises the missing-handle [RuntimeError], whatever calls
    follow. *)
Theorem publish_enables_format v :
  1 ≤ v ≤ Env.IIAPI_VERSION D →
  (Env.IIapi_initialize D v).1 = Env.IIAPI_ST_SUCCESS D →
  (∀ w, v < w ≤ Env.IIAPI_VERSION D → (Env.IIapi_initialize D w).1 ≠ Env.IIAPI_ST_SUCCESS D) →
  (Env.IIapi_initialize D v).2 ≠ 0 →
  Env.publish_envHandle D 0 0 = ((Env.IIapi_initialize D v).2, Ok ()) ∧
  ∀ cs src dst, snd (Env.format D (Env.run D cs (Env.IIapi_initialize D v).2) src dst) ≠
                Err (RuntimeError "_envHandle not set; call publish_envHandle()").
Proof.
  intros Hv Hok Hhi Hh.
  assert (Env.initialize_versions D (Z.to_nat (Env.IIAPI_VERSION D)) = (Env.IIapi_initialize D v).2) as Hi.
  { destruct (initialize_versions_spec (Z.to_nat (Env.IIAPI_VERSION D))) as [(v' & Hv' & Hok' & Hhi' & ->)|[Hn _]].
    - assert (v' = v) as -> by (destruct (Z.lt_total v v') as [Hlt|[|Hlt]];
        [exfalso; apply (Hhi v'); [lia|done]|done|exfalso; apply (Hhi' v); [lia|done]]). done.
    - exfalso. apply (Hn v); [lia|done]. }
  split.
  - unfold Env.publish_envHandle. rewrite !(decide_False (P := 0 ≠ 0)) by lia. rewrite Hi, decide_False by lia. done.
  - intros cs src dst. rewrite run_keeps_handle by done. unfold Env.format. rewrite decide_False by done.
    destruct (Env.IIapi_formatData D _). case_decide; discriminate.
Qed.

(** Without a handle [format()] raises and leaves its destination as it
    was. *)
Lemma format_unset src dst :
  Env.format D 0 src dst = (dst, Err (RuntimeError "_envHandle not set; call publish_envHandle()")).
Proof. reflexivity. Qed.
End env.

(** What [IIapi_formatData] promises [format()]: it writes within the
    destination buffer [dv_value] points to. *)
Class FormatDriver (D : Env.driver) : Prop :=
  formatData_in_place : ∀ fdp b,
    Env.dv_value (Env.fd_dstValue fdp) = Some b → length (Env.IIapi_formatData D fdp).2 = length b.

(** [format()] writes its destination in place, the law the families
    assume of their [format] parameter. *)
Lemma format_in_place D `{!FormatDriver D} h n src : in_place n (Env.format D h src).
Proof.
  intros c c' r _ H. unfold Env.format in H. case_decide; [simplify_eq; apply frame_refl|].
  destruct (Env.IIapi_formatData D _) as [st out] eqn:E.
  assert (ct_dv_value c = true → length out = length (ct_buffer c)) as Hl.
  { intros Hv. change out with (st, out).2. rewrite <- E. apply formatData_in_place. cbn. by rewrite Hv. }
  destruct (ct_dv_value c) eqn:Hv; case_decide; simplify_eq; try apply frame_refl;
    eexists; (split; [done|]); by apply Hl.
Qed.
