(* ===== verification/Allocator.v ===== *)
(** * Allocator: locators, the unsupported long types and [allocator_for_type]

    [Locator] models [IIAPI_LOCATOR_TYPE] and its subclasses
    [IIAPI_LCLOC_TYPE], [IIAPI_LBLOC_TYPE] and [IIAPI_LNLOC_TYPE]
    (types.py lines 2651-2716): handles of large objects the server
    returns, which the code only ever allocates from a descriptor. Its
    [_SQL_declaration] looks the built-in [type] up in its table instead
    of the descriptor's type code, so no locator can be built.

    [IIAPI_LBYTE_TYPE] (lines 2731-2736, with its aliases
    [IIAPI_LNVCH_TYPE] and [IIAPI_LVCH_TYPE]) is a class whose
    constructor always raises.  [allocator_for_type] (lines 2784-2898)
    maps the type code of a descriptor to the class that allocates it;
    [py_class] is what it returns, a family of the development or the
    long-type class, and [instantiate] calls it.  The driver calls the
    families take are gathered in [drivers].  The geospatial codes the
    table maps to [____] are outside [datatype] and not modelled. *)

From S2P Require Import Prelude PyValue Ctypes Container Integers Floats Strings Fixed Network Temporal Dates Decimal Env.

Module Locator.

(** [_ds_length = py.IAPI_LOCATOR_LEN = 4] *)
Definition IAPI_LOCATOR_LEN : Z := 4.

(** [_SQL_declaration]: [templates[type]] indexes the table with the
    built-in class [type], which is no key of it. *)
Definition SQL_declaration (_ : descriptor) : result string :=
  Err (KeyError "<class 'type'>").

(** [_get_initial_value]: [pass], so [None]. *)
Definition get_initial_value (_ : list pyval) : result pyval := Ok PNone.

(** [_allocate_buffer] *)
Definition allocate_buffer : ctype := Buffer_Factory [("locator", c_int)].

(** [_get_python_value]: [self._buffer.locator]. *)
Definition get_python_value (c : container) : result pyval :=
  Ok (PInt (load_int 4 true (ct_buffer c) 0)).

(** [_set], which replaces the base class's: every assignment fails
    before anything changes. *)
Definition set (_ : pyval) : PyM container unit :=
  raise (RuntimeError "a locator cannot be assigned a value").

(** The [_value_setter] the locator classes inherit from [IIAPI_TYPE]. *)
Definition value_setter (_ : pyval) : PyM container unit := raise (NotImplementedError "").

Definition locator_family (dt : datatype) : family := {|
  fam_dataType := dt;
  fam_expected_positionals := 0;
  fam_ds_length := Intrinsic.get_ds_length IAPI_LOCATOR_LEN;
  fam_ds_precision := zero_precision;
  fam_ds_scale := zero_precision;
  fam_SQL_declaration := SQL_declaration;
  fam_validate_size := default_validate_size;
  fam_buffer := λ _, allocate_buffer;
  fam_dv_length := default_dv_length;
  fam_initial_value := get_initial_value;
  fam_value_setter := value_setter;
  fam_get_python_value := get_python_value;
  fam_clear_buffer := default_clear_buffer;
|}.

Definition IIAPI_LCLOC_TYPE : family := locator_family Container.IIAPI_LCLOC_TYPE.
Definition IIAPI_LBLOC_TYPE : family := locator_family Container.IIAPI_LBLOC_TYPE.
Definition IIAPI_LNLOC_TYPE : family := locator_family Container.IIAPI_LNLOC_TYPE.

End Locator.

Module Alloc.

(** [IIAPI_LBYTE_TYPE.__init__] *)
Definition LBYTE_init (_ : list pyval) (_ : kwargs) : result container :=
  Err (NotImplementedError "not supported; use LOB locators").

(** A class [allocator_for_type] can return. *)
Inductive py_class : Type :=
| PyFamily (F : family)
| IIAPI_LBYTE_TYPE.

(** Calling the class: [__init__]. *)
Definition instantiate (k : py_class) (args : list pyval) (kw : kwargs) : result container :=
  match k with
  | PyFamily F => init F args kw
  | IIAPI_LBYTE_TYPE => LBYTE_init args kw
  end.

(** The driver calls and library functions the families take. *)
Record drivers : Type := {
  drv_intym : Intym.external;
  drv_resolution : Resolution.external;
  drv_ansidate : Ansidate.external;
  drv_ingresdate : Ingresdate.external;
  drv_money : Money.external;
  drv_decimal : Decimal.external;
  drv_parse_v6 : list Z → option (list Z);
  drv_beyond : nat → Z;
  drv_uuid_of_str : list Z → result (list Z);
}.

(** [allocator_for_type]: the table indexed by [descriptor.ds_dataType]. *)
Definition allocator_for_type (D : drivers) (d : descriptor) : py_class :=
  match ds_dataType d with
  | Container.IIAPI_BOOL_TYPE => PyFamily Bool.IIAPI_BOOL_TYPE
  | Container.IIAPI_BYTE_TYPE => PyFamily IIAPI_BYTE_TYPE
  | Container.IIAPI_CHA_TYPE => PyFamily IIAPI_CHA_TYPE
  | Container.IIAPI_CHR_TYPE => PyFamily IIAPI_CHR_TYPE
  | Container.IIAPI_DATE_TYPE => PyFamily (Ansidate.IIAPI_DATE_TYPE (drv_ansidate D))
  | Container.IIAPI_DEC_TYPE => PyFamily (Decimal.IIAPI_DEC_TYPE (drv_decimal D))
  | Container.IIAPI_DTE_TYPE => PyFamily (Ingresdate.IIAPI_DTE_TYPE (drv_ingresdate D))
  | Container.IIAPI_FLT_TYPE => PyFamily Flt.IIAPI_FLT_TYPE
  | Container.IIAPI_INT_TYPE => PyFamily Int.IIAPI_INT_TYPE
  | Container.IIAPI_INTDS_TYPE => PyFamily (Resolution.IIAPI_INTDS_TYPE (drv_resolution D))
  | Container.IIAPI_INTYM_TYPE => PyFamily (Intym.IIAPI_INTYM_TYPE (drv_intym D))
  | Container.IIAPI_IPV4_TYPE => PyFamily (IP.IIAPI_IPV4_TYPE (drv_parse_v6 D) (drv_beyond D))
  | Container.IIAPI_IPV6_TYPE => PyFamily (IP.IIAPI_IPV6_TYPE (drv_parse_v6 D) (drv_beyond D))
  | Container.IIAPI_LBLOC_TYPE => PyFamily Locator.IIAPI_LBLOC_TYPE
  | Container.IIAPI_LBYTE_TYPE => IIAPI_LBYTE_TYPE
  | Container.IIAPI_LCLOC_TYPE => PyFamily Locator.IIAPI_LCLOC_TYPE
  | Container.IIAPI_LNLOC_TYPE => PyFamily Locator.IIAPI_LNLOC_TYPE
  | Container.IIAPI_LNVCH_TYPE => IIAPI_LBYTE_TYPE
  | Container.IIAPI_LOGKEY_TYPE => PyFamily Key.IIAPI_LOGKEY_TYPE
  | Container.IIAPI_LVCH_TYPE => IIAPI_LBYTE_TYPE
  | Container.IIAPI_MNY_TYPE => PyFamily (Money.IIAPI_MNY_TYPE (drv_money D))
  | Container.IIAPI_NCHA_TYPE => PyFamily IIAPI_NCHA_TYPE
  | Container.IIAPI_NVCH_TYPE => PyFamily IIAPI_NVCH_TYPE
  | Container.IIAPI_TABKEY_TYPE => PyFamily Key.IIAPI_TABKEY_TYPE
  | Container.IIAPI_TIME_TYPE => PyFamily (Resolution.IIAPI_TIME_TYPE (drv_resolution D))
  | Container.IIAPI_TMTZ_TYPE => PyFamily (Resolution.IIAPI_TMTZ_TYPE (drv_resolution D))
  | Container.IIAPI_TMWO_TYPE => PyFamily (Resolution.IIAPI_TMWO_TYPE (drv_resolution D))
  | Container.IIAPI_TS_TYPE => PyFamily (Resolution.IIAPI_TS_TYPE (drv_resolution D))
  | Container.IIAPI_TSTZ_TYPE => PyFamily (Resolution.IIAPI_TSTZ_TYPE (drv_resolution D))
  | Container.IIAPI_TSWO_TYPE => PyFamily (Resolution.IIAPI_TSWO_TYPE (drv_resolution D))
  | Container.IIAPI_TXT_TYPE => PyFamily IIAPI_TXT_TYPE
  | Container.IIAPI_UUID_TYPE => PyFamily (Uuid.IIAPI_UUID_TYPE (drv_uuid_of_str D))
  | Container.IIAPI_VBYTE_TYPE => PyFamily IIAPI_VBYTE_TYPE
  | Container.IIAPI_VCH_TYPE => PyFamily IIAPI_VCH_TYPE
  end.
(** The drivers with the one [format()] of the module, run with the
    handle [h], for every family that calls [format(self._conv_source,
    self)]. *)
Definition with_format (Dr : Env.driver) (h : Z) (D : drivers) : drivers :=
  let R := drv_resolution D in
  let I := drv_ingresdate D in
  let M := drv_money D in
  let X := drv_decimal D in {|
  drv_intym := drv_intym D;
  drv_resolution := {|
    Resolution.ext_conv_source := Resolution.ext_conv_source R;
    Resolution.ext_format := Env.format Dr h;
    Resolution.ext_format_value := Resolution.ext_format_value R;
    Resolution.ext_render := Resolution.ext_render R;
    Resolution.ext_clock := Resolution.ext_clock R;
    Resolution.ext_today := Resolution.ext_today R;
    Resolution.ext_time_fromisoformat := Resolution.ext_time_fromisoformat R;
    Resolution.ext_datetime_fromisoformat := Resolution.ext_datetime_fromisoformat R |};
  drv_ansidate := drv_ansidate D;
  drv_ingresdate := {|
    Ingresdate.ext_conv_source := Ingresdate.ext_conv_source I;
    Ingresdate.ext_format := Env.format Dr h;
    Ingresdate.ext_yeardays := Ingresdate.ext_yeardays I;
    Ingresdate.ext_monthdays := Ingresdate.ext_monthdays I |};
  drv_money := {|
    Money.ext_conv_source := Money.ext_conv_source M;
    Money.ext_format := Env.format Dr h;
    Money.ext_float := Money.ext_float M |};
  drv_decimal := {|
    Decimal.ext_conv_source := Decimal.ext_conv_source X;
    Decimal.ext_format := Env.format Dr h;
    Decimal.ext_str := Decimal.ext_str X;
    Decimal.ext_render := Decimal.ext_render X;
    Decimal.ext_parse_float := Decimal.ext_parse_float X |};
  drv_parse_v6 := drv_parse_v6 D;
  drv_beyond := drv_beyond D;
  drv_uuid_of_str := drv_uuid_of_str D;
|}.
End Alloc.

(** ** Lemmas *)

Lemma locator_init_error dt args kw : ∃ e, init (Locator.locator_family dt) args kw = Err e.
Proof.
  unfold init, mbind, result_bind.
  destruct (null_semantics kw); [|eauto]. destruct (column_name kw); [|eauto].
  destruct (kw_descriptor kw), (bool_decide _); eauto.
  all: destruct (build_descriptor _ _ _ _); eauto.
Qed.


(** C24: The class [allocator_for_type] returns for a descriptor is
    the class of the descriptor's type code: its [_ds_dataType] is
    [descriptor.ds_dataType], and only the three long types get
    [IIAPI_LBYTE_TYPE]. *)
Theorem allocator_class_type D d :
  match Alloc.allocator_for_type D d with
  | Alloc.PyFamily F => fam_dataType F = ds_dataType d
  | Alloc.IIAPI_LBYTE_TYPE => ds_dataType d ∈ [Container.IIAPI_LBYTE_TYPE; Container.IIAPI_LNVCH_TYPE; Container.IIAPI_LVCH_TYPE]
  end.
Proof. unfold Alloc.allocator_for_type. destruct (ds_dataType d); cbn; try reflexivity; set_solver. Qed.

(** The long types cannot be allocated: the three BLOb types raise
    [NotImplementedError], the three locators fail in [__init__]. *)
Lemma allocator_long_types_refused D d args kw :
  ds_dataType d ∈ [Container.IIAPI_LBYTE_TYPE; Container.IIAPI_LNVCH_TYPE; Container.IIAPI_LVCH_TYPE;
                   Container.IIAPI_LBLOC_TYPE; Container.IIAPI_LCLOC_TYPE; Container.IIAPI_LNLOC_TYPE] →
  ∃ e, Alloc.instantiate (Alloc.allocator_for_type D d) args kw = Err e.
Proof.
  unfold Alloc.allocator_for_type. intros Hd.
  destruct (ds_dataType d); cbn [Alloc.instantiate]; eauto using locator_init_error;
    exfalso; apply list_elem_of_In in Hd; cbn in Hd; intuition discriminate.
Qed.

Lemma locator_laws dt : FamilyLaws (Locator.locator_family dt).
Proof.
  split; [|intros c _; apply length_zeros]. intros v c c' r _ H.
  cbn in H. unfold Locator.value_setter, raise in H. simplify_eq. apply frame_refl.
Qed.

(** What the families of [allocator_for_type] assume of the driver
    calls they are given: [format()] writes the destination buffer in
    place. *)
Class DriversLaws (D : Alloc.drivers) : Prop := {
  intym_format_in_place : ∀ v, in_place 4 (Intym.ext_format (Alloc.drv_intym D) v);
  resolution_format_in_place : ∀ n src, in_place n (Resolution.ext_format (Alloc.drv_resolution D) src);
  resolution_format_value_in_place :
    ∀ n v, in_place n (Resolution.ext_format_value (Alloc.drv_resolution D) v);
  ingresdate_format_in_place : ∀ n src, in_place n (Ingresdate.ext_format (Alloc.drv_ingresdate D) src);
  money_format_in_place : ∀ n src, in_place n (Money.ext_format (Alloc.drv_money D) src);
  decimal_format_in_place : ∀ n src, in_place n (Decimal.ext_format (Alloc.drv_decimal D) src);
}.

Section allocator.
Context (D : Alloc.drivers) `{!DriversLaws D}.

(** Every class [allocator_for_type] returns keeps the laws the base
    class relies on. *)
Lemma allocator_lawful d F : Alloc.allocator_for_type D d = Alloc.PyFamily F → FamilyLaws F.
Proof.
  pose proof resolution_format_in_place as Hr. pose proof resolution_format_value_in_place as Hv.
  unfold Alloc.allocator_for_type. destruct (ds_dataType d); intros [= <-]; try apply _.
  - apply ansidate_laws.
  - apply decimal_laws, decimal_format_in_place.
  - apply ingresdate_laws, ingresdate_format_in_place.
  - by apply intds_laws.
  - apply intym_laws. intros v. apply intym_format_in_place.
  - apply ip_laws.
  - apply ip_laws.
  - apply locator_laws.
  - apply locator_laws.
  - apply locator_laws.
  - apply money_laws, money_format_in_place.
  - by apply time_laws.
  - by apply tmtz_laws.
  - by apply tmwo_laws.
  - by apply ts_laws.
  - by apply tstz_laws.
  - by apply tswo_laws.
  - apply uuid_laws.
Qed.

(** C25: Every instance built by calling the class [allocator_for_type]
    returns satisfies the container invariant of that class: its buffer
    has the size of its ctypes structure and [dv_value] is set exactly
    when it is not NULL. *)
Theorem allocated_instance_inv d args kw c :
  Alloc.instantiate (Alloc.allocator_for_type D d) args kw = Ok c →
  ∃ F, Alloc.allocator_for_type D d = Alloc.PyFamily F ∧ ct_inv F c.
Proof.
  destruct (Alloc.allocator_for_type D d) as [F|] eqn:E; cbn [Alloc.instantiate]; [|discriminate].
  intros H. exists F. split; [done|]. pose proof (allocator_lawful d F E). by eapply init_inv.
Qed.
End allocator.

(** With the module's [format()] and a driver that writes within the
    destination buffer, the drivers keep the laws; the two conversions
    of an [Ingresdate] object remain hypotheses. *)
Lemma with_format_laws Dr `{!FormatDriver Dr} h D :
  (∀ v, in_place 4 (Intym.ext_format (Alloc.drv_intym D) v)) →
  (∀ n v, in_place n (Resolution.ext_format_value (Alloc.drv_resolution D) v)) →
  DriversLaws (Alloc.with_format Dr h D).
Proof. intros Hi Hv. split; [exact Hi| |exact Hv| | |]; intros n src;
  apply format_in_place; assumption.
Qed.
