(* ===== verification/Names.v ===== *)
(** * Names: the namespaces of types.py, classic.py and standard.py

    A Python module is a dictionary from names to objects, filled by the
    statements of its body in order.  [Names] models the statements of
    types.py that bind names at module level (the imports and markers of
    lines 1-30, the [def] and [class] statements, the aliases of lines
    2736-2773) and the two modules that re-export them:
    - classic.py: [from .common import *] and then [from .types import
      (...)] of the classic types and their aliases;
    - standard.py: [from .classic import *] and then [from .types import
      (...)] of the other types, their aliases and the SQL constants.
    A namespace is a [gmap string binding]; [from m import a, b] looks
    each name up in [m] and raises [ImportError] on a missing one;
    [from m import *] (no [__all__] in these modules) copies every name
    that does not start with an underscore.  The package has no module
    [common], so its namespace is a parameter of the theorems.

    Theorems: every name the two import lists read is bound in types.py,
    so the imports never raise and bind exactly the objects types.py
    binds; the classes that can be named through the package are exactly
    those [allocator_for_type] returns a family for; and the markers and
    functions the tests read through the package are bound only by
    [.common]. *)

From stdpp Require Import gmap.
From S2P Require Import Prelude PyValue Container Allocator.

Module Names.

(** What a module-level name is bound to. *)
Inductive binding : Type :=
| BModule (name : string)        (** [import m as n] *)
| BExternal (qualname : string)  (** [from m import f] of another package *)
| BStr (s : string)
| BNone
| BMarker (name : string)        (** the marker classes [NULL], [NOTNULL], [WITHNULL] *)
| BBase (name : string)          (** a class with no [_ds_dataType] of its own *)
| BClass (dt : datatype)         (** the class [allocator_for_type] returns for [dt] *)
| BFunction (name : string).     (** a module-level [def] *)

#[export] Instance binding_eq_dec : EqDecision binding.
Proof. solve_decision. Defined.

Abbreviation namespace := (gmap string binding).

(** [type(self).__qualname__] of the class for a type code, as its
    [class] statement names it; the two long types share the class of
    [IIAPI_LBYTE_TYPE]. *)
Definition qualname (dt : datatype) : string :=
  match dt with
  | Container.IIAPI_BOOL_TYPE => "IIAPI_BOOL_TYPE"
  | Container.IIAPI_BYTE_TYPE => "IIAPI_BYTE_TYPE"
  | Container.IIAPI_CHA_TYPE => "IIAPI_CHA_TYPE"
  | Container.IIAPI_CHR_TYPE => "IIAPI_CHR_TYPE"
  | Container.IIAPI_DATE_TYPE => "IIAPI_DATE_TYPE"
  | Container.IIAPI_DEC_TYPE => "IIAPI_DEC_TYPE"
  | Container.IIAPI_DTE_TYPE => "IIAPI_DTE_TYPE"
  | Container.IIAPI_FLT_TYPE => "IIAPI_FLT_TYPE"
  | Container.IIAPI_INT_TYPE => "IIAPI_INT_TYPE"
  | Container.IIAPI_INTDS_TYPE => "IIAPI_INTDS_TYPE"
  | Container.IIAPI_INTYM_TYPE => "IIAPI_INTYM_TYPE"
  | Container.IIAPI_IPV4_TYPE => "IIAPI_IPV4_TYPE"
  | Container.IIAPI_IPV6_TYPE => "IIAPI_IPV6_TYPE"
  | Container.IIAPI_LBLOC_TYPE => "IIAPI_LBLOC_TYPE"
  | Container.IIAPI_LBYTE_TYPE => "IIAPI_LBYTE_TYPE"
  | Container.IIAPI_LCLOC_TYPE => "IIAPI_LCLOC_TYPE"
  | Container.IIAPI_LNLOC_TYPE => "IIAPI_LNLOC_TYPE"
  | Container.IIAPI_LNVCH_TYPE => "IIAPI_LBYTE_TYPE"
  | Container.IIAPI_LOGKEY_TYPE => "IIAPI_LOGKEY_TYPE"
  | Container.IIAPI_LVCH_TYPE => "IIAPI_LBYTE_TYPE"
  | Container.IIAPI_MNY_TYPE => "IIAPI_MNY_TYPE"
  | Container.IIAPI_NCHA_TYPE => "IIAPI_NCHA_TYPE"
  | Container.IIAPI_NVCH_TYPE => "IIAPI_NVCH_TYPE"
  | Container.IIAPI_TABKEY_TYPE => "IIAPI_TABKEY_TYPE"
  | Container.IIAPI_TIME_TYPE => "IIAPI_TIME_TYPE"
  | Container.IIAPI_TMTZ_TYPE => "IIAPI_TMTZ_TYPE"
  | Container.IIAPI_TMWO_TYPE => "IIAPI_TMWO_TYPE"
  | Container.IIAPI_TS_TYPE => "IIAPI_TS_TYPE"
  | Container.IIAPI_TSTZ_TYPE => "IIAPI_TSTZ_TYPE"
  | Container.IIAPI_TSWO_TYPE => "IIAPI_TSWO_TYPE"
  | Container.IIAPI_TXT_TYPE => "IIAPI_TXT_TYPE"
  | Container.IIAPI_UUID_TYPE => "IIAPI_UUID_TYPE"
  | Container.IIAPI_VBYTE_TYPE => "IIAPI_VBYTE_TYPE"
  | Container.IIAPI_VCH_TYPE => "IIAPI_VCH_TYPE"
  end.

(** The right-hand side of an assignment. *)
Inductive expr : Type :=
| ELit (b : binding)
| EName (x : string).

(** The statements of a module body that bind names. *)
Inductive stmt : Type :=
| SImport (asname modname : string)         (** [import modname as asname] *)
| SFromImport (modname x : string)          (** [from modname import x] *)
| SAssign (targets : list string) (e : expr) (** [t1 = t2 = ... = e] *)
| SDef (f : string)                         (** [def f(...)] *)
| SMarker (x : string)                      (** [class NULL(): pass] and the like *)
| SBase (x : string)                        (** an abstract base class *)
| SClass (dt : datatype).                   (** [class <qualname dt>(...)] *)

Definition name_error (x : string) : exc := NameError ("name '" +:+ x +:+ "' is not defined").

Definition eval (ns : namespace) (e : expr) : result binding :=
  match e with
  | ELit b => Ok b
  | EName x => match ns !! x with Some b => Ok b | None => Err (name_error x) end
  end.

(** One statement: the right-hand side is evaluated once, then bound to
    each target from left to right. *)
Definition exec (ns : namespace) (s : stmt) : result namespace :=
  match s with
  | SImport n m => Ok (<[n := BModule m]> ns)
  | SFromImport m x => Ok (<[x := BExternal (m +:+ "." +:+ x)]> ns)
  | SAssign ts e => b ← eval ns e; Ok (foldl (λ ns t, <[t := b]> ns) ns ts)
  | SDef f => Ok (<[f := BFunction f]> ns)
  | SMarker x => Ok (<[x := BMarker x]> ns)
  | SBase x => Ok (<[x := BBase x]> ns)
  | SClass dt => Ok (<[qualname dt := BClass dt]> ns)
  end.

Fixpoint exec_body (ns : namespace) (body : list stmt) : result namespace :=
  match body with
  | [] => Ok ns
  | s :: body => ns' ← exec ns s; exec_body ns' body
  end.

(** types.py lines 1-30. *)
Definition header : list stmt := [
  SImport "py" "pyngres"; SImport "sys" "sys"; SImport "ctypes" "ctypes";
  SImport "struct" "struct"; SImport "decimal" "decimal"; SImport "math" "math";
  SImport "dt" "datetime"; SImport "uu" "uuid"; SImport "ip" "ipaddress";
  SImport "codecs" "codecs"; SFromImport "multipledispatch" "dispatch";
  SAssign ["package_name"] (EName "__name__");
  SMarker "NULL"; SMarker "NOTNULL"; SMarker "WITHNULL";
  SAssign ["_envHandle"] (ELit BNone)].

(** The functions of lines 33-146. *)
Definition env_defs : list stmt :=
  SDef <$> ["publish_envHandle"; "get_envHandle"; "Buffer_Factory"; "format";
            "CURRENT_DATE"; "CURRENT_TIME"; "CURRENT_TIMESTAMP"; "LOCAL_TIME";
            "LOCAL_TIMESTAMP"; "TIMESTAMP_UNIX"].

(** The [class] statements of lines 156-2731, and the wrappers [Float4]
    ... [Integer8] defined among them, in the order of the file. *)
Definition class_defs : list stmt := [
  SBase "IIAPI_TYPE"; SBase "IIAPI_TYPE_WITH_INTRINSIC_SIZE";
  SClass Container.IIAPI_DATE_TYPE; SClass Container.IIAPI_BOOL_TYPE;
  SClass Container.IIAPI_DTE_TYPE; SClass Container.IIAPI_INTYM_TYPE;
  SClass Container.IIAPI_IPV4_TYPE; SClass Container.IIAPI_IPV6_TYPE;
  SClass Container.IIAPI_MNY_TYPE; SClass Container.IIAPI_LOGKEY_TYPE;
  SClass Container.IIAPI_TABKEY_TYPE; SClass Container.IIAPI_UUID_TYPE;
  SBase "IIAPI_TYPE_WITH_LIMITED_SIZE";
  SClass Container.IIAPI_BYTE_TYPE; SClass Container.IIAPI_CHA_TYPE;
  SClass Container.IIAPI_CHR_TYPE; SBase "IIAPI_UNICODE_TYPE_WITH_LIMITED_SIZE";
  SClass Container.IIAPI_NCHA_TYPE; SClass Container.IIAPI_NVCH_TYPE;
  SClass Container.IIAPI_TXT_TYPE; SClass Container.IIAPI_VBYTE_TYPE;
  SClass Container.IIAPI_VCH_TYPE; SBase "IIAPI_TYPE_WITH_1248";
  SClass Container.IIAPI_FLT_TYPE; SClass Container.IIAPI_INT_TYPE;
  SDef "Float4"; SDef "Float8"; SDef "Integer1"; SDef "Integer2"; SDef "Integer4"; SDef "Integer8";
  SBase "IIAPI_TYPE_WITH_RESOLUTION"; SClass Container.IIAPI_INTDS_TYPE;
  SClass Container.IIAPI_TIME_TYPE; SClass Container.IIAPI_TMWO_TYPE;
  SClass Container.IIAPI_TMTZ_TYPE; SClass Container.IIAPI_TS_TYPE;
  SClass Container.IIAPI_TSWO_TYPE; SClass Container.IIAPI_TSTZ_TYPE;
  SClass Container.IIAPI_DEC_TYPE; SBase "IIAPI_LOCATOR_TYPE";
  SClass Container.IIAPI_LCLOC_TYPE; SClass Container.IIAPI_LBLOC_TYPE;
  SClass Container.IIAPI_LNLOC_TYPE; SClass Container.IIAPI_LBYTE_TYPE].

(** Lines 2736-2773: the aliases. *)
Definition aliases : list stmt := [
  SAssign ["IIAPI_LNVCH_TYPE"; "IIAPI_LVCH_TYPE"] (EName "IIAPI_LBYTE_TYPE");
  SAssign ["ANSIdate"] (EName "IIAPI_DATE_TYPE");
  SAssign ["Boolean"] (EName "IIAPI_BOOL_TYPE");
  SAssign ["Ingresdate"] (EName "IIAPI_DTE_TYPE");
  SAssign ["Interval_YM"] (EName "IIAPI_INTYM_TYPE");
  SAssign ["IPv4"] (EName "IIAPI_IPV4_TYPE");
  SAssign ["IPv6"] (EName "IIAPI_IPV6_TYPE");
  SAssign ["Money"] (EName "IIAPI_MNY_TYPE");
  SAssign ["Object_Key"] (EName "IIAPI_LOGKEY_TYPE");
  SAssign ["Table_Key"] (EName "IIAPI_TABKEY_TYPE");
  SAssign ["UUID"] (EName "IIAPI_UUID_TYPE");
  SAssign ["Byte"] (EName "IIAPI_BYTE_TYPE");
  SAssign ["C"] (EName "IIAPI_CHR_TYPE");
  SAssign ["Char"] (EName "IIAPI_CHA_TYPE");
  SAssign ["Nchar"] (EName "IIAPI_NCHA_TYPE");
  SAssign ["Nvarchar"] (EName "IIAPI_NVCH_TYPE");
  SAssign ["Text"] (EName "IIAPI_TXT_TYPE");
  SAssign ["Varbyte"] (EName "IIAPI_VBYTE_TYPE");
  SAssign ["Varchar"] (EName "IIAPI_VCH_TYPE");
  SAssign ["Real"] (EName "Float4");
  SAssign ["Float"; "Double_Precision"] (EName "Float8");
  SAssign ["Tinyint"] (EName "Integer1");
  SAssign ["Smallint"] (EName "Integer2");
  SAssign ["Integer"] (EName "Integer4");
  SAssign ["Bigint"] (EName "Integer8");
  SAssign ["Interval_DS"] (EName "IIAPI_INTDS_TYPE");
  SAssign ["Time"; "Time_WOTZ"] (EName "IIAPI_TMWO_TYPE");
  SAssign ["Time_WLTZ"] (EName "IIAPI_TIME_TYPE");
  SAssign ["Time_WTZ"] (EName "IIAPI_TMTZ_TYPE");
  SAssign ["Timestamp"; "Timestamp_WOTZ"] (EName "IIAPI_TSWO_TYPE");
  SAssign ["Timestamp_WLTZ"] (EName "IIAPI_TS_TYPE");
  SAssign ["Timestamp_WTZ"] (EName "IIAPI_TSTZ_TYPE");
  SAssign ["Decimal"; "Numeric"] (EName "IIAPI_DEC_TYPE")].

(** The body of types.py, run in a namespace holding [__name__]. *)
Definition types_body : list stmt :=
  header ++ env_defs ++ class_defs ++ aliases ++ [SDef "____"; SDef "allocator_for_type"].

Definition types_ns : result namespace :=
  exec_body {["__name__" := BStr "iitypes.types"]} types_body.

(** The dictionary of the module once its body has run. *)
Definition types_dict : namespace := match types_ns with Ok ns => ns | Err _ => ∅ end.

(** A name [from m import *] copies: no leading underscore. *)
Definition public (x : string) : bool :=
  match x with String c _ => bool_decide (c ≠ "_"%char) | EmptyString => true end.

(** [from m import *]: the public names of [m], over the importer's. *)
Definition import_star (m ns : namespace) : namespace := filter (λ kv, public kv.1 = true) m ∪ ns.

(** [from m import x1, x2, ...]: each name in order, [ImportError] on
    the first one [m] lacks. *)
Fixpoint import_from (modname : string) (m : namespace) (xs : list string) (ns : namespace)
    : result namespace :=
  match xs with
  | [] => Ok ns
  | x :: xs =>
      match m !! x with
      | Some b => import_from modname m xs (<[x := b]> ns)
      | None => Err (ImportError ("cannot import name '" +:+ x +:+ "' from '" +:+ modname +:+ "'"))
      end
  end.

(** classic.py lines 4-9. *)
Definition classic_names : list string := [
  "IIAPI_CHA_TYPE"; "IIAPI_CHR_TYPE"; "IIAPI_DTE_TYPE"; "IIAPI_FLT_TYPE";
  "IIAPI_INT_TYPE"; "IIAPI_MNY_TYPE"; "IIAPI_TXT_TYPE"; "IIAPI_VCH_TYPE";
  "Ingresdate"; "Money"; "C"; "Char"; "Text"; "Varchar"; "Float4"; "Real"; "Float";
  "Double_Precision"; "Float8"; "Integer1"; "Tinyint"; "Integer2"; "Smallint";
  "Integer4"; "Integer"].

(** standard.py lines 4-16. *)
Definition standard_names : list string := [
  "CURRENT_DATE"; "CURRENT_TIME"; "CURRENT_TIMESTAMP";
  "LOCAL_TIME"; "LOCAL_TIMESTAMP"; "TIMESTAMP_UNIX";
  "IIAPI_BOOL_TYPE"; "IIAPI_BYTE_TYPE"; "IIAPI_DATE_TYPE"; "IIAPI_DEC_TYPE";
  "IIAPI_INTDS_TYPE"; "IIAPI_INTYM_TYPE"; "IIAPI_IPV4_TYPE"; "IIAPI_IPV6_TYPE";
  "IIAPI_LBLOC_TYPE"; "IIAPI_LCLOC_TYPE"; "IIAPI_LNLOC_TYPE"; "IIAPI_LOGKEY_TYPE";
  "IIAPI_NCHA_TYPE"; "IIAPI_NVCH_TYPE"; "IIAPI_TABKEY_TYPE"; "IIAPI_TIME_TYPE";
  "IIAPI_TMTZ_TYPE"; "IIAPI_TMWO_TYPE"; "IIAPI_TS_TYPE"; "IIAPI_TSTZ_TYPE";
  "IIAPI_TSWO_TYPE"; "IIAPI_UUID_TYPE"; "IIAPI_VBYTE_TYPE";
  "ANSIdate"; "Bigint"; "Boolean"; "Byte"; "Decimal"; "Numeric"; "Integer8";
  "Interval_DS"; "Interval_YM";
  "IPv4"; "IPv6"; "Nchar"; "Nvarchar"; "Object_Key"; "Table_Key";
  "Time"; "Time_WOTZ"; "Time_WLTZ"; "Time_WTZ";
  "Timestamp"; "Timestamp_WOTZ"; "Timestamp_WLTZ"; "Timestamp_WTZ";
  "UUID"; "Varbyte"].

(** The body of classic.py, given the namespace of [.common]. *)
Definition classic_ns (common : namespace) : result namespace :=
  T ← types_ns; import_from "iitypes.types" T classic_names (import_star common ∅).

(** The body of standard.py. *)
Definition standard_ns (common : namespace) : result namespace :=
  C ← classic_ns common; T ← types_ns;
  import_from "iitypes.types" T standard_names (import_star C ∅).

End Names.

#[export] Existing Instance Names.binding_eq_dec.

(** ** Lemmas *)

Lemma types_ns_eq : Names.types_ns = Ok Names.types_dict.
Proof.
  assert (if Names.types_ns is Ok _ then True else False) as H by (vm_compute; exact I).
  unfold Names.types_dict. by destruct Names.types_ns.
Qed.

Lemma lookup_import_star m ns x :
  Names.import_star m ns !! x =
    match (if Names.public x then m !! x else None) with Some b => Some b | None => ns !! x end.
Proof.
  unfold Names.import_star. rewrite lookup_union, map_lookup_filter.
  destruct (m !! x), (Names.public x) eqn:Hp, (ns !! x); simpl;
    repeat case_guard; simpl in *; try done; congruence.
Qed.

(** A [from m import ...] whose names [m] all binds succeeds, and binds
    each of them to what [m] binds it to. *)
Lemma import_from_ok mn m xs ns :
  Forall (λ x, is_Some (m !! x)) xs →
  ∃ ns', Names.import_from mn m xs ns = Ok ns' ∧
         ∀ y, ns' !! y = if decide (y ∈ xs) then m !! y else ns !! y.
Proof.
  revert ns. induction xs as [|x xs IH]; intros ns Hall; [by exists ns|].
  apply Forall_cons in Hall as [[b Hb] Hall]. cbn [Names.import_from]. rewrite Hb.
  destruct (IH (<[x := b]> ns) Hall) as (ns' & -> & Hns'). exists ns'. split; [done|].
  intros y. rewrite Hns'. destruct (decide (y = x)) as [->|Hne].
  - rewrite lookup_insert_eq, (decide_True (P := x ∈ x :: xs)) by set_solver. case_decide; congruence.
  - rewrite lookup_insert_ne by done.
    destruct (decide (y ∈ xs)) as [Hy|Hy].
    + rewrite decide_True; set_solver.
    + rewrite decide_False; set_solver.
Qed.

Lemma classic_names_bound : Forall (λ x, is_Some (Names.types_dict !! x)) Names.classic_names.
Proof. decide_prop. Qed.

Lemma standard_names_bound : Forall (λ x, is_Some (Names.types_dict !! x)) Names.standard_names.
Proof. decide_prop. Qed.

Lemma classic_names_public : Forall (λ x, Names.public x = true) Names.classic_names.
Proof. decide_prop. Qed.

(** The namespaces of the two modules, for any [.common]. *)
Lemma classic_ns_ok common :
  ∃ C, Names.classic_ns common = Ok C ∧
       ∀ y, C !! y = if decide (y ∈ Names.classic_names) then Names.types_dict !! y
                     else Names.import_star common ∅ !! y.
Proof.
  unfold Names.classic_ns. rewrite types_ns_eq. cbn [mbind result_bind].
  apply import_from_ok, classic_names_bound.
Qed.

Lemma standard_ns_ok common C :
  Names.classic_ns common = Ok C →
  ∃ S, Names.standard_ns common = Ok S ∧
       ∀ y, S !! y = if decide (y ∈ Names.standard_names) then Names.types_dict !! y
                     else Names.import_star C ∅ !! y.
Proof.
  intros HC. unfold Names.standard_ns. rewrite HC, types_ns_eq. cbn [mbind result_bind].
  apply import_from_ok, standard_names_bound.
Qed.

Lemma classic_lookup common C x :
  Names.classic_ns common = Ok C → x ∈ Names.classic_names → C !! x = Names.types_dict !! x.
Proof.
  intros HC Hx. destruct (classic_ns_ok common) as (C' & HC' & HCl).
  rewrite HC in HC'. injection HC' as <-. rewrite HCl. by rewrite decide_True.
Qed.

Lemma standard_lookup common S x :
  Names.standard_ns common = Ok S → x ∈ Names.classic_names ++ Names.standard_names →
  S !! x = Names.types_dict !! x.
Proof.
  intros HS Hx. destruct (classic_ns_ok common) as (C & HC & _).
  destruct (standard_ns_ok common C HC) as (S' & HS' & HSl).
  rewrite HS in HS'. injection HS' as <-. rewrite HSl. case_decide as Hin; [done|].
  assert (x ∈ Names.classic_names) as Hc by (apply elem_of_app in Hx as [?|?]; [done|contradiction]).
  rewrite lookup_import_star, (classic_lookup common C x HC Hc).
  pose proof classic_names_public as Hp. pose proof classic_names_bound as Hb.
  rewrite Forall_forall in Hp, Hb. rewrite Hp by done. by destruct (Hb x Hc) as [? ->].
Qed.

(** The classes the two import lists name: all but the long types. *)
Lemma exported_class_codes dt :
  Exists (λ x, Names.types_dict !! x = Some (Names.BClass dt)) (Names.classic_names ++ Names.standard_names) ↔
  dt ∉ [Container.IIAPI_LBYTE_TYPE; Container.IIAPI_LNVCH_TYPE; Container.IIAPI_LVCH_TYPE].
Proof.
  apply (bool_decide_unpack _). destruct dt; vm_compute; exact I.
Qed.

Lemma allocator_family_codes D d :
  (∃ F, Alloc.allocator_for_type D d = Alloc.PyFamily F) ↔
  ds_dataType d ∉ [Container.IIAPI_LBYTE_TYPE; Container.IIAPI_LNVCH_TYPE; Container.IIAPI_LVCH_TYPE].
Proof.
  unfold Alloc.allocator_for_type. destruct (ds_dataType d); split;
    first [ intros [F HF]; discriminate | intros _; decide_prop | solve [eauto]
          | intros H; exfalso; apply H; decide_prop ].
Qed.

(** C35: The imports of classic.py and standard.py never raise
    [ImportError], whatever [.common] binds: every name they import from
    types.py is bound there, and each module binds it to the object
    types.py binds. *)
Theorem package_imports_resolve common :
  ∃ C S, Names.classic_ns common = Ok C ∧ Names.standard_ns common = Ok S ∧
    ∀ x, x ∈ Names.classic_names ++ Names.standard_names →
      is_Some (Names.types_dict !! x) ∧ S !! x = Names.types_dict !! x ∧
      (x ∈ Names.classic_names → C !! x = Names.types_dict !! x).
Proof.
  destruct (classic_ns_ok common) as (C & HC & _).
  destruct (standard_ns_ok common C HC) as (S & HS & _).
  exists C, S. split_and!; [done|done|]. intros x Hx. split_and!.
  - pose proof classic_names_bound as Hc. pose proof standard_names_bound as Hs.
    rewrite Forall_forall in Hc, Hs. apply elem_of_app in Hx as [?|?]; auto.
  - by apply (standard_lookup common).
  - by apply (classic_lookup common).
Qed.

(** C36: The classes a program can name through iitypes.standard are
    exactly those [allocator_for_type] returns a family for: a type code
    has a class among the names classic.py and standard.py import iff
    its allocator is not the unsupported long-type class. *)
Theorem exported_classes_allocated D common S d :
  Names.standard_ns common = Ok S →
  (∃ x, x ∈ Names.classic_names ++ Names.standard_names ∧ S !! x = Some (Names.BClass (ds_dataType d))) ↔
  (∃ F, Alloc.allocator_for_type D d = Alloc.PyFamily F).
Proof.
  intros HS. rewrite allocator_family_codes, <- exported_class_codes, Exists_exists.
  split; intros (x & Hx & Hb); exists x; split; try exact Hx.
  - by rewrite <- (standard_lookup common S x HS Hx).
  - by rewrite (standard_lookup common S x HS Hx).
Qed.

(** C37: The markers [NULL], [NOTNULL], [WITHNULL] and the functions
    [publish_envHandle], [get_envHandle] and [allocator_for_type], which
    the tests read through iitypes.classic and iitypes.standard, are
    bound in types.py but imported by neither module: both bind them to
    whatever [.common] binds, a module the package does not contain. *)
Theorem test_names_from_common common C S x :
  Names.classic_ns common = Ok C → Names.standard_ns common = Ok S →
  x ∈ ["NULL"; "NOTNULL"; "WITHNULL"; "publish_envHandle"; "get_envHandle"; "allocator_for_type"] →
  is_Some (Names.types_dict !! x) ∧ C !! x = common !! x ∧ S !! x = common !! x.
Proof.
  intros HC HS Hx.
  assert (Forall (λ x, is_Some (Names.types_dict !! x) ∧ x ∉ Names.classic_names ∧
            x ∉ Names.standard_names ∧ Names.public x = true)
    ["NULL"; "NOTNULL"; "WITHNULL"; "publish_envHandle"; "get_envHandle"; "allocator_for_type"])
    as Hall by decide_prop.
  rewrite Forall_forall in Hall. destruct (Hall x Hx) as (Hb & Hc & Hs & Hp).
  destruct (classic_ns_ok common) as (C' & HC' & HCl). rewrite HC in HC'. injection HC' as <-.
  destruct (standard_ns_ok common C HC) as (S' & HS' & HSl). rewrite HS in HS'. injection HS' as <-.
  assert (C !! x = common !! x) as HCx.
  { rewrite HCl, decide_False, lookup_import_star, Hp by done. by destruct (common !! x). }
  split_and!; [done|done|]. rewrite HSl, decide_False, lookup_import_star, Hp, HCx by done.
  by destruct (common !! x).
Qed.
