(* ===== verification/Cell.v ===== *)
(** * Cell: INTEGER as a nullable machine-integer cell

    The abstract specification of what an [IIAPI_INT_TYPE] instance
    promises its user: a cell holding either NULL or a signed integer of
    [8 * size] bits, with the outcome of each assignment.  [Cell.assign]
    is that specification, written without reference to buffers, ctypes
    or the family record; [Cell.assign_all] runs a sequence of
    assignments.  The refinement theorem relates [set] on the container
    of [Integers] (types.py lines 156-457 and 1970-2066) to it through
    the abstraction [abs]: the null flag and the integer the buffer
    holds.  The specification keeps the two effects the code has on a
    failed assignment: the instance is no longer NULL, and the value is
    the one it had before. *)

From S2P Require Import Prelude PyValue Ctypes Container Integers.

Module Cell.

Record cell : Type := mk_cell {
  cell_null : bool;
  cell_value : Z;
}.

Section spec.
Context (nullable : bool) (size : Z).

(** An assignment to a cell of [size] bytes. *)
Definition assign (v : pyval) (s : cell) : cell * result unit :=
  if is_null_marker v then
    if nullable then (mk_cell true (cell_value s), Ok ())
    else (s, Err (ValueError "not nullable"))
  else
    match v with
    | PInt z =>
        if decide (- 2 ^ (8 * size - 1) ≤ z < 2 ^ (8 * size - 1)) then (mk_cell false z, Ok ())
        else (mk_cell false (cell_value s), Err (OverflowError ""))
    | _ => (mk_cell false (cell_value s), Err (TypeError "not int"))
    end.

(** The [value] of a cell. *)
Definition read (s : cell) : pyval := if cell_null s then PNone else PInt (cell_value s).

Fixpoint assign_all (vs : list pyval) (s : cell) : cell * list (result unit) :=
  match vs with
  | [] => (s, [])
  | v :: vs => let '(s1, r) := assign v s in let '(s2, rs) := assign_all vs s1 in (s2, r :: rs)
  end.
End spec.
End Cell.

(** A program assigning the values [vs] in order to an instance of [F],
    an exception stopping nothing. *)
Fixpoint set_all (F : family) (vs : list pyval) (c : container) : container * list (result unit) :=
  match vs with
  | [] => (c, [])
  | v :: vs => let '(c1, r) := set F v c in let '(c2, rs) := set_all F vs c1 in (c2, r :: rs)
  end.

(** The cell an INTEGER instance stands for. *)
Definition abs (c : container) : Cell.cell :=
  Cell.mk_cell (ct_dv_null c) (load_int (Int.field_width (ct_descriptor c)) true (ct_buffer c) 0).

(** ** Lemmas *)

Lemma abs_value c : value Int.IIAPI_INT_TYPE c = Ok (Cell.read (abs c)).
Proof. unfold value, abs, Cell.read. by destruct (ct_dv_null c). Qed.

Lemma set_keeps_withnull F `{!FamilyLaws F} v c c' r :
  ct_inv F c → set F v c = (c', r) → ct_withnull c' = ct_withnull c.
Proof.
  intros [Hl _] H. unfold set in H. destruct (is_null_marker v).
  - unfold set_null in H. destruct (ct_withnull c) eqn:E; simplify_eq; [exact E|done].
  - rewrite set_value_unfold in H. apply setter_frame in H as (b & -> & _); done.
Qed.

(** The buffer of a fresh assignment holds the integer stored. *)
Lemma load_store_in_bounds c z :
  ct_inv Int.IIAPI_INT_TYPE c → ds_length (ct_descriptor c) ∈ [1; 2; 4; 8] →
  Int.in_bounds (ct_descriptor c) z →
  load_int (Int.field_width (ct_descriptor c)) true
    (store_int (Int.field_width (ct_descriptor c)) z (ct_buffer c) 0) 0 = z.
Proof.
  intros [Hl _] Hd Hz. simpl in Hl. rewrite Int.sizeof_allocate_buffer in Hl.
  pose proof (Int.field_width_pos (ct_descriptor c)).
  rewrite load_store_int by lia. apply wrap_small; [done|].
  destruct (Int.bounds_half_modulus _ Hd) as [Hu Hlo]. unfold Int.in_bounds in Hz. lia.
Qed.

(** One assignment to an INTEGER instance is the assignment to its cell. *)
Lemma int_step_refines c v :
  ct_inv Int.IIAPI_INT_TYPE c → ds_length (ct_descriptor c) ∈ [1; 2; 4; 8] →
  (abs (set Int.IIAPI_INT_TYPE v c).1, (set Int.IIAPI_INT_TYPE v c).2) =
  Cell.assign (ct_withnull c) (ds_length (ct_descriptor c)) v (abs c).
Proof.
  intros Hi Hd. unfold Cell.assign, set. destruct (is_null_marker v) eqn:Hn.
  - unfold set_null. by destruct (ct_withnull c).
  - rewrite set_value_unfold. destruct v; try discriminate Hn; try reflexivity.
    cbn [fam_value_setter Int.IIAPI_INT_TYPE]. unfold Int.value_setter. cbv zeta.
    cbn [ct_descriptor with_null].
    destruct (decide (Int.lower_bound (ds_length (ct_descriptor c)) ≤ z ≤
                      Int.upper_bound (ds_length (ct_descriptor c)))) as [Hz|Hz].
    + rewrite decide_True by (unfold Int.lower_bound, Int.upper_bound in Hz; lia).
      unfold abs. cbn [ct_dv_null ct_buffer ct_descriptor with_buffer with_null fst snd].
      by rewrite load_store_in_bounds.
    + rewrite decide_False by (unfold Int.lower_bound, Int.upper_bound in Hz; lia). reflexivity.
Qed.

(** C34: INTEGER refines the nullable integer cell: after any sequence
    of assignments, the instance stands for the cell the specification
    reaches, each assignment has the outcome the specification gives,
    and [value] reads the cell. *)
Theorem int_refines_cell vs c :
  ct_inv Int.IIAPI_INT_TYPE c → ds_length (ct_descriptor c) ∈ [1; 2; 4; 8] →
  (abs (set_all Int.IIAPI_INT_TYPE vs c).1, (set_all Int.IIAPI_INT_TYPE vs c).2) =
    Cell.assign_all (ct_withnull c) (ds_length (ct_descriptor c)) vs (abs c) ∧
  value Int.IIAPI_INT_TYPE (set_all Int.IIAPI_INT_TYPE vs c).1 =
    Ok (Cell.read (abs (set_all Int.IIAPI_INT_TYPE vs c).1)).
Proof.
  intros Hi0 Hd0. split; [|apply abs_value]. revert c Hi0 Hd0.
  induction vs as [|v vs IH]; intros c Hi Hd; [done|].
  cbn [set_all Cell.assign_all]. pose proof (int_step_refines c v Hi Hd) as Hs.
  destruct (set Int.IIAPI_INT_TYPE v c) as [c1 r] eqn:E. cbn in Hs. rewrite <- Hs.
  pose proof (set_preserves_inv _ _ _ _ _ Hi E) as Hi1.
  destruct (set_keeps_layout _ _ _ _ _ (proj1 Hi) E) as [Hdesc _].
  pose proof (set_keeps_withnull _ _ _ _ _ Hi E) as Hw.
  specialize (IH c1 Hi1 ltac:(by rewrite Hdesc)). rewrite Hdesc, Hw in IH.
  destruct (set_all Int.IIAPI_INT_TYPE vs c1) as [c2 rs]. cbn in IH |- *. by rewrite <- IH.
Qed.
