(* ===== verification/Repr.v ===== *)
(** * Repr: the [name] property and [__repr__] of INTEGER and BOOLEAN

    types.py defines the property [name] twice in [IIAPI_TYPE]; the
    second definition (lines 378-385) replaces the first (lines 332-341)
    when the class body runs.  It decodes [descriptor.ds_columnName], a
    [c_char_p] field: reading it gives the bytes up to the first NUL, or
    [None] for a NULL pointer, on which [.decode()] raises the
    [AttributeError] the property turns into [None].

    [__repr__] writes the constructor call that rebuilds an instance:
    [iitypes.types.<class>(<value>,<size><modifier>)] for INTEGER (lines
    1997-2003) and [iitypes.types.<class>(<value><modifier>)] for the
    intrinsic-size types (lines 476-481), whose BOOLEAN value is
    [_reprfy_value] (lines 592-598); [_reprfy_nullability] (lines
    410-414) adds [,nullable=iitypes.types.WITHNULL].  [package_name] is
    [__name__], [iitypes.types] when the package is imported.  [int_call]
    and [bool_call] are the calls the text denotes.

    Theorems: no NOT NULL instance is ever NULL, whatever is assigned;
    [name] reads back the [name=] keyword; and evaluating the [__repr__]
    of an INTEGER or a BOOLEAN, after any assignments, rebuilds an
    instance with the same value, size and nullability and the same
    [__repr__]. *)

From S2P Require Import Prelude Unicode Ctypes PyValue Container Integers Fixed Names Cell.

Module Repr.

(** [package_name = __name__] *)
Definition package_name : string := "iitypes.types".

(** Reading a [c_char_p] field. *)
Definition c_char_p_value (p : option (list Z)) : option (list Z) := until_nul <$> p.

(** The [name] property: [self.descriptor.ds_columnName.decode()],
    [None] on [AttributeError]; a [UnicodeDecodeError] is not caught. *)
Definition name (c : container) : result pyval :=
  match c_char_p_value (ds_columnName (ct_descriptor c)) with
  | None => Ok PNone
  | Some b => match utf8_decode b with Some s => Ok (PStr s) | None => Err UnicodeDecodeError end
  end.

(** [_reprfy_nullability] *)
Definition reprfy_nullability (c : container) : string :=
  if ct_withnull c then ",nullable=" +:+ package_name +:+ ".WITHNULL" else "".

(** [str()] of the values an INTEGER or a BOOLEAN returns; [str()] of
    the other Python values is not modelled. *)
Definition py_str (v : pyval) : string :=
  match v with
  | PNone => "None"
  | PBool true => "True"
  | PBool false => "False"
  | PInt z => string_of_Z z
  | _ => ""
  end.

(** [IIAPI_INT_TYPE.__repr__] *)
Definition int_repr (c : container) : result string :=
  v ← value Int.IIAPI_INT_TYPE c;
  Ok (package_name +:+ "." +:+ Names.qualname (fam_dataType Int.IIAPI_INT_TYPE) +:+ "(" +:+
      py_str v +:+ "," +:+ string_of_Z (ds_length (ct_descriptor c)) +:+
      reprfy_nullability c +:+ ")").

(** The keyword arguments [__repr__] writes. *)
Definition repr_kwargs (c : container) : kwargs :=
  mk_kwargs None (if ct_withnull c then Some PWITHNULL else None) None.

(** The call the text of [int_repr] denotes. *)
Definition int_call (c : container) : result (list pyval * kwargs) :=
  v ← value Int.IIAPI_INT_TYPE c; Ok ([v; PInt (ds_length (ct_descriptor c))], repr_kwargs c).

(** [IIAPI_BOOL_TYPE._reprfy_value]: [iitypes.types.NULL], or
    [f'{self._buffer.value}'] of the [c_bool] field. *)
Definition bool_reprfy_value (c : container) : string :=
  if ct_dv_null c then package_name +:+ ".NULL"
  else py_str (PBool (load_bool (ct_buffer c) 0)).

(** [IIAPI_TYPE_WITH_INTRINSIC_SIZE.__repr__] of a BOOLEAN. *)
Definition bool_repr (c : container) : string :=
  package_name +:+ "." +:+ Names.qualname (fam_dataType Bool.IIAPI_BOOL_TYPE) +:+ "(" +:+
  bool_reprfy_value c +:+ reprfy_nullability c +:+ ")".

(** The call the text of [bool_repr] denotes: [iitypes.types.NULL] is
    the marker [NULL]. *)
Definition bool_call (c : container) : list pyval * kwargs :=
  ([if ct_dv_null c then PNULL else PBool (load_bool (ct_buffer c) 0)], repr_kwargs c).

(** [IIAPI_BOOL_TYPE.formatted] *)
Definition bool_formatted (c : container) : option string :=
  if ct_dv_null c then None
  else if load_bool (ct_buffer c) 0 then Some "TRUE" else Some "FALSE".

End Repr.

(** Only a [WITHNULL] instance is ever NULL. *)
Definition null_ok (c : container) : Prop := ct_dv_null c = true → ct_withnull c = true.

(** What an INTEGER instance keeps: its layout, one of the four widths,
    a buffer of bytes, and NULL only when nullable. *)
Definition int_ok (c : container) : Prop :=
  ct_inv Int.IIAPI_INT_TYPE c ∧ ds_length (ct_descriptor c) ∈ [1; 2; 4; 8] ∧
  bytes_ok (ct_buffer c) ∧ null_ok c.

(** ** Lemmas *)

(** What every instance [__init__] returns satisfies, given that the
    fresh instance it allocates does and that successful assignments
    keep it. *)
Lemma init_ind F (P : container → Prop) args kw c :
  (∀ wn d decl, null_semantics kw = Ok wn → fam_validate_size F d = Ok () →
     (kw_descriptor kw = Some d ∨ ∃ nm, column_name kw = Ok nm ∧ build_descriptor F wn nm args = Ok d) →
     P (fresh_container F wn d decl)) →
  (∀ v c0 c', P c0 → set F v c0 = (c', Ok ()) → P c') →
  init F args kw = Ok c → P c.
Proof.
  intros Hf Hs. unfold init. intros H.
  destruct (kw_descriptor kw) eqn:Hk, (bool_decide _); res_destr H.
  all: repeat match goal with u : unit |- _ => destruct u end.
  all: lazymatch goal with
       | Hn : null_semantics _ = Ok ?w, Hd : fam_SQL_declaration _ ?d = Ok ?s |- _ =>
           assert (P (fresh_container F w d s)) as Hp
             by (apply Hf; [done|done|first [by left|right; eexists; split; [done|eassumption]]])
       end.
  all: first
    [ injection H as <-; exact Hp
    | destruct (set F _ _) as [c' [[]|?]] eqn:Hset; cbn in H; [injection H as <-|discriminate H];
      exact (Hs _ _ _ Hp Hset) ].
Qed.

(** A property every assignment keeps holds after any sequence of them. *)
Lemma set_all_ind F (P : container → Prop) vs c :
  (∀ v c0 c' r, P c0 → set F v c0 = (c', r) → P c') → P c → P (set_all F vs c).1.
Proof.
  intros Hs. revert c. induction vs as [|v vs IH]; intros c Hc; [done|]. cbn [set_all].
  destruct (set F v c) as [c1 r] eqn:E. specialize (IH c1 (Hs _ _ _ _ Hc E)).
  by destruct (set_all F vs c1).
Qed.

Lemma set_null_ok F `{!FamilyLaws F} v c c' r :
  ct_inv F c → null_ok c → set F v c = (c', r) → null_ok c'.
Proof.
  unfold null_ok, set. intros Hi Hn H. destruct (is_null_marker v).
  - unfold set_null in H. destruct (ct_withnull c) eqn:E; simplify_eq; cbn; [done|by rewrite E].
  - rewrite set_value_unfold in H. apply setter_frame in H as (b & -> & _); [done|apply Hi].
Qed.

Lemma build_descriptor_name F wn nm args d :
  build_descriptor F wn nm args = Ok d → ds_columnName d = nm.
Proof. unfold build_descriptor. intros H. res_destr H. by injection H as <-. Qed.

(** The [name] of a descriptor built from a [str]. *)
Lemma name_of_encoded c s b :
  Forall is_code_point s → 0 ∉ s → utf8_encode s = Some b →
  ds_columnName (ct_descriptor c) = Some b → Repr.name c = Ok (PStr s).
Proof.
  intros Hs Hz He Hd. unfold Repr.name, Repr.c_char_p_value. rewrite Hd. cbn [fmap option_fmap option_map].
  rewrite until_nul_no_nul by (eapply utf8_encode_no_nul; eauto).
  by rewrite (utf8_decode_encode s b).
Qed.

(** What holds of the fresh instances and is kept by every assignment
    holds after [__init__] and any sequence of assignments. *)
Lemma reachable_ind F (P : container → Prop) args kw vs c :
  (∀ wn d decl, null_semantics kw = Ok wn → fam_validate_size F d = Ok () →
     (kw_descriptor kw = Some d ∨ ∃ nm, column_name kw = Ok nm ∧ build_descriptor F wn nm args = Ok d) →
     P (fresh_container F wn d decl)) →
  (∀ v c0 c' r, P c0 → set F v c0 = (c', r) → P c') →
  init F args kw = Ok c → P (set_all F vs c).1.
Proof.
  intros Hf Hs Hc. apply set_all_ind; [exact Hs|]. apply (init_ind F P args kw c Hf); [|exact Hc].
  intros v c0 c'. apply Hs.
Qed.

(** C38: A NOT NULL instance is never NULL: whatever is assigned to an
    instance [__init__] returns, [dv_null] is set only when the instance
    was declared [WITHNULL]. *)
Theorem notnull_never_null F `{!FamilyLaws F} args kw vs c :
  init F args kw = Ok c → ct_withnull (set_all F vs c).1 = false →
  ct_dv_null (set_all F vs c).1 = false.
Proof.
  intros Hc Hw.
  assert (ct_inv F (set_all F vs c).1 ∧ null_ok (set_all F vs c).1) as [_ Hn].
  { apply (reachable_ind F (λ c, ct_inv F c ∧ null_ok c) args kw vs c); [| |exact Hc].
    - intros wn d decl _ _ _. split; [apply fresh_container_inv|done].
    - intros v c0 c' r [Hi Hn] Hs. split; [exact (set_preserves_inv F v c0 c' r Hi Hs)|].
      exact (set_null_ok F v c0 c' r Hi Hn Hs). }
  unfold null_ok in Hn. rewrite Hw in Hn. destruct (ct_dv_null _); [|done]. by discriminate Hn.
Qed.

(** C39: [name] reads back the [name=] keyword of a value-mode
    [__init__], after any assignments: [None] without it, the [str]
    itself when it holds no NUL character. *)
Theorem name_keyword F `{!FamilyLaws F} args kw vs c :
  init F args kw = Ok c → kw_descriptor kw = None →
  (kw_name kw = None → Repr.name (set_all F vs c).1 = Ok PNone) ∧
  (∀ s, kw_name kw = Some (PStr s) → Forall is_code_point s → 0 ∉ s →
        Repr.name (set_all F vs c).1 = Ok (PStr s)).
Proof.
  intros Hc Hk.
  assert (ct_inv F (set_all F vs c).1 ∧ ∃ nm, column_name kw = Ok nm ∧
            ds_columnName (ct_descriptor (set_all F vs c).1) = nm) as [_ (nm & Hnm & Hd)].
  { apply (reachable_ind F (λ c, ct_inv F c ∧ ∃ nm, column_name kw = Ok nm ∧
             ds_columnName (ct_descriptor c) = nm) args kw vs c); [| |exact Hc].
    - intros wn d decl _ _ [Hd|(nm & Hnm & Hb)]; [congruence|].
      split; [apply fresh_container_inv|]. exists nm. split; [done|].
      exact (build_descriptor_name F wn nm args d Hb).
    - intros v c0 c' r [Hi Hn] Hs. split; [exact (set_preserves_inv F v c0 c' r Hi Hs)|].
      destruct (set_keeps_layout F v c0 c' r (proj1 Hi) Hs) as [-> _]. exact Hn. }
  unfold column_name in Hnm. split.
  - intros Hn. rewrite Hn in Hnm. injection Hnm as <-.
    unfold Repr.name, Repr.c_char_p_value. by rewrite Hd.
  - intros s Hs Hcp Hz. rewrite Hs in Hnm.
    destruct (utf8_encode s) as [b|] eqn:He; [|discriminate]. injection Hnm as <-.
    exact (name_of_encoded _ s b Hcp Hz He Hd).
Qed.

Lemma le_decode_signed_range bs :
  bytes_ok bs → (0 < length bs)%nat →
  - half_modulus (length bs) ≤ le_decode_signed bs < half_modulus (length bs).
Proof.
  intros Hb Hn. pose proof (le_decode_range bs Hb). pose proof (half_modulus_spec _ Hn).
  unfold le_decode_signed. case_decide; lia.
Qed.

(** The integer an INTEGER buffer holds is within the bounds of its width. *)
Lemma int_load_in_bounds c :
  int_ok c →
  Int.in_bounds (ct_descriptor c) (load_int (Int.field_width (ct_descriptor c)) true (ct_buffer c) 0).
Proof.
  intros [[Hl _] [Hd [Hb _]]]. simpl in Hl. rewrite Int.sizeof_allocate_buffer in Hl.
  pose proof (Int.field_width_pos (ct_descriptor c)) as Hw.
  unfold load_int, slice. rewrite drop_0, take_ge by lia.
  pose proof (le_decode_signed_range _ Hb ltac:(lia)) as Hr. rewrite Hl in Hr.
  destruct (Int.bounds_half_modulus _ Hd) as [Hu Hlo]. unfold Int.in_bounds. lia.
Qed.

Lemma int_set_ok v c c' r : int_ok c → set Int.IIAPI_INT_TYPE v c = (c', r) → int_ok c'.
Proof.
  intros (Hi & Hd & Hb & Hn) Hs. split_and!.
  - exact (set_preserves_inv _ v c c' r Hi Hs).
  - by destruct (set_keeps_layout _ v c c' r (proj1 Hi) Hs) as [-> _].
  - unfold set in Hs. destruct (is_null_marker v).
    + unfold set_null in Hs. destruct (ct_withnull c); simplify_eq; exact Hb.
    + rewrite set_value_unfold in Hs. cbn [fam_value_setter Int.IIAPI_INT_TYPE] in Hs.
      unfold Int.value_setter in Hs. destruct v; simplify_eq; try exact Hb.
      case_decide; simplify_eq; [|exact Hb]. apply splice_bytes; [exact Hb|apply le_encode_bytes].
  - exact (set_null_ok _ v c c' r Hi Hn Hs).
Qed.

(** Evaluating [IIAPI_INT_TYPE(v, n, nullable=...)] for one of the four
    widths assigns [v] to a fresh instance of that width. *)
Lemma int_init_call n w v :
  n ∈ [1; 2; 4; 8] →
  ∃ d decl, ds_length d = n ∧ ds_nullable d = w ∧ Int.validate_size d = Ok () ∧
    init Int.IIAPI_INT_TYPE [v; PInt n] (mk_kwargs None (if w then Some PWITHNULL else None) None) =
    match set Int.IIAPI_INT_TYPE v (fresh_container Int.IIAPI_INT_TYPE w d decl) with
    | (c', Ok _) => Ok c'
    | (_, Err e) => Err e
    end.
Proof.
  intros Hn. exists (mk_descriptor Container.IIAPI_INT_TYPE w n 0 0 0 None).
  rewrite !elem_of_cons, elem_of_nil in Hn. destruct Hn as [->|[->|[->|[->|[]]]]];
    destruct w; eexists; split_and!; reflexivity.
Qed.

(** The call an INTEGER's [__repr__] denotes rebuilds its value, width
    and nullability. *)
Lemma int_call_rebuilds c :
  int_ok c →
  ∃ args kw c', Repr.int_call c = Ok (args, kw) ∧ init Int.IIAPI_INT_TYPE args kw = Ok c' ∧
    value Int.IIAPI_INT_TYPE c' = value Int.IIAPI_INT_TYPE c ∧ ct_withnull c' = ct_withnull c ∧
    ds_length (ct_descriptor c') = ds_length (ct_descriptor c).
Proof.
  intros Hok. pose proof (int_load_in_bounds c Hok) as Hz. destruct Hok as (Hi & Hd & Hb & Hn).
  destruct (int_init_call (ds_length (ct_descriptor c)) (ct_withnull c)
              (if ct_dv_null c then PNone
               else PInt (load_int (Int.field_width (ct_descriptor c)) true (ct_buffer c) 0)) Hd)
    as (d & decl & Hl & _ & Hv & Hinit).
  unfold Repr.int_call, value. cbn [fam_get_python_value Int.IIAPI_INT_TYPE].
  unfold Int.get_python_value. destruct (ct_dv_null c) eqn:Hnull.
  - pose proof (Hn Hnull) as Hw. rewrite Hw in Hinit |- *.
    destruct (set_null_withnull Int.IIAPI_INT_TYPE PNone (fresh_container Int.IIAPI_INT_TYPE true d decl)
                eq_refl eq_refl) as [Hs Hval].
    rewrite Hs in Hinit. do 3 eexists. split_and!; [reflexivity|unfold Repr.repr_kwargs; rewrite Hw; exact Hinit|..].
    + exact Hval.
    + done.
    + exact Hl.
  - set (z := load_int _ _ _ _) in *.
    assert (Int.in_bounds (ct_descriptor (fresh_container Int.IIAPI_INT_TYPE (ct_withnull c) d decl)) z)
      as Hz' by (unfold Int.in_bounds in *; cbn; rewrite Hl; exact Hz).
    rewrite Int.set_int_unfold, decide_True in Hinit by exact Hz'. cbv zeta in Hinit.
    do 3 eexists. split_and!; [reflexivity|exact Hinit|..].
    + apply Int.get_after_set_int; [apply fresh_container_inv|cbn; by rewrite Hl|exact Hz'].
    + done.
    + exact Hl.
Qed.

Lemma int_repr_det c c' :
  value Int.IIAPI_INT_TYPE c' = value Int.IIAPI_INT_TYPE c → ct_withnull c' = ct_withnull c →
  ds_length (ct_descriptor c') = ds_length (ct_descriptor c) → Repr.int_repr c' = Repr.int_repr c.
Proof. intros Hv Hw Hl. unfold Repr.int_repr, Repr.reprfy_nullability. by rewrite Hv, Hw, Hl. Qed.

(** C40: [eval(repr(x))] rebuilds an INTEGER: for an instance
    [__init__] returns, after any sequence of assignments, the call its
    [__repr__] writes constructs an instance with the same value, width
    and nullability, whose [__repr__] is the same text. *)
Theorem int_repr_roundtrip args kw vs c :
  init Int.IIAPI_INT_TYPE args kw = Ok c →
  ∃ args' kw' c', Repr.int_call (set_all Int.IIAPI_INT_TYPE vs c).1 = Ok (args', kw') ∧
    init Int.IIAPI_INT_TYPE args' kw' = Ok c' ∧
    value Int.IIAPI_INT_TYPE c' = value Int.IIAPI_INT_TYPE (set_all Int.IIAPI_INT_TYPE vs c).1 ∧
    ct_withnull c' = ct_withnull (set_all Int.IIAPI_INT_TYPE vs c).1 ∧
    ds_length (ct_descriptor c') = ds_length (ct_descriptor (set_all Int.IIAPI_INT_TYPE vs c).1) ∧
    Repr.int_repr c' = Repr.int_repr (set_all Int.IIAPI_INT_TYPE vs c).1.
Proof.
  intros Hc.
  assert (int_ok (set_all Int.IIAPI_INT_TYPE vs c).1) as Hok.
  { apply (reachable_ind _ int_ok args kw vs c); [|exact int_set_ok|exact Hc].
    intros wn d decl _ Hv _. split_and!; [apply fresh_container_inv| |apply zeros_bytes|done].
    cbn in Hv. unfold Int.validate_size in Hv. by case_decide. }
  destruct (int_call_rebuilds _ Hok) as (args' & kw' & c' & Hcall & Hinit & Hv & Hw & Hl).
  exists args', kw', c'. split_and!; try assumption. by apply int_repr_det.
Qed.

(** Evaluating [IIAPI_BOOL_TYPE(x, nullable=...)] assigns [x] to a fresh
    BOOLEAN. *)
Lemma bool_init_call (w : bool) x :
  ∃ d decl, init Bool.IIAPI_BOOL_TYPE [x] (mk_kwargs None (if w then Some PWITHNULL else None) None) =
    match set Bool.IIAPI_BOOL_TYPE x (fresh_container Bool.IIAPI_BOOL_TYPE w d decl) with
    | (c', Ok _) => Ok c'
    | (_, Err e) => Err e
    end.
Proof.
  exists (mk_descriptor Container.IIAPI_BOOL_TYPE w 1 0 0 0 None), "BOOLEAN". by destruct w.
Qed.

(** [eval(repr(x))] rebuilds a BOOLEAN: for an instance [__init__]
    returns, after any sequence of assignments, the call its [__repr__]
    writes ([iitypes.types.NULL] for NULL) constructs an instance with
    the same value and nullability, whose [__repr__] and [formatted()]
    are the same. *)
Theorem bool_repr_roundtrip args kw vs c :
  init Bool.IIAPI_BOOL_TYPE args kw = Ok c →
  let c1 := (set_all Bool.IIAPI_BOOL_TYPE vs c).1 in
  ∃ c', init Bool.IIAPI_BOOL_TYPE (Repr.bool_call c1).1 (Repr.bool_call c1).2 = Ok c' ∧
    value Bool.IIAPI_BOOL_TYPE c' = value Bool.IIAPI_BOOL_TYPE c1 ∧ ct_withnull c' = ct_withnull c1 ∧
    Repr.bool_repr c' = Repr.bool_repr c1 ∧ Repr.bool_formatted c' = Repr.bool_formatted c1.
Proof.
  intros Hc c1.
  assert (ct_inv Bool.IIAPI_BOOL_TYPE c1 ∧ null_ok c1) as [_ Hn].
  { apply (reachable_ind _ (λ c, ct_inv Bool.IIAPI_BOOL_TYPE c ∧ null_ok c) args kw vs c); [| |exact Hc].
    - intros wn d decl _ _ _. split; [apply fresh_container_inv|done].
    - intros v c0 c' r [Hi Hn] Hs. split; [exact (set_preserves_inv _ v c0 c' r Hi Hs)|].
      exact (set_null_ok _ v c0 c' r Hi Hn Hs). }
  unfold Repr.bool_call, Repr.repr_kwargs, Repr.bool_repr, Repr.bool_reprfy_value,
    Repr.reprfy_nullability, Repr.bool_formatted, value. cbn [fst snd].
  destruct (ct_dv_null c1) eqn:Hnull.
  - pose proof (Hn Hnull) as Hw. rewrite Hw.
    destruct (bool_init_call true PNULL) as (d & decl & ->).
    rewrite (proj1 (set_null_withnull Bool.IIAPI_BOOL_TYPE PNULL
      (fresh_container Bool.IIAPI_BOOL_TYPE true d decl) eq_refl eq_refl)). eexists. split_and!; done.
  - destruct (bool_init_call (ct_withnull c1) (PBool (load_bool (ct_buffer c1) 0))) as (d & decl & ->).
    unfold set. cbn [is_null_marker]. rewrite set_value_unfold.
    cbn [fam_value_setter Bool.IIAPI_BOOL_TYPE Intrinsic.intrinsic_family]. unfold Bool.value_setter.
    assert (∀ b, py_eq_int (PBool b) 1 = b) as Hb by (intros []; reflexivity).
    assert (∀ b, py_hashable (PBool b) = true ∧ py_in_ints (PBool b) [1; 0] = true) as Hh
      by (intros []; split; reflexivity).
    destruct (Hh (load_bool (ct_buffer c1) 0)) as [-> ->]. cbn [negb].
    eexists. split; [reflexivity|].
    cbn [ct_dv_null ct_withnull with_buffer with_null fam_get_python_value Bool.IIAPI_BOOL_TYPE Intrinsic.intrinsic_family].
    unfold Bool.get_python_value. cbn [ct_buffer with_buffer with_null].
    rewrite load_store_bool, Hb. split_and!; done.
Qed.
