(* ===== verification/Examples.v ===== *)
(** * Examples: the theorems at concrete instances

    Each lemma here applies one theorem of the development to a
    concrete instance, the kind the tests of the repository build
    ([SMALLINT], [BYTE(5)], [VARBYTE(3)], [TIME(4)], FLOAT4, ANSIDATE,
    MONEY, ...), with the driver calls fixed to simple stand-ins.
    Every hypothesis is discharged by evaluation, so the examples show
    that the hypotheses of each theorem can be met. *)

From Stdlib Require Import Floats.SpecFloat.
From stdpp Require Import gmap.
From S2P Require Import Prelude Unicode Ctypes PyValue Container Integers Floats Strings Fixed Network Temporal Dates Decimal Env Allocator Names Cell Repr.

(** The instances [__init__] allocates before the initial assignment. *)
Definition smallint : container :=
  fresh_container Int.IIAPI_INT_TYPE false (inferred_descriptor Container.IIAPI_INT_TYPE 2) "SMALLINT".
Definition null_smallint : container := with_null true false smallint.
Definition byte5 : container :=
  fresh_container IIAPI_BYTE_TYPE false (inferred_descriptor Container.IIAPI_BYTE_TYPE 5) "BYTE(5)".
Definition varbyte3 : container :=
  fresh_container IIAPI_VBYTE_TYPE false (inferred_descriptor Container.IIAPI_VBYTE_TYPE 5) "VARBYTE(3)".
Definition nvarchar2 : container :=
  fresh_container IIAPI_NVCH_TYPE false (inferred_descriptor Container.IIAPI_NVCH_TYPE 6) "NVARCHAR(2)".
Definition char5 : container :=
  fresh_container IIAPI_CHA_TYPE false (inferred_descriptor Container.IIAPI_CHA_TYPE 5) "CHAR(5)".

Definition boolean : container :=
  fresh_container Bool.IIAPI_BOOL_TYPE false (inferred_descriptor Container.IIAPI_BOOL_TYPE 1) "BOOLEAN".
Definition object_key : container :=
  fresh_container Key.IIAPI_LOGKEY_TYPE false
    (inferred_descriptor Container.IIAPI_LOGKEY_TYPE 16) "LOGICAL_KEY".

(** [format()] left out: it fails, changing nothing. *)
Definition no_format : Intym.external :=
  {| Intym.ext_format := λ _ c, (c, Err (NotImplementedError "IIapi_formatdata"));
     Intym.ext_months_of_days := λ _, 0 |}.
Definition interval_ym : container :=
  fresh_container (Intym.IIAPI_INTYM_TYPE no_format) false
    (inferred_descriptor Container.IIAPI_INTYM_TYPE 3) "INTERVAL YEAR TO MONTH".

(** No IPv6 text parser, and memory past a [bytes] object filled with
    [0xAB]; no UUID text parser. *)
Definition no_v6 (_ : list Z) : option (list Z) := None.
Definition fill_ab (_ : nat) : Z := 171.
Definition no_uuid_str (_ : list Z) : result (list Z) :=
  Err (ValueError "badly formed hexadecimal UUID string").
Definition ipv4 : container :=
  fresh_container (IP.IIAPI_IPV4_TYPE no_v6 fill_ab) false
    (inferred_descriptor Container.IIAPI_IPV4_TYPE 4) "IPV4".
Definition ipv6 : container :=
  fresh_container (IP.IIAPI_IPV6_TYPE no_v6 fill_ab) false
    (inferred_descriptor Container.IIAPI_IPV6_TYPE 16) "IPV6".
Definition uuid : container :=
  fresh_container (Uuid.IIAPI_UUID_TYPE no_uuid_str) false
    (inferred_descriptor Container.IIAPI_UUID_TYPE 16) "UUID".

(** The example key of [types.py], line 1176. *)
Definition key_hex : list Z := codes "010000000000000054010000B4E10A66".
Definition key_bytes : list Z := [1; 0; 0; 0; 0; 0; 0; 0; 84; 1; 0; 0; 180; 225; 10; 102].

(** ** Integers *)

Lemma set_get_int_witness :
  ∃ c', set Int.IIAPI_INT_TYPE (PInt (-32768)) smallint = (c', Ok ()) ∧
        value Int.IIAPI_INT_TYPE c' = Ok (PInt (-32768)).
Proof.
  apply Int.set_get_int; [split; reflexivity|decide_prop|].
  unfold Int.in_bounds. decide_prop.
Defined.

Lemma set_int_type_error_witness :
  set Int.IIAPI_INT_TYPE (PFloat 1 0) smallint =
  (with_null false true smallint, Err (TypeError "not int")).
Proof. apply Int.set_int_type_error; [reflexivity|intros z; discriminate]. Defined.

Lemma IntegerN_value_witness :
  ∃ c, Int.IntegerN 8 [PInt (-1)] no_kwargs = Ok c ∧ value Int.IIAPI_INT_TYPE c = Ok (PInt (-1)).
Proof.
  apply Int.IntegerN_value; [decide_prop|].
  decide_prop.
Defined.

(** ** The base class *)

Lemma init_inv_witness :
  ct_inv Int.IIAPI_INT_TYPE (with_buffer [7; 0] smallint).
Proof. apply (init_inv Int.IIAPI_INT_TYPE [PInt 7; PInt 2] no_kwargs). reflexivity. Defined.

Lemma set_value_error_clears_null_witness :
  ct_dv_null (with_null false true null_smallint) = false ∧
  ct_dv_value (with_null false true null_smallint) = true.
Proof.
  apply (set_value_error_clears_null Int.IIAPI_INT_TYPE (PInt 40000) null_smallint _
           (OverflowError "")); [split; reflexivity|reflexivity|reflexivity].
Defined.

Lemma poke_short_witness :
  poke Int.IIAPI_INT_TYPE (λ _, 170) (PBytes [1]) smallint
  = (with_buffer ([1] ++ 0 :: map (λ _, 170) (seq 0 0)) smallint, Ok ()).
Proof. apply (poke_short Int.IIAPI_INT_TYPE); [split; reflexivity|reflexivity|decide_prop]. Defined.

Lemma poke_null_witness :
  poke Int.IIAPI_INT_TYPE (λ _, 0) (PBytes [1; 2]) null_smallint = (null_smallint, Err MemoryFault).
Proof. apply (poke_null _ _ _ _ [1; 2]); [reflexivity|left; reflexivity]. Defined.

Lemma poke_peek_witness :
  poke Int.IIAPI_INT_TYPE (λ _, 0) (PStr (peek smallint)) smallint = (smallint, Ok ()).
Proof. apply (poke_peek Int.IIAPI_INT_TYPE); [split; reflexivity|reflexivity|reflexivity|decide_prop]. Defined.

Lemma init_conflicting_modes_witness :
  init Int.IIAPI_INT_TYPE [PInt 1]
    (mk_kwargs (Some (inferred_descriptor Container.IIAPI_INT_TYPE 2)) None None)
  = Err (RuntimeError "positional argument(s) with descriptor=").
Proof.
  apply (init_conflicting_modes _ _ _ (inferred_descriptor Container.IIAPI_INT_TYPE 2) false None);
    [reflexivity|reflexivity|reflexivity|discriminate].
Defined.

(** ** Strings *)

Lemma set_byte_truncates_at_nul_witness :
  ∃ c', set IIAPI_BYTE_TYPE (PBytes ([97; 98] ++ 0 :: [99; 100; 101; 102])) byte5 = (c', Ok ()) ∧
        value IIAPI_BYTE_TYPE c' = Ok (PBytes ([97; 98] ++ zeros (Limited.size byte5 - length [97; 98]))).
Proof. apply set_byte_truncates_at_nul; [split; reflexivity|decide_prop|decide_prop]. Defined.

Lemma set_byte_overflow_clears_witness :
  ∃ c', set IIAPI_BYTE_TYPE (PBytes [1; 2; 3; 4; 5; 6]) byte5 =
          (c', Err (OverflowError (ct_SQL_declaration byte5 +:+ " capacity exceeded"))) ∧
        ct_buffer c' = zeros (Limited.size byte5) ∧ ct_dv_null c' = false.
Proof. apply set_byte_overflow_clears; [split; reflexivity|decide_prop|decide_prop]. Defined.

Lemma set_get_varbyte_witness :
  ∃ c', set IIAPI_VBYTE_TYPE (PBytes [97; 0; 98]) varbyte3 = (c', Ok ()) ∧
        value IIAPI_VBYTE_TYPE c' = Ok (PBytes (until_nul [97; 0; 98])).
Proof. apply set_get_varbyte; [split; reflexivity|decide_prop|decide_prop]. Defined.

Lemma set_varbyte_overflow_writes_length_witness :
  ∃ c', set IIAPI_VBYTE_TYPE (PBytes [1; 2; 3; 4]) varbyte3 =
          (c', Err (OverflowError (ct_SQL_declaration varbyte3 +:+ " capacity exceeded"))) ∧
        load_int 2 true (ct_buffer c') 0 = 4 ∧
        slice (ct_buffer c') 2 (Z.to_nat (ds_length (ct_descriptor varbyte3) - 2)) =
        slice (ct_buffer varbyte3) 2 (Z.to_nat (ds_length (ct_descriptor varbyte3) - 2)).
Proof. apply set_varbyte_overflow_writes_length; [split; reflexivity|decide_prop|decide_prop]. Defined.

Lemma set_get_nvarchar_witness :
  ∃ c', set IIAPI_NVCH_TYPE (PStr [0x1F600]) nvarchar2 = (c', Ok ()) ∧
        value IIAPI_NVCH_TYPE c' = Ok (PStr [0x1F600]).
Proof.
  apply (set_get_nvarchar nvarchar2 ltac:(split; reflexivity) _ [0x3D; 0xD8; 0x00; 0xDE]);
    [decide_prop|reflexivity|decide_prop|decide_prop].
Defined.

Lemma set_get_char_witness :
  ∃ c', set IIAPI_CHA_TYPE (PStr [0xE9]) char5 = (c', Ok ()) ∧
        value IIAPI_CHA_TYPE c' = Ok (PStr ([0xE9] ++ replicate (Limited.size char5 - length [0xC3; 0xA9]) 32)).
Proof.
  apply set_get_char; [split; reflexivity|decide_prop|decide_prop|reflexivity|decide_prop].
Defined.

Lemma char_inferred_size_overflow_witness :
  init IIAPI_CHA_TYPE [PStr [0xE9]] no_kwargs =
  Err (OverflowError ("CHAR(" +:+ string_of_Z (Z.of_nat (length [0xE9])) +:+ ") capacity exceeded")).
Proof. apply (char_inferred_size_overflow _ [0xC3; 0xA9]); [reflexivity|decide_prop|decide_prop|decide_prop]. Defined.

Lemma nvarchar_inferred_size_overflow_witness :
  init IIAPI_NVCH_TYPE [PStr [0x1F600]] no_kwargs =
  Err (OverflowError ("NVARCHAR(" +:+ string_of_Z (Z.of_nat (length [0x1F600])) +:+ ") capacity exceeded")).
Proof.
  apply (nvarchar_inferred_size_overflow _ [0x3D; 0xD8; 0x00; 0xDE]);
    [reflexivity|decide_prop|decide_prop].
Defined.

Lemma nchar_size_limit_witness :
  init IIAPI_NCHA_TYPE [PStr []; PInt 8001] no_kwargs = Err (OverflowError "size exceeds 16000").
Proof. apply nchar_size_limit. lia. Defined.

(** [NCHAR('', 32769)]: 65538 bytes stored as 2, an [NCHAR(1)]. *)
Lemma nchar_size_wraps_witness :
  0 < 1 ≤ 8000 ∧
  init IIAPI_NCHA_TYPE [PStr []; PInt (32768 + 1)] no_kwargs =
  match set IIAPI_NCHA_TYPE (PStr []) (fresh_container IIAPI_NCHA_TYPE false
          (inferred_descriptor Container.IIAPI_NCHA_TYPE (2 * 1)) ("NCHAR(" +:+ string_of_Z 1 +:+ ")")) with
  | (c', Ok _) => Ok c'
  | (_, Err e) => Err e
  end.
Proof. split; [lia|]. apply nchar_size_wraps. lia. Defined.

(** The instance it builds is declared [NCHAR(1)], with two bytes. *)
Lemma nchar_32769_is_nchar_1 :
  ∃ c, init IIAPI_NCHA_TYPE [PStr []; PInt 32769] no_kwargs = Ok c ∧
       ct_SQL_declaration c = "NCHAR(1)" ∧ ds_length (ct_descriptor c) = 2.
Proof. eexists. split; [vm_compute; reflexivity|split; reflexivity]. Qed.

Lemma varbyte_dv_length_witness :
  ∃ c, init IIAPI_VBYTE_TYPE [PBytes [97; 98; 99]] no_kwargs = Ok c ∧ ct_dv_length c = 5 + 5 mod 2.
Proof.
  eexists; split; [reflexivity|].
  apply (varbyte_dv_length [PBytes [97; 98; 99]] no_kwargs); [reflexivity|decide_prop].
Defined.

Lemma nvarchar_dv_length_witness :
  ∃ c, init IIAPI_NVCH_TYPE [PStr [97]] no_kwargs = Ok c ∧ ct_dv_length c = 4 + 2 + 4 mod 2.
Proof.
  eexists; split; [reflexivity|].
  apply (nvarchar_dv_length [PStr [97]] no_kwargs); [reflexivity|decide_prop].
Defined.

(** ** Codecs and layout *)

Lemma utf8_encode_Some_witness :
  is_Some (utf8_encode [0x41; 0xD800]) ↔ Forall is_scalar [0x41; 0xD800].
Proof. apply utf8_encode_Some. unfold is_code_point. decide_prop. Defined.

Lemma le_encode_decode_witness : le_encode (length [1; 2; 255]) (le_decode [1; 2; 255]) = [1; 2; 255].
Proof. apply le_encode_decode. unfold bytes_ok, is_byte. decide_prop. Defined.

(** A [c_short] then a [c_int]: offsets 0 and 4, end 8. *)
Lemma well_placed_disjoint_witness : (0 + 2 ≤ 4)%nat.
Proof.
  apply (well_placed_disjoint 0 [(2, 2); (4, 4)] [0; 4] 8 0 1 0 4 2 2)%nat;
    [repeat econstructor; simpl; lia|lia|reflexivity|reflexivity|reflexivity].
Defined.

(** ** Fixed-size types *)

Lemma set_get_bool_witness :
  ∃ c', set Bool.IIAPI_BOOL_TYPE (PFloat 1 0) boolean = (c', Ok ()) ∧
        value Bool.IIAPI_BOOL_TYPE c' = Ok (PBool (py_eq_int (PFloat 1 0) 1)).
Proof. apply set_get_bool; reflexivity. Defined.

Lemma set_bool_invalid_witness :
  set Bool.IIAPI_BOOL_TYPE (PInt 2) boolean =
  (with_null false true boolean, Err (ValueError "must be True or False")).
Proof. apply set_bool_invalid; reflexivity. Defined.

Lemma set_get_key_witness :
  ∃ c', set Key.IIAPI_LOGKEY_TYPE (PStr key_hex) object_key = (c', Ok ()) ∧
        value Key.IIAPI_LOGKEY_TYPE c' = Ok (PBytes key_bytes).
Proof. apply set_get_key; [split; reflexivity|vm_compute; reflexivity|reflexivity]. Defined.

Lemma set_key_wrong_length_witness :
  set Key.IIAPI_LOGKEY_TYPE (PBytes [1; 2]) object_key =
  (with_null false true object_key,
   Err (ValueError ("OBJECT_KEY" +:+ " value must be " +:+ string_of_Z (Z.of_nat 16) +:+ " bytes"))).
Proof. apply (set_key_wrong_length _ _ _ _ _ _ [1; 2]); [reflexivity|decide_prop]. Defined.

Lemma set_get_intym_witness :
  ∃ c', set (Intym.IIAPI_INTYM_TYPE no_format) (PTuple [PInt 2024; PInt 200]) interval_ym = (c', Ok ()) ∧
        value (Intym.IIAPI_INTYM_TYPE no_format) c' = Ok (PTuple [PInt 2024; PInt (-56)]).
Proof. apply set_get_intym; [split; reflexivity|decide_prop]. Defined.

Lemma set_intym_years_overflow_witness :
  set (Intym.IIAPI_INTYM_TYPE no_format) (PTuple [PInt 10000; PStr []]) interval_ym =
  (with_null false true interval_ym, Err (OverflowError "years not in -9999 to 9999")).
Proof. apply set_intym_years_overflow. decide_prop. Defined.

Lemma intym_dv_length_witness :
  ∃ c, init (Intym.IIAPI_INTYM_TYPE no_format) [PTuple [PInt 1; PInt 2]] no_kwargs = Ok c ∧
       ct_dv_length c = Intym.IIAPI_INTYM_LEN + 1.
Proof.
  eexists; split; [reflexivity|].
  apply (intym_dv_length no_format) with (args := [PTuple [PInt 1; PInt 2]]) (kw := no_kwargs);
    [|reflexivity].
  intros v c c' r _ H. injection H as <- _. exists (ct_buffer c). by destruct c.
Defined.

(** ** Network types *)

Lemma set_get_ipv4_witness :
  ∃ c', set (IP.IIAPI_IPV4_TYPE no_v6 fill_ab) (PStr (codes "192.168.1.1")) ipv4 = (c', Ok ()) ∧
        value (IP.IIAPI_IPV4_TYPE no_v6 fill_ab) c' = Ok (PIPv4Address [192; 168; 1; 1]).
Proof. apply set_get_ipv4; [split; reflexivity|vm_compute; reflexivity|reflexivity]. Defined.

Lemma ipv4_truncates_ipv6_witness :
  ∃ c', set (IP.IIAPI_IPV4_TYPE no_v6 fill_ab) (PInt (2 ^ 32)) ipv4 = (c', Ok ()) ∧
        value (IP.IIAPI_IPV4_TYPE no_v6 fill_ab) c' =
        Ok (PIPv4Address (take 4 [0; 0; 0; 0; 0; 0; 0; 0; 0; 0; 0; 1; 0; 0; 0; 0])).
Proof. apply ipv4_truncates_ipv6; [split; reflexivity|vm_compute; reflexivity|reflexivity]. Defined.

Lemma ipv6_overreads_ipv4_witness :
  ∃ c', set (IP.IIAPI_IPV6_TYPE no_v6 fill_ab) (PStr (codes "10.0.0.1")) ipv6 = (c', Ok ()) ∧
        value (IP.IIAPI_IPV6_TYPE no_v6 fill_ab) c' =
        Ok (PIPv6Address ([10; 0; 0; 1] ++ 0 :: map fill_ab (seq 0 11))).
Proof. apply ipv6_overreads_ipv4; [split; reflexivity|vm_compute; reflexivity|reflexivity]. Defined.

Lemma set_get_uuid_witness :
  ∃ c', set (Uuid.IIAPI_UUID_TYPE no_uuid_str) (PUUID (replicate 16 7)) uuid = (c', Ok ()) ∧
        value (Uuid.IIAPI_UUID_TYPE no_uuid_str) c' = Ok (PUUID (replicate 16 7)).
Proof. apply set_get_uuid; [split; reflexivity|reflexivity|reflexivity]. Defined.

Lemma set_uuid_wrong_length_witness :
  set (Uuid.IIAPI_UUID_TYPE no_uuid_str) (PBytes [1; 2; 3]) uuid =
  (with_null false true uuid, Err (NameError "name '_ds_length' is not defined")).
Proof. apply (set_uuid_wrong_length _ _ _ [1; 2; 3]); [reflexivity|decide_prop]. Defined.

(** ** The clock and the types with a resolution *)

(** 10:45:30.123456 on 9 November 2026, one hour east of UTC. *)
Definition autumn_morning : Clock.reading := Clock.mk_reading 2026 11 9 10 45 30 123456 60.

(** The OpenAPI renders every value as [08:28:33.8610]; [format()] into
    an instance fails; [fromisoformat] hands its argument back as a
    [str]. *)
Definition render_time : Resolution.external := {|
  Resolution.ext_conv_source :=
    fresh_container IIAPI_CHA_TYPE false (inferred_descriptor Container.IIAPI_CHA_TYPE 64) "CHAR(64)";
  Resolution.ext_format := λ _ c, (c, Err (ValueError "type conversion failed"));
  Resolution.ext_format_value := λ _ c, (c, Err (ValueError "type conversion failed"));
  Resolution.ext_render := λ _, Ok (codes "08:28:33.8610" ++ replicate 51 32);
  Resolution.ext_clock := autumn_morning;
  Resolution.ext_today := autumn_morning;
  Resolution.ext_time_fromisoformat := λ s, Ok (PStr s);
  Resolution.ext_datetime_fromisoformat := λ s, Ok (PStr s);
|}.

Definition interval_ds : container :=
  fresh_container (Resolution.IIAPI_INTDS_TYPE render_time) false
    (inferred_descriptor Container.IIAPI_INTDS_TYPE 12) "INTERVAL DAY TO SECOND(0)".

(** A [TIME(4)]. *)
Definition time4 : container :=
  fresh_container (Resolution.IIAPI_TIME_TYPE render_time) false
    {| ds_dataType := Container.IIAPI_TIME_TYPE; ds_nullable := false; ds_length := 10;
       ds_precision := 4; ds_scale := 0; ds_columnType := 0; ds_columnName := None |}
    "TIME(4) WITH LOCAL TIME ZONE".

(** At 10:45 in November, [LOCAL_TIME()] says [10:11]. *)
Lemma LOCAL_TIME_minutes_are_month_witness :
  Clock.valid autumn_morning ∧
  (Clock.LOCAL_TIME autumn_morning = Clock.strftime autumn_morning (codes "%H:%M:%S.%f") ↔ 45 = 11) ∧
  Clock.LOCAL_TIME autumn_morning = codes "10:11:30.123456".
Proof.
  assert (Clock.valid autumn_morning) as Hv by (unfold Clock.valid; simpl; lia).
  split; [exact Hv|split; [exact (LOCAL_TIME_minutes_are_month autumn_morning Hv)|]].
  vm_compute. reflexivity.
Defined.

Lemma set_get_intds_witness :
  ∃ c', set (Resolution.IIAPI_INTDS_TYPE render_time) (PTimedelta (-3) 7200 250000) interval_ds = (c', Ok ()) ∧
        value (Resolution.IIAPI_INTDS_TYPE render_time) c' = Ok (PTimedelta (-3) 7200 250000).
Proof. apply set_get_intds; [split; reflexivity|lia|lia|lia]. Defined.

Lemma TIME_value_truncates_witness :
  value (Resolution.IIAPI_TIME_TYPE render_time) time4 = Ok (PStr (codes "08:28:33.861000")).
Proof.
  rewrite (TIME_value_truncates render_time time4 (codes "08:28:33") (codes "8610"));
    [vm_compute; reflexivity|reflexivity|reflexivity|reflexivity|vm_compute; reflexivity].
Defined.

(** ** FLOAT *)

Definition float4 : container :=
  fresh_container Flt.IIAPI_FLT_TYPE false (inferred_descriptor Container.IIAPI_FLT_TYPE 4) "FLOAT4".

(** [0.1] (the [float] [3602879701896397 * 2^-55]) reads back from a
    FLOAT4 as [13421773 * 2^-27], that is [0.10000000149011612]. *)
Lemma set_get_float4_witness :
  ∃ c', set Flt.IIAPI_FLT_TYPE (PFloat 3602879701896397 (-55)) float4 = (c', Ok ()) ∧
        value Flt.IIAPI_FLT_TYPE c' = Ok (PFloat 13421773 (-27)).
Proof.
  assert (IEEE.to_pyfloat (IEEE.to_single (IEEE.round IEEE.binary64 3602879701896397 (-55)))
          = PFloat 13421773 (-27)) as <- by (vm_compute; reflexivity).
  apply set_get_float4; [split; reflexivity|reflexivity|reflexivity|vm_compute; reflexivity].
Defined.

(** ** ANSIDATE, INGRESDATE and MONEY *)

Definition conv25 : container :=
  fresh_container IIAPI_CHA_TYPE false (inferred_descriptor Container.IIAPI_CHA_TYPE 25) "CHAR(25)".
Definition failing_format (_ : container) (c : container) : container * result unit :=
  (c, Err (ValueError "type conversion failed")).

Definition calendar : Ansidate.external := {|
  Ansidate.ext_today := autumn_morning;
  Ansidate.ext_date_fromisoformat := λ _, Err (ValueError "Invalid isoformat string");
|}.
Definition ansidate : container :=
  fresh_container (Ansidate.IIAPI_DATE_TYPE calendar) false
    (inferred_descriptor Container.IIAPI_DATE_TYPE 4) "ANSIDATE".

Lemma set_get_ansidate_witness :
  ∃ c', set (Ansidate.IIAPI_DATE_TYPE calendar) (PDate 2026 11 9) ansidate = (c', Ok ()) ∧
        value (Ansidate.IIAPI_DATE_TYPE calendar) c' = Ok (PDate 2026 11 9).
Proof. apply set_get_ansidate; [split; reflexivity|reflexivity]. Defined.

Definition ingres_calendar : Ingresdate.external := {|
  Ingresdate.ext_conv_source := conv25;
  Ingresdate.ext_format := failing_format;
  Ingresdate.ext_yeardays := λ _, 365;
  Ingresdate.ext_monthdays := λ _, 30;
|}.

(** [INGRESDATE('2026-11-09')] is allocated with a 16-byte [dv_length]. *)
Lemma ingresdate_dv_length_witness :
  ∃ c, init (Ingresdate.IIAPI_DTE_TYPE ingres_calendar) [PDate 2026 11 9] no_kwargs = Ok c ∧
       ct_dv_length c = Z.of_nat Ingresdate.IIAPI_DTE_LEN + 4.
Proof.
  eexists; split; [reflexivity|].
  apply (ingresdate_dv_length ingres_calendar) with (args := [PDate 2026 11 9]) (kw := no_kwargs);
    [|reflexivity].
  intros src c c' r _ H. injection H as <- _. exists (ct_buffer c). by destruct c.
Defined.

Definition cents : Money.external := {|
  Money.ext_conv_source := conv25;
  Money.ext_format := failing_format;
  Money.ext_float := λ _, None;
|}.
Definition money : container :=
  fresh_container (Money.IIAPI_MNY_TYPE cents) false
    (inferred_descriptor Container.IIAPI_MNY_TYPE 8) "MONEY".

(** [0.007] ([8070450532247929 * 2^-60]) reads back from a MONEY as
    [0.007000000000000001]. *)
Lemma set_get_money_witness :
  ∃ c', set (Money.IIAPI_MNY_TYPE cents) (PFloat 8070450532247929 (-60)) money = (c', Ok ()) ∧
        value (Money.IIAPI_MNY_TYPE cents) c' = Ok (PFloat 8070450532247930 (-60)).
Proof.
  assert (IEEE.to_pyfloat (SFdiv 53 1024 (SFmul 53 1024 (IEEE.round IEEE.binary64 8070450532247929 (-60))
            Money.hundred) Money.hundred) = PFloat 8070450532247930 (-60)) as <-
    by (vm_compute; reflexivity).
  apply set_get_money;
    [split; reflexivity|reflexivity|intros s; discriminate|reflexivity|vm_compute; reflexivity].
Defined.

(** ** DECIMAL *)

Definition conv40 : container :=
  fresh_container IIAPI_CHA_TYPE false (inferred_descriptor Container.IIAPI_CHA_TYPE 40) "CHAR(40)".

(** [format()] accepts the text and leaves the packed bytes as they are;
    [str(3.14159265358)] is ['3.14159265358']. *)
Definition packer : Decimal.external := {|
  Decimal.ext_conv_source := conv40;
  Decimal.ext_format := λ _ c, (c, Ok ());
  Decimal.ext_str := λ _, codes "3.14159265358";
  Decimal.ext_render := λ _, Ok (codes "3.1415");
  Decimal.ext_parse_float := λ _, Ok (PFloat 7074237752006388 (-51));
|}.

Lemma packer_in_place n src : in_place n (Decimal.ext_format packer src).
Proof. intros c c' r _ H. injection H as <- _. apply frame_refl. Qed.

Definition decimal_5_4 : container :=
  fresh_container (Decimal.IIAPI_DEC_TYPE packer) false
    {| ds_dataType := Container.IIAPI_DEC_TYPE; ds_nullable := false; ds_length := 3;
       ds_precision := 5; ds_scale := 4; ds_columnType := 0; ds_columnName := None |}
    "DECIMAL(5,4)".

(** The spec's example: 3.14159265358 assigned to a DECIMAL(5,4) reaches
    [format()] as ['3.1415']. *)
Lemma set_decimal_text_witness :
  set (Decimal.IIAPI_DEC_TYPE packer) (PFloat 7074237752006388 (-51)) decimal_5_4 =
  match set IIAPI_CHA_TYPE (PStr (codes "3.1415")) conv40 with
  | (a', Ok _) => Decimal.ext_format packer a' (with_null false true decimal_5_4)
  | (_, Err e) => (with_null false true decimal_5_4, Err e)
  end.
Proof.
  apply (set_decimal_text packer decimal_5_4 _ (codes "3") (codes "14159265358")).
  all: try reflexivity; decide_prop.
Defined.

(** [Decimal(3.14159265358, 5, 4)]: a three-byte buffer. *)
Lemma decimal_init_sizes_witness :
  ∃ c, init (Decimal.IIAPI_DEC_TYPE packer) [PFloat 7074237752006388 (-51); PInt 5; PInt 4] no_kwargs = Ok c ∧
       ds_length (ct_descriptor c) = 3 ∧ ct_dv_length c = 3.
Proof.
  assert (init (Decimal.IIAPI_DEC_TYPE packer) [PFloat 7074237752006388 (-51); PInt 5; PInt 4] no_kwargs
          = Ok decimal_5_4) as Hi by (vm_compute; reflexivity).
  exists decimal_5_4. split; [exact Hi|].
  destruct (decimal_init_sizes packer packer_in_place _ _ _ Hi eq_refl) as (_ & _ & Hl & Hd);
    [intros p Hp; injection Hp as <-; lia|].
  split; [rewrite Hl|rewrite Hd, Hl]; reflexivity.
Defined.

(** ** The environment handle, the allocator and the INTEGER cell *)

(** A driver whose OpenAPI initialises at versions 1 to 9 only, and
    whose [IIapi_formatData] leaves the destination as it is. *)
Definition openapi9 : Env.driver := {|
  Env.IIAPI_VERSION := 11;
  Env.IIAPI_ST_SUCCESS := 0;
  Env.IIAPI_ST_ERROR := 4;
  Env.IIAPI_COL_QPARM := 4;
  Env.IIapi_initialize := λ v, if decide (v ≤ 9) then (0, 256 + v) else (5, 0);
  Env.IIapi_formatData := λ fdp, (0, default [] (Env.dv_value (Env.fd_dstValue fdp)));
|}.

#[local] Instance openapi9_format : FormatDriver openapi9.
Proof. intros fdp b Hb. cbn. by rewrite Hb. Qed.

(** Publishing twice: the second handle is ignored. *)
Lemma handle_set_once_witness :
  Env.step openapi9 (Env.Publish 9) 265 = (265, Ok ()) ∧
  (fst (Env.step openapi9 (Env.Publish 9) 265) = 265).
Proof.
  split; [reflexivity|].
  apply (handle_set_once openapi9 265); [lia|]. apply reachable_step, reachable_init.
Defined.

(** Versions 11 and 10 fail, version 9 gives the handle 265, and
    [format()] runs from then on. *)
Lemma publish_enables_format_witness :
  Env.publish_envHandle openapi9 0 0 = (265, Ok ()) ∧
  ∀ cs src dst, snd (Env.format openapi9 (Env.run openapi9 cs 265) src dst) ≠
                Err (RuntimeError "_envHandle not set; call publish_envHandle()").
Proof.
  apply (publish_enables_format openapi9 9); [decide_prop|reflexivity| |decide_prop].
  intros w Hw. cbn in Hw |- *. rewrite decide_False by lia. cbn. lia.
Defined.

Definition all_drivers : Alloc.drivers := {|
  Alloc.drv_intym := no_format;
  Alloc.drv_resolution := render_time;
  Alloc.drv_ansidate := calendar;
  Alloc.drv_ingresdate := ingres_calendar;
  Alloc.drv_money := cents;
  Alloc.drv_decimal := packer;
  Alloc.drv_parse_v6 := λ _, None;
  Alloc.drv_beyond := λ _, 0;
  Alloc.drv_uuid_of_str := λ _, Err (ValueError "badly formed hexadecimal UUID string");
|}.

Definition smallint_descriptor : descriptor := inferred_descriptor Container.IIAPI_INT_TYPE 2.

(** [allocator_for_type(descriptor)(5, 2)] for a SMALLINT descriptor,
    with the module's [format()] and the handle 265. *)
Lemma allocated_instance_inv_witness :
  ∃ c, Alloc.instantiate (Alloc.allocator_for_type (Alloc.with_format openapi9 265 all_drivers)
         smallint_descriptor) [PInt 5; PInt 2] no_kwargs = Ok c ∧
       ∃ F, Alloc.allocator_for_type (Alloc.with_format openapi9 265 all_drivers) smallint_descriptor
              = Alloc.PyFamily F ∧ ct_inv F c.
Proof.
  assert (DriversLaws (Alloc.with_format openapi9 265 all_drivers)) as HL.
  { apply with_format_laws; [apply _|intros v c c' r _ H; injection H as <- _; apply frame_refl|].
    intros n v c c' r _ H. injection H as <- _. apply frame_refl. }
  eexists; split; [vm_compute; reflexivity|].
  apply (allocated_instance_inv _ smallint_descriptor [PInt 5; PInt 2] no_kwargs).
  vm_compute. reflexivity.
Defined.

(** A SMALLINT assigned 7, 40000, NULL and -32768: the cell says 7 is
    kept through the overflow and the refused NULL, then -32768. *)
Lemma int_refines_cell_witness :
  ((abs (set_all Int.IIAPI_INT_TYPE [PInt 7; PInt 40000; PNULL; PInt (-32768)] smallint).1,
    (set_all Int.IIAPI_INT_TYPE [PInt 7; PInt 40000; PNULL; PInt (-32768)] smallint).2) =
     Cell.assign_all false 2 [PInt 7; PInt 40000; PNULL; PInt (-32768)] (abs smallint) ∧
   value Int.IIAPI_INT_TYPE (set_all Int.IIAPI_INT_TYPE [PInt 7; PInt 40000; PNULL; PInt (-32768)] smallint).1 =
     Ok (Cell.read (abs (set_all Int.IIAPI_INT_TYPE [PInt 7; PInt 40000; PNULL; PInt (-32768)] smallint).1))) ∧
  Cell.assign_all false 2 [PInt 7; PInt 40000; PNULL; PInt (-32768)] (abs smallint) =
    (Cell.mk_cell false (-32768), [Ok (); Err (OverflowError ""); Err (ValueError "not nullable"); Ok ()]).
Proof.
  split; [apply (int_refines_cell _ smallint); [split; reflexivity|decide_prop]|].
  vm_compute. reflexivity.
Defined.

(** [str(2026)]: 11 steps of fuel and 20 give the same digits. *)
Lemma digits_acc_fuel_witness : digits_acc 20 2026 "" = digits_acc 11 2026 "" ∧ string_of_Z 2026 = "2026".
Proof. split; [apply digits_acc_fuel; cbn; lia|reflexivity]. Defined.

(** [Integer4(nullable=WITHNULL, name='id')] with no value. *)
Lemma IntegerN_no_value_witness :
  null_semantics (mk_kwargs None (Some PWITHNULL) (Some (PStr (codes "id")))) = Ok true ∧
  column_name (mk_kwargs None (Some PWITHNULL) (Some (PStr (codes "id")))) = Ok (Some (codes "id")) ∧
  Int.IntegerN 4 [] (mk_kwargs None (Some PWITHNULL) (Some (PStr (codes "id")))) =
    Err (RuntimeError "no size specified").
Proof.
  assert (null_semantics (mk_kwargs None (Some PWITHNULL) (Some (PStr (codes "id")))) = Ok true) as Hn
    by reflexivity.
  assert (column_name (mk_kwargs None (Some PWITHNULL) (Some (PStr (codes "id")))) = Ok (Some (codes "id")))
    as Hc by reflexivity.
  split_and!; [exact Hn|exact Hc|]. exact (Int.IntegerN_no_value 4 _ _ _ Hn Hc eq_refl).
Defined.

(** The two modules with an empty [.common]. *)
Definition classic_empty : Names.namespace :=
  match Names.classic_ns ∅ with Ok ns => ns | Err _ => ∅ end.
Definition standard_empty : Names.namespace :=
  match Names.standard_ns ∅ with Ok ns => ns | Err _ => ∅ end.

Lemma classic_empty_eq : Names.classic_ns ∅ = Ok classic_empty.
Proof. destruct (classic_ns_ok ∅) as (C & HC & _). unfold classic_empty. by rewrite HC. Qed.

Lemma standard_empty_eq : Names.standard_ns ∅ = Ok standard_empty.
Proof.
  destruct (standard_ns_ok ∅ classic_empty classic_empty_eq) as (S & HS & _).
  unfold standard_empty. by rewrite HS.
Qed.

Lemma exported_classes_allocated_witness :
  Names.standard_ns ∅ = Ok standard_empty ∧
  ((∃ x, x ∈ Names.classic_names ++ Names.standard_names ∧
         standard_empty !! x = Some (Names.BClass (ds_dataType smallint_descriptor))) ↔
   (∃ F, Alloc.allocator_for_type all_drivers smallint_descriptor = Alloc.PyFamily F)).
Proof.
  split; [exact standard_empty_eq|].
  exact (exported_classes_allocated all_drivers ∅ standard_empty smallint_descriptor standard_empty_eq).
Defined.

Lemma test_names_from_common_witness :
  "NULL" ∈ ["NULL"; "NOTNULL"; "WITHNULL"; "publish_envHandle"; "get_envHandle"; "allocator_for_type"] ∧
  is_Some (Names.types_dict !! "NULL") ∧ classic_empty !! "NULL" = None ∧ standard_empty !! "NULL" = None.
Proof.
  assert ("NULL" ∈ ["NULL"; "NOTNULL"; "WITHNULL"; "publish_envHandle"; "get_envHandle";
                    "allocator_for_type"]) as Hx by (left).
  destruct (test_names_from_common ∅ classic_empty standard_empty "NULL" classic_empty_eq
              standard_empty_eq Hx) as (Hb & HC & HS).
  rewrite lookup_empty in HC, HS. split_and!; assumption.
Defined.

(** [Smallint(7)] assigned NULL (refused) and then 3. *)
Lemma notnull_never_null_witness :
  ∃ c, init Int.IIAPI_INT_TYPE [PInt 7; PInt 2] no_kwargs = Ok c ∧
    ct_withnull (set_all Int.IIAPI_INT_TYPE [PNULL; PInt 3] c).1 = false ∧
    ct_dv_null (set_all Int.IIAPI_INT_TYPE [PNULL; PInt 3] c).1 = false.
Proof.
  eexists. split; [vm_compute; reflexivity|].
  assert (ct_withnull (set_all Int.IIAPI_INT_TYPE [PNULL; PInt 3]
            (mk_container false (mk_descriptor Container.IIAPI_INT_TYPE false 2 0 0 0 None)
               "SMALLINT" [7; 0] false true 2)).1 = false) as Hw by (vm_compute; reflexivity).
  split; [exact Hw|].
  apply (notnull_never_null Int.IIAPI_INT_TYPE [PInt 7; PInt 2] no_kwargs); [vm_compute; reflexivity|exact Hw].
Defined.

(** [Smallint(7, name='id')] assigned 5: its [name] is ['id']. *)
Lemma name_keyword_witness :
  ∃ c, init Int.IIAPI_INT_TYPE [PInt 7; PInt 2] (mk_kwargs None None (Some (PStr (codes "id")))) = Ok c ∧
    Repr.name (set_all Int.IIAPI_INT_TYPE [PInt 5] c).1 = Ok (PStr (codes "id")).
Proof.
  eexists. split; [vm_compute; reflexivity|].
  apply (name_keyword Int.IIAPI_INT_TYPE [PInt 7; PInt 2] (mk_kwargs None None (Some (PStr (codes "id")))));
    [vm_compute; reflexivity|reflexivity|reflexivity|decide_prop|decide_prop].
Defined.

(** A nullable SMALLINT(7) assigned 300 and then None: its [__repr__] is
    [iitypes.types.IIAPI_INT_TYPE(None,2,nullable=iitypes.types.WITHNULL)],
    and evaluating it gives back the same instance. *)
Lemma int_repr_roundtrip_witness :
  ∃ c, init Int.IIAPI_INT_TYPE [PInt 7; PInt 2] (mk_kwargs None (Some PWITHNULL) None) = Ok c ∧
    Repr.int_repr (set_all Int.IIAPI_INT_TYPE [PInt 300; PNone] c).1 =
      Ok "iitypes.types.IIAPI_INT_TYPE(None,2,nullable=iitypes.types.WITHNULL)" ∧
    ∃ args' kw' c', Repr.int_call (set_all Int.IIAPI_INT_TYPE [PInt 300; PNone] c).1 = Ok (args', kw') ∧
      init Int.IIAPI_INT_TYPE args' kw' = Ok c' ∧
      value Int.IIAPI_INT_TYPE c' = value Int.IIAPI_INT_TYPE (set_all Int.IIAPI_INT_TYPE [PInt 300; PNone] c).1 ∧
      ct_withnull c' = ct_withnull (set_all Int.IIAPI_INT_TYPE [PInt 300; PNone] c).1 ∧
      ds_length (ct_descriptor c') = ds_length (ct_descriptor (set_all Int.IIAPI_INT_TYPE [PInt 300; PNone] c).1) ∧
      Repr.int_repr c' = Repr.int_repr (set_all Int.IIAPI_INT_TYPE [PInt 300; PNone] c).1.
Proof.
  eexists. split; [vm_compute; reflexivity|]. split; [vm_compute; reflexivity|].
  apply (int_repr_roundtrip [PInt 7; PInt 2] (mk_kwargs None (Some PWITHNULL) None)).
  vm_compute. reflexivity.
Defined.

(** A BOOLEAN built from False and assigned 1: its [__repr__] is
    [iitypes.types.IIAPI_BOOL_TYPE(True)], and evaluating it gives back
    the same instance. *)
Lemma bool_repr_roundtrip_witness :
  ∃ c, init Bool.IIAPI_BOOL_TYPE [PBool false] no_kwargs = Ok c ∧
    Repr.bool_repr (set_all Bool.IIAPI_BOOL_TYPE [PInt 1] c).1 = "iitypes.types.IIAPI_BOOL_TYPE(True)" ∧
    let c1 := (set_all Bool.IIAPI_BOOL_TYPE [PInt 1] c).1 in
    ∃ c', init Bool.IIAPI_BOOL_TYPE (Repr.bool_call c1).1 (Repr.bool_call c1).2 = Ok c' ∧
      value Bool.IIAPI_BOOL_TYPE c' = value Bool.IIAPI_BOOL_TYPE c1 ∧ ct_withnull c' = ct_withnull c1 ∧
      Repr.bool_repr c' = Repr.bool_repr c1 ∧ Repr.bool_formatted c' = Repr.bool_formatted c1.
Proof.
  eexists. split; [vm_compute; reflexivity|]. split; [vm_compute; reflexivity|].
  apply (bool_repr_roundtrip [PBool false] no_kwargs). vm_compute. reflexivity.
Defined.
